(** * MaxScale: backend protocol, worker pool and Clustrix node health

    A shallow embedding of the parts of MaxScale that the specification's
    claims talk about:

    - [ClustrixNode]  : server/modules/monitor/clustrixmon/clustrixnode.hh
    - [Capabilities]  : create_capabilities / gw_generate_auth_response
    - [Reply]         : the reply tracker of mariadb_backend.cc
    - [Backend]       : write / reuse_connection / normal_read /
                        send_connection_init_queries of mariadb_backend.cc
    - [Worker]        : the persistent pool of server/core/routingworker.cc

    and of the code around them:

    - [Framing], [Inputs], [Sessions] : packets and sessions to run the
                        definitions on
    - [Pools]         : evict_dcbs over all servers, post_run
    - [Balance]       : balance_workers and rebalance of routingworker.cc
    - [Handshake]     : gw_decode_mysql_server_handshake, handshake,
                        authenticate and ready_for_reading of
                        mariadb_backend.cc
    - [ServerInfo]    : careful_strcpy, the setters of the settings,
                        VersionInfo::set and the GTID positions of server.cc
    - [ClustrixMonitor] : the health check of the Clustrix monitor

    C++ integers are modelled as [Z]; where an operation can leave the range
    of its type the wrap-around is written out, otherwise a comment says why
    it cannot. *)

From Stdlib Require Import ZArith Lia Bool List Strings.Byte Strings.String
  DecimalString.
From stdpp Require Import base numbers option list functions gmap.

Local Open Scope Z_scope.

(* ===================================================================== *)
(** ** ClustrixNode (clustrixnode.hh)                                     *)
(* ===================================================================== *)

Module ClustrixNode.

(** [Server::set_status] and [Server::clear_status] (server.cc):
    [m_status |= bit] and [m_status &= ~bit] on [uint64_t].  On operands in
    [0, 2^64) neither operation leaves that range ([status_ops_range]). *)
Definition set_status (m_status bit : Z) : Z := Z.lor m_status bit.
Definition clear_status (m_status bit : Z) : Z := Z.land m_status (Z.lnot bit).

(** Calls received by the [ClustrixNode::Persister] interface, in order. *)
Inductive persister_call : Type :=
| persist (node_id : Z)
| unpersist (node_id : Z).

Definition is_unpersist (c : persister_call) : bool :=
  match c with unpersist _ => true | persist _ => false end.

Definition is_persist (c : persister_call) : bool :=
  match c with persist _ => true | unpersist _ => false end.

Inductive approach_t : Type := APPROACH_OVERRIDE | APPROACH_DEFAULT.

(** The node together with the two objects it holds references to: the
    backing [SERVER] (only its status word matters here) and the persister
    (the calls it has received). *)
Record node : Type := mkNode {
  m_id : Z;
  m_health_check_threshold : Z;
  m_nRunning : Z;
  server_status : Z;
  persister_log : list persister_call
}.

Section WithStatusBits.

(** SERVER_MASTER and SERVER_RUNNING are defined in maxscale/server.hh,
    which is not part of the sources at hand. *)
Variables SERVER_MASTER SERVER_RUNNING : Z.

Definition MASTER_RUNNING : Z := Z.lor SERVER_MASTER SERVER_RUNNING.

(** The constructor: the countdown starts at the threshold, the server is
    marked master and running, and the node is persisted. *)
Definition create (id threshold : Z) (status0 : Z) (log0 : list persister_call) : node :=
  {| m_id := id;
     m_health_check_threshold := threshold;
     m_nRunning := threshold;
     server_status := set_status status0 MASTER_RUNNING;
     persister_log := log0 ++ [persist id] |}.

Definition is_running (n : node) : bool := 0 <? m_nRunning n.

(** [set_running].  [--m_nRunning] is only executed when [m_nRunning > 0],
    so the [int] cannot wrap. *)
Definition set_running (running : bool) (approach : approach_t) (n : node) : node :=
  if running then
    let n1 :=
      if m_nRunning n =? 0 then
        {| m_id := m_id n;
           m_health_check_threshold := m_health_check_threshold n;
           m_nRunning := m_nRunning n;
           server_status := set_status (server_status n) MASTER_RUNNING;
           persister_log := persister_log n ++ [persist (m_id n)] |}
      else n in
    {| m_id := m_id n1;
       m_health_check_threshold := m_health_check_threshold n1;
       m_nRunning := m_health_check_threshold n1;
       server_status := server_status n1;
       persister_log := persister_log n1 |}
  else
    if 0 <? m_nRunning n then
      let c := match approach with
               | APPROACH_OVERRIDE => 0
               | APPROACH_DEFAULT => m_nRunning n - 1
               end in
      if c =? 0 then
        {| m_id := m_id n;
           m_health_check_threshold := m_health_check_threshold n;
           m_nRunning := c;
           server_status := clear_status (server_status n) MASTER_RUNNING;
           persister_log := persister_log n ++ [unpersist (m_id n)] |}
      else
        {| m_id := m_id n;
           m_health_check_threshold := m_health_check_threshold n;
           m_nRunning := c;
           server_status := server_status n;
           persister_log := persister_log n |}
    else n.

(** One result of the health check as [ClustrixMonitor::check_http] applies
    it: [node.set_running(result.code == 200)]. *)
Definition health_ping (http_code : Z) (n : node) : node :=
  set_running (http_code =? 200) APPROACH_DEFAULT n.

(** [k] consecutive failed pings. *)
Fixpoint failed_pings (k : nat) (n : node) : node :=
  match k with
  | O => n
  | S k' => failed_pings k' (set_running false APPROACH_DEFAULT n)
  end.

Definition unpersist_calls (n : node) : nat :=
  length (filter (fun c => is_unpersist c = true) (persister_log n)).

End WithStatusBits.

End ClustrixNode.

(* ===================================================================== *)
(** ** Bytes and fixed-width integers                                     *)
(* ===================================================================== *)

Module Bytes.

Definition u8 (b : byte) : Z := Z.of_N (Byte.to_N b).

Definition byte_of_Z (z : Z) : byte :=
  match Byte.of_N (Z.to_N (z mod 256)) with
  | Some b => b
  | None => Byte.x00
  end.

(** Conversions to the unsigned C types. *)
Definition u16 (z : Z) : Z := z mod 2 ^ 16.
Definition u32 (z : Z) : Z := z mod 2 ^ 32.
Definition u64 (z : Z) : Z := z mod 2 ^ 64.

(** Conversion to [int] (two's complement, as gcc does it). *)
Definition i32 (z : Z) : Z := (z + 2 ^ 31) mod 2 ^ 32 - 2 ^ 31.

(** [gw_mysql_set_byte3] / [gw_mysql_set_byte4]: little-endian stores. *)
Definition set_byte3 (z : Z) : list byte :=
  [byte_of_Z z; byte_of_Z (Z.shiftr z 8); byte_of_Z (Z.shiftr z 16)].

Definition set_byte4 (z : Z) : list byte :=
  [byte_of_Z z; byte_of_Z (Z.shiftr z 8); byte_of_Z (Z.shiftr z 16);
   byte_of_Z (Z.shiftr z 24)].

(** [memcpy (buf + off, bs, |bs|)] into an allocated buffer.  Writing past
    the end of the allocation is undefined in C; here the excess is
    dropped. *)
Definition poke (off : Z) (bs : list byte) (buf : list byte) : list byte :=
  let o := Z.to_nat off in
  let room := (length buf - o)%nat in
  take o buf ++ take room bs ++ drop (o + length bs)%nat buf.

Definition zlength {A} (l : list A) : Z := Z.of_nat (length l).

End Bytes.

(* ===================================================================== *)
(** ** Capability negotiation (mariadb_backend.cc)                        *)
(* ===================================================================== *)

Module Capabilities.
Import Bytes.

(** The fields of [MYSQL_session] that the handshake response reads. *)
Record MYSQL_session : Type := mkSession {
  user : list byte;
  db : list byte;
  plugin : list byte;
  auth_token_phase2 : list byte;
  connect_attrs : list byte;
  client_capabilities : Z;      (* uint32_t *)
  extra_capabilitites : Z;      (* uint32_t *)
  m_charset : Z
}.

(** [client_data->db[0]] used as a truth value. *)
Definition db_specified (cd : MYSQL_session) : bool :=
  match db cd with
  | [] => false
  | b :: _ => negb (u8 b =? 0)
  end.

(** [rcap_type_required] (maxscale/routing.hh): all bits of the type are
    present. *)
Definition rcap_type_required (capabilities type : Z) : bool :=
  Z.land capabilities type =? type.

Section WithConstants.

(** The capability constants live in maxscale/protocol/mariadb/mysql.hh and
    maxscale/routing.hh, which are not among the sources at hand. *)
Variables
  (GW_MYSQL_CAPABILITIES_CLIENT
   GW_MYSQL_CAPABILITIES_SSL
   GW_MYSQL_CAPABILITIES_SESSION_TRACK
   GW_MYSQL_CAPABILITIES_MULTI_STATEMENTS
   GW_MYSQL_CAPABILITIES_CONNECT_WITH_DB
   GW_MYSQL_CAPABILITIES_PLUGIN_AUTH
   GW_MYSQL_CAPABILITIES_CONNECT_ATTRS
   RCAP_TYPE_SESSION_STATE_TRACKING : Z).

(** [create_capabilities].  [final_capabilities] is a [uint32_t]; the
    [(int)] casts of the last three steps are converted back to unsigned by
    the compound assignments. *)
Definition create_capabilities
    (client_caps : Z) (with_ssl db_specified : bool) (capabilities : Z) : Z :=
  let final_capabilities :=
    Z.land (u32 client_caps) (u32 GW_MYSQL_CAPABILITIES_CLIENT) in
  let final_capabilities :=
    if with_ssl
    then Z.lor final_capabilities (u32 GW_MYSQL_CAPABILITIES_SSL)
    else final_capabilities in
  let final_capabilities :=
    if rcap_type_required capabilities RCAP_TYPE_SESSION_STATE_TRACKING
    then Z.lor final_capabilities (u32 GW_MYSQL_CAPABILITIES_SESSION_TRACK)
    else final_capabilities in
  let final_capabilities :=
    Z.lor final_capabilities (u32 GW_MYSQL_CAPABILITIES_MULTI_STATEMENTS) in
  let final_capabilities :=
    if db_specified
    then u32 (Z.lor final_capabilities (i32 GW_MYSQL_CAPABILITIES_CONNECT_WITH_DB))
    else u32 (Z.land final_capabilities
                (Z.lnot (i32 GW_MYSQL_CAPABILITIES_CONNECT_WITH_DB))) in
  u32 (Z.lor final_capabilities (i32 GW_MYSQL_CAPABILITIES_PLUGIN_AUTH)).

(** The capability mask as the specification words it: the client's mask
    restricted to the client-compatible set, OR-ed with the flags that
    apply, CONNECT_WITH_DB being cleared when no database was chosen. *)
Definition spec_capabilities
    (client_caps : Z) (tls session_track initial_db : bool) : Z :=
  let ored :=
    Z.lor (Z.land client_caps GW_MYSQL_CAPABILITIES_CLIENT)
      (Z.lor (if tls then GW_MYSQL_CAPABILITIES_SSL else 0)
         (Z.lor (if session_track then GW_MYSQL_CAPABILITIES_SESSION_TRACK else 0)
            (Z.lor GW_MYSQL_CAPABILITIES_MULTI_STATEMENTS
               (Z.lor (if initial_db then GW_MYSQL_CAPABILITIES_CONNECT_WITH_DB else 0)
                  GW_MYSQL_CAPABILITIES_PLUGIN_AUTH)))) in
  if initial_db then ored
  else Z.land ored (Z.lnot GW_MYSQL_CAPABILITIES_CONNECT_WITH_DB).

(** [response_length] and [load_hashed_password] are declared in the
    protocol's header and defined outside the sources at hand; the name of
    the default plugin is a macro of the same header. *)
Variable response_length :
  bool -> bool -> list byte -> option (list byte) -> list byte -> list byte -> Z.
Variable load_hashed_password : list byte -> list byte -> list byte.
Variable DEFAULT_MYSQL_AUTH_PLUGIN : list byte.

(** The test guarding both places where the connect attributes are used. *)
Definition attrs_negotiated (capabilities server_capabilities : Z) : bool :=
  negb (Z.land (Z.land capabilities server_capabilities)
          GW_MYSQL_CAPABILITIES_CONNECT_ATTRS =? 0).

(** [gw_generate_auth_response].  The buffer is allocated with [bytes]
    zero bytes and filled in place; [payload] is the write offset. *)
Definition gw_generate_auth_response
    (cd : MYSQL_session) (scramble : list byte) (server_capabilities : Z)
    (with_ssl ssl_established : bool) (service_capabilities : Z) : list byte :=
  let curr_passwd :=
    match auth_token_phase2 cd with
    | [] => None
    | _ => Some (auth_token_phase2 cd)
    end in
  let capabilities :=
    create_capabilities (client_capabilities cd) with_ssl (db_specified cd)
      service_capabilities in
  let auth_plugin_name := DEFAULT_MYSQL_AUTH_PLUGIN in
  let bytes :=
    response_length with_ssl ssl_established (user cd) curr_passwd (db cd)
      auth_plugin_name in
  let bytes :=
    if attrs_negotiated capabilities server_capabilities
    then bytes + zlength (connect_attrs cd)
    else bytes in
  let buffer := repeat Byte.x00 (Z.to_nat bytes) in
  let buffer := poke 0 (set_byte3 (bytes - 4)) buffer in
  let buffer := poke 3 [if ssl_established then Byte.x02 else Byte.x01] buffer in
  let buffer := poke 4 (set_byte4 capabilities) buffer in
  let buffer := poke 8 (set_byte4 16777216) buffer in
  let buffer := poke 12 [byte_of_Z (m_charset cd)] buffer in
  let buffer := poke 32 (set_byte4 (extra_capabilitites cd)) buffer in
  let payload := 36 in
  if negb with_ssl || ssl_established then
    let buffer := poke payload (user cd) buffer in
    let payload := payload + zlength (user cd) + 1 in
    let '(buffer, payload) :=
      match curr_passwd with
      | Some pw =>
          let hashed := load_hashed_password scramble pw in
          (poke payload hashed buffer, payload + zlength hashed)
      | None => (buffer, payload + 1)
      end in
    let '(buffer, payload) :=
      if db_specified cd
      then (poke payload (db cd) buffer, payload + zlength (db cd) + 1)
      else (buffer, payload) in
    let buffer := poke payload auth_plugin_name buffer in
    if attrs_negotiated capabilities server_capabilities
       && negb (match connect_attrs cd with [] => true | _ => false end)
    then
      let payload := payload + zlength auth_plugin_name + 1 in
      poke payload (connect_attrs cd) buffer
    else buffer
  else buffer.

End WithConstants.

(** The constants as the MySQL client/server protocol defines them, and the
    helper functions as the protocol module defines them: used to run the
    definitions on concrete input. *)
Definition CLIENT_MASK_MYSQL : Z :=
  fold_right Z.lor 0
    [1; 2; 4; 8; 128; 2 ^ 19; 2 ^ 20; 8192; 512; 2 ^ 16; 2 ^ 17; 2 ^ 18; 32768].

Definition response_length_mysql
    (with_ssl ssl_established : bool) (user : list byte)
    (passwd : option (list byte)) (dbname auth_module : list byte) : Z :=
  if with_ssl && negb ssl_established then 36
  else
    32 + zlength user + 1
    + (match passwd with Some _ => 20 | None => 0 end) + 1
    + (match dbname with [] => 0 | _ => zlength dbname + 1 end)
    + zlength auth_module + 1 + 4.

End Capabilities.

(* ===================================================================== *)
(** ** Wire constants (maxscale/protocol/mariadb/mysql.hh, mysql_com.h)   *)
(* ===================================================================== *)

Module Wire.

(** Modelled from the spec: the protocol constants are declared in headers
    that are not among the sources at hand; the values are the ones the
    specification's wire section gives (first-byte tags OK=0x00, EOF=0xfe,
    ERR=0xff, LOCAL_INFILE=0xfb; 4-byte header; 2^24-1 continuation rule;
    change-user command 0x11) and, for the command bytes and status flags
    the specification only names, those of the MySQL client/server
    protocol. *)
Definition MYSQL_HEADER_LEN : Z := 4.
Definition GW_MYSQL_MAX_PACKET_LEN : Z := 2 ^ 24 - 1.
Definition MYSQL_PACKET_LENGTH_MAX : Z := 2 ^ 24 - 1.
Definition MYSQL_EOF_PACKET_LEN : Z := 9.

Definition MYSQL_REPLY_OK : Z := 0.
Definition MYSQL_REPLY_LOCAL_INFILE : Z := 251.
Definition MYSQL_REPLY_EOF : Z := 254.
Definition MYSQL_REPLY_AUTHSWITCHREQUEST : Z := 254.
Definition MYSQL_REPLY_ERR : Z := 255.

Definition MXS_COM_QUIT : Z := 1.
Definition MXS_COM_QUERY : Z := 3.
Definition MXS_COM_FIELD_LIST : Z := 4.
Definition MXS_COM_STATISTICS : Z := 9.
Definition MXS_COM_PING : Z := 14.
Definition MXS_COM_CHANGE_USER : Z := 17.
Definition MXS_COM_BINLOG_DUMP : Z := 18.
Definition MXS_COM_STMT_PREPARE : Z := 22.
Definition MXS_COM_STMT_EXECUTE : Z := 23.
Definition MXS_COM_STMT_SEND_LONG_DATA : Z := 24.
Definition MXS_COM_STMT_CLOSE : Z := 25.
Definition MXS_COM_STMT_FETCH : Z := 28.

Definition SERVER_MORE_RESULTS_EXIST : Z := 8.
Definition SERVER_SESSION_STATE_CHANGED : Z := 16384.

Definition SESSION_TRACK_SYSTEM_VARIABLES : Z := 0.
Definition SESSION_TRACK_SCHEMA : Z := 1.
Definition SESSION_TRACK_STATE_CHANGE : Z := 2.
Definition SESSION_TRACK_GTIDS : Z := 3.
Definition SESSION_TRACK_TRANSACTION_CHARACTERISTICS : Z := 4.
Definition SESSION_TRACK_TRANSACTION_TYPE : Z := 5.

Definition MYSQL_PS_ID_OFFSET : Z := 5.
Definition MYSQL_PS_ID_SIZE : Z := 4.

(** [mxs_mysql_command_will_respond]. *)
Definition mxs_mysql_command_will_respond (cmd : Z) : bool :=
  negb (cmd =? MXS_COM_STMT_SEND_LONG_DATA)
  && negb (cmd =? MXS_COM_QUIT)
  && negb (cmd =? MXS_COM_STMT_CLOSE).

End Wire.

(* ===================================================================== *)
(** ** The reply tracker (mariadb_backend.cc)                             *)
(* ===================================================================== *)

Module Reply.
Import Bytes Wire.

(** A contiguous byte buffer read through iterators: [Iter] is an offset
    into it.  Dereferencing an iterator outside the buffer is undefined in
    C++; [buf_at] is total. *)
Record Buffer : Type := mkBuffer {
  buf_len : Z;
  buf_at : Z -> byte
}.

Definition Iter : Type := Z.

Definition deref (b : Buffer) (it : Iter) : Z := u8 (buf_at b it).

Definition buffer_of_list (l : list byte) : Buffer :=
  {| buf_len := zlength l;
     buf_at := fun i => if i <? 0 then Byte.x00 else nth (Z.to_nat i) l Byte.x00 |}.

Definition bytes_between (b : Buffer) (first last : Iter) : list byte :=
  map (buf_at b) (seqZ first (last - first)).

Inductive ReplyState : Type :=
| START | DONE | RSET_COLDEF | RSET_COLDEF_EOF | RSET_ROWS | PREPARE.

Definition ReplyState_eqb (a b : ReplyState) : bool :=
  match a, b with
  | START, START | DONE, DONE | RSET_COLDEF, RSET_COLDEF
  | RSET_COLDEF_EOF, RSET_COLDEF_EOF | RSET_ROWS, RSET_ROWS
  | PREPARE, PREPARE => true
  | _, _ => false
  end.

Record Error : Type := mkError {
  err_code : Z;
  err_sql_state : list byte;
  err_message : list byte
}.

(** Modelled from the spec: [mxs::Reply] (the ReplyMeta: command, rows,
    fields, warnings, set-variables, collected error) is declared in
    maxscale/target.hh, which is not among the sources at hand.  Its
    counters are 64-bit and are modelled without wrap-around. *)
Record Reply : Type := mkReply {
  command : Z;
  state : ReplyState;
  rows_read : Z;
  field_counts : list Z;
  num_warnings : Z;
  generated_id : Z;
  param_count : Z;
  is_ok : bool;
  error : option Error;
  variables : list (list byte * list byte);
  size : Z
}.

Definition empty_reply : Reply :=
  {| command := 0; state := DONE; rows_read := 0; field_counts := [];
     num_warnings := 0; generated_id := 0; param_count := 0; is_ok := false;
     error := None; variables := []; size := 0 |}.

Definition is_complete (r : Reply) : bool := ReplyState_eqb (state r) DONE.

(** The members of [MariaDBBackendConnection] that the tracker reads and
    writes, with the two pieces of session state it consults. *)
Record Tracker : Type := mkTracker {
  m_reply : Reply;
  m_skip_next : bool;
  m_num_coldefs : Z;
  m_ps_packets : Z;
  m_opening_cursor : bool;
  m_changing_user : bool;
  m_large_query : bool;
  load_active : bool;               (* session_is_load_active (m_session) *)
  session_track_required : bool     (* RCAP_TYPE_SESSION_STATE_TRACKING *)
}.

Definition with_reply (t : Tracker) (r : Reply) : Tracker :=
  {| m_reply := r; m_skip_next := m_skip_next t; m_num_coldefs := m_num_coldefs t;
     m_ps_packets := m_ps_packets t; m_opening_cursor := m_opening_cursor t;
     m_changing_user := m_changing_user t; m_large_query := m_large_query t;
     load_active := load_active t;
     session_track_required := session_track_required t |}.

Definition set_reply_state (s : ReplyState) (t : Tracker) : Tracker :=
  let r := m_reply t in
  with_reply t
    {| command := command r; state := s; rows_read := rows_read r;
       field_counts := field_counts r; num_warnings := num_warnings r;
       generated_id := generated_id r; param_count := param_count r;
       is_ok := is_ok r; error := error r; variables := variables r;
       size := size r |}.

Definition set_num_warnings (w : Z) (t : Tracker) : Tracker :=
  let r := m_reply t in
  with_reply t
    {| command := command r; state := state r; rows_read := rows_read r;
       field_counts := field_counts r; num_warnings := w;
       generated_id := generated_id r; param_count := param_count r;
       is_ok := is_ok r; error := error r; variables := variables r;
       size := size r |}.

Definition add_rows (n : Z) (t : Tracker) : Tracker :=
  let r := m_reply t in
  with_reply t
    {| command := command r; state := state r; rows_read := rows_read r + n;
       field_counts := field_counts r; num_warnings := num_warnings r;
       generated_id := generated_id r; param_count := param_count r;
       is_ok := is_ok r; error := error r; variables := variables r;
       size := size r |}.

Definition add_bytes (n : Z) (t : Tracker) : Tracker :=
  let r := m_reply t in
  with_reply t
    {| command := command r; state := state r; rows_read := rows_read r;
       field_counts := field_counts r; num_warnings := num_warnings r;
       generated_id := generated_id r; param_count := param_count r;
       is_ok := is_ok r; error := error r; variables := variables r;
       size := size r + n |}.

Definition add_field_count (n : Z) (t : Tracker) : Tracker :=
  let r := m_reply t in
  with_reply t
    {| command := command r; state := state r; rows_read := rows_read r;
       field_counts := field_counts r ++ [n]; num_warnings := num_warnings r;
       generated_id := generated_id r; param_count := param_count r;
       is_ok := is_ok r; error := error r; variables := variables r;
       size := size r |}.

Definition set_is_ok (v : bool) (t : Tracker) : Tracker :=
  let r := m_reply t in
  with_reply t
    {| command := command r; state := state r; rows_read := rows_read r;
       field_counts := field_counts r; num_warnings := num_warnings r;
       generated_id := generated_id r; param_count := param_count r;
       is_ok := v; error := error r; variables := variables r;
       size := size r |}.

Definition set_ps_ids (id params : Z) (t : Tracker) : Tracker :=
  let r := m_reply t in
  with_reply t
    {| command := command r; state := state r; rows_read := rows_read r;
       field_counts := field_counts r; num_warnings := num_warnings r;
       generated_id := id; param_count := params;
       is_ok := is_ok r; error := error r; variables := variables r;
       size := size r |}.

Definition set_error (e : Error) (t : Tracker) : Tracker :=
  let r := m_reply t in
  with_reply t
    {| command := command r; state := state r; rows_read := rows_read r;
       field_counts := field_counts r; num_warnings := num_warnings r;
       generated_id := generated_id r; param_count := param_count r;
       is_ok := is_ok r; error := Some e; variables := variables r;
       size := size r |}.

Definition set_variable (name value : list byte) (t : Tracker) : Tracker :=
  let r := m_reply t in
  with_reply t
    {| command := command r; state := state r; rows_read := rows_read r;
       field_counts := field_counts r; num_warnings := num_warnings r;
       generated_id := generated_id r; param_count := param_count r;
       is_ok := is_ok r; error := error r;
       variables := (name, value) :: variables r;
       size := size r |}.

Definition set_skip_next (v : bool) (t : Tracker) : Tracker :=
  {| m_reply := m_reply t; m_skip_next := v; m_num_coldefs := m_num_coldefs t;
     m_ps_packets := m_ps_packets t; m_opening_cursor := m_opening_cursor t;
     m_changing_user := m_changing_user t; m_large_query := m_large_query t;
     load_active := load_active t;
     session_track_required := session_track_required t |}.

Definition set_num_coldefs (v : Z) (t : Tracker) : Tracker :=
  {| m_reply := m_reply t; m_skip_next := m_skip_next t; m_num_coldefs := v;
     m_ps_packets := m_ps_packets t; m_opening_cursor := m_opening_cursor t;
     m_changing_user := m_changing_user t; m_large_query := m_large_query t;
     load_active := load_active t;
     session_track_required := session_track_required t |}.

Definition set_ps_packets (v : Z) (t : Tracker) : Tracker :=
  {| m_reply := m_reply t; m_skip_next := m_skip_next t;
     m_num_coldefs := m_num_coldefs t;
     m_ps_packets := v; m_opening_cursor := m_opening_cursor t;
     m_changing_user := m_changing_user t; m_large_query := m_large_query t;
     load_active := load_active t;
     session_track_required := session_track_required t |}.

Definition set_opening_cursor (v : bool) (t : Tracker) : Tracker :=
  {| m_reply := m_reply t; m_skip_next := m_skip_next t;
     m_num_coldefs := m_num_coldefs t;
     m_ps_packets := m_ps_packets t; m_opening_cursor := v;
     m_changing_user := m_changing_user t; m_large_query := m_large_query t;
     load_active := load_active t;
     session_track_required := session_track_required t |}.

Definition set_changing_user (v : bool) (t : Tracker) : Tracker :=
  {| m_reply := m_reply t; m_skip_next := m_skip_next t;
     m_num_coldefs := m_num_coldefs t;
     m_ps_packets := m_ps_packets t; m_opening_cursor := m_opening_cursor t;
     m_changing_user := v; m_large_query := m_large_query t;
     load_active := load_active t;
     session_track_required := session_track_required t |}.

Definition set_large_query (v : bool) (t : Tracker) : Tracker :=
  {| m_reply := m_reply t; m_skip_next := m_skip_next t;
     m_num_coldefs := m_num_coldefs t;
     m_ps_packets := m_ps_packets t; m_opening_cursor := m_opening_cursor t;
     m_changing_user := m_changing_user t; m_large_query := v;
     load_active := load_active t;
     session_track_required := session_track_required t |}.

Definition set_load_active (v : bool) (t : Tracker) : Tracker :=
  {| m_reply := m_reply t; m_skip_next := m_skip_next t;
     m_num_coldefs := m_num_coldefs t;
     m_ps_packets := m_ps_packets t; m_opening_cursor := m_opening_cursor t;
     m_changing_user := m_changing_user t; m_large_query := m_large_query t;
     load_active := v;
     session_track_required := session_track_required t |}.

(** *** Length-encoded integers and strings *)

Definition skip_encoded_int (b : Buffer) (it : Iter) : Iter :=
  let c := deref b it in
  if c =? 252 then it + 3
  else if c =? 253 then it + 4
  else if c =? 254 then it + 9
  else it + 1.

Definition get_le (b : Buffer) (it : Iter) (n : nat) : Z :=
  fold_right (fun k acc => Z.lor acc (Z.shiftl (deref b (it + Z.of_nat k)) (8 * Z.of_nat k)))
    0 (seq 0 n).

Definition get_encoded_int (b : Buffer) (it : Iter) : Z * Iter :=
  let len := deref b it in
  let it := it + 1 in
  if len =? 252 then (get_le b it 2, it + 2)
  else if len =? 253 then (get_le b it 3, it + 3)
  else if len =? 254 then (get_le b it 8, it + 8)
  else (len, it).

Definition get_encoded_str (b : Buffer) (it : Iter) : list byte * Iter :=
  let '(len, it) := get_encoded_int b it in
  (bytes_between b it (it + len), it + len).

Definition skip_encoded_str (b : Buffer) (it : Iter) : Iter :=
  let '(len, it) := get_encoded_int b it in
  it + len.

Definition is_last_eof (b : Buffer) (it : Iter) : bool :=
  let it := it + 3 in
  let status := Z.lor (deref b it) (Z.shiftl (deref b (it + 1)) 8) in
  Z.land status SERVER_MORE_RESULTS_EXIST =? 0.

(** [update_error]: [it] points at the first byte of the error code. *)
Definition update_error (b : Buffer) (it last : Iter) (t : Tracker) : Tracker :=
  let code := Z.lor (deref b it) (Z.shiftl (deref b (it + 1)) 8) in
  let it := it + 3 in
  let sql_state_begin := it in
  let sql_state_end := it + 5 in
  set_error
    {| err_code := code;
       err_sql_state := bytes_between b sql_state_begin sql_state_end;
       err_message := bytes_between b sql_state_end last |}
    t.

Definition MXS_LAST_GTID : list byte :=
  [Byte.x6c; Byte.x61; Byte.x73; Byte.x74; Byte.x5f; Byte.x67; Byte.x74;
   Byte.x69; Byte.x64].
Definition TRX_CHARACTERISTICS : list byte :=
  [Byte.x74; Byte.x72; Byte.x78; Byte.x5f; Byte.x63; Byte.x68; Byte.x61;
   Byte.x72; Byte.x61; Byte.x63; Byte.x74; Byte.x65; Byte.x72; Byte.x69;
   Byte.x73; Byte.x74; Byte.x69; Byte.x63; Byte.x73].
Definition TRX_STATE : list byte :=
  [Byte.x74; Byte.x72; Byte.x78; Byte.x5f; Byte.x73; Byte.x74; Byte.x61;
   Byte.x74; Byte.x65].

(** The [while (it != end)] loop over the session-tracking blocks of an OK
    packet.  Every round consumes at least two bytes, so [end - it] rounds
    are enough for a well-formed packet; a malformed one, on which the C++
    iterator runs past [end], stops here when the fuel is spent. *)
Fixpoint session_track_loop (fuel : nat) (b : Buffer) (it last : Iter) (t : Tracker)
  : Tracker :=
  match fuel with
  | O => t
  | S fuel' =>
      if it =? last then t
      else
        let type := deref b it in
        let it := it + 1 in
        let '(total_size, it) := get_encoded_int b it in
        if type =? SESSION_TRACK_STATE_CHANGE then
          session_track_loop fuel' b (it + total_size) last t
        else if type =? SESSION_TRACK_SCHEMA then
          session_track_loop fuel' b (skip_encoded_str b it) last t
        else if type =? SESSION_TRACK_GTIDS then
          let it := skip_encoded_int b it in
          let '(v, it) := get_encoded_str b it in
          session_track_loop fuel' b it last (set_variable MXS_LAST_GTID v t)
        else if type =? SESSION_TRACK_TRANSACTION_CHARACTERISTICS then
          let '(v, it) := get_encoded_str b it in
          session_track_loop fuel' b it last (set_variable TRX_CHARACTERISTICS v t)
        else if type =? SESSION_TRACK_SYSTEM_VARIABLES then
          let '(name, it) := get_encoded_str b it in
          let '(value, it) := get_encoded_str b it in
          session_track_loop fuel' b it last (set_variable name value t)
        else if type =? SESSION_TRACK_TRANSACTION_TYPE then
          let '(v, it) := get_encoded_str b it in
          session_track_loop fuel' b it last (set_variable TRX_STATE v t)
        else
          session_track_loop fuel' b (it + total_size) last t
  end.

Definition process_ok_packet (b : Buffer) (it last : Iter) (t : Tracker) : Tracker :=
  let it := it + 1 in
  let it := skip_encoded_int b it in
  let it := skip_encoded_int b it in
  let status := Z.lor (deref b it) (Z.shiftl (deref b (it + 1)) 8) in
  let it := it + 2 in
  let t :=
    if Z.land status SERVER_MORE_RESULTS_EXIST =? 0
    then set_reply_state DONE t
    else t in
  let warnings := Z.lor (deref b it) (Z.shiftl (deref b (it + 1)) 8) in
  let it := it + 2 in
  let t := set_num_warnings warnings t in
  if session_track_required t
     && negb (Z.land status SERVER_SESSION_STATE_CHANGED =? 0)
  then
    let it := skip_encoded_str b it in
    let '(_, it) := get_encoded_int b it in
    session_track_loop (Z.to_nat (last - it)) b it last t
  else t.

Section WithCounterWidths.

(** [m_ps_packets] and [m_num_coldefs] are declared in the connection's
    header, which is not among the sources at hand: their widths (they are
    unsigned) are parameters. *)
Variables ps_width coldef_width : Z.

Definition ps_wrap (z : Z) : Z := z mod 2 ^ ps_width.
Definition coldef_wrap (z : Z) : Z := z mod 2 ^ coldef_width.

Definition process_ps_response (b : Buffer) (it last : Iter) (t : Tracker) : Tracker :=
  let it := it + 1 in
  let stmt_id :=
    u32 (Z.lor (Z.lor (Z.lor (deref b it) (Z.shiftl (deref b (it + 1)) 8))
                  (Z.shiftl (deref b (it + 2)) 16))
           (Z.shiftl (deref b (it + 3)) 24)) in
  let it := it + 4 in
  let columns := u16 (deref b it + Z.shiftl (deref b (it + 1)) 8) in
  let it := it + 2 in
  let params := u16 (deref b it + Z.shiftl (deref b (it + 1)) 8) in
  let t := set_ps_ids stmt_id params t in
  let t := set_ps_packets 0 t in
  let t :=
    if columns =? 0 then t
    else set_ps_packets (ps_wrap (m_ps_packets t + (columns + 1))) t in
  let t :=
    if params =? 0 then t
    else set_ps_packets (ps_wrap (m_ps_packets t + (params + 1))) t in
  set_reply_state (if m_ps_packets t =? 0 then DONE else PREPARE) t.

Definition process_result_start (b : Buffer) (it last : Iter) (t : Tracker) : Tracker :=
  let cmd := deref b it in
  if cmd =? MYSQL_REPLY_OK then
    let t := set_is_ok true t in
    if command (m_reply t) =? MXS_COM_STMT_PREPARE
    then process_ps_response b it last t
    else process_ok_packet b it last t
  else if cmd =? MYSQL_REPLY_LOCAL_INFILE then
    set_reply_state DONE (set_load_active true t)
  else if cmd =? MYSQL_REPLY_ERR then
    set_reply_state DONE (update_error b (it + 1) last t)
  else if cmd =? MYSQL_REPLY_EOF then
    t
  else
    let '(n, _) := get_encoded_int b it in
    let t := set_num_coldefs (coldef_wrap n) t in
    let t := add_field_count (m_num_coldefs t) t in
    set_reply_state RSET_COLDEF t.

Definition process_reply_start (b : Buffer) (it last : Iter) (t : Tracker) : Tracker :=
  if command (m_reply t) =? MXS_COM_BINLOG_DUMP then t
  else if command (m_reply t) =? MXS_COM_STATISTICS then set_reply_state DONE t
  else if command (m_reply t) =? MXS_COM_FIELD_LIST then set_reply_state RSET_ROWS t
  else process_result_start b it last t.

Definition process_one_packet (b : Buffer) (it last : Iter) (len : Z) (t : Tracker)
  : Tracker :=
  let cmd := deref b it in
  match state (m_reply t) with
  | START => process_reply_start b it last t
  | DONE =>
      if cmd =? MYSQL_REPLY_ERR then update_error b (it + 1) last t
      else t
  | RSET_COLDEF =>
      let t := set_num_coldefs (coldef_wrap (m_num_coldefs t - 1)) t in
      if m_num_coldefs t =? 0 then set_reply_state RSET_COLDEF_EOF t else t
  | RSET_COLDEF_EOF =>
      let t := set_reply_state RSET_ROWS t in
      if m_opening_cursor t
      then set_reply_state DONE (set_opening_cursor false t)
      else t
  | RSET_ROWS =>
      if (cmd =? MYSQL_REPLY_EOF) && (len =? MYSQL_EOF_PACKET_LEN - MYSQL_HEADER_LEN) then
        let t := set_reply_state (if is_last_eof b it then DONE else START) t in
        let it := it + 1 in
        let warnings := Z.lor (deref b it) (Z.shiftl (deref b (it + 1)) 8) in
        set_num_warnings warnings t
      else if cmd =? MYSQL_REPLY_ERR then
        set_reply_state DONE (update_error b (it + 1) last t)
      else add_rows 1 t
  | PREPARE =>
      let t := set_ps_packets (ps_wrap (m_ps_packets t - 1)) t in
      if m_ps_packets t =? 0 then set_reply_state DONE t else t
  end.

(** The three length bytes of a packet header, assembled with [|=] and
    [<<] from three successive reads of the iterator. *)
Definition packet_length (b : Buffer) (it : Iter) : Z :=
  Z.lor (Z.lor (deref b it) (Z.shiftl (deref b (it + 1)) 8))
    (Z.shiftl (deref b (it + 2)) 16).

(** The primitive little-endian readers of the codec, as plain sums. *)
Definition u16le (b : Buffer) (it : Iter) : Z :=
  deref b it + 2 ^ 8 * deref b (it + 1).

Definition u24le (b : Buffer) (it : Iter) : Z :=
  deref b it + 2 ^ 8 * deref b (it + 1) + 2 ^ 16 * deref b (it + 2).

Definition u32le (b : Buffer) (it : Iter) : Z :=
  deref b it + 2 ^ 8 * deref b (it + 1) + 2 ^ 16 * deref b (it + 2)
  + 2 ^ 24 * deref b (it + 3).

(** What the body of the loop of [process_packets] does with one complete
    packet whose payload starts at [it] and has length [len]. *)
Definition packet_step (b : Buffer) (it : Iter) (len : Z) (t : Tracker) : Tracker :=
  let skip_next := m_skip_next t in
  let t := set_skip_next (len =? GW_MYSQL_MAX_PACKET_LEN) t in
  if negb skip_next then process_one_packet b it (it + len) len t else t.

(** The loop of [process_packets]; [bytes_used] is also the position of the
    iterator.  The result is the tracker and the number of bytes of complete
    packets, which is where [gwbuf_split] cuts the buffer. *)
Fixpoint process_packets_loop (fuel : nat) (b : Buffer) (bytes_used : Z) (t : Tracker)
  : Tracker * Z :=
  match fuel with
  | O => (t, bytes_used)
  | S fuel' =>
      if bytes_used =? buf_len b then (t, bytes_used)
      else
        let bytes_left := buf_len b - bytes_used in
        if bytes_left <? MYSQL_HEADER_LEN then (t, bytes_used)
        else
          let it := bytes_used in
          let len := packet_length b it in
          let it := it + 4 in
          if bytes_left <? len + MYSQL_HEADER_LEN then (t, bytes_used)
          else
            process_packets_loop fuel' b (bytes_used + (len + MYSQL_HEADER_LEN))
              (packet_step b it len t)
  end.

(** Every round consumes at least the four header bytes, so
    [buf_len / 4 + 1] rounds always reach one of the exits. *)
Definition process_packets (b : Buffer) (t : Tracker) : Tracker * Z :=
  process_packets_loop (Z.to_nat (buf_len b / MYSQL_HEADER_LEN + 1)) b 0 t.

(** [track_response]. *)
Definition track_response (b : Buffer) (t : Tracker) : Tracker * Z :=
  let '(t, used) := process_packets b t in
  if 0 <? used then (add_bytes used t, used) else (t, used).

(** [n] further packets (none of them the continuation of a large packet)
    handed to [process_one_packet], whatever their contents. *)
Fixpoint process_n_packets (n : nat) (contents : nat -> Buffer * Iter * Z) (t : Tracker)
  : Tracker :=
  match n with
  | O => t
  | S n' =>
      let t' := process_n_packets n' contents t in
      let '(b, it, len) := contents n' in
      process_one_packet b it (it + len) len t'
  end.

End WithCounterWidths.

(** *** Inputs of the specification's scenarios *)

(** A buffer holding a row of 2^24-1 bytes followed by a continuation of
    100 bytes (the spec's large-resultset scenario). *)
Definition large_row_buffer : Buffer :=
  {| buf_len := 4 + (2 ^ 24 - 1) + 4 + 100;
     buf_at := fun i =>
       if (i =? 0) || (i =? 1) || (i =? 2) then Byte.xff
       else if i =? 4 + (2 ^ 24 - 1) then Byte.x64
       else if i =? 4 + (2 ^ 24 - 1) + 3 then Byte.x01
       else Byte.x00 |}.

Definition in_rows (n : Z) : Tracker :=
  {| m_reply :=
       {| command := MXS_COM_QUERY; state := RSET_ROWS; rows_read := n;
          field_counts := [1]; num_warnings := 0; generated_id := 0;
          param_count := 0; is_ok := false; error := None; variables := [];
          size := 0 |};
     m_skip_next := false; m_num_coldefs := 0; m_ps_packets := 0;
     m_opening_cursor := false; m_changing_user := false; m_large_query := false;
     load_active := false; session_track_required := false |}.

(** The spec's prepare scenario: statement id 17, one column and one
    parameter, hence four packets to come. *)
Definition ps_ok_packet : Buffer :=
  buffer_of_list
    [Byte.x00; Byte.x11; Byte.x00; Byte.x00; Byte.x00; Byte.x01; Byte.x00;
     Byte.x01; Byte.x00; Byte.x00; Byte.x00; Byte.x00].

Definition preparing : Tracker :=
  {| m_reply :=
       {| command := MXS_COM_STMT_PREPARE; state := START; rows_read := 0;
          field_counts := []; num_warnings := 0; generated_id := 0;
          param_count := 0; is_ok := false; error := None; variables := [];
          size := 0 |};
     m_skip_next := false; m_num_coldefs := 0; m_ps_packets := 0;
     m_opening_cursor := false; m_changing_user := false; m_large_query := false;
     load_active := false; session_track_required := false |}.

End Reply.

(* ===================================================================== *)
(** ** Servers, buffers and descriptors                                   *)
(* ===================================================================== *)

Module Server.

(** The part of [Server] (internal/server.hh, server.cc) that the pool and
    the protocol read: the two pool settings, the status word and the pool
    statistics. *)
Record Server : Type := mkServer {
  persistpoolmax : Z;       (* long *)
  persistmaxtime : Z;       (* long, seconds *)
  status : Z;               (* uint64_t *)
  n_persistent : Z;         (* pool_stats () *)
  persistmax : Z;
  n_from_pool : Z
}.

Definition persistent_conns_enabled (s : Server) : bool := 0 <? persistpoolmax s.

Definition with_n_persistent (v : Z) (s : Server) : Server :=
  {| persistpoolmax := persistpoolmax s; persistmaxtime := persistmaxtime s;
     status := status s; n_persistent := v; persistmax := persistmax s;
     n_from_pool := n_from_pool s |}.

Definition with_persistmax (v : Z) (s : Server) : Server :=
  {| persistpoolmax := persistpoolmax s; persistmaxtime := persistmaxtime s;
     status := status s; n_persistent := n_persistent s; persistmax := v;
     n_from_pool := n_from_pool s |}.

Definition with_n_from_pool (v : Z) (s : Server) : Server :=
  {| persistpoolmax := persistpoolmax s; persistmaxtime := persistmaxtime s;
     status := status s; n_persistent := n_persistent s;
     persistmax := persistmax s; n_from_pool := v |}.

End Server.

Module Dcb.
Import Bytes Wire.

(** A [GWBUF]: its bytes and the three type flags the backend protocol
    tests ([gwbuf_is_ignorable], [gwbuf_should_collect_result],
    [gwbuf_should_track_state]; buffer.hh is not among the sources). *)
Record GWBUF : Type := mkGWBUF {
  gw_data : list byte;
  gw_ignorable : bool;
  gw_collect_result : bool;
  gw_track_state : bool
}.

Definition plain (data : list byte) : GWBUF :=
  {| gw_data := data; gw_ignorable := false; gw_collect_result := false;
     gw_track_state := false |}.

(** [gwbuf_append]: the chain keeps the head's type. *)
Definition gwbuf_append (head : option GWBUF) (tail : GWBUF) : GWBUF :=
  match head with
  | None => tail
  | Some h =>
      {| gw_data := gw_data h ++ gw_data tail; gw_ignorable := gw_ignorable h;
         gw_collect_result := gw_collect_result h;
         gw_track_state := gw_track_state h |}
  end.

Definition byte_at (data : list byte) (i : nat) : Z := u8 (nth i data Byte.x00).

(** [mxs_mysql_get_command] / [MYSQL_GET_COMMAND]: the byte after the
    header. *)
Definition get_command (data : list byte) : Z := byte_at data 4.

(** [MYSQL_GET_PAYLOAD_LEN]. *)
Definition get_payload_len (data : list byte) : Z :=
  byte_at data 0 + 2 ^ 8 * byte_at data 1 + 2 ^ 16 * byte_at data 2.

Definition MYSQL_IS_COM_QUIT (data : list byte) : bool :=
  (get_command data =? MXS_COM_QUIT) && (get_payload_len data =? 1).

Definition MYSQL_IS_CHANGE_USER (data : list byte) : bool :=
  get_command data =? MXS_COM_CHANGE_USER.

(** [mysql_create_com_quit] and [modutil_create_ignorable_ping]. *)
Definition com_quit_packet : GWBUF :=
  plain [Byte.x01; Byte.x00; Byte.x00; Byte.x00; Byte.x01].

Definition modutil_create_ignorable_ping : GWBUF :=
  {| gw_data := [Byte.x01; Byte.x00; Byte.x00; Byte.x00; Byte.x0e];
     gw_ignorable := true; gw_collect_result := false; gw_track_state := false |}.

Inductive DCBState : Type := CREATED | POLLING | NOPOLLING | DISCONNECTED.

Definition is_polling (s : DCBState) : bool :=
  match s with POLLING => true | _ => false end.

Inductive Handler : Type := PROTOCOL_HANDLER | POOL_HANDLER.

Inductive FakeEvent : Type := HANGUP_EVENT | READ_EVENT.

(** Modelled from the spec: the DCB (a file descriptor, its buffers and its
    protocol handler) is implemented in dcb.cc, which is not among the
    sources at hand.  [dcb_writable] stands for the outcome of the checks
    [DCB::writeq_append] makes before it queues a buffer, [dcb_sockerrno]
    for the pending error of the socket as [gw_getsockerrno] reports it
    (0 when there is none) and [dcb_strerror] for the text [mxs_strerror]
    has for that error. *)
Record DCB : Type := mkDCB {
  dcb_state : DCBState;
  dcb_writable : bool;
  dcb_writeq : list GWBUF;
  dcb_readq : option (list byte);
  dcb_fake_events : list FakeEvent;
  dcb_hanged_up : bool;
  dcb_session : option nat;
  dcb_server : nat;
  dcb_handler : Handler;
  dcb_events_enabled : bool;
  dcb_was_shutdown : bool;
  dcb_open : bool;
  dcb_sockerrno : Z;          (* gw_getsockerrno (fd ()) *)
  dcb_strerror : string;      (* mxs_strerror of that error *)
  dcb_is_fake_event : bool
}.

Definition with_writeq (q : list GWBUF) (d : DCB) : DCB :=
  {| dcb_state := dcb_state d; dcb_writable := dcb_writable d; dcb_writeq := q;
     dcb_readq := dcb_readq d; dcb_fake_events := dcb_fake_events d;
     dcb_hanged_up := dcb_hanged_up d; dcb_session := dcb_session d;
     dcb_server := dcb_server d; dcb_handler := dcb_handler d;
     dcb_events_enabled := dcb_events_enabled d;
     dcb_was_shutdown := dcb_was_shutdown d; dcb_open := dcb_open d; dcb_sockerrno := dcb_sockerrno d;
     dcb_strerror := dcb_strerror d; dcb_is_fake_event := dcb_is_fake_event d |}.

Definition with_readq (q : option (list byte)) (d : DCB) : DCB :=
  {| dcb_state := dcb_state d; dcb_writable := dcb_writable d;
     dcb_writeq := dcb_writeq d;
     dcb_readq := q; dcb_fake_events := dcb_fake_events d;
     dcb_hanged_up := dcb_hanged_up d; dcb_session := dcb_session d;
     dcb_server := dcb_server d; dcb_handler := dcb_handler d;
     dcb_events_enabled := dcb_events_enabled d;
     dcb_was_shutdown := dcb_was_shutdown d; dcb_open := dcb_open d; dcb_sockerrno := dcb_sockerrno d;
     dcb_strerror := dcb_strerror d; dcb_is_fake_event := dcb_is_fake_event d |}.

Definition trigger (e : FakeEvent) (d : DCB) : DCB :=
  {| dcb_state := dcb_state d; dcb_writable := dcb_writable d;
     dcb_writeq := dcb_writeq d;
     dcb_readq := dcb_readq d; dcb_fake_events := dcb_fake_events d ++ [e];
     dcb_hanged_up := dcb_hanged_up d; dcb_session := dcb_session d;
     dcb_server := dcb_server d; dcb_handler := dcb_handler d;
     dcb_events_enabled := dcb_events_enabled d;
     dcb_was_shutdown := dcb_was_shutdown d; dcb_open := dcb_open d; dcb_sockerrno := dcb_sockerrno d;
     dcb_strerror := dcb_strerror d; dcb_is_fake_event := dcb_is_fake_event d |}.

Definition with_session (s : option nat) (d : DCB) : DCB :=
  {| dcb_state := dcb_state d; dcb_writable := dcb_writable d;
     dcb_writeq := dcb_writeq d;
     dcb_readq := dcb_readq d; dcb_fake_events := dcb_fake_events d;
     dcb_hanged_up := dcb_hanged_up d; dcb_session := s;
     dcb_server := dcb_server d; dcb_handler := dcb_handler d;
     dcb_events_enabled := dcb_events_enabled d;
     dcb_was_shutdown := dcb_was_shutdown d; dcb_open := dcb_open d; dcb_sockerrno := dcb_sockerrno d;
     dcb_strerror := dcb_strerror d; dcb_is_fake_event := dcb_is_fake_event d |}.

Definition set_handler (h : Handler) (d : DCB) : DCB :=
  {| dcb_state := dcb_state d; dcb_writable := dcb_writable d;
     dcb_writeq := dcb_writeq d;
     dcb_readq := dcb_readq d; dcb_fake_events := dcb_fake_events d;
     dcb_hanged_up := dcb_hanged_up d; dcb_session := dcb_session d;
     dcb_server := dcb_server d; dcb_handler := h;
     dcb_events_enabled := dcb_events_enabled d;
     dcb_was_shutdown := dcb_was_shutdown d; dcb_open := dcb_open d; dcb_sockerrno := dcb_sockerrno d;
     dcb_strerror := dcb_strerror d; dcb_is_fake_event := dcb_is_fake_event d |}.

(** [disable_events] followed by [shutdown]. *)
Definition disable_events_and_shutdown (d : DCB) : DCB :=
  {| dcb_state := dcb_state d; dcb_writable := dcb_writable d;
     dcb_writeq := dcb_writeq d;
     dcb_readq := dcb_readq d; dcb_fake_events := dcb_fake_events d;
     dcb_hanged_up := dcb_hanged_up d; dcb_session := dcb_session d;
     dcb_server := dcb_server d; dcb_handler := dcb_handler d;
     dcb_events_enabled := false;
     dcb_was_shutdown := true; dcb_open := dcb_open d; dcb_sockerrno := dcb_sockerrno d;
     dcb_strerror := dcb_strerror d; dcb_is_fake_event := dcb_is_fake_event d |}.

Definition mark_closed (d : DCB) : DCB :=
  {| dcb_state := dcb_state d; dcb_writable := dcb_writable d;
     dcb_writeq := dcb_writeq d;
     dcb_readq := dcb_readq d; dcb_fake_events := dcb_fake_events d;
     dcb_hanged_up := dcb_hanged_up d; dcb_session := dcb_session d;
     dcb_server := dcb_server d; dcb_handler := dcb_handler d;
     dcb_events_enabled := dcb_events_enabled d;
     dcb_was_shutdown := dcb_was_shutdown d; dcb_open := false; dcb_sockerrno := dcb_sockerrno d;
     dcb_strerror := dcb_strerror d; dcb_is_fake_event := dcb_is_fake_event d |}.

(** [DCB::writeq_append]. *)
Definition writeq_append (buf : GWBUF) (d : DCB) : bool * DCB :=
  if dcb_writable d then (true, with_writeq (dcb_writeq d ++ [buf]) d)
  else (false, d).

End Dcb.

(* ===================================================================== *)
(** ** The backend protocol (mariadb_backend.cc)                          *)
(* ===================================================================== *)

Module Backend.
Import Bytes Wire Dcb Server Reply.

Inductive State : Type :=
| HANDSHAKING | AUTHENTICATING | CONNECTION_INIT | SEND_DELAYQ | ROUTING | FAILED.

Definition is_routing (s : State) : bool :=
  match s with ROUTING => true | _ => false end.

Inductive StateMachineRes : Type := IN_PROGRESS | SM_DONE | SM_ERROR.

Inductive ErrorType : Type := TRANSIENT | PERMANENT.

(** The calls the protocol makes on its upstream component. *)
Inductive UpstreamCall : Type :=
| handleError (type : ErrorType) (errmsg : string)
| clientReply (stmt : list byte).

(** The fields of [MYSQL_session] used when a change-user packet is
    built. *)
Record ClientData : Type := mkClientData {
  cd_user : list byte;
  cd_db : list byte;
  cd_plugin : list byte;
  cd_connect_attrs : list byte;
  cd_charset : Z;
  cd_auth_token_phase2 : list byte;     (* SHA1 (password), binary *)
  cd_password : list byte               (* user_entry.entry.password, hex *)
}.

(** [service->connection_init_sql ()]. *)
Record ConnectionInitSql : Type := mkInitSql {
  queries : list string;
  buffer_contents : list byte
}.

(** What the protocol reads of the session it is assigned to. *)
Record Session : Type := mkSession {
  session_id : nat;
  protocol_data : ClientData;
  service_capabilities : Z;
  connection_init_sql : ConnectionInitSql;
  session_stopping : bool
}.

Inductive InitQueryState : Type := SENDING | RECEIVING.

Record InitQueryStatus : Type := mkInitQueryStatus {
  iq_state : InitQueryState;
  ok_packets_expected : Z;
  ok_packets_received : Z
}.

Record Proto : Type := mkProto {
  m_state : State;
  m_tracker : Tracker;   (* m_reply, m_skip_next, m_changing_user, ... *)
  m_ignore_replies : Z;   (* int *)
  m_stored_query : option GWBUF;
  m_delayed_packets : option GWBUF;
  m_collect_result : bool;
  m_track_state : bool;
  m_collectq : option (list byte);
  m_scramble : list byte;   (* m_auth_data.scramble *)
  m_session : Session;
  m_upstream : nat;
  m_init_query_status : InitQueryStatus;
  upstream_calls : list UpstreamCall   (* calls made on m_upstream, oldest first *)
}.

Definition set_m_state (v : State) (p : Proto) : Proto :=
  {| m_state := v;
     m_tracker := m_tracker p;
     m_ignore_replies := m_ignore_replies p;
     m_stored_query := m_stored_query p;
     m_delayed_packets := m_delayed_packets p;
     m_collect_result := m_collect_result p;
     m_track_state := m_track_state p;
     m_collectq := m_collectq p;
     m_scramble := m_scramble p;
     m_session := m_session p;
     m_upstream := m_upstream p;
     m_init_query_status := m_init_query_status p;
     upstream_calls := upstream_calls p |}.

Definition set_m_tracker (v : Tracker) (p : Proto) : Proto :=
  {| m_state := m_state p;
     m_tracker := v;
     m_ignore_replies := m_ignore_replies p;
     m_stored_query := m_stored_query p;
     m_delayed_packets := m_delayed_packets p;
     m_collect_result := m_collect_result p;
     m_track_state := m_track_state p;
     m_collectq := m_collectq p;
     m_scramble := m_scramble p;
     m_session := m_session p;
     m_upstream := m_upstream p;
     m_init_query_status := m_init_query_status p;
     upstream_calls := upstream_calls p |}.

Definition set_m_ignore_replies (v : Z) (p : Proto) : Proto :=
  {| m_state := m_state p;
     m_tracker := m_tracker p;
     m_ignore_replies := v;
     m_stored_query := m_stored_query p;
     m_delayed_packets := m_delayed_packets p;
     m_collect_result := m_collect_result p;
     m_track_state := m_track_state p;
     m_collectq := m_collectq p;
     m_scramble := m_scramble p;
     m_session := m_session p;
     m_upstream := m_upstream p;
     m_init_query_status := m_init_query_status p;
     upstream_calls := upstream_calls p |}.

Definition set_m_stored_query (v : option GWBUF) (p : Proto) : Proto :=
  {| m_state := m_state p;
     m_tracker := m_tracker p;
     m_ignore_replies := m_ignore_replies p;
     m_stored_query := v;
     m_delayed_packets := m_delayed_packets p;
     m_collect_result := m_collect_result p;
     m_track_state := m_track_state p;
     m_collectq := m_collectq p;
     m_scramble := m_scramble p;
     m_session := m_session p;
     m_upstream := m_upstream p;
     m_init_query_status := m_init_query_status p;
     upstream_calls := upstream_calls p |}.

Definition set_m_delayed_packets (v : option GWBUF) (p : Proto) : Proto :=
  {| m_state := m_state p;
     m_tracker := m_tracker p;
     m_ignore_replies := m_ignore_replies p;
     m_stored_query := m_stored_query p;
     m_delayed_packets := v;
     m_collect_result := m_collect_result p;
     m_track_state := m_track_state p;
     m_collectq := m_collectq p;
     m_scramble := m_scramble p;
     m_session := m_session p;
     m_upstream := m_upstream p;
     m_init_query_status := m_init_query_status p;
     upstream_calls := upstream_calls p |}.

Definition set_m_collect_result (v : bool) (p : Proto) : Proto :=
  {| m_state := m_state p;
     m_tracker := m_tracker p;
     m_ignore_replies := m_ignore_replies p;
     m_stored_query := m_stored_query p;
     m_delayed_packets := m_delayed_packets p;
     m_collect_result := v;
     m_track_state := m_track_state p;
     m_collectq := m_collectq p;
     m_scramble := m_scramble p;
     m_session := m_session p;
     m_upstream := m_upstream p;
     m_init_query_status := m_init_query_status p;
     upstream_calls := upstream_calls p |}.

Definition set_m_track_state (v : bool) (p : Proto) : Proto :=
  {| m_state := m_state p;
     m_tracker := m_tracker p;
     m_ignore_replies := m_ignore_replies p;
     m_stored_query := m_stored_query p;
     m_delayed_packets := m_delayed_packets p;
     m_collect_result := m_collect_result p;
     m_track_state := v;
     m_collectq := m_collectq p;
     m_scramble := m_scramble p;
     m_session := m_session p;
     m_upstream := m_upstream p;
     m_init_query_status := m_init_query_status p;
     upstream_calls := upstream_calls p |}.

Definition set_m_collectq (v : option (list byte)) (p : Proto) : Proto :=
  {| m_state := m_state p;
     m_tracker := m_tracker p;
     m_ignore_replies := m_ignore_replies p;
     m_stored_query := m_stored_query p;
     m_delayed_packets := m_delayed_packets p;
     m_collect_result := m_collect_result p;
     m_track_state := m_track_state p;
     m_collectq := v;
     m_scramble := m_scramble p;
     m_session := m_session p;
     m_upstream := m_upstream p;
     m_init_query_status := m_init_query_status p;
     upstream_calls := upstream_calls p |}.

Definition set_m_scramble (v : list byte) (p : Proto) : Proto :=
  {| m_state := m_state p;
     m_tracker := m_tracker p;
     m_ignore_replies := m_ignore_replies p;
     m_stored_query := m_stored_query p;
     m_delayed_packets := m_delayed_packets p;
     m_collect_result := m_collect_result p;
     m_track_state := m_track_state p;
     m_collectq := m_collectq p;
     m_scramble := v;
     m_session := m_session p;
     m_upstream := m_upstream p;
     m_init_query_status := m_init_query_status p;
     upstream_calls := upstream_calls p |}.

Definition set_m_init_query_status (v : InitQueryStatus) (p : Proto) : Proto :=
  {| m_state := m_state p;
     m_tracker := m_tracker p;
     m_ignore_replies := m_ignore_replies p;
     m_stored_query := m_stored_query p;
     m_delayed_packets := m_delayed_packets p;
     m_collect_result := m_collect_result p;
     m_track_state := m_track_state p;
     m_collectq := m_collectq p;
     m_scramble := m_scramble p;
     m_session := m_session p;
     m_upstream := m_upstream p;
     m_init_query_status := v;
     upstream_calls := upstream_calls p |}.

Definition set_upstream_calls (v : list UpstreamCall) (p : Proto) : Proto :=
  {| m_state := m_state p;
     m_tracker := m_tracker p;
     m_ignore_replies := m_ignore_replies p;
     m_stored_query := m_stored_query p;
     m_delayed_packets := m_delayed_packets p;
     m_collect_result := m_collect_result p;
     m_track_state := m_track_state p;
     m_collectq := m_collectq p;
     m_scramble := m_scramble p;
     m_session := m_session p;
     m_upstream := m_upstream p;
     m_init_query_status := m_init_query_status p;
     upstream_calls := v |}.
(** The functions and constants the protocol uses that are defined outside
    the sources at hand (modutil, the SHA1 helpers, the routing capability
    masks) and the widths of the two counters declared in the header. *)
Record Externals : Type := mkExternals {
  hex2bin : list byte -> list byte;
  gw_sha1_2_str : list byte -> list byte -> list byte;
  mxs_mysql_calculate_hash : list byte -> list byte -> list byte;
  modutil_get_complete_packets : list byte -> option (list byte) * option (list byte);
  modutil_get_next_MySQL_packet : list byte -> option (list byte) * option (list byte);
  modutil_count_signal_packets : list byte -> Z * bool;
  mxs_mysql_is_prep_stmt_ok : list byte -> bool;
  mxs_mysql_extract_ps_response : list byte -> option (Z * Z);
  modutil_count_packets : list byte -> Z;
  RCAP_TYPE_PACKET_OUTPUT : Z;
  RCAP_TYPE_STMT_OUTPUT : Z;
  RCAP_TYPE_CONTIGUOUS_OUTPUT : Z;
  RCAP_TYPE_REQUEST_TRACKING : Z;
  RCAP_TYPE_RESULTSET_OUTPUT : Z;
  ps_width : Z;
  coldef_width : Z
}.

Definition rcap_type_required (capabilities type : Z) : bool :=
  Z.land capabilities type =? type.

Definition SHA_DIGEST_LENGTH : Z := 20.
Definition MYSQL_SCRAMBLE_LEN : Z := 20.

(** mysql_native_password and its terminating NUL. *)
Definition DEFAULT_MYSQL_AUTH_PLUGIN : list byte :=
  [Byte.x6d; Byte.x79; Byte.x73; Byte.x71; Byte.x6c; Byte.x5f; Byte.x6e;
   Byte.x61; Byte.x74; Byte.x69; Byte.x76; Byte.x65; Byte.x5f; Byte.x70;
   Byte.x61; Byte.x73; Byte.x73; Byte.x77; Byte.x6f; Byte.x72; Byte.x64].

(** [mxs::bin_bin_xor]. *)
Fixpoint bin_bin_xor (a b : list byte) : list byte :=
  match a, b with
  | x :: a', y :: b' => byte_of_Z (Z.lxor (u8 x) (u8 y)) :: bin_bin_xor a' b'
  | _, _ => []
  end.

Definition update_tracker (f : Tracker -> Tracker) (p : Proto) : Proto :=
  set_m_tracker (f (m_tracker p)) p.

(** What [std::ostringstream ss (errmsg)] holds after [written] has been
    put into it: the stream starts writing at the beginning of its buffer,
    so the characters written replace the first characters of [errmsg] and
    extend it when they are more. *)
Fixpoint overwrite (errmsg written : string) : string :=
  match written with
  | EmptyString => errmsg
  | String c written' =>
      String c (overwrite (match errmsg with
                           | EmptyString => EmptyString
                           | String _ rest => rest
                           end) written')
  end.

(** [c_str ()] read as a C string: the characters before the first NUL. *)
Fixpoint c_str (s : string) : string :=
  match s with
  | EmptyString => EmptyString
  | String c rest => if Ascii.eqb c Ascii.zero then EmptyString else String c (c_str rest)
  end.

(** What [do_handle_error] writes into the stream about the socket: the
    pending error and its description, or a note that the event was a
    generated one. *)
Definition socket_note (d : DCB) : string :=
  if negb (dcb_sockerrno d =? 0) then
    (" (" ++ NilZero.string_of_int (Z.to_int (dcb_sockerrno d)) ++ ", "
     ++ dcb_strerror d ++ ")")%string
  else if dcb_is_fake_event d then " (Generated event)"%string
  else EmptyString.

(** The text of the error packet that [do_handle_error] creates. *)
Definition error_text (d : DCB) (errmsg : string) : string :=
  c_str (overwrite errmsg (socket_note d)).

(** [do_handle_error]: the error packet is handed to the upstream's
    [handleError]. *)
Definition do_handle_error (d : DCB) (errmsg : string) (type : ErrorType) (p : Proto)
  : Proto :=
  set_upstream_calls (upstream_calls p ++ [handleError type (error_text d errmsg)]) p.

Definition assign_session (session : Session) (upstream : nat) (p : Proto) : Proto :=
  {| m_state := m_state p; m_tracker := m_tracker p;
     m_ignore_replies := m_ignore_replies p; m_stored_query := m_stored_query p;
     m_delayed_packets := m_delayed_packets p;
     m_collect_result := m_collect_result p; m_track_state := m_track_state p;
     m_collectq := m_collectq p; m_scramble := m_scramble p;
     m_session := session; m_upstream := upstream;
     m_init_query_status := m_init_query_status p;
     upstream_calls := upstream_calls p |}.

Definition established (p : Proto) : bool :=
  is_routing (m_state p) && (m_ignore_replies p =? 0)
  && match m_stored_query p with None => true | Some _ => false end.

(** [Reply::clear] followed by [set_command]. *)
Definition cleared_reply (cmd : Z) : Reply :=
  {| command := cmd; state := DONE; rows_read := 0; field_counts := [];
     num_warnings := 0; generated_id := 0; param_count := 0; is_ok := false;
     error := None; variables := []; size := 0 |}.

(** [track_query]. *)
Definition track_query (data : list byte) (t : Tracker) : Tracker :=
  if Reply.m_changing_user t then t
  else
    let t :=
      if load_active t then
        if get_payload_len data =? 0
        then set_reply_state START (set_load_active false t)
        else t
      else if negb (m_large_query t) then
        let t := with_reply t (cleared_reply (get_command data)) in
        let t :=
          if mxs_mysql_command_will_respond (command (m_reply t))
          then set_reply_state START t else t in
        if command (m_reply t) =? MXS_COM_STMT_EXECUTE then
          let flags := byte_at data (Z.to_nat (MYSQL_PS_ID_OFFSET + MYSQL_PS_ID_SIZE)) in
          set_opening_cursor (negb (flags =? 0)) t
        else if command (m_reply t) =? MXS_COM_STMT_FETCH then
          set_reply_state RSET_ROWS t
        else t
      else t in
    set_large_query (get_payload_len data =? MYSQL_PACKET_LENGTH_MAX) t.

(** [prepare_for_write]. *)
Definition prepare_for_write (buffer : GWBUF) (p : Proto) : Proto :=
  let p :=
    if negb (gw_ignorable buffer)
    then update_tracker (track_query (gw_data buffer)) p
    else p in
  let p := if gw_collect_result buffer then set_m_collect_result true p else p in
  set_m_track_state (gw_track_state buffer) p.

Section WithExternals.
Variable X : Externals.

(** The token lambda of [create_change_user_packet]:
    SHA1 (scramble ++ SHA1 (SHA1 (password))) xor SHA1 (password). *)
Definition make_auth_token (p : Proto) : list byte :=
  let cd := protocol_data (m_session p) in
  let hex_hash2 := cd_password cd in
  match hex_hash2 with
  | [] => []
  | _ =>
      if zlength hex_hash2 =? 2 * SHA_DIGEST_LENGTH then
        let hash2 := hex2bin X hex_hash2 in
        let concat_hash := gw_sha1_2_str X (m_scramble p) hash2 in
        let hash1 := cd_auth_token_phase2 cd in
        if zlength hash1 =? SHA_DIGEST_LENGTH
        then bin_bin_xor concat_hash hash1
        else []
      else []
  end.

(** [create_change_user_packet]: built from the session the protocol is
    assigned to and the scramble it currently holds; flagged as a result
    to be collected. *)
Definition create_change_user_packet (p : Proto) : GWBUF :=
  let mses := protocol_data (m_session p) in
  let token := make_auth_token p in
  let payload :=
    [byte_of_Z MXS_COM_CHANGE_USER]
    ++ cd_user mses ++ [Byte.x00]
    ++ [byte_of_Z (zlength token)] ++ token
    ++ cd_db mses ++ [Byte.x00]
    ++ [byte_of_Z (cd_charset mses); byte_of_Z (Z.shiftr (cd_charset mses) 8)]
    ++ cd_plugin mses ++ [Byte.x00]
    ++ cd_connect_attrs mses in
  {| gw_data := set_byte3 (zlength payload) ++ [Byte.x00] ++ payload;
     gw_ignorable := false; gw_collect_result := true; gw_track_state := false |}.

(** [send_change_user_to_backend] and [change_user]. *)
Definition send_change_user_to_backend (p : Proto) (d : DCB) : bool * Proto * DCB :=
  let buffer := create_change_user_packet p in
  let '(ok, d) := writeq_append buffer d in
  if ok then (true, update_tracker (set_changing_user true) p, d)
  else (false, p, d).

Definition change_user (queue : GWBUF) (p : Proto) (d : DCB) : bool * Proto * DCB :=
  send_change_user_to_backend p d.

(** [handle_persistent_connection]: a write while the reply to an
    ignorable command is outstanding. *)
Definition handle_persistent_connection (queue : GWBUF) (p : Proto) (d : DCB)
  : Z * Proto * DCB :=
  if MYSQL_IS_COM_QUIT (gw_data queue)
  then (0, p, trigger HANGUP_EVENT d)
  else (1, set_m_stored_query (Some (gwbuf_append (m_stored_query p) queue)) p, d).

(** [write]. *)
Definition write (srv : Server) (queue : GWBUF) (p : Proto) (d : DCB)
  : Z * Proto * DCB :=
  if 0 <? m_ignore_replies p then handle_persistent_connection queue p d
  else
    match m_state p with
    | FAILED => (0, p, d)
    | ROUTING =>
        let cmd := get_command (gw_data queue) in
        let p := prepare_for_write queue p in
        if command (m_reply (m_tracker p)) =? MXS_COM_CHANGE_USER then
          let '(ok, p, d) := change_user queue p d in
          (if ok then 1 else 0, p, d)
        else if (cmd =? MXS_COM_QUIT) && persistent_conns_enabled srv then
          (1, p, d)
        else
          let p :=
            if gw_ignorable queue
            then set_m_ignore_replies (i32 (m_ignore_replies p + 1)) p
            else p in
          let '(ok, d) := writeq_append queue d in
          (if ok then 1 else 0, p, d)
    | _ =>
        (1, set_m_delayed_packets (Some (gwbuf_append (m_delayed_packets p) queue)) p, d)
    end.

(** [backend_write_delayqueue]. *)
Definition backend_write_delayqueue (srv : Server) (buffer : GWBUF) (p : Proto) (d : DCB)
  : bool * Proto * DCB :=
  let data := gw_data buffer in
  let '(rval, p, d) :=
    if MYSQL_IS_CHANGE_USER data then change_user buffer p d
    else if MYSQL_IS_COM_QUIT data && persistent_conns_enabled srv then (true, p, d)
    else let '(ok, d) := writeq_append buffer d in (ok, p, d) in
  if rval then (rval, p, d)
  else
    (rval,
     do_handle_error d "Lost connection to backend server while writing delay queue."
       TRANSIENT p,
     d).

(** [send_delayed_packets]. *)
Definition send_delayed_packets (srv : Server) (p : Proto) (d : DCB) : Proto * DCB :=
  match m_delayed_packets p with
  | None => (p, d)
  | Some buffer =>
      let p := set_m_delayed_packets None p in
      let p := prepare_for_write buffer p in
      let '(_, p, d) := backend_write_delayqueue srv buffer p d in
      (p, d)
  end.

(** [reuse_connection].  [sessions] dereferences the session the DCB was
    linked to; the function asserts that there is one. *)
Definition reuse_connection (sessions : nat -> Session) (upstream : nat)
    (p : Proto) (d : DCB) : bool * Proto * DCB :=
  if negb (is_polling (dcb_state d)) || negb (is_routing (m_state p))
     || match m_delayed_packets p with None => false | Some _ => true end
  then (false, p, d)
  else
    match dcb_session d with
    | None => (false, p, d)
    | Some sid =>
        let orig_session := m_session p in
        let orig_upstream := m_upstream p in
        let p := assign_session (sessions sid) upstream p in
        let p := set_m_ignore_replies 0 p in
        let p := set_m_stored_query None p in
        let buf := create_change_user_packet p in
        let '(ok, d) := writeq_append buf d in
        if ok
        then (true, set_m_ignore_replies (i32 (m_ignore_replies p + 1)) p, d)
        else (false, assign_session orig_session orig_upstream p, d)
    end.

(** [ping]. *)
Definition ping (srv : Server) (p : Proto) (d : DCB) : Proto * DCB :=
  match state (m_reply (m_tracker p)) with
  | DONE =>
      let '(_, p, d) := write srv modutil_create_ignorable_ping p d in (p, d)
  | _ => (p, d)
  end.

End WithExternals.

(** *** Reading replies: [normal_read] *)

(** What one call of [normal_read] gets from its environment: the result
    of [dcb->read], whether [gwbuf_make_contiguous] succeeds, the answer of
    [session_ok_to_route] and the value [clientReply] returns. *)
Record ReadInput : Type := mkReadInput {
  read_return_code : Z;
  read_data : option (list byte);
  contiguous_ok : bool;
  route_ok : bool;
  client_reply_rc : Z
}.

Definition non_empty (l : list byte) : option (list byte) :=
  match l with [] => None | _ => Some l end.

Fixpoint bytes_eqb (a b : list byte) : bool :=
  match a, b with
  | [], [] => true
  | x :: a', y :: b' => (u8 x =? u8 y) && bytes_eqb a' b'
  | _, _ => false
  end.

(** The NUL-terminated string that starts a byte sequence. *)
Fixpoint strz (l : list byte) : list byte :=
  match l with
  | [] => []
  | b :: l' => if u8 b =? 0 then [] else b :: strz l'
  end.

Definition auth_change_requested (buf : list byte) : bool :=
  (get_command buf =? MYSQL_REPLY_AUTHSWITCHREQUEST)
  && (MYSQL_EOF_PACKET_LEN <? zlength buf).

Definition mxs_mysql_is_result_set (buffer : list byte) : bool :=
  match nth_error buffer 4 with
  | None => false
  | Some c =>
      let cmd := u8 c in
      negb ((cmd =? MYSQL_REPLY_OK) || (cmd =? MYSQL_REPLY_ERR)
            || (cmd =? MYSQL_REPLY_LOCAL_INFILE) || (cmd =? MYSQL_REPLY_EOF))
  end.

Definition expecting_text_result (p : Proto) : bool :=
  let cmd := command (m_reply (m_tracker p)) in
  (cmd =? MXS_COM_QUERY) || (cmd =? MXS_COM_STMT_EXECUTE) || (cmd =? MXS_COM_STMT_FETCH).

Definition expecting_ps_response (p : Proto) : bool :=
  command (m_reply (m_tracker p)) =? MXS_COM_STMT_PREPARE.

(** The result of the first part of [normal_read]: it has either returned
    or has a buffer of complete packets to go on with. *)
Inductive Collected : Type :=
| Returned (rc : Z)
| Complete (read_buffer : list byte) (result_collected : bool).

Section Reading.
Variable X : Externals.
Variable srv : Server.

Definition complete_ps_response (buffer : list byte) : bool :=
  match mxs_mysql_extract_ps_response X buffer with
  | None => false
  | Some (columns, parameters) =>
      let expected_packets := 1 in
      let expected_packets :=
        if 0 <? columns then expected_packets + (columns + 1) else expected_packets in
      let expected_packets :=
        if 0 <? parameters then expected_packets + (parameters + 1)
        else expected_packets in
      modutil_count_packets X buffer =? expected_packets
  end.

(** [track_response] on a byte sequence: the tracker is advanced and the
    sequence is split after the complete packets. *)
Definition track_bytes (read_buffer : list byte) (p : Proto)
  : option (list byte) * option (list byte) * Proto :=
  let '(t, used) :=
    track_response (ps_width X) (coldef_width X) (buffer_of_list read_buffer)
      (m_tracker p) in
  (non_empty (take (Z.to_nat used) read_buffer),
   non_empty (drop (Z.to_nat used) read_buffer),
   set_m_tracker t p).

(** [send_mysql_native_password_response]: the new scramble is copied out
    of the AuthSwitchRequest and the hashed password is written with the
    next sequence number. *)
Definition send_mysql_native_password_response (reply : list byte) (p : Proto) (d : DCB)
  : bool * Proto * DCB :=
  let seqno := (byte_at reply 3 + 1) mod 256 in
  let offset := Z.to_nat (MYSQL_HEADER_LEN + 1 + (zlength DEFAULT_MYSQL_AUTH_PLUGIN + 1)) in
  let copied := take (length (m_scramble p)) (drop offset reply) in
  let scramble := copied ++ drop (length copied) (m_scramble p) in
  let p := set_m_scramble scramble p in
  let sha1_pw := cd_auth_token_phase2 (protocol_data (m_session p)) in
  let curr_passwd :=
    match sha1_pw with
    | [] => repeat Byte.x00 (Z.to_nat SHA_DIGEST_LENGTH)
    | _ => sha1_pw
    end in
  let buffer :=
    plain (set_byte3 MYSQL_SCRAMBLE_LEN ++ [byte_of_Z seqno]
           ++ mxs_mysql_calculate_hash X scramble curr_passwd) in
  let '(ok, d) := writeq_append buffer d in
  (ok, p, d).

Definition handle_auth_change_response (reply : list byte) (p : Proto) (d : DCB)
  : bool * Proto * DCB :=
  if bytes_eqb (strz (drop 5 reply)) DEFAULT_MYSQL_AUTH_PLUGIN
  then send_mysql_native_password_response reply p d
  else (false, p, d).

(** The part of [normal_read] up to the test of [m_changing_user]. *)
Definition collect_packets (inp : ReadInput) (read_buffer : list byte)
    (p : Proto) (d : DCB) : Collected * Proto * DCB :=
  let capabilities := service_capabilities (m_session p) in
  let rcap := rcap_type_required capabilities in
  if rcap (RCAP_TYPE_PACKET_OUTPUT X) || rcap (RCAP_TYPE_STMT_OUTPUT X)
     || rcap (RCAP_TYPE_CONTIGUOUS_OUTPUT X) || m_collect_result p
     || negb (m_ignore_replies p =? 0)
  then
    let '(tmp, rest, p) :=
      if rcap (RCAP_TYPE_REQUEST_TRACKING X) && negb (rcap (RCAP_TYPE_STMT_OUTPUT X))
         && (m_ignore_replies p =? 0)
      then track_bytes read_buffer p
      else
        let '(complete, rest) := modutil_get_complete_packets X read_buffer in
        (complete, rest, p) in
    let d :=
      match rest with
      | Some partial =>
          let d := with_readq (Some partial) d in
          if is_complete (m_reply (m_tracker p)) then trigger READ_EVENT d else d
      | None => d
      end in
    match tmp with
    | None => (Returned 0, p, d)
    | Some read_buffer =>
        if rcap (RCAP_TYPE_CONTIGUOUS_OUTPUT X) || m_collect_result p
           || negb (m_ignore_replies p =? 0)
        then
          if negb (contiguous_ok inp) then (Returned 0, p, trigger HANGUP_EVENT d)
          else if rcap (RCAP_TYPE_RESULTSET_OUTPUT X) || m_collect_result p then
            if rcap (RCAP_TYPE_REQUEST_TRACKING X)
               && negb (rcap (RCAP_TYPE_STMT_OUTPUT X))
            then
              let collected :=
                match m_collectq p with
                | None => read_buffer
                | Some q => q ++ read_buffer
                end in
              if negb (is_complete (m_reply (m_tracker p)))
              then (Returned 0, set_m_collectq (Some collected) p, d)
              else
                (Complete collected true,
                 set_m_collect_result false (set_m_collectq None p), d)
            else if expecting_text_result p then
              if mxs_mysql_is_result_set read_buffer then
                let '(eof_cnt, more) := modutil_count_signal_packets X read_buffer in
                if more || negb (Z.rem eof_cnt 2 =? 0) then
                  (Returned 0, p,
                   with_readq
                     (Some (read_buffer ++ match dcb_readq d with
                                           | Some q => q
                                           | None => []
                                           end)) d)
                else (Complete read_buffer true, set_m_collect_result false p, d)
              else (Complete read_buffer true, set_m_collect_result false p, d)
            else if expecting_ps_response p && mxs_mysql_is_prep_stmt_ok X read_buffer
                    && negb (complete_ps_response read_buffer)
            then
              (Returned 0, p,
               with_readq
                 (Some (read_buffer ++ match dcb_readq d with
                                       | Some q => q
                                       | None => []
                                       end)) d)
            else (Complete read_buffer true, set_m_collect_result false p, d)
          else (Complete read_buffer false, p, d)
        else (Complete read_buffer false, p, d)
    end
  else (Complete read_buffer false, p, d).

(** [while (read_buffer)]: skip to the last packet.  The loop ends when
    [modutil_get_next_MySQL_packet] leaves nothing behind; every round
    takes at least a header off a well-formed buffer. *)
Fixpoint last_packet (fuel : nat) (reply : option (list byte))
    (read_buffer : option (list byte)) : option (list byte) :=
  match fuel, read_buffer with
  | S fuel', Some rest =>
      let '(reply, read_buffer) := modutil_get_next_MySQL_packet X rest in
      last_packet fuel' reply read_buffer
  | _, _ => reply
  end.

(** The block of [normal_read] that swallows the reply to an ignorable
    command; entered when [m_ignore_replies > 0]. *)
Definition swallow_reply (read_buffer : list byte) (p : Proto) (d : DCB)
  : Z * Proto * DCB :=
  let query := m_stored_query p in
  let p := set_m_stored_query None p in
  let p := set_m_ignore_replies (m_ignore_replies p - 1) p in
  let '(reply, read_buffer) := modutil_get_next_MySQL_packet X read_buffer in
  match last_packet (length (match read_buffer with Some r => r | None => [] end))
          reply read_buffer with
  | None => (0, p, d)
  | Some reply =>
      let result := get_command reply in
      let rval := 0 in
      if result =? MYSQL_REPLY_OK then
        match query with
        | Some q => write X srv q p d
        | None => (1, p, d)
        end
      else if auth_change_requested reply then
        let '(ok, p, d) := handle_auth_change_response reply p d in
        if ok then
          let p := set_m_stored_query query p in
          let p := set_m_ignore_replies (i32 (m_ignore_replies p + 1)) p in
          (rval, p, d)
        else (rval, p, trigger HANGUP_EVENT d)
      else (rval, p, trigger HANGUP_EVENT d)
  end.

(** The body of the final [do ... while (read_buffer)] loop: one statement
    is cut off and handed upstream. *)
Definition route_one (inp : ReadInput) (result_collected : bool)
    (read_buffer : list byte) (return_code : Z) (p : Proto)
  : option (list byte) * Z * Proto :=
  let rcap := rcap_type_required (service_capabilities (m_session p)) in
  let '(stmt, read_buffer, p) :=
    if result_collected then
      if rcap (RCAP_TYPE_STMT_OUTPUT X) && rcap (RCAP_TYPE_REQUEST_TRACKING X)
      then let '(tmp, _, p) := track_bytes read_buffer p in (tmp, None, p)
      else (Some read_buffer, None, p)
    else if rcap (RCAP_TYPE_STMT_OUTPUT X) && negb (rcap (RCAP_TYPE_RESULTSET_OUTPUT X))
    then
      let '(stmt, rest) := modutil_get_next_MySQL_packet X read_buffer in
      if rcap (RCAP_TYPE_REQUEST_TRACKING X) then
        match stmt with
        | Some s => let '(tmp, _, p) := track_bytes s p in (tmp, rest, p)
        | None => (None, rest, p)
        end
      else (stmt, rest, p)
    else (Some read_buffer, None, p) in
  if route_ok inp then
    (read_buffer, client_reply_rc inp,
     set_upstream_calls
       (upstream_calls p ++ [clientReply (match stmt with Some s => s | None => [] end)]) p)
  else (read_buffer, return_code, p).

Fixpoint route_loop (fuel : nat) (inp : ReadInput) (result_collected : bool)
    (read_buffer : list byte) (return_code : Z) (p : Proto) : Z * Proto :=
  let '(rest, return_code, p) := route_one inp result_collected read_buffer return_code p in
  match fuel, rest with
  | S fuel', Some rest => route_loop fuel' inp result_collected rest return_code p
  | _, _ => (return_code, p)
  end.

(** [normal_read]. *)
Definition normal_read (inp : ReadInput) (p : Proto) (d : DCB) : Z * Proto * DCB :=
  if read_return_code inp <? 0 then
    (0, do_handle_error d "Read from backend failed" TRANSIENT p, d)
  else
    match read_data inp with
    | None | Some [] => (read_return_code inp, p, d)
    | Some read_buffer =>
        let d := with_readq None d in
        let '(c, p, d) := collect_packets inp read_buffer p d in
        match c with
        | Returned rc => (rc, p, d)
        | Complete read_buffer result_collected =>
            let '(answered, read_buffer, p, d) :=
              if Reply.m_changing_user (m_tracker p) then
                if auth_change_requested read_buffer then
                  let '(ok, p', d') := handle_auth_change_response read_buffer p d in
                  if ok then (true, read_buffer, p', d')
                  else
                    (false, poke 3 [Byte.x03] read_buffer,
                     update_tracker (set_changing_user false) p', d')
                else
                  (false, poke 3 [Byte.x03] read_buffer,
                   update_tracker (set_changing_user false) p, d)
              else (false, read_buffer, p, d) in
            if answered then (0, p, d)
            else if 0 <? m_ignore_replies p then swallow_reply read_buffer p d
            else
              let '(rc, p) :=
                route_loop (length read_buffer) inp result_collected read_buffer
                  (read_return_code inp) p in
              (rc, p, d)
        end
    end.

End Reading.

(** *** Connection initialisation queries *)

(** What one call of [read_protocol_packet] yields: a socket error, no
    complete packet yet, or one complete packet. *)
Inductive ProtocolRead : Type :=
| ReadFailed
| NoPacket
| Packet (data : list byte).

Definition set_ok_packets_received (v : Z) (p : Proto) : Proto :=
  set_m_init_query_status
    {| iq_state := iq_state (m_init_query_status p);
       ok_packets_expected := ok_packets_expected (m_init_query_status p);
       ok_packets_received := v |} p.

Definition wrong_packet_type (data : list byte) : string :=
  if zlength data =? MYSQL_HEADER_LEN then "an empty packet"%string
  else
    let cmd := get_command data in
    if cmd =? MYSQL_REPLY_ERR then "an error packet"%string
    else if negb (cmd =? MYSQL_REPLY_OK) then "a resultset packet"%string
    else EmptyString.

Definition init_query_errmsg (errored_query wrong : string) : string :=
  String.append "Connection initialization query '"
    (String.append errored_query
       (String.append "' returned " (String.append wrong "."))).

(** The end of the RECEIVING case, after the loop. *)
Definition receiving_result (rval : StateMachineRes) (p : Proto) : StateMachineRes :=
  if ok_packets_received (m_init_query_status p)
     =? ok_packets_expected (m_init_query_status p)
  then SM_DONE else rval.

(** The [while] loop of the RECEIVING case.  Each round makes one call of
    [read_protocol_packet]; [reads] lists what the successive calls yield.
    The result is [None] when the loop is still running after the last
    listed read. *)
Fixpoint receiving_loop (d : DCB) (reads : list ProtocolRead)
    (rval : StateMachineRes) (p : Proto) : option (StateMachineRes * Proto * list ProtocolRead) :=
  if ok_packets_received (m_init_query_status p)
     <? ok_packets_expected (m_init_query_status p)
  then
    match reads with
    | [] => None
    | ReadFailed :: reads' =>
        receiving_loop d reads' rval (do_handle_error d "Socket error" TRANSIENT p)
    | NoPacket :: reads' =>
        receiving_loop d reads' IN_PROGRESS p
    | Packet data :: reads' =>
        let wrong := wrong_packet_type data in
        if String.eqb wrong EmptyString
        then
          receiving_loop d reads' rval
            (set_ok_packets_received (ok_packets_received (m_init_query_status p) + 1) p)
        else
          let init_queries := queries (connection_init_sql (m_session p)) in
          let errored_query :=
            nth (Z.to_nat (ok_packets_received (m_init_query_status p))) init_queries
              EmptyString in
          let p := do_handle_error d (init_query_errmsg errored_query wrong) PERMANENT p in
          Some (receiving_result rval p, p, reads')
    end
  else Some (receiving_result rval p, p, reads).

(** [send_connection_init_queries]. *)
Definition send_connection_init_queries (reads : list ProtocolRead) (p : Proto) (d : DCB)
  : option (StateMachineRes * Proto * DCB * list ProtocolRead) :=
  match iq_state (m_init_query_status p) with
  | SENDING =>
      let init_query_data := connection_init_sql (m_session p) in
      let query_contents := buffer_contents init_query_data in
      match query_contents with
      | [] => Some (SM_DONE, p, d, reads)
      | _ =>
          let '(_, d) := writeq_append (plain query_contents) d in
          let p :=
            set_m_init_query_status
              {| iq_state := RECEIVING;
                 ok_packets_expected := zlength (queries init_query_data);
                 ok_packets_received := 0 |} p in
          Some (IN_PROGRESS, p, d, reads)
      end
  | RECEIVING =>
      match receiving_loop d reads SM_ERROR p with
      | Some (rval, p, reads) => Some (rval, p, d, reads)
      | None => None
      end
  end.

(** The CONNECTION_INIT case of [ready_for_reading]: one call of
    [send_connection_init_queries] and the transition it causes. *)
Definition connection_init_step (reads : list ProtocolRead) (p : Proto) (d : DCB)
  : option (Proto * DCB * list ProtocolRead) :=
  match send_connection_init_queries reads p d with
  | Some (IN_PROGRESS, p, d, reads) => Some (p, d, reads)
  | Some (SM_DONE, p, d, reads) => Some (set_m_state SEND_DELAYQ p, d, reads)
  | Some (SM_ERROR, p, d, reads) => Some (set_m_state FAILED p, d, reads)
  | None => None
  end.

(** *** The entry points that touch [m_ignore_replies] *)

(** One call into the protocol from outside. *)
Inductive Event : Type :=
| EvWrite (srv : Server) (queue : GWBUF)
| EvPing (srv : Server)
| EvRead (srv : Server) (inp : ReadInput)
| EvReuse (sessions : nat -> Session) (upstream : nat).

Definition step (X : Externals) (ev : Event) (p : Proto) (d : DCB) : Proto * DCB :=
  match ev with
  | EvWrite srv queue => let '(_, p, d) := write X srv queue p d in (p, d)
  | EvPing srv => ping X srv p d
  | EvRead srv inp => let '(_, p, d) := normal_read X srv inp p d in (p, d)
  | EvReuse sessions upstream =>
      let '(_, p, d) := reuse_connection X sessions upstream p d in (p, d)
  end.

(** The event hands a packet whose reply is to be swallowed to the DCB: an
    ignorable packet, or the ping, given to [writeq_append] in the ROUTING
    state (what the event does to the DCB is that one call, which queues
    the packet when the DCB accepts it), or the COM_CHANGE_USER that a
    successful [reuse_connection] has queued. *)
Definition hands_synthetic (X : Externals) (ev : Event) (p : Proto) (d : DCB) : Prop :=
  match ev with
  | EvWrite srv queue =>
      gw_ignorable queue = true /\ m_state p = ROUTING
      /\ snd (step X ev p d) = snd (writeq_append queue d)
  | EvPing srv =>
      gw_ignorable modutil_create_ignorable_ping = true /\ m_state p = ROUTING
      /\ snd (step X ev p d) = snd (writeq_append modutil_create_ignorable_ping d)
  | EvRead srv inp => False
  | EvReuse sessions upstream =>
      exists sid,
        dcb_session d = Some sid
        /\ dcb_writeq (snd (step X ev p d))
           = dcb_writeq d
             ++ [create_change_user_packet X
                   (set_m_stored_query None
                      (set_m_ignore_replies 0
                         (assign_session (sessions sid) upstream p)))]
  end.

Definition is_read (ev : Event) : bool :=
  match ev with EvRead _ _ => true | _ => false end.

(** *** Concrete values to run the definitions on *)

(** Stand-ins for the external helpers: packets are cut after the length
    their header gives, hashes are the identity. *)
Definition next_packet (data : list byte) : option (list byte) * option (list byte) :=
  let n := Z.to_nat (MYSQL_HEADER_LEN + get_payload_len data) in
  if (length data <? 4)%nat || (length data <? n)%nat then (None, Some data)
  else (non_empty (take n data), non_empty (drop n data)).

Definition test_externals : Externals :=
  {| hex2bin := fun l => l;
     gw_sha1_2_str := fun a b => a;
     mxs_mysql_calculate_hash := fun a b => a;
     modutil_get_complete_packets := fun l => (Some l, None);
     modutil_get_next_MySQL_packet := next_packet;
     modutil_count_signal_packets := fun _ => (0, false);
     mxs_mysql_is_prep_stmt_ok := fun _ => false;
     mxs_mysql_extract_ps_response := fun _ => None;
     modutil_count_packets := fun _ => 1;
     RCAP_TYPE_PACKET_OUTPUT := 1;
     RCAP_TYPE_STMT_OUTPUT := 3;
     RCAP_TYPE_CONTIGUOUS_OUTPUT := 7;
     RCAP_TYPE_REQUEST_TRACKING := 8;
     RCAP_TYPE_RESULTSET_OUTPUT := 16;
     ps_width := 32;
     coldef_width := 64 |}.

Definition test_client : ClientData :=
  {| cd_user := [Byte.x62; Byte.x6f; Byte.x62]; cd_db := []; cd_plugin := [];
     cd_connect_attrs := []; cd_charset := 33; cd_auth_token_phase2 := [];
     cd_password := [] |}.

Definition test_session (init : ConnectionInitSql) : Session :=
  {| session_id := 1; protocol_data := test_client; service_capabilities := 0;
     connection_init_sql := init; session_stopping := false |}.

Definition idle_tracker : Tracker :=
  {| m_reply := cleared_reply 0; m_skip_next := false; m_num_coldefs := 0;
     m_ps_packets := 0; m_opening_cursor := false; Reply.m_changing_user := false;
     m_large_query := false; load_active := false;
     session_track_required := false |}.

(** A connection that has finished authentication and is routing. *)
Definition routing_proto (init : ConnectionInitSql) (st : State) : Proto :=
  {| m_state := st; m_tracker := idle_tracker; m_ignore_replies := 0;
     m_stored_query := None; m_delayed_packets := None; m_collect_result := false;
     m_track_state := false; m_collectq := None; m_scramble := repeat Byte.x2a 20;
     m_session := test_session init; m_upstream := 0;
     m_init_query_status :=
       {| iq_state := SENDING; ok_packets_expected := 0; ok_packets_received := 0 |};
     upstream_calls := [] |}.

Definition no_init_sql : ConnectionInitSql := {| queries := []; buffer_contents := [] |}.

Definition polling_dcb (writable : bool) : DCB :=
  {| dcb_state := POLLING; dcb_writable := writable; dcb_writeq := [];
     dcb_readq := None; dcb_fake_events := []; dcb_hanged_up := false;
     dcb_session := Some 1%nat; dcb_server := 0%nat; dcb_handler := PROTOCOL_HANDLER;
     dcb_events_enabled := true; dcb_was_shutdown := false; dcb_open := true;
     dcb_sockerrno := 0; dcb_strerror := EmptyString; dcb_is_fake_event := false |}.

Definition pooling_server (pool_max : Z) : Server :=
  {| persistpoolmax := pool_max; persistmaxtime := 3600; status := 1;
     n_persistent := 0; persistmax := 0; n_from_pool := 0 |}.

(** A COM_CHANGE_USER packet as a client sends it (user bob). *)
Definition client_change_user : GWBUF :=
  plain [Byte.x05; Byte.x00; Byte.x00; Byte.x00; Byte.x11; Byte.x62; Byte.x6f;
         Byte.x62; Byte.x00].

(** One init query, SET NAMES utf8, as a COM_QUERY packet. *)
Definition one_init_query : ConnectionInitSql :=
  {| queries := ["SET NAMES utf8"%string];
     buffer_contents :=
       [Byte.x0f; Byte.x00; Byte.x00; Byte.x00; Byte.x03; Byte.x53; Byte.x45;
        Byte.x54; Byte.x20; Byte.x4e; Byte.x41; Byte.x4d; Byte.x45; Byte.x53;
        Byte.x20; Byte.x75; Byte.x74; Byte.x66; Byte.x38] |}.

(** An ERR packet: code 1064, state 42000, message no. *)
Definition err_packet : list byte :=
  [Byte.x0b; Byte.x00; Byte.x00; Byte.x01; Byte.xff; Byte.x28; Byte.x04; Byte.x23;
   Byte.x34; Byte.x32; Byte.x30; Byte.x30; Byte.x30; Byte.x6e; Byte.x6f].

Definition ok_packet : list byte :=
  [Byte.x07; Byte.x00; Byte.x00; Byte.x01; Byte.x00; Byte.x00; Byte.x00; Byte.x02;
   Byte.x00; Byte.x00; Byte.x00].

End Backend.

(* ===================================================================== *)
(** ** The persistent connection pool (routingworker.cc)                  *)
(* ===================================================================== *)

Module Worker.
Import Bytes Dcb Server Backend.

(** [RoutingWorker::PersistentEntry]. *)
Record PersistentEntry : Type := mkEntry {
  m_created : Z;      (* time_t *)
  m_pDcb : nat
}.

(** A backend DCB with its protocol object. *)
Record Conn : Type := mkConn {
  conn_dcb : DCB;
  conn_proto : Proto
}.

Definition update_dcb (f : DCB -> DCB) (c : Conn) : Conn :=
  {| conn_dcb := f (conn_dcb c); conn_proto := conn_proto c |}.

Record RoutingWorker : Type := mkWorker {
  m_evicting : bool;
  m_dcbs : gset nat;   (* the DCBs in the regular book-keeping *)
  m_persistent_entries_by_server : nat -> list PersistentEntry;
  m_zombies : list nat;
  conns : nat -> Conn;   (* the DCB objects, by address *)
  servers : nat -> Server;
  close_log : list (nat * bool)   (* each DCB::close: the DCB, and whether it was in m_dcbs *)
}.

Definition set_m_evicting (v : bool) (w : RoutingWorker) : RoutingWorker :=
  {| m_evicting := v;
     m_dcbs := m_dcbs w;
     m_persistent_entries_by_server := m_persistent_entries_by_server w;
     m_zombies := m_zombies w;
     conns := conns w;
     servers := servers w;
     close_log := close_log w |}.

Definition set_m_dcbs (v : gset nat) (w : RoutingWorker) : RoutingWorker :=
  {| m_evicting := m_evicting w;
     m_dcbs := v;
     m_persistent_entries_by_server := m_persistent_entries_by_server w;
     m_zombies := m_zombies w;
     conns := conns w;
     servers := servers w;
     close_log := close_log w |}.

Definition set_m_persistent_entries_by_server (v : nat -> list PersistentEntry) (w : RoutingWorker) : RoutingWorker :=
  {| m_evicting := m_evicting w;
     m_dcbs := m_dcbs w;
     m_persistent_entries_by_server := v;
     m_zombies := m_zombies w;
     conns := conns w;
     servers := servers w;
     close_log := close_log w |}.

Definition set_m_zombies (v : list nat) (w : RoutingWorker) : RoutingWorker :=
  {| m_evicting := m_evicting w;
     m_dcbs := m_dcbs w;
     m_persistent_entries_by_server := m_persistent_entries_by_server w;
     m_zombies := v;
     conns := conns w;
     servers := servers w;
     close_log := close_log w |}.

Definition set_conns (v : nat -> Conn) (w : RoutingWorker) : RoutingWorker :=
  {| m_evicting := m_evicting w;
     m_dcbs := m_dcbs w;
     m_persistent_entries_by_server := m_persistent_entries_by_server w;
     m_zombies := m_zombies w;
     conns := v;
     servers := servers w;
     close_log := close_log w |}.

Definition set_servers (v : nat -> Server) (w : RoutingWorker) : RoutingWorker :=
  {| m_evicting := m_evicting w;
     m_dcbs := m_dcbs w;
     m_persistent_entries_by_server := m_persistent_entries_by_server w;
     m_zombies := m_zombies w;
     conns := conns w;
     servers := v;
     close_log := close_log w |}.

Definition set_close_log (v : list (nat * bool)) (w : RoutingWorker) : RoutingWorker :=
  {| m_evicting := m_evicting w;
     m_dcbs := m_dcbs w;
     m_persistent_entries_by_server := m_persistent_entries_by_server w;
     m_zombies := m_zombies w;
     conns := conns w;
     servers := servers w;
     close_log := v |}.
(** What the worker takes from outside: the clock, the sessions, and the
    two definitions of maxscale/server.hh (which is not among the sources
    at hand) that the pool uses. *)
Record Env : Type := mkEnv {
  now : Z;
  sessions : nat -> Session;
  session_valid_for_pool : nat -> bool;
  SERVER_RUNNING : Z;
  is_running : Server -> bool
}.

Inductive Evict : Type := EXPIRED | ALL.

Definition is_all (e : Evict) : bool := match e with ALL => true | EXPIRED => false end.

Definition pool (w : RoutingWorker) (server : nat) : list PersistentEntry :=
  m_persistent_entries_by_server w server.

Definition set_pool (server : nat) (entries : list PersistentEntry) (w : RoutingWorker)
  : RoutingWorker :=
  set_m_persistent_entries_by_server
    (<[server := entries]> (m_persistent_entries_by_server w)) w.

Definition update_conn (pDcb : nat) (f : Conn -> Conn) (w : RoutingWorker) : RoutingWorker :=
  set_conns (<[pDcb := f (conns w pDcb)]> (conns w)) w.

Definition update_server (server : nat) (f : Server -> Server) (w : RoutingWorker)
  : RoutingWorker :=
  set_servers (<[server := f (servers w server)]> (servers w)) w.

(** [RoutingWorker::add], [remove] and [destroy]. *)
Definition add (pDcb : nat) (w : RoutingWorker) : RoutingWorker :=
  set_m_dcbs ({[pDcb]} ∪ m_dcbs w) w.

Definition remove (pDcb : nat) (w : RoutingWorker) : RoutingWorker :=
  set_m_dcbs (m_dcbs w ∖ {[pDcb]}) w.

Definition destroy (pDcb : nat) (w : RoutingWorker) : RoutingWorker :=
  set_m_zombies (m_zombies w ++ [pDcb]) w.

(** Modelled from the spec: [DCB::close] is defined in dcb.cc, which is not
    among the sources at hand.  Closing a backend connection asks the
    worker whether it can be destroyed, which is where it may be returned
    to the pool instead; a connection that can be destroyed is queued as a
    zombie.  This is the case in which the worker is evicting: as the
    comment in [close_pooled_dcb] says, [can_be_destroyed] then answers yes
    without considering the pool.  The log entry records whether the DCB
    was in the regular book-keeping when it was closed. *)
Definition close_while_evicting (pDcb : nat) (w : RoutingWorker) : RoutingWorker :=
  let w := set_close_log (close_log w ++ [(pDcb, bool_decide (pDcb ∈ m_dcbs w))]) w in
  let w := update_conn pDcb (update_dcb mark_closed) w in
  destroy pDcb w.

Definition shutdown_if_polling (pDcb : nat) (w : RoutingWorker) : RoutingWorker :=
  if is_polling (dcb_state (conn_dcb (conns w pDcb)))
  then update_conn pDcb (update_dcb disable_events_and_shutdown) w
  else w.

(** [close_pooled_dcb]. *)
Definition close_pooled_dcb (pDcb : nat) (w : RoutingWorker) : RoutingWorker :=
  let w := add pDcb w in
  let w := shutdown_if_polling pDcb w in
  close_while_evicting pDcb w.

(** The [while] loop of [evict_dcbs (SERVER*, Evict)]: the entries that
    stay, the DCBs to be evicted, and the count.  [count] is an [int]; it
    is bounded by the length of the list. *)
Fixpoint sweep (env : Env) (w : RoutingWorker) (srv : Server) (all : bool)
    (entries : list PersistentEntry) (count : Z)
  : list PersistentEntry * list nat * Z :=
  match entries with
  | [] => ([], [], count)
  | entry :: rest =>
      let hanged_up := dcb_hanged_up (conn_dcb (conns w (m_pDcb entry))) in
      let expired := all || (persistmaxtime srv <? now env - m_created entry) in
      let too_many := persistpoolmax srv <? count in
      if hanged_up || expired || too_many then
        let '(kept, evicted, count) := sweep env w srv all rest count in
        (kept, m_pDcb entry :: evicted, count)
      else
        let '(kept, evicted, count) := sweep env w srv all rest (count + 1) in
        (entry :: kept, evicted, count)
  end.

(** [evict_dcbs (SERVER*, Evict)]. *)
Definition evict_dcbs (env : Env) (server : nat) (evict : Evict) (w : RoutingWorker)
  : Z * RoutingWorker :=
  let w := set_m_evicting true w in
  let srv := servers w server in
  let all := (Z.land (status srv) (SERVER_RUNNING env) =? 0) || is_all evict in
  let '(kept, to_be_evicted, count) := sweep env w srv all (pool w server) 0 in
  let w := set_pool server kept w in
  let w :=
    update_server server
      (fun s => with_n_persistent (n_persistent s - zlength to_be_evicted) s) w in
  let w :=
    update_server server (fun s => with_persistmax (Z.max (persistmax s) count) s) w in
  let w := fold_left (fun w pDcb => close_pooled_dcb pDcb w) to_be_evicted w in
  (count, set_m_evicting false w).

(** [std::find_if] and [erase] in [evict_dcb]. *)
Fixpoint erase_first (pDcb : nat) (entries : list PersistentEntry) : list PersistentEntry :=
  match entries with
  | [] => []
  | entry :: rest =>
      if Nat.eqb (m_pDcb entry) pDcb then rest else entry :: erase_first pDcb rest
  end.

(** [evict_dcb]: any activity on a pooled DCB ends here, through the pool's
    handler. *)
Definition evict_dcb (pDcb : nat) (w : RoutingWorker) : RoutingWorker :=
  let w := set_m_evicting true w in
  let server := dcb_server (conn_dcb (conns w pDcb)) in
  let w := set_pool server (erase_first pDcb (pool w server)) w in
  let w := close_pooled_dcb pDcb w in
  set_m_evicting false w.

(** Modelled from the spec: [DCB::clear] (dcb.cc) detaches the DCB from the
    session that is ending and drops what was read for it. *)
Definition clear (d : DCB) : DCB := with_readq None (with_session None d).

(** [can_be_destroyed].  [persistpoolmax ()] is a [long] and is assigned to
    an [int]; [mxb::atomic::add_limited] adds when the sum stays within the
    limit. *)
Definition can_be_destroyed (env : Env) (pDcb : nat) (w : RoutingWorker)
  : bool * RoutingWorker :=
  if m_evicting w then (true, w)
  else
    let c := conns w pDcb in
    let server := dcb_server (conn_dcb c) in
    let pServer := servers w server in
    let persistpoolmax := i32 (persistpoolmax pServer) in
    if is_polling (dcb_state (conn_dcb c))
       && established (conn_proto c)
       && match dcb_session (conn_dcb c) with
          | Some session => session_valid_for_pool env session
          | None => false
          end
       && (0 <? persistpoolmax)
       && is_running env pServer
       && negb (dcb_hanged_up (conn_dcb c))
    then
      let '(count, w) := evict_dcbs env server EXPIRED w in
      if count <? persistpoolmax then
        if n_persistent (servers w server) + 1 <=? persistpoolmax then
          let w := update_server server (fun s => with_n_persistent (n_persistent s + 1) s) w in
          let w := update_conn pDcb (update_dcb clear) w in
          let w := update_conn pDcb (update_dcb (set_handler POOL_HANDLER)) w in
          let w :=
            set_pool server
              (pool w server ++ [{| m_created := now env; m_pDcb := pDcb |}]) w in
          let w := remove pDcb w in
          (false, w)
        else (true, w)
      else (true, w)
    else (true, w).

(** Modelled from the spec: [DCB::close] on a connection of a session that
    is ending: the connection is either parked in the pool or queued for
    destruction. *)
Definition DCB_close (env : Env) (pDcb : nat) (w : RoutingWorker) : RoutingWorker :=
  let '(rv, w) := can_be_destroyed env pDcb w in
  if rv then close_while_evicting pDcb w else w.

Section WithExternals.
Variable X : Externals.

(** The [while] loop of [get_backend_dcb_from_pool].
    [link_backend_connection] (session.cc, not among the sources) makes the
    session the DCB's session. *)
Fixpoint take_loop (env : Env) (server session upstream : nat)
    (entries : list PersistentEntry) (w : RoutingWorker) : option nat * RoutingWorker :=
  match entries with
  | [] => (None, w)
  | entry :: rest =>
      let pDcb := m_pDcb entry in
      let w := set_pool server rest w in
      let w := update_server server (fun s => with_n_persistent (n_persistent s - 1) s) w in
      let w := update_conn pDcb (update_dcb (set_handler PROTOCOL_HANDLER)) w in
      let w := update_conn pDcb (update_dcb (with_session (Some session))) w in
      let c := conns w pDcb in
      let '(ok, p, d) :=
        reuse_connection X (sessions env) upstream (conn_proto c) (conn_dcb c) in
      let w := update_conn pDcb (fun _ => {| conn_dcb := d; conn_proto := p |}) w in
      if ok then
        (Some pDcb,
         update_server server (fun s => with_n_from_pool (n_from_pool s + 1) s) w)
      else
        let w := set_m_evicting true w in
        let w := shutdown_if_polling pDcb w in
        let w := close_while_evicting pDcb w in
        let w := set_m_evicting false w in
        take_loop env server session upstream rest w
  end.

(** [get_backend_dcb_from_pool]. *)
Definition get_backend_dcb_from_pool (env : Env) (server session upstream : nat)
    (w : RoutingWorker) : option nat * RoutingWorker :=
  let '(_, w) := evict_dcbs env server EXPIRED w in
  let '(pDcb, w) := take_loop env server session upstream (pool w server) w in
  match pDcb with
  | Some d => (Some d, add d w)
  | None => (None, w)
  end.

(** What can happen to a worker between two observations.  Connections in
    the regular book-keeping belong to sessions, which may do anything to
    them; a pooled connection is only reached through the pool. *)
Inductive step (w : RoutingWorker) : RoutingWorker -> Prop :=
| step_add (pDcb : nat) (c : Conn) :
    pDcb ∉ m_dcbs w ->
    (forall server entry, entry ∈ pool w server -> m_pDcb entry <> pDcb) ->
    step w (add pDcb (update_conn pDcb (fun _ => c) w))
| step_remove (pDcb : nat) :
    pDcb ∈ m_dcbs w ->
    step w (remove pDcb w)
| step_activity (pDcb : nat) (c : Conn) :
    pDcb ∈ m_dcbs w ->
    step w (update_conn pDcb (fun _ => c) w)
| step_close (env : Env) (pDcb : nat) :
    pDcb ∈ m_dcbs w ->
    step w (DCB_close env pDcb w)
| step_take (env : Env) (server session upstream : nat) :
    step w (snd (get_backend_dcb_from_pool env server session upstream w))
| step_evict_dcbs (env : Env) (server : nat) (evict : Evict) :
    step w (snd (evict_dcbs env server evict w))
| step_evict_dcb (server : nat) (entry : PersistentEntry) :
    entry ∈ pool w server ->
    step w (evict_dcb (m_pDcb entry) w)
| step_server (server : nat) (s : Server) :
    step w (update_server server (fun _ => s) w).

Definition initial (w : RoutingWorker) : Prop :=
  m_evicting w = false /\ m_dcbs w = ∅ /\ (forall server, pool w server = []).

Inductive reachable : RoutingWorker -> Prop :=
| reachable_initial (w : RoutingWorker) : initial w -> reachable w
| reachable_step (w w' : RoutingWorker) : reachable w -> step w w' -> reachable w'.

End WithExternals.

(** The pool's invariant: pooled connections are not in the regular
    book-keeping, each is pooled once and under its own server, and each
    was established when it was parked. *)
Record pool_invariant (w : RoutingWorker) : Prop := mkInv {
  inv_not_evicting : m_evicting w = false;
  inv_disjoint :
    forall server entry, entry ∈ pool w server -> m_pDcb entry ∉ m_dcbs w;
  inv_server :
    forall server entry,
      entry ∈ pool w server -> dcb_server (conn_dcb (conns w (m_pDcb entry))) = server;
  inv_nodup : forall server, NoDup (m_pDcb <$> pool w server);
  inv_established :
    forall server entry,
      entry ∈ pool w server -> established (conn_proto (conns w (m_pDcb entry))) = true
}.

(** *** A worker to run the definitions on *)

Definition test_env : Env :=
  {| now := 1000; sessions := fun _ => test_session no_init_sql;
     session_valid_for_pool := fun _ => true; SERVER_RUNNING := 1;
     is_running := fun s => Z.land (status s) 3 =? 1 |}.

Definition routing_conn : Conn :=
  {| conn_dcb := polling_dcb true; conn_proto := routing_proto no_init_sql ROUTING |}.

(** One server (number 0, pool of at most two), one routing connection
    (DCB 7) in the regular book-keeping. *)
Definition test_worker : RoutingWorker :=
  {| m_evicting := false; m_dcbs := {[7%nat]};
     m_persistent_entries_by_server := fun _ => [];
     m_zombies := []; conns := fun _ => routing_conn;
     servers := fun _ => pooling_server 2; close_log := [] |}.

(** A worker that has not opened a connection yet, and the same worker
    after it has opened DCB 7 and the session that used it has ended. *)
Definition empty_worker : RoutingWorker :=
  {| m_evicting := false; m_dcbs := ∅;
     m_persistent_entries_by_server := fun _ => [];
     m_zombies := []; conns := fun _ => routing_conn;
     servers := fun _ => pooling_server 2; close_log := [] |}.

Definition parked_worker : RoutingWorker :=
  DCB_close test_env 7 (add 7 (update_conn 7 (fun _ => routing_conn) empty_worker)).

(** The same for a connection whose DCB accepts no further writes. *)
Definition refusing_conn : Conn :=
  {| conn_dcb := polling_dcb false; conn_proto := routing_proto no_init_sql ROUTING |}.

Definition refusing_worker : RoutingWorker :=
  DCB_close test_env 7 (add 7 (update_conn 7 (fun _ => refusing_conn) empty_worker)).


End Worker.

(* ===================================================================== *)
(** ** Packet framing and inputs to run the definitions on               *)
(* ===================================================================== *)

Module Framing.
Import Bytes Wire Reply.

(** The offsets of a buffer at which a packet starts, going from the
    start of the buffer over packets that are completely in it. *)
Inductive packet_boundary (b : Buffer) : Z -> Prop :=
| boundary_start : packet_boundary b 0
| boundary_next (pos : Z) :
    packet_boundary b pos ->
    pos + (packet_length b pos + MYSQL_HEADER_LEN) <= buf_len b ->
    packet_boundary b (pos + (packet_length b pos + MYSQL_HEADER_LEN)).

(** A tracker on which a COM_QUERY has just been written. *)
Definition querying : Tracker :=
  {| m_reply :=
       {| command := MXS_COM_QUERY; state := START; rows_read := 0;
          field_counts := []; num_warnings := 0; generated_id := 0;
          param_count := 0; is_ok := false; error := None; variables := [];
          size := 0 |};
     m_skip_next := false; m_num_coldefs := 0; m_ps_packets := 0;
     m_opening_cursor := false; m_changing_user := false; m_large_query := false;
     load_active := false; session_track_required := false |}.

(** The payloads of a result set with one column and two rows. *)
Definition small_resultset_payloads : list (list byte) :=
  [ [Byte.x01];
    [Byte.x03; Byte.x64; Byte.x65; Byte.x66];
    [Byte.xfe; Byte.x00; Byte.x00; Byte.x02; Byte.x00];
    [Byte.x01; Byte.x31];
    [Byte.x01; Byte.x32];
    [Byte.xfe; Byte.x00; Byte.x00; Byte.x02; Byte.x00] ].

Definition small_resultset (j : nat) : Buffer * Iter * Z :=
  let payload := nth j small_resultset_payloads [] in
  (buffer_of_list payload, 0, zlength payload).

(** The same result set as the bytes the server sends, with the first
    three bytes of a seventh packet. *)
Definition small_resultset_bytes : list byte :=
  [Byte.x01; Byte.x00; Byte.x00; Byte.x01; Byte.x01;
   Byte.x04; Byte.x00; Byte.x00; Byte.x02; Byte.x03; Byte.x64; Byte.x65; Byte.x66;
   Byte.x05; Byte.x00; Byte.x00; Byte.x03; Byte.xfe; Byte.x00; Byte.x00; Byte.x02; Byte.x00;
   Byte.x02; Byte.x00; Byte.x00; Byte.x04; Byte.x01; Byte.x31;
   Byte.x02; Byte.x00; Byte.x00; Byte.x05; Byte.x01; Byte.x32;
   Byte.x05; Byte.x00; Byte.x00; Byte.x06; Byte.xfe; Byte.x00; Byte.x00; Byte.x02; Byte.x00;
   Byte.x07; Byte.x00; Byte.x00].

(** A tracker on which a COM_BINLOG_DUMP has just been written. *)
Definition dumping : Tracker :=
  {| m_reply :=
       {| command := MXS_COM_BINLOG_DUMP; state := START; rows_read := 0;
          field_counts := []; num_warnings := 0; generated_id := 0;
          param_count := 0; is_ok := false; error := None; variables := [];
          size := 0 |};
     m_skip_next := false; m_num_coldefs := 0; m_ps_packets := 0;
     m_opening_cursor := false; m_changing_user := false; m_large_query := false;
     load_active := false; session_track_required := false |}.

(** An ERR packet's payload: code 1064, state 42000, message no. *)
Definition err_payload : list byte :=
  [Byte.xff; Byte.x28; Byte.x04; Byte.x23; Byte.x34; Byte.x32; Byte.x30; Byte.x30;
   Byte.x30; Byte.x6e; Byte.x6f].

End Framing.


Module Inputs.
Import Bytes Wire Dcb Server Reply Backend.

(** A COM_QUERY of maximal packet length (only its header and command byte
    are given), a packet that continues it and the packet that ends it. *)
Definition long_query_first : list byte :=
  [Byte.xff; Byte.xff; Byte.xff; Byte.x00; Byte.x03].
Definition long_query_cont : list byte :=
  [Byte.xff; Byte.xff; Byte.xff; Byte.x01; Byte.x41].
Definition long_query_last : list byte :=
  [Byte.x02; Byte.x00; Byte.x00; Byte.x02; Byte.x41; Byte.x42].

(** The server's request for a local file, a packet of the file and the
    empty packet that ends it. *)
Definition infile_request : list byte := [Byte.xfb; Byte.x61].
Definition infile_chunk : list byte :=
  [Byte.x03; Byte.x00; Byte.x00; Byte.x02; Byte.x61; Byte.x62; Byte.x63].
Definition infile_end : list byte := [Byte.x00; Byte.x00; Byte.x00; Byte.x03].

(** SELECT 1 as a COM_QUERY packet. *)
Definition select_1 : GWBUF :=
  plain [Byte.x09; Byte.x00; Byte.x00; Byte.x00; Byte.x03; Byte.x53; Byte.x45;
         Byte.x4c; Byte.x45; Byte.x43; Byte.x54; Byte.x20; Byte.x31].

(** A connection that has just been reused: the reply to its
    COM_CHANGE_USER is to be ignored. *)
Definition reused_proto : Proto :=
  set_m_ignore_replies 1 (routing_proto no_init_sql ROUTING).

(** A polling DCB whose socket has the pending error 104, and one that is
    handling a generated event. *)
Definition reset_dcb : DCB :=
  {| dcb_state := POLLING; dcb_writable := true; dcb_writeq := [];
     dcb_readq := None; dcb_fake_events := []; dcb_hanged_up := false;
     dcb_session := Some 1%nat; dcb_server := 0%nat; dcb_handler := PROTOCOL_HANDLER;
     dcb_events_enabled := true; dcb_was_shutdown := false; dcb_open := true;
     dcb_sockerrno := 104; dcb_strerror := "Connection reset by peer";
     dcb_is_fake_event := false |}.

Definition fake_event_dcb : DCB :=
  {| dcb_state := POLLING; dcb_writable := true; dcb_writeq := [];
     dcb_readq := None; dcb_fake_events := []; dcb_hanged_up := false;
     dcb_session := Some 1%nat; dcb_server := 0%nat; dcb_handler := PROTOCOL_HANDLER;
     dcb_events_enabled := true; dcb_was_shutdown := false; dcb_open := true;
     dcb_sockerrno := 0; dcb_strerror := EmptyString;
     dcb_is_fake_event := true |}.

(** A read that yields the server's OK packet. *)
Definition ok_read : ReadInput :=
  {| read_return_code := 1; read_data := Some ok_packet; contiguous_ok := true;
     route_ok := true; client_reply_rc := 1 |}.

End Inputs.


(* ===================================================================== *)
(** ** Sessions used to run the handshake response                        *)
(* ===================================================================== *)

Module Sessions.
Import Bytes Capabilities.

(** The client bob with default database db, no password, one connect
    attribute and the character set utf8. *)
Definition bob : MYSQL_session :=
  {| user := [Byte.x62; Byte.x6f; Byte.x62]; db := [Byte.x64; Byte.x62];
     plugin := []; auth_token_phase2 := [];
     connect_attrs := [Byte.x03; Byte.x61; Byte.x3d; Byte.x62];
     client_capabilities := 2 ^ 20 + 2 ^ 11 + 2 ^ 9 + 8;
     extra_capabilitites := 0; m_charset := 33 |}.

(** mysql_native_password *)
Definition native_password : list byte :=
  [Byte.x6d; Byte.x79; Byte.x73; Byte.x71; Byte.x6c; Byte.x5f; Byte.x6e; Byte.x61;
   Byte.x74; Byte.x69; Byte.x76; Byte.x65; Byte.x5f; Byte.x70; Byte.x61; Byte.x73;
   Byte.x73; Byte.x77; Byte.x6f; Byte.x72; Byte.x64].

(** The response for [cd] under the protocol's constants. *)
Definition response_mysql (cd : MYSQL_session) (with_ssl ssl_established : bool) :
    list byte :=
  gw_generate_auth_response CLIENT_MASK_MYSQL (2 ^ 11) (2 ^ 23) (2 ^ 16) 8 (2 ^ 19)
    (2 ^ 20) 64 response_length_mysql (fun _ pw => pw) native_password
    cd [] (2 ^ 20) with_ssl ssl_established 64.

End Sessions.

(* ===================================================================== *)
(** ** The pools of all servers (routingworker.cc)                        *)
(* ===================================================================== *)

Module Pools.
Import Bytes Dcb Server Backend Worker.

(** [evict_dcbs (Evict)]: the sweep of every server the map
    [m_persistent_entries_by_server] has an entry for.  The worker keeps
    the pools as a function, so the keys of the map are given: [keys] lists
    them in the map's order; a server without an entry has no pooled
    connection. *)
Definition evict_dcbs_each (env : Env) (keys : list nat) (evict : Evict)
    (w : RoutingWorker) : RoutingWorker :=
  fold_left (fun w server => snd (evict_dcbs env server evict w)) keys w.

(** The part of [post_run] that concerns the worker's connections. *)
Definition post_run (env : Env) (keys : list nat) (w : RoutingWorker) : RoutingWorker :=
  evict_dcbs_each env keys ALL w.

(** A server whose connections expire after 60 seconds, with three pooled
    connections: DCB 1 parked 100 seconds ago, DCB 2 parked 10 seconds ago,
    DCB 3 parked 5 seconds ago and hung up since. *)
Definition hung_up (c : Conn) : Conn :=
  let d := conn_dcb c in
  {| conn_dcb :=
       {| dcb_state := dcb_state d; dcb_writable := dcb_writable d;
          dcb_writeq := dcb_writeq d; dcb_readq := dcb_readq d;
          dcb_fake_events := dcb_fake_events d; dcb_hanged_up := true;
          dcb_session := dcb_session d; dcb_server := dcb_server d;
          dcb_handler := dcb_handler d; dcb_events_enabled := dcb_events_enabled d;
          dcb_was_shutdown := dcb_was_shutdown d; dcb_open := dcb_open d; dcb_sockerrno := dcb_sockerrno d;
     dcb_strerror := dcb_strerror d; dcb_is_fake_event := dcb_is_fake_event d |};
     conn_proto := conn_proto c |}.

Definition three_pooled : RoutingWorker :=
  {| m_evicting := false; m_dcbs := ∅;
     m_persistent_entries_by_server :=
       <[0%nat := [ {| m_created := 900; m_pDcb := 1 |};
                    {| m_created := 990; m_pDcb := 2 |};
                    {| m_created := 995; m_pDcb := 3 |} ]]> (fun _ => []);
     m_zombies := [];
     conns := <[3%nat := hung_up routing_conn]> (fun _ => routing_conn);
     servers :=
       fun _ => {| persistpoolmax := 2; persistmaxtime := 60; status := 1;
                   n_persistent := 3; persistmax := 3; n_from_pool := 0 |};
     close_log := [] |}.

End Pools.


(* ===================================================================== *)
(** ** Balancing the load of the workers (routingworker.cc)               *)
(* ===================================================================== *)

Module Balance.
Import Bytes.

(** The locals of [balance_workers (int threshold)] that its loop
    updates.  Workers are named by their index in [this_unit.ppWorkers];
    [None] is the null pointer. *)
Record Extremes : Type := mkExtremes {
  min_load : Z;
  max_load : Z;
  pTo : option nat;
  pFrom : option nat
}.

(** One round of the loop, for worker [i] with the load read for it. *)
Definition compare_load (i : nat) (load : Z) (e : Extremes) : Extremes :=
  let e :=
    if load <? min_load e
    then {| min_load := load; max_load := max_load e; pTo := Some i; pFrom := pFrom e |}
    else e in
  if max_load e <? load
  then {| min_load := min_load e; max_load := load; pTo := pTo e; pFrom := Some i |}
  else e.

Fixpoint compare_loads (i : nat) (loads : list Z) (e : Extremes) : Extremes :=
  match loads with
  | [] => e
  | load :: rest => compare_loads (S i) rest (compare_load i load e)
  end.

(** What the loop of [balance_workers] has established after the workers
    [0 .. length seen - 1]. *)
Record extremes_of (seen : list Z) (e : Extremes) : Prop := mkExtremesOf {
  ext_bounds : forall l, l ∈ seen -> min_load e <= l <= max_load e;
  ext_min_le : min_load e <= 100;
  ext_max_ge : 0 <= max_load e;
  ext_from :
    match pFrom e with
    | Some from =>
        seen !! from = Some (max_load e)
        /\ (forall j l, (j < from)%nat -> seen !! j = Some l -> l < max_load e)
    | None => max_load e = 0
    end;
  ext_to :
    match pTo e with
    | Some to =>
        seen !! to = Some (min_load e)
        /\ (forall j l, (j < to)%nat -> seen !! j = Some l -> min_load e < l)
    | None => min_load e = 100
    end
}.

(** [balance_workers (int threshold)].  Each worker comes with its average
    load and its load of the last second, of which the loop reads one.  The
    result is whether balancing takes place and, if so, the task posted:
    the worker that is to move sessions and the worker they go to.  When
    balancing is decided and [pFrom] is null the code calls a member of the
    null pointer; the result is then [None]. *)
Definition balance_workers (threshold : Z) (use_average : bool) (workers : list (Z * Z))
  : option (bool * option (nat * option nat)) :=
  let loads := map (fun w : Z * Z => if use_average then fst w else snd w) workers in
  let e :=
    compare_loads 0 loads {| min_load := 100; max_load := 0; pTo := None; pFrom := None |} in
  let diff_load := i32 (max_load e - min_load e) in
  if threshold <? diff_load then
    match pFrom e with
    | Some from => Some (true, Some (from, pTo e))
    | None => None
    end
  else Some (false, None).

(** What [rebalance ()] reads of a session. *)
Record SessionInfo : Type := mkSessionInfo {
  is_movable : bool;
  io_activity : Z       (* int *)
}.

(** The loop of the case of one requested move, over [m_sessions] in the
    order of the map. *)
Fixpoint most_active (sessions : list (nat * SessionInfo)) (max_io_activity : Z)
    (pMax_session : option nat) : option nat :=
  match sessions with
  | [] => pMax_session
  | (id, s) :: rest =>
      if is_movable s then
        if max_io_activity <? io_activity s
        then most_active rest (io_activity s) (Some id)
        else most_active rest max_io_activity pMax_session
      else most_active rest max_io_activity pMax_session
  end.

(** The loop of the case of several requested moves: it stops as soon as
    [n_requested_moves] sessions are collected. *)
Fixpoint collect_movable (n_requested_moves : Z) (sessions : list (nat * SessionInfo))
    (collected : list nat) : list nat :=
  match sessions with
  | [] => collected
  | (id, s) :: rest =>
      if is_movable s then
        let collected := collected ++ [id] in
        if zlength collected =? n_requested_moves
        then collected
        else collect_movable n_requested_moves rest collected
      else collect_movable n_requested_moves rest collected
  end.

(** [rebalance ()]: the sessions on which [move_to] is called, in the order
    of the calls. *)
Definition rebalance (n_requested_moves : Z) (sessions : list (nat * SessionInfo))
  : list nat :=
  if n_requested_moves =? 1 then
    match most_active sessions 0 None with
    | Some id => [id]
    | None => []
    end
  else if 1 <? n_requested_moves then collect_movable n_requested_moves sessions []
  else [].

End Balance.


(* ===================================================================== *)
(** ** The handshake with the server (mariadb_backend.cc)                 *)
(* ===================================================================== *)

Module Handshake.
Import Bytes Wire Dcb Server Reply Capabilities Backend.

(** Modelled from the spec: the constants of the version 10 handshake are
    declared in the protocol's header, which is not among the sources at
    hand; the specification's wire section gives the protocol version
    0x0a, the 8 bytes of the first part of the scramble and the 20 bytes
    of the whole. *)
Definition GW_MYSQL_PROTOCOL_VERSION : Z := 10.
Definition GW_SCRAMBLE_LENGTH_323 : Z := 8.
Definition GW_MYSQL_SCRAMBLE_SIZE : Z := 20.

(** Modelled from the spec: [gw_mysql_get_byte2] and [gw_mysql_get_byte4]
    are macros of the same header; the integers of the protocol are
    little-endian. *)
Definition gw_mysql_get_byte2 (p : list byte) : Z :=
  Z.lor (byte_at p 0) (Z.shiftl (byte_at p 1) 8).

Definition gw_mysql_get_byte4 (p : list byte) : Z :=
  Z.lor (byte_at p 0)
    (Z.lor (Z.shiftl (byte_at p 1) 8)
       (Z.lor (Z.shiftl (byte_at p 2) 16) (Z.shiftl (byte_at p 3) 24))).

(** [gw_strend]: the distance to the NUL that ends a C string. *)
Fixpoint gw_strend (p : list byte) : nat :=
  match p with
  | [] => 0
  | b :: rest => if u8 b =? 0 then 0 else S (gw_strend rest)
  end.

Inductive HandShakeState : Type :=
| EXPECT_HS | START_SSL | SSL_NEG | SEND_HS_RESP | COMPLETE | FAIL.

(** [DCB::SSLState] (dcb.hh). *)
Inductive SSLState : Type :=
| HANDSHAKE_UNKNOWN | HANDSHAKE_REQUIRED | ESTABLISHED | HANDSHAKE_FAILED.

(** The connection during the handshake: the protocol object of the
    routing phase together with the members that only the handshake uses.
    [maintenance_posted] records that the task which puts the server into
    maintenance was handed to the main worker. *)
Record Connection : Type := mkConnection {
  proto : Proto;
  m_hs_state : HandShakeState;
  server_capabilities : Z;       (* uint32_t *)
  m_thread_id : Z;               (* uint64_t *)
  client_data : MYSQL_session;   (* m_auth_data.client_data *)
  maintenance_posted : bool
}.

Definition set_proto (v : Proto) (c : Connection) : Connection :=
  {| proto := v; m_hs_state := m_hs_state c;
     server_capabilities := server_capabilities c; m_thread_id := m_thread_id c;
     client_data := client_data c; maintenance_posted := maintenance_posted c |}.

Definition set_m_hs_state (v : HandShakeState) (c : Connection) : Connection :=
  {| proto := proto c; m_hs_state := v;
     server_capabilities := server_capabilities c; m_thread_id := m_thread_id c;
     client_data := client_data c; maintenance_posted := maintenance_posted c |}.

Definition set_server_capabilities (v : Z) (c : Connection) : Connection :=
  {| proto := proto c; m_hs_state := m_hs_state c;
     server_capabilities := v; m_thread_id := m_thread_id c;
     client_data := client_data c; maintenance_posted := maintenance_posted c |}.

Definition set_m_thread_id (v : Z) (c : Connection) : Connection :=
  {| proto := proto c; m_hs_state := m_hs_state c;
     server_capabilities := server_capabilities c; m_thread_id := v;
     client_data := client_data c; maintenance_posted := maintenance_posted c |}.

Definition set_maintenance_posted (v : bool) (c : Connection) : Connection :=
  {| proto := proto c; m_hs_state := m_hs_state c;
     server_capabilities := server_capabilities c; m_thread_id := m_thread_id c;
     client_data := client_data c; maintenance_posted := v |}.

(** [gw_decode_mysql_server_handshake].  [payload] is the packet without
    its header.  The code does not check the length of the packet: bytes
    past its end are read as they lie in memory, here they are missing
    (zero where a single byte is read).  With a scramble length below 8
    the size of the last copy is negative, which is undefined in C (the
    debug build asserts against it); here nothing is copied then. *)
Definition gw_decode_mysql_server_handshake (payload : list byte) (c : Connection)
  : Z * Connection :=
  let protocol_version := byte_at payload 0 in
  if negb (protocol_version =? GW_MYSQL_PROTOCOL_VERSION) then (-1, c)
  else
    let payload := drop 1 payload in
    let server_version_end := gw_strend payload in
    let payload := drop (server_version_end + 1) payload in
    let tid := gw_mysql_get_byte4 payload in
    let c := set_m_thread_id tid c in
    let payload := drop 4 payload in
    let scramble_data_1 := take (Z.to_nat GW_SCRAMBLE_LENGTH_323) payload in
    let payload := drop (Z.to_nat GW_SCRAMBLE_LENGTH_323) payload in
    let payload := drop 1 payload in
    let mysql_server_capabilities_one := gw_mysql_get_byte2 payload in
    let payload := drop 5 payload in
    let mysql_server_capabilities_two := gw_mysql_get_byte2 payload in
    let c :=
      set_server_capabilities
        (u32 (Z.lor mysql_server_capabilities_one
                (Z.shiftl mysql_server_capabilities_two 16))) c in
    let payload := drop 2 payload in
    let scramble_len :=
      if 0 <? byte_at payload 0
      then Z.min (byte_at payload 0 - 1) GW_MYSQL_SCRAMBLE_SIZE
      else GW_MYSQL_SCRAMBLE_SIZE in
    let payload := drop 11 payload in
    let scramble_data_2 :=
      take (Z.to_nat (scramble_len - GW_SCRAMBLE_LENGTH_323)) payload in
    let mxs_scramble := repeat Byte.x00 (Z.to_nat GW_MYSQL_SCRAMBLE_SIZE) in
    let mxs_scramble := poke 0 scramble_data_1 mxs_scramble in
    let mxs_scramble := poke GW_SCRAMBLE_LENGTH_323 scramble_data_2 mxs_scramble in
    (0, set_proto (set_m_scramble mxs_scramble (proto c)) c).

(** [read_backend_handshake]. *)
Definition read_backend_handshake (buffer : list byte) (c : Connection)
  : bool * Connection :=
  let payload := drop 4 buffer in
  let '(rc, c) := gw_decode_mysql_server_handshake payload c in
  (0 <=? rc, c).

(** What the handshake takes from outside: the capability constants and
    the helpers of the protocol's header, and the functions of other
    modules that it calls. *)
Record Protocol : Type := mkProtocol {
  GW_MYSQL_CAPABILITIES_CLIENT : Z;
  GW_MYSQL_CAPABILITIES_SSL : Z;
  GW_MYSQL_CAPABILITIES_SESSION_TRACK : Z;
  GW_MYSQL_CAPABILITIES_MULTI_STATEMENTS : Z;
  GW_MYSQL_CAPABILITIES_CONNECT_WITH_DB : Z;
  GW_MYSQL_CAPABILITIES_PLUGIN_AUTH : Z;
  GW_MYSQL_CAPABILITIES_CONNECT_ATTRS : Z;
  RCAP_TYPE_SESSION_STATE_TRACKING : Z;
  response_length :
    bool -> bool -> list byte -> option (list byte) -> list byte -> list byte -> Z;
  load_hashed_password : list byte -> list byte -> list byte;
  DEFAULT_PLUGIN : list byte;
  extract_error : list byte -> string;            (* mxs::extract_error *)
  mxs_mysql_get_mysql_errno : list byte -> Z;
  ER_HOST_IS_BLOCKED : Z;
  exchange : list byte -> bool * list byte
    (* m_authenticator->exchange: whether the result is SUCCESS, and the output *)
}.

(** What one call finds at the socket and at the server object. *)
Record Socket : Type := mkSocket {
  server_name : string;            (* m_server.name () *)
  ssl_context : bool;              (* m_server.ssl ().context () *)
  ssl_handshake : Z;               (* what m_dcb->ssl_handshake () returns *)
  ssl_state : SSLState;            (* what m_dcb->ssl_state () returns *)
  dcb_service_capabilities : Z     (* m_dcb->service ()->capabilities () *)
}.

Section WithProtocol.
Variable P : Protocol.

(** The member function [gw_generate_auth_response] on the connection. *)
Definition generate_auth_response (c : Connection) (with_ssl ssl_established : bool)
    (service_capabilities : Z) : GWBUF :=
  plain
    (gw_generate_auth_response
       (GW_MYSQL_CAPABILITIES_CLIENT P) (GW_MYSQL_CAPABILITIES_SSL P)
       (GW_MYSQL_CAPABILITIES_SESSION_TRACK P)
       (GW_MYSQL_CAPABILITIES_MULTI_STATEMENTS P)
       (GW_MYSQL_CAPABILITIES_CONNECT_WITH_DB P)
       (GW_MYSQL_CAPABILITIES_PLUGIN_AUTH P)
       (GW_MYSQL_CAPABILITIES_CONNECT_ATTRS P)
       (RCAP_TYPE_SESSION_STATE_TRACKING P)
       (response_length P) (load_hashed_password P) (DEFAULT_PLUGIN P)
       (client_data c) (m_scramble (proto c)) (server_capabilities c)
       with_ssl ssl_established service_capabilities).

(** [do_handle_error] on the connection. *)
Definition handle_error (d : DCB) (errmsg : string) (type : ErrorType)
    (c : Connection) : Connection :=
  set_proto (do_handle_error d errmsg type (proto c)) c.

(** One round of the loop of [handshake]: the result when the loop ends
    with this round, and the connection and the DCB after it.  [read] is
    what [read_protocol_packet] yields; only the first round of a call can
    be in the state in which it is called. *)
Definition handshake_round (sock : Socket) (read : ProtocolRead)
    (c : Connection) (d : DCB) : option StateMachineRes * Connection * DCB :=
  match m_hs_state c with
  | EXPECT_HS =>
      match read with
      | ReadFailed =>
          let errmsg :=
            String.append "Handshake with '"
              (String.append (server_name sock) "' failed.") in
          (None, set_m_hs_state FAIL (handle_error d errmsg TRANSIENT c), d)
      | NoPacket => (Some IN_PROGRESS, c, d)
      | Packet buffer =>
          if get_command buffer =? MYSQL_REPLY_ERR then
            let errmsg :=
              String.append "Connection rejected: " (extract_error P buffer) in
            (None, set_m_hs_state FAIL (handle_error d errmsg TRANSIENT c), d)
          else
            let '(ok, c) := read_backend_handshake buffer c in
            if ok then
              (None,
               set_m_hs_state (if ssl_context sock then START_SSL else SEND_HS_RESP) c,
               d)
            else
              (None, set_m_hs_state FAIL (handle_error d "Bad handshake" TRANSIENT c), d)
      end
  | START_SSL =>
      let ssl_req := generate_auth_response c true false (dcb_service_capabilities sock) in
      let '(appended, d) := writeq_append ssl_req d in
      if appended && (0 <=? ssl_handshake sock)
      then (None, set_m_hs_state SSL_NEG c, d)
      else (None, set_m_hs_state FAIL (handle_error d "SSL failed" TRANSIENT c), d)
  | SSL_NEG =>
      match ssl_state sock with
      | ESTABLISHED => (None, set_m_hs_state SEND_HS_RESP c, d)
      | HANDSHAKE_REQUIRED => (Some IN_PROGRESS, c, d)
      | _ => (None, set_m_hs_state FAIL (handle_error d "SSL failed" TRANSIENT c), d)
      end
  | SEND_HS_RESP =>
      let with_ssl := ssl_context sock in
      let hs_resp :=
        generate_auth_response c with_ssl with_ssl (dcb_service_capabilities sock) in
      let '(appended, d) := writeq_append hs_resp d in
      if appended
      then (None, set_m_hs_state COMPLETE c, d)
      else (None, set_m_hs_state FAIL c, d)
  | COMPLETE => (Some SM_DONE, c, d)
  | FAIL => (Some SM_ERROR, c, d)
  end.

(** [handshake]: the loop, for at most [rounds] rounds. *)
Fixpoint handshake (rounds : nat) (sock : Socket) (read : ProtocolRead)
    (c : Connection) (d : DCB) : option (StateMachineRes * Connection * DCB) :=
  match rounds with
  | O => None
  | S rounds =>
      match handshake_round sock read c d with
      | (Some rval, c, d) => Some (rval, c, d)
      | (None, c, d) => handshake rounds sock read c d
      end
  end.

(** [handle_error_response]: what it logs is left out. *)
Definition handle_error_response (buffer : list byte) (c : Connection) : Connection :=
  let errcode := u16 (mxs_mysql_get_mysql_errno P buffer) in
  if errcode =? ER_HOST_IS_BLOCKED P then set_maintenance_posted true c else c.

(** [authenticate]. *)
Definition authenticate (read : ProtocolRead) (c : Connection) (d : DCB)
  : StateMachineRes * Connection * DCB :=
  match read with
  | ReadFailed => (SM_ERROR, handle_error d "Socket error" TRANSIENT c, d)
  | NoPacket => (IN_PROGRESS, c, d)
  | Packet buffer =>
      if zlength buffer =? MYSQL_HEADER_LEN
      then (SM_ERROR, handle_error d "Invalid packet" TRANSIENT c, d)
      else
        let cmd := get_command buffer in
        if cmd =? MYSQL_REPLY_OK then (SM_DONE, c, d)
        else if cmd =? MYSQL_REPLY_ERR
        then (SM_ERROR, handle_error_response buffer c, d)
        else
          let '(success, output) := exchange P buffer in
          let d :=
            match output with
            | [] => d
            | _ => snd (writeq_append (plain output) d)
            end in
          (if success then IN_PROGRESS else SM_ERROR, c, d)
  end.

End WithProtocol.

(** The states in which [handshake] is entered and left. *)
Definition resting (st : HandShakeState) : Prop :=
  st = EXPECT_HS \/ st = SSL_NEG \/ st = COMPLETE \/ st = FAIL.

(** The order in which the loop of [handshake] passes through the states. *)
Definition hs_rank (st : HandShakeState) : nat :=
  match st with
  | EXPECT_HS => 0
  | START_SSL => 1
  | SSL_NEG => 2
  | SEND_HS_RESP => 3
  | COMPLETE => 4
  | FAIL => 4
  end.

(** *** [ready_for_reading] *)

(** The order of the states of the connection. *)
Definition rank (st : State) : nat :=
  match st with
  | HANDSHAKING => 0
  | AUTHENTICATING => 1
  | CONNECTION_INIT => 2
  | SEND_DELAYQ => 3
  | ROUTING => 4
  | FAILED => 5
  end.

(** How a run of a loop that reads packets ends: the call returns, or it
    makes a call of [read_protocol_packet] beyond those whose outcome is
    given, or it needs more rounds than it was given. *)
Inductive Run (A : Type) : Type :=
| Ends (a : A)
| Starved
| Unfinished.
Arguments Ends {A} a.
Arguments Starved {A}.
Arguments Unfinished {A}.

Definition with_m_state (v : State) (c : Connection) : Connection :=
  set_proto (set_m_state v (proto c)) c.

Section Reading.
Variable X : Externals.
Variable P : Protocol.
Variable srv : Server.
Variable sock : Socket.
Variable inp : ReadInput.       (* what [normal_read] finds *)

(** One round of the loop of [ready_for_reading]: whether the loop goes
    on, the connection, the DCB and the outcomes of [read_protocol_packet]
    not yet used.  [handshake] reads a packet in the state EXPECT_HS only;
    its own loop ends within six rounds. *)
Definition ready_round (reads : list ProtocolRead) (c : Connection) (d : DCB)
  : Run (bool * Connection * DCB * list ProtocolRead) :=
  match m_state (proto c) with
  | HANDSHAKING =>
      let next :=
        match m_hs_state c, reads with
        | EXPECT_HS, [] => None
        | EXPECT_HS, read :: rest => Some (read, rest)
        | _, _ => Some (NoPacket, reads)
        end in
      match next with
      | None => Starved
      | Some (read, reads) =>
          match handshake P 6 sock read c d with
          | None => Unfinished
          | Some (IN_PROGRESS, c, d) => Ends (false, c, d, reads)
          | Some (SM_DONE, c, d) => Ends (true, with_m_state AUTHENTICATING c, d, reads)
          | Some (SM_ERROR, c, d) => Ends (true, with_m_state FAILED c, d, reads)
          end
      end
  | AUTHENTICATING =>
      match reads with
      | [] => Starved
      | read :: reads =>
          match authenticate P read c d with
          | (IN_PROGRESS, c, d) => Ends (false, c, d, reads)
          | (SM_DONE, c, d) => Ends (true, with_m_state CONNECTION_INIT c, d, reads)
          | (SM_ERROR, c, d) => Ends (true, with_m_state FAILED c, d, reads)
          end
      end
  | CONNECTION_INIT =>
      match send_connection_init_queries reads (proto c) d with
      | None => Starved
      | Some (IN_PROGRESS, p, d, reads) => Ends (false, set_proto p c, d, reads)
      | Some (SM_DONE, p, d, reads) =>
          Ends (true, with_m_state SEND_DELAYQ (set_proto p c), d, reads)
      | Some (SM_ERROR, p, d, reads) =>
          Ends (true, with_m_state FAILED (set_proto p c), d, reads)
      end
  | SEND_DELAYQ =>
      let '(p, d) := send_delayed_packets X srv (proto c) d in
      Ends (true, with_m_state ROUTING (set_proto p c), d, reads)
  | ROUTING =>
      let '(_, p, d) := normal_read X srv inp (proto c) d in
      Ends (false, set_proto p c, d, reads)
  | FAILED => Ends (false, c, d, reads)
  end.

(** [ready_for_reading]: the loop, for at most [rounds] rounds. *)
Fixpoint ready_for_reading (rounds : nat) (reads : list ProtocolRead)
    (c : Connection) (d : DCB) : Run (Connection * DCB * list ProtocolRead) :=
  match rounds with
  | O => Unfinished
  | S rounds =>
      match ready_round reads c d with
      | Ends (true, c, d, reads) => ready_for_reading rounds reads c d
      | Ends (false, c, d, reads) => Ends (c, d, reads)
      | Starved => Starved
      | Unfinished => Unfinished
      end
  end.

End Reading.

(** The protocol's constants and helpers to run the definitions on. *)
Definition mysql_protocol : Protocol :=
  {| GW_MYSQL_CAPABILITIES_CLIENT := CLIENT_MASK_MYSQL;
     GW_MYSQL_CAPABILITIES_SSL := 2 ^ 11;
     GW_MYSQL_CAPABILITIES_SESSION_TRACK := 2 ^ 23;
     GW_MYSQL_CAPABILITIES_MULTI_STATEMENTS := 2 ^ 16;
     GW_MYSQL_CAPABILITIES_CONNECT_WITH_DB := 8;
     GW_MYSQL_CAPABILITIES_PLUGIN_AUTH := 2 ^ 19;
     GW_MYSQL_CAPABILITIES_CONNECT_ATTRS := 2 ^ 20;
     RCAP_TYPE_SESSION_STATE_TRACKING := 64;
     response_length := response_length_mysql;
     load_hashed_password := fun _ pw => pw;
     DEFAULT_PLUGIN := DEFAULT_MYSQL_AUTH_PLUGIN;
     extract_error := fun _ => "error"%string;
     mxs_mysql_get_mysql_errno := fun buffer => byte_at buffer 5 + 256 * byte_at buffer 6;
     ER_HOST_IS_BLOCKED := 1129;
     exchange := fun _ => (true, []) |}.

(** The handshake of a server 5.5 (version string 5.5, thread id 258,
    capabilities 0xf7ff and 0x81ff, scramble 1 .. 20), as a packet. *)
Definition server_handshake : list byte :=
  [Byte.x32; Byte.x00; Byte.x00; Byte.x00;
   Byte.x0a; Byte.x35; Byte.x2e; Byte.x35; Byte.x00;
   Byte.x02; Byte.x01; Byte.x00; Byte.x00;
   Byte.x01; Byte.x02; Byte.x03; Byte.x04; Byte.x05; Byte.x06; Byte.x07; Byte.x08;
   Byte.x00;
   Byte.xff; Byte.xf7; Byte.x21; Byte.x02; Byte.x00; Byte.xff; Byte.x81;
   Byte.x15;
   Byte.x00; Byte.x00; Byte.x00; Byte.x00; Byte.x00; Byte.x00; Byte.x00; Byte.x00;
   Byte.x00; Byte.x00;
   Byte.x09; Byte.x0a; Byte.x0b; Byte.x0c; Byte.x0d; Byte.x0e; Byte.x0f; Byte.x10;
   Byte.x11; Byte.x12; Byte.x13; Byte.x14; Byte.x00].

(** A connection that has just been opened for the client bob. *)
Definition fresh_connection : Connection :=
  {| proto := routing_proto no_init_sql HANDSHAKING;
     m_hs_state := EXPECT_HS; server_capabilities := 0; m_thread_id := 0;
     client_data := Sessions.bob; maintenance_posted := false |}.

Definition plain_socket : Socket :=
  {| server_name := "server1"; ssl_context := false; ssl_handshake := 0;
     ssl_state := HANDSHAKE_UNKNOWN; dcb_service_capabilities := 0 |}.

(** A socket on which nothing has arrived. *)
Definition nothing_to_read : ReadInput :=
  {| read_return_code := 0; read_data := None; contiguous_ok := true;
     route_ok := true; client_reply_rc := 1 |}.

Definition tls_socket (st : SSLState) : Socket :=
  {| server_name := "server1"; ssl_context := true; ssl_handshake := 0;
     ssl_state := st; dcb_service_capabilities := 0 |}.

End Handshake.


(* ===================================================================== *)
(** ** The server object: strings, version and GTIDs (server.cc)          *)
(* ===================================================================== *)

Module ServerInfo.
Import Bytes.

(** internal/server.hh *)
Definition MAX_ADDRESS_LEN : Z := 1024.
Definition MAX_MONUSER_LEN : Z := 512.
Definition MAX_MONPW_LEN : Z := 512.
Definition MAX_VERSION_LEN : Z := 256.

(** The C string held by a [char] array, or [c_str ()] of a
    [std::string]: the bytes before the first NUL. *)
Fixpoint c_string (l : list byte) : list byte :=
  match l with
  | [] => []
  | b :: rest => if u8 b =? 0 then [] else b :: c_string rest
  end.

Definition strlen (l : list byte) : Z := zlength (c_string l).

(** [memset (dest + off, 0, len)]. *)
Definition memset_zero (off len : Z) (dest : list byte) : list byte :=
  poke off (repeat Byte.x00 (Z.to_nat len)) dest.

(** [strncpy (dest, src, n)]: at most [n] bytes of the C string, and NULs
    up to [n] when it is shorter. *)
Definition strncpy (dest src : list byte) (n : Z) : list byte :=
  let copied := take (Z.to_nat n) (c_string src) in
  poke 0 (copied ++ repeat Byte.x00 (Z.to_nat n - length copied)) dest.

(** [careful_strcpy].  [dest] is the whole array, of [max_len + 1]
    bytes. *)
Definition careful_strcpy (dest : list byte) (max_len : Z) (source : list byte)
  : list byte :=
  let new_len := zlength source in
  let new_len := if max_len <? new_len then max_len else new_len in
  let old_len := strlen dest in
  let dest :=
    if new_len <? old_len then memset_zero new_len (old_len - new_len) dest else dest in
  strncpy dest source new_len.

(** The arrays of [Server::Settings]. *)
Record Settings : Type := mkSettings {
  address : list byte;     (* char [MAX_ADDRESS_LEN + 1] *)
  monuser : list byte;     (* char [MAX_MONUSER_LEN + 1] *)
  monpw : list byte        (* char [MAX_MONPW_LEN + 1] *)
}.

(** The settings of a new server: the arrays are all zero. *)
Definition new_settings : Settings :=
  {| address := repeat Byte.x00 (Z.to_nat (MAX_ADDRESS_LEN + 1));
     monuser := repeat Byte.x00 (Z.to_nat (MAX_MONUSER_LEN + 1));
     monpw := repeat Byte.x00 (Z.to_nat (MAX_MONPW_LEN + 1)) |}.

(** [Server::set_address], [set_monitor_user], [set_monitor_password]. *)
Definition set_address (new_address : list byte) (s : Settings) : bool * Settings :=
  if zlength new_address <=? MAX_ADDRESS_LEN
  then (true,
        {| address := careful_strcpy (address s) MAX_ADDRESS_LEN new_address;
           monuser := monuser s; monpw := monpw s |})
  else (false, s).

Definition set_monitor_user (username : list byte) (s : Settings) : bool * Settings :=
  if zlength username <=? MAX_MONUSER_LEN
  then (true,
        {| address := address s;
           monuser := careful_strcpy (monuser s) MAX_MONUSER_LEN username;
           monpw := monpw s |})
  else (false, s).

Definition set_monitor_password (password : list byte) (s : Settings) : bool * Settings :=
  if zlength password <=? MAX_MONPW_LEN
  then (true,
        {| address := address s; monuser := monuser s;
           monpw := careful_strcpy (monpw s) MAX_MONPW_LEN password |})
  else (false, s).

(** [Server::monitor_user], [monitor_password] and [address]: the C string
    in the array. *)
Definition monitor_user (s : Settings) : list byte := c_string (monuser s).
Definition monitor_password (s : Settings) : list byte := c_string (monpw s).
Definition server_address (s : Settings) : list byte := c_string (address s).

(** A call of one of the three setters. *)
Inductive Setter : Type :=
| SetAddress (new_address : list byte)
| SetMonitorUser (username : list byte)
| SetMonitorPassword (password : list byte).

Definition call_setter (op : Setter) (s : Settings) : bool * Settings :=
  match op with
  | SetAddress new_address => set_address new_address s
  | SetMonitorUser username => set_monitor_user username s
  | SetMonitorPassword password => set_monitor_password password s
  end.

Definition call_setters (ops : list Setter) (s : Settings) : Settings :=
  fold_left (fun s op => snd (call_setter op s)) ops s.

(** The array holds a C string and nothing but zeros after it, its last
    element included. *)
Definition zero_padded (max_len : Z) (array : list byte) : Prop :=
  zlength array = max_len + 1
  /\ strlen array <= max_len
  /\ array = c_string array ++ repeat Byte.x00 (Z.to_nat (max_len + 1 - strlen array)).

Definition settings_zero_padded (s : Settings) : Prop :=
  zero_padded MAX_ADDRESS_LEN (address s)
  /\ zero_padded MAX_MONUSER_LEN (monuser s)
  /\ zero_padded MAX_MONPW_LEN (monpw s).

(** *** [Server::VersionInfo] *)

Inductive Type_ : Type := MARIADB | MYSQL | CLUSTRIX.

Record VersionInfo : Type := mkVersionInfo {
  total : Z;       (* uint64_t *)
  major : Z;       (* uint32_t *)
  minor : Z;
  patch : Z;
  m_type : Type_;
  m_version_str : list byte   (* char [MAX_VERSION_LEN + 1] *)
}.

Definition new_version_info : VersionInfo :=
  {| total := 0; major := 0; minor := 0; patch := 0; m_type := MARIADB;
     m_version_str := repeat Byte.x00 (Z.to_nat (MAX_VERSION_LEN + 1)) |}.

(** [strcasestr] of the C library, for ASCII: whether [needle] occurs in
    [haystack] when the case of letters is ignored. *)
Definition ascii_lower (b : byte) : Z :=
  let z := u8 b in
  if (65 <=? z) && (z <=? 90) then z + 32 else z.

Fixpoint starts_with_ignoring_case (needle haystack : list byte) : bool :=
  match needle, haystack with
  | [], _ => true
  | _ :: _, [] => false
  | n :: needle', h :: haystack' =>
      (ascii_lower n =? ascii_lower h) && starts_with_ignoring_case needle' haystack'
  end.

Fixpoint strcasestr (haystack needle : list byte) : bool :=
  starts_with_ignoring_case needle haystack
  || match haystack with
     | [] => false
     | _ :: haystack' => strcasestr haystack' needle
     end.

(** clustrix and mariadb *)
Definition clustrix_name : list byte :=
  [Byte.x63; Byte.x6c; Byte.x75; Byte.x73; Byte.x74; Byte.x72; Byte.x69; Byte.x78].
Definition mariadb_name : list byte :=
  [Byte.x6d; Byte.x61; Byte.x72; Byte.x69; Byte.x61; Byte.x64; Byte.x62].

(** [Server::VersionInfo::set].  [major * 10000] and [minor * 100] are
    products of a [uint32_t] and an [int], computed in 32 bits; the
    differences are computed in 64 bits. *)
Definition set (version : Z) (version_str : list byte) (v : VersionInfo) : VersionInfo :=
  let major := u32 (version / 10000) in
  let minor := u32 (u64 (version - u32 (major * 10000)) / 100) in
  let patch := u32 (u64 (u64 (version - u32 (major * 10000)) - u32 (minor * 100))) in
  {| total := version; major := major; minor := minor; patch := patch;
     m_type :=
       if strcasestr (c_string version_str) clustrix_name then CLUSTRIX
       else if strcasestr (c_string version_str) mariadb_name then MARIADB
       else MYSQL;
     m_version_str := careful_strcpy (m_version_str v) MAX_VERSION_LEN version_str |}.

Definition version_string (v : VersionInfo) : list byte := c_string (m_version_str v).

(** *** GTID positions *)

(** The task [set_gtid_list] hands to the main worker, [clear_gtid_list]
    and [gtid_pos], on the map from domain to sequence number. *)
Definition set_gtid_list (domains : list (Z * Z)) (gtids : gmap Z Z) : gmap Z Z :=
  fold_left (fun gtids p => <[p.1 := p.2]> gtids) domains gtids.

Definition clear_gtid_list (gtids : gmap Z Z) : gmap Z Z := ∅.

Definition gtid_pos (domain : Z) (gtids : gmap Z Z) : Z :=
  match gtids !! domain with
  | Some pos => pos
  | None => 0
  end.

(** 10.4.11-MariaDB *)
Definition version_10_4_11 : list byte :=
  [Byte.x31; Byte.x30; Byte.x2e; Byte.x34; Byte.x2e; Byte.x31; Byte.x31; Byte.x2d;
   Byte.x4d; Byte.x61; Byte.x72; Byte.x69; Byte.x61; Byte.x44; Byte.x42].

End ServerInfo.

(* ===================================================================== *)
(** ** The health check of the Clustrix monitor                           *)
(* ===================================================================== *)

Module ClustrixMonitor.
Import ClustrixNode.

(** The calls of [persist] and [unpersist] a node makes over its life:
    they alternate, [persist] first. *)
Fixpoint persister_cycle (id : Z) (k : nat) : list persister_call :=
  match k with
  | O => []
  | S k' => persister_cycle id k' ++ [if Nat.even k' then persist id else unpersist id]
  end.

Section WithStatusBits.
Variables SERVER_MASTER SERVER_RUNNING : Z.

(** What holds of a node between two calls. *)
Record node_invariant (id t : Z) (l : list persister_call) (n : node) : Prop := mkNodeInv {
  ninv_id : m_id n = id;
  ninv_threshold : m_health_check_threshold n = t;
  ninv_range : 0 <= m_nRunning n <= t;
  ninv_log :
    exists k : nat,
      persister_log n = l ++ persister_cycle id (S k)
      /\ is_running n = Nat.even k;
  ninv_status :
    if is_running n then Z.land (server_status n) (MASTER_RUNNING SERVER_MASTER SERVER_RUNNING)
         = MASTER_RUNNING SERVER_MASTER SERVER_RUNNING
    else Z.land (server_status n) (MASTER_RUNNING SERVER_MASTER SERVER_RUNNING) = 0
}.

(** A sequence of calls of [set_running]. *)
Definition set_running_each (calls : list (bool * approach_t)) (n : node) : node :=
  fold_left (fun n call => set_running SERVER_MASTER SERVER_RUNNING call.1 call.2 n)
    calls n.

(** The loop of the READY case of [ClustrixMonitor::check_http]: the
    results are applied to the nodes in their order; [triggers] counts the
    calls of [trigger_cluster_check].  The code asserts that there are as
    many results as nodes; here the loop ends with the shorter list. *)
Fixpoint check_http_ready (results : list Z) (nodes : list node) (triggers : nat)
  : list node * nat :=
  match results, nodes with
  | code :: results', node :: nodes' =>
      let running := code =? 200 in
      let node := set_running SERVER_MASTER SERVER_RUNNING running APPROACH_DEFAULT node in
      let triggers :=
        if negb running && negb (is_running node) then S triggers else triggers in
      let '(nodes', triggers) := check_http_ready results' nodes' triggers in
      (node :: nodes', triggers)
  | _, _ => (nodes, triggers)
  end.

(** Successive health checks, each with its results. *)
Definition health_checks (rounds : list (list Z)) (nodes : list node) (triggers : nat)
  : list node * nat :=
  fold_left (fun st results => check_http_ready results st.1 st.2) rounds (nodes, triggers).

End WithStatusBits.

End ClustrixMonitor.


(* ===================================================================== *)
(** * Theorems                                                            *)
(* ===================================================================== *)

Module BitFacts.

(** A number is in [0, 2^n) exactly when all its bits from [n] up are 0. *)
Lemma range_of_high_bits (x n : Z) :
  0 <= n -> (forall i, n <= i -> Z.testbit x i = false) -> 0 <= x < 2 ^ n.
Proof.
  intros Hn Hbits.
  assert (Hx : x = x mod 2 ^ n).
  { apply Z.bits_inj'. intros i Hi.
    destruct (Z.lt_ge_cases i n) as [Hlt|Hge].
    - by rewrite Z.mod_pow2_bits_low.
    - rewrite Z.mod_pow2_bits_high by lia. by apply Hbits. }
  rewrite Hx. apply Z.mod_pos_bound. by apply Z.pow_pos_nonneg.
Qed.

Lemma high_bits_of_range (x n i : Z) :
  0 <= x < 2 ^ n -> n <= i -> Z.testbit x i = false.
Proof.
  intros Hx Hi.
  destruct (Z.lt_ge_cases n 0) as [Hneg|Hn].
  - rewrite Z.pow_neg_r in Hx by lia. lia.
  - rewrite <- (Z.mod_small x (2 ^ n)) by lia.
    apply Z.mod_pow2_bits_high. lia.
Qed.

End BitFacts.

(** Case analysis on every integer comparison of the goal. *)
Ltac zcases :=
  repeat match goal with
         | |- context [Z.ltb ?a ?b] => destruct (Z.ltb_spec a b)
         | |- context [Z.leb ?a ?b] => destruct (Z.leb_spec a b)
         | |- context [Z.eqb ?a ?b] => destruct (Z.eqb_spec a b)
         end;
  cbn [andb orb negb].

Module ClustrixNodeFacts.
Import ClustrixNode.

Section Facts.
Variables SERVER_MASTER SERVER_RUNNING : Z.

Local Abbreviation MR := (MASTER_RUNNING SERVER_MASTER SERVER_RUNNING).
Local Abbreviation ping_fail := (set_running SERVER_MASTER SERVER_RUNNING false APPROACH_DEFAULT).
Local Abbreviation ping_ok := (set_running SERVER_MASTER SERVER_RUNNING true APPROACH_DEFAULT).
Local Abbreviation pings_fail := (failed_pings SERVER_MASTER SERVER_RUNNING).

Lemma status_ops_range (s bit : Z) :
  0 <= s < 2 ^ 64 -> 0 <= bit < 2 ^ 64 ->
  0 <= set_status s bit < 2 ^ 64 /\ 0 <= clear_status s bit < 2 ^ 64.
Proof.
  intros Hs Hb. unfold set_status, clear_status.
  split; apply BitFacts.range_of_high_bits; try lia; intros i Hi.
  - rewrite Z.lor_spec, !(BitFacts.high_bits_of_range _ 64) by lia. done.
  - rewrite Z.land_spec, (BitFacts.high_bits_of_range s 64) by lia. done.
Qed.

Lemma cleared_bits (s bit : Z) : Z.land (clear_status s bit) bit = 0.
Proof.
  unfold clear_status. rewrite <- Z.land_assoc.
  rewrite (Z.land_comm (Z.lnot bit) bit), Z.land_lnot_diag. apply Z.land_0_r.
Qed.

Lemma set_bits (s bit : Z) : Z.land (set_status s bit) bit = bit.
Proof.
  unfold set_status. apply Z.bits_inj'. intros i Hi.
  rewrite Z.land_spec, Z.lor_spec. destruct (Z.testbit s i), (Z.testbit bit i); done.
Qed.

Lemma ping_fail_threshold (n : node) :
  m_health_check_threshold (ping_fail n) = m_health_check_threshold n
  /\ m_id (ping_fail n) = m_id n.
Proof.
  unfold set_running. destruct (0 <? m_nRunning n); [|done].
  destruct (m_nRunning n - 1 =? 0); done.
Qed.

Lemma pings_fail_spec (k : nat) : forall n : node,
  m_nRunning (pings_fail k n)
  = (if 0 <? m_nRunning n then Z.max 0 (m_nRunning n - Z.of_nat k) else m_nRunning n)
  /\ persister_log (pings_fail k n)
     = persister_log n
       ++ (if (0 <? m_nRunning n) && (m_nRunning n <=? Z.of_nat k)
           then [unpersist (m_id n)] else []).
Proof.
  induction k as [|k IH]; intros n.
  - cbn [failed_pings]. zcases; try lia; rewrite ?app_nil_r; split; done || lia.
  - cbn [failed_pings]. destruct (IH (ping_fail n)) as [IHc IHl].
    rewrite IHc, IHl. clear IH IHc IHl.
    destruct (ping_fail_threshold n) as [_ Hid]. rewrite Hid. clear Hid.
    unfold set_running.
    destruct (Z.ltb_spec 0 (m_nRunning n)); [|zcases; try lia; done].
    destruct (Z.eqb_spec (m_nRunning n - 1) 0);
      cbn [m_nRunning persister_log andb]; zcases; try lia;
      rewrite ?app_nil_r; split; done || lia.
Qed.

(** C3.  For a node whose threshold is [t] (the constructor starts the
    countdown at [t]): [is_running] holds exactly when the countdown is
    positive; a failed ping decrements the countdown only while it is
    positive, clearing MASTER|RUNNING and calling [unpersist] on the step
    that reaches 0; over any number [k] of consecutive failed pings
    [unpersist] is called once if the countdown reaches 0 and never again;
    a successful ping puts the countdown back to [t], and sets the status
    bits and calls [persist] only when the countdown was 0. *)
Theorem C3_node_countdown (n : node) :
  (forall id t s l,
      m_nRunning (create SERVER_MASTER SERVER_RUNNING id t s l) = t
      /\ m_health_check_threshold (create SERVER_MASTER SERVER_RUNNING id t s l) = t)
  /\ (is_running n = true <-> 0 < m_nRunning n)
  /\ (m_nRunning (ping_fail n)
        = (if 0 <? m_nRunning n then m_nRunning n - 1 else m_nRunning n)
      /\ m_health_check_threshold (ping_fail n) = m_health_check_threshold n
      /\ persister_log (ping_fail n)
         = persister_log n ++ (if m_nRunning n =? 1 then [unpersist (m_id n)] else [])
      /\ (if m_nRunning n =? 1
          then Z.land (server_status (ping_fail n)) MR = 0
               /\ server_status (ping_fail n) = clear_status (server_status n) MR
          else server_status (ping_fail n) = server_status n))
  /\ (forall k : nat,
        unpersist_calls (pings_fail k n)
        = Nat.add (unpersist_calls n)
            (if (0 <? m_nRunning n) && (m_nRunning n <=? Z.of_nat k) then 1%nat else 0%nat)
        /\ (m_nRunning n <= Z.of_nat k -> is_running (pings_fail k n) = false))
  /\ (m_nRunning (ping_ok n) = m_health_check_threshold n
      /\ m_health_check_threshold (ping_ok n) = m_health_check_threshold n
      /\ persister_log (ping_ok n)
         = persister_log n ++ (if m_nRunning n =? 0 then [persist (m_id n)] else [])
      /\ (if m_nRunning n =? 0
          then Z.land (server_status (ping_ok n)) MR = MR
               /\ server_status (ping_ok n) = set_status (server_status n) MR
          else server_status (ping_ok n) = server_status n)).
Proof.
  split; [done|].
  split.
  { unfold is_running. split; intros H.
    - by apply Z.ltb_lt.
    - by apply Z.ltb_lt. }
  split.
  { unfold set_running.
    destruct (Z.ltb_spec 0 (m_nRunning n)) as [Hpos|Hnpos].
    - destruct (Z.eqb_spec (m_nRunning n - 1) 0) as [H1|H1];
        destruct (Z.eqb_spec (m_nRunning n) 1) as [H2|H2]; try lia;
        cbn [m_nRunning m_health_check_threshold persister_log server_status].
      + repeat split; try done; try lia. apply cleared_bits.
      + rewrite app_nil_r. repeat split; done.
    - destruct (Z.eqb_spec (m_nRunning n) 1) as [H2|H2]; [lia|].
      rewrite app_nil_r. repeat split; done. }
  split.
  { intros k. destruct (pings_fail_spec k n) as [Hc Hl]. split.
    - unfold unpersist_calls. rewrite Hl, filter_app, length_app.
      destruct ((0 <? m_nRunning n) && (m_nRunning n <=? Z.of_nat k)); done.
    - intros Hk. unfold is_running. rewrite Hc.
      destruct (Z.ltb_spec 0 (m_nRunning n)); apply Z.ltb_ge; lia. }
  unfold set_running.
  destruct (Z.eqb_spec (m_nRunning n) 0) as [H0|H0];
    cbn [m_nRunning m_health_check_threshold persister_log server_status].
  - repeat split; try done. apply set_bits.
  - rewrite app_nil_r. repeat split; done.
Qed.

End Facts.

(** Threshold 3 (the spec's node-loss scenario) with the status bits of
    maxscale/server.hh: after three failed pings the node is down and
    [unpersist] was called once; further pings do not call it again. *)
Lemma C3_node_countdown_witness :
  let n0 := create 8 1 7 3 0 [] in
  is_running (failed_pings 8 1 3 n0) = false
  /\ unpersist_calls (failed_pings 8 1 3 n0) = 1%nat
  /\ unpersist_calls (failed_pings 8 1 10 n0) = 1%nat.
Proof.
  intros n0.
  pose proof (C3_node_countdown 8 1 n0) as (_ & _ & _ & Hk & _).
  split; [|split].
  - apply (Hk 3%nat). vm_compute. discriminate.
  - destruct (Hk 3%nat) as [-> _]. reflexivity.
  - destruct (Hk 10%nat) as [-> _]. reflexivity.
Defined.

End ClustrixNodeFacts.

Module CapabilitiesFacts.
Import Bytes Capabilities.

Lemma i32_small (z : Z) : 0 <= z < 2 ^ 31 -> i32 z = z.
Proof. intros Hz. unfold i32. rewrite Z.mod_small; lia. Qed.

Lemma u32_small (z : Z) : 0 <= z < 2 ^ 32 -> u32 z = z.
Proof. intros Hz. unfold u32. by rewrite Z.mod_small. Qed.

Lemma u32_bits (z i : Z) : Z.testbit (u32 z) i = (i <? 32) && Z.testbit z i.
Proof. unfold u32. by rewrite Z.testbit_mod_pow2. Qed.

Lemma poke_length (off : Z) (bs buf : list byte) :
  length (poke off bs buf) = length buf.
Proof.
  unfold poke. rewrite !length_app, !length_take, length_drop. lia.
Qed.

Lemma take_poke_before (n : nat) (off : Z) (bs buf : list byte) :
  (n <= Z.to_nat off)%nat -> take n (poke off bs buf) = take n buf.
Proof.
  intros Hn. unfold poke.
  destruct (Nat.le_gt_cases (Z.to_nat off) (length buf)) as [Hle|Hgt].
  - rewrite take_app_le by (rewrite length_take; lia).
    rewrite take_take. f_equal. lia.
  - rewrite (take_ge buf (Z.to_nat off)) by lia.
    replace (length buf - Z.to_nat off)%nat with 0%nat by lia.
    rewrite (drop_ge buf) by lia. cbn [take]. by rewrite !app_nil_r.
Qed.

Lemma take_drop_poke (off : Z) (bs buf : list byte) :
  (Z.to_nat off + length bs <= length buf)%nat -> 0 <= off ->
  take (length bs) (drop (Z.to_nat off) (poke off bs buf)) = bs.
Proof.
  intros Hfit Hoff. unfold poke.
  rewrite drop_app_length' by (rewrite length_take; lia).
  rewrite (take_ge bs) by lia.
  by rewrite take_app_length.
Qed.

Lemma land3_nonzero (a b c : Z) :
  Z.land (Z.land a b) c <> 0 -> Z.land a c <> 0 /\ Z.land b c <> 0.
Proof.
  intros H. split; intros H0; apply H.
  - rewrite <- Z.land_assoc, (Z.land_comm b c), Z.land_assoc, H0. apply Z.land_0_l.
  - rewrite <- Z.land_assoc, H0. apply Z.land_0_r.
Qed.

Section Facts.
Variables (CLIENT SSL SESSION_TRACK MULTI_STATEMENTS CONNECT_WITH_DB
           PLUGIN_AUTH CONNECT_ATTRS RCAP_SESSION_TRACKING : Z).
Variable response_length :
  bool -> bool -> list byte -> option (list byte) -> list byte -> list byte -> Z.
Variable load_hashed_password : list byte -> list byte -> list byte.
Variable DEFAULT_PLUGIN : list byte.

Local Abbreviation capabilities_of :=
  (create_capabilities CLIENT SSL SESSION_TRACK MULTI_STATEMENTS CONNECT_WITH_DB
     PLUGIN_AUTH RCAP_SESSION_TRACKING).
Local Abbreviation spec_of :=
  (spec_capabilities CLIENT SSL SESSION_TRACK MULTI_STATEMENTS CONNECT_WITH_DB
     PLUGIN_AUTH).
Local Abbreviation response_of :=
  (gw_generate_auth_response CLIENT SSL SESSION_TRACK MULTI_STATEMENTS
     CONNECT_WITH_DB PLUGIN_AUTH CONNECT_ATTRS RCAP_SESSION_TRACKING
     response_length load_hashed_password DEFAULT_PLUGIN).

(** The code's sequence of compound assignments computes the mask the
    specification describes. *)
Lemma create_capabilities_refines
    (client_caps : Z) (with_ssl db_spec : bool) (service_caps : Z) :
  0 <= client_caps < 2 ^ 32 -> 0 <= CLIENT < 2 ^ 32 ->
  0 <= SSL < 2 ^ 31 -> 0 <= SESSION_TRACK < 2 ^ 31 ->
  0 <= MULTI_STATEMENTS < 2 ^ 31 -> 0 <= CONNECT_WITH_DB < 2 ^ 31 ->
  0 <= PLUGIN_AUTH < 2 ^ 31 ->
  Z.land CONNECT_WITH_DB PLUGIN_AUTH = 0 ->
  capabilities_of client_caps with_ssl db_spec service_caps
  = spec_of client_caps with_ssl
      (rcap_type_required service_caps RCAP_SESSION_TRACKING) db_spec.
Proof.
  intros Hc Hcl Hssl Hst Hms Hdb Hpa Hdisj.
  unfold create_capabilities, spec_capabilities.
  rewrite !i32_small by lia.
  rewrite (u32_small client_caps), (u32_small CLIENT), (u32_small SSL),
    (u32_small SESSION_TRACK), (u32_small MULTI_STATEMENTS) by lia.
  apply Z.bits_inj'. intros i Hi.
  assert (Hd : Z.testbit CONNECT_WITH_DB i && Z.testbit PLUGIN_AUTH i = false).
  { rewrite <- Z.land_spec, Hdisj. apply Z.bits_0. }
  assert (Hhigh : forall z, 0 <= z < 2 ^ 32 -> (i <? 32) = false -> Z.testbit z i = false).
  { intros z Hz Hlt. apply (BitFacts.high_bits_of_range z 32); [done|].
    by apply Z.ltb_ge. }
  destruct with_ssl, (rcap_type_required service_caps RCAP_SESSION_TRACKING), db_spec;
    repeat first [rewrite u32_bits | rewrite Z.land_spec | rewrite Z.lor_spec
                 | rewrite Z.lnot_spec by lia | rewrite Z.bits_0];
    destruct (i <? 32) eqn:Hlt; cbn [andb orb];
    rewrite ?(Hhigh client_caps), ?(Hhigh CLIENT), ?(Hhigh SSL), ?(Hhigh SESSION_TRACK),
      ?(Hhigh MULTI_STATEMENTS), ?(Hhigh CONNECT_WITH_DB), ?(Hhigh PLUGIN_AUTH) by (lia || done);
    try done;
    destruct (Z.testbit client_caps i), (Z.testbit CLIENT i), (Z.testbit SSL i),
      (Z.testbit SESSION_TRACK i), (Z.testbit MULTI_STATEMENTS i),
      (Z.testbit CONNECT_WITH_DB i), (Z.testbit PLUGIN_AUTH i);
    cbn [andb orb negb] in *; done.
Qed.

(** C8.  The mask sent in the handshake response is the client's mask
    restricted to the client-compatible set, OR-ed with SSL when TLS is
    requested, SESSION_TRACK when the service requires session-state
    tracking, MULTI_STATEMENTS, CONNECT_WITH_DB when a database was chosen
    (the bit being cleared otherwise) and PLUGIN_AUTH; the connect
    attributes take part in the response only when the computed mask and
    the server's mask both contain CONNECT_ATTRS: otherwise the response is
    the one built without any attributes. *)
Theorem C8_handshake_capabilities
    (cd : MYSQL_session) (scramble : list byte) (server_capabilities : Z)
    (with_ssl ssl_established : bool) (service_caps : Z) :
  0 <= client_capabilities cd < 2 ^ 32 -> 0 <= CLIENT < 2 ^ 32 ->
  0 <= SSL < 2 ^ 31 -> 0 <= SESSION_TRACK < 2 ^ 31 ->
  0 <= MULTI_STATEMENTS < 2 ^ 31 -> 0 <= CONNECT_WITH_DB < 2 ^ 31 ->
  0 <= PLUGIN_AUTH < 2 ^ 31 ->
  Z.land CONNECT_WITH_DB PLUGIN_AUTH = 0 ->
  let mask :=
    capabilities_of (client_capabilities cd) with_ssl (db_specified cd) service_caps in
  let response :=
    response_of cd scramble server_capabilities with_ssl ssl_established service_caps in
  let without_attrs :=
    {| user := user cd; db := db cd; plugin := plugin cd;
       auth_token_phase2 := auth_token_phase2 cd; connect_attrs := [];
       client_capabilities := client_capabilities cd;
       extra_capabilitites := extra_capabilitites cd; m_charset := m_charset cd |} in
  mask = spec_of (client_capabilities cd) with_ssl
           (rcap_type_required service_caps RCAP_SESSION_TRACKING) (db_specified cd)
  /\ Z.land mask PLUGIN_AUTH = PLUGIN_AUTH
  /\ Z.land mask CONNECT_WITH_DB = (if db_specified cd then CONNECT_WITH_DB else 0)
  /\ (8 <= zlength response -> take 4 (drop 4 response) = set_byte4 mask)
  /\ (attrs_negotiated CONNECT_ATTRS mask server_capabilities = true ->
      Z.land mask CONNECT_ATTRS <> 0 /\ Z.land server_capabilities CONNECT_ATTRS <> 0)
  /\ (attrs_negotiated CONNECT_ATTRS mask server_capabilities = false ->
      response
      = response_of without_attrs scramble server_capabilities with_ssl ssl_established
          service_caps)
  /\ zlength response
     = Z.max 0
         (response_length with_ssl ssl_established (user cd)
            (match auth_token_phase2 cd with [] => None | _ => Some (auth_token_phase2 cd) end)
            (db cd) DEFAULT_PLUGIN
          + (if attrs_negotiated CONNECT_ATTRS mask server_capabilities
             then zlength (connect_attrs cd) else 0)).
Proof.
  intros Hc Hcl Hssl Hst Hms Hdb Hpa Hdisj mask response without_attrs.
  assert (Hmask : mask = spec_of (client_capabilities cd) with_ssl
                    (rcap_type_required service_caps RCAP_SESSION_TRACKING)
                    (db_specified cd))
    by (by apply create_capabilities_refines).
  assert (Hbit : forall i, Z.testbit CONNECT_WITH_DB i && Z.testbit PLUGIN_AUTH i = false).
  { intros i. rewrite <- Z.land_spec, Hdisj. apply Z.bits_0. }
  split; [exact Hmask|].
  split.
  { rewrite Hmask. unfold spec_capabilities. apply Z.bits_inj'. intros i Hi.
    specialize (Hbit i). revert Hbit.
    destruct (db_specified cd);
      repeat first [rewrite Z.land_spec | rewrite Z.lor_spec | rewrite Z.lnot_spec by lia];
      destruct (Z.testbit PLUGIN_AUTH i), (Z.testbit CONNECT_WITH_DB i);
      cbn [andb orb negb]; try done;
      rewrite ?orb_true_r, ?andb_true_r, ?andb_false_r; done. }
  split.
  { rewrite Hmask. unfold spec_capabilities. apply Z.bits_inj'. intros i Hi.
    destruct (db_specified cd);
      repeat first [rewrite Z.land_spec | rewrite Z.lor_spec | rewrite Z.lnot_spec by lia
                   | rewrite Z.bits_0];
      destruct (Z.testbit CONNECT_WITH_DB i);
      cbn [andb orb negb] in *; rewrite ?orb_true_r, ?andb_false_r; done. }
  split.
  { intros Hlen. subst response. revert Hlen.
    unfold gw_generate_auth_response. fold mask.
    set (bytes := if attrs_negotiated CONNECT_ATTRS mask server_capabilities then _ else _).
    set (b0 := poke 3 _ (poke 0 _ _)).
    set (b1 := poke 32 _ (poke 12 _ (poke 8 _ (poke 4 (set_byte4 mask) b0)))).
    assert (Hb1 : forall l, length l = length b1 -> (8 <= zlength l) ->
                  take 8 l = take 8 b1 -> take 4 (drop 4 l) = set_byte4 mask).
    { intros l Hl H8 Heq.
      rewrite (take_drop_commute l 4 4). cbn [Nat.add].
      rewrite Heq. subst b1.
      rewrite !take_poke_before by (cbn; lia).
      rewrite <- (take_drop_commute _ 4 4).
      apply (take_drop_poke 4 (set_byte4 mask)).
      - unfold zlength in H8. rewrite Hl in H8. 
        rewrite !poke_length in H8. unfold zlength. cbn. lia.
      - lia. }
    destruct (negb with_ssl || ssl_established).
    - destruct (auth_token_phase2 cd) as [|t0 tk] eqn:Htok;
        destruct (db_specified cd);
        destruct (attrs_negotiated CONNECT_ATTRS mask server_capabilities
                  && negb match connect_attrs cd with [] => true | _ => false end);
        intros Hlen; apply Hb1; rewrite ?poke_length; try done;
        rewrite !take_poke_before; try done; unfold zlength; cbn; lia.
    - intros Hlen. by apply Hb1. }
  split.
  { unfold attrs_negotiated. intros H. apply negb_true_iff, Z.eqb_neq in H.
    by apply land3_nonzero in H. }
  split.
  { intros Hneg. subst response without_attrs.
    unfold gw_generate_auth_response, db_specified.
    cbn [user db plugin auth_token_phase2 connect_attrs client_capabilities
         extra_capabilitites m_charset].
    fold (db_specified cd). fold mask. rewrite Hneg. reflexivity. }
  subst response. unfold gw_generate_auth_response. fold mask.
  set (bytes := if attrs_negotiated CONNECT_ATTRS mask server_capabilities then _ else _).
  assert (Hbytes : bytes = response_length with_ssl ssl_established (user cd)
            (match auth_token_phase2 cd with [] => None | _ => Some (auth_token_phase2 cd) end)
            (db cd) DEFAULT_PLUGIN
          + (if attrs_negotiated CONNECT_ATTRS mask server_capabilities
             then zlength (connect_attrs cd) else 0)).
  { subst bytes. destruct (attrs_negotiated CONNECT_ATTRS mask server_capabilities); lia. }
  rewrite <- Hbytes. clearbody bytes. clear Hbytes.
  assert (Hlen : forall l : list byte,
             length l = Z.to_nat bytes -> zlength l = Z.max 0 bytes).
  { intros l Hl. unfold zlength. rewrite Hl. lia. }
  destruct (negb with_ssl || ssl_established).
  - destruct (auth_token_phase2 cd) as [|t0 tk];
      destruct (db_specified cd);
      destruct (attrs_negotiated CONNECT_ATTRS mask server_capabilities
                && negb match connect_attrs cd with [] => true | _ => false end);
      apply Hlen; rewrite !poke_length; apply repeat_length.
  - apply Hlen. rewrite !poke_length. apply repeat_length.
Qed.

End Facts.

(** A client bob with database db, connecting over TLS to a server that
    announces CONNECT_ATTRS, with the protocol's constants. *)
Lemma C8_handshake_capabilities_witness :
  let cd :=
    {| user := [Byte.x62; Byte.x6f; Byte.x62]; db := [Byte.x64; Byte.x62];
       plugin := []; auth_token_phase2 := [];
       connect_attrs := [Byte.x03; Byte.x61; Byte.x3d; Byte.x62];
       client_capabilities := 2 ^ 20 + 2 ^ 11 + 2 ^ 9 + 8;
       extra_capabilitites := 0; m_charset := 33 |} in
  let mask :=
    create_capabilities CLIENT_MASK_MYSQL (2 ^ 11) (2 ^ 23) (2 ^ 16) 8 (2 ^ 19) 64
      (client_capabilities cd) true (db_specified cd) 64 in
  mask = spec_capabilities CLIENT_MASK_MYSQL (2 ^ 11) (2 ^ 23) (2 ^ 16) 8 (2 ^ 19)
           (client_capabilities cd) true true true
  /\ mask = 2 ^ 23 + 2 ^ 20 + 2 ^ 19 + 2 ^ 16 + 2 ^ 11 + 2 ^ 9 + 8
  /\ Z.land mask (2 ^ 20) <> 0.
Proof.
  intros cd mask.
  pose proof (C8_handshake_capabilities CLIENT_MASK_MYSQL (2 ^ 11) (2 ^ 23) (2 ^ 16) 8
                (2 ^ 19) (2 ^ 20) 64 response_length_mysql (fun _ pw => pw) []
                cd [] (2 ^ 20) true true 64) as H.
  destruct H as (Hspec & _ & _ & _ & Hattrs & _); try (vm_compute; split; [discriminate|reflexivity]).
  - reflexivity.
  - split; [exact Hspec|]. split; [reflexivity|].
    apply Hattrs. reflexivity.
Defined.

End CapabilitiesFacts.

Module ReplyFacts.
Import Bytes Wire Reply.

Lemma u8_range (b : byte) : 0 <= u8 b < 256.
Proof.
  unfold u8. pose proof (Byte.to_N_bounded b) as H. lia.
Qed.

Lemma deref_range (b : Buffer) (it : Iter) : 0 <= deref b it < 256.
Proof. apply u8_range. Qed.

(** OR-ing a value below [2^k] with one shifted left by [k] is adding. *)
Lemma lor_shiftl_add (lo hi k : Z) :
  0 <= k -> 0 <= lo < 2 ^ k -> Z.lor lo (Z.shiftl hi k) = lo + 2 ^ k * hi.
Proof.
  intros Hk Hlo.
  rewrite Z.shiftl_mul_pow2, (Z.mul_comm hi) by done.
  rewrite <- Z.lxor_lor, <- Z.add_nocarry_lxor; try done.
  all: apply Z.bits_inj'; intros i Hi; rewrite Z.land_spec, Z.bits_0;
    destruct (Z.lt_ge_cases i k) as [Hlt|Hge].
  all: try (rewrite (Z.mul_comm (2 ^ k)), Z.mul_pow2_bits_low by lia;
            apply andb_false_r).
  all: rewrite (BitFacts.high_bits_of_range lo k i) by lia; done.
Qed.

Lemma packet_length_u24le (b : Buffer) (it : Iter) :
  packet_length b it = u24le b it.
Proof.
  unfold packet_length, u24le.
  pose proof (deref_range b it). pose proof (deref_range b (it + 1)).
  pose proof (deref_range b (it + 2)).
  rewrite (lor_shiftl_add (deref b it)) by lia.
  rewrite lor_shiftl_add by lia. lia.
Qed.

Section Facts.
Variables ps_width coldef_width : Z.

Local Abbreviation one_packet := (process_one_packet ps_width coldef_width).
Local Abbreviation step := (packet_step ps_width coldef_width).
Local Abbreviation loop := (process_packets_loop ps_width coldef_width).
Local Abbreviation packets := (process_packets ps_width coldef_width).
Local Abbreviation n_packets := (process_n_packets ps_width coldef_width).

Lemma session_track_loop_skip (fuel : nat) : forall b it last t,
  m_skip_next (session_track_loop fuel b it last t) = m_skip_next t.
Proof.
  induction fuel as [|fuel IH]; intros b it last t; cbn [session_track_loop]; [done|].
  destruct (it =? last); [done|].
  destruct (get_encoded_int b (it + 1)) as [total it1].
  repeat match goal with
         | |- context [if ?c then _ else _] => destruct c
         | |- context [let '(_, _) := ?e in _] => destruct e
         end; rewrite IH; done.
Qed.

(** [process_one_packet] never touches the large-packet flag. *)
Lemma process_one_packet_skip_next (b : Buffer) (it last : Iter) (len : Z) (t : Tracker) :
  m_skip_next (one_packet b it last len t) = m_skip_next t.
Proof.
  unfold process_one_packet, process_reply_start, process_result_start,
    process_ps_response, process_ok_packet.
  destruct (state (m_reply t));
    repeat match goal with
           | |- context [if ?c then _ else _] => destruct c
           | |- context [let '(_, _) := ?e in _] => destruct e
           end;
    cbn; rewrite ?session_track_loop_skip; done.
Qed.

(** More fuel than the loop needs changes nothing. *)
Lemma loop_fuel (fuel : nat) : forall b used t,
  0 <= used ->
  (buf_len b - used) / 4 < Z.of_nat fuel ->
  loop (S fuel) b used t = loop fuel b used t.
Proof.
  induction fuel as [|fuel IH]; intros b used t Hused Hfuel.
  - cbn [process_packets_loop]. unfold MYSQL_HEADER_LEN.
    destruct (Z.eqb_spec used (buf_len b)); [done|].
    destruct (Z.ltb_spec (buf_len b - used) 4); [done|].
    exfalso. assert (1 <= (buf_len b - used) / 4); [|lia].
    apply Z.div_le_lower_bound; lia.
  - cbn [process_packets_loop]. cbn [process_packets_loop] in IH.
    unfold MYSQL_HEADER_LEN in *.
    destruct (Z.eqb_spec used (buf_len b)); [done|].
    destruct (Z.ltb_spec (buf_len b - used) 4); [done|].
    destruct (Z.ltb_spec (buf_len b - used) (packet_length b used + 4)); [done|].
    apply IH.
    + rewrite packet_length_u24le. unfold u24le.
      pose proof (deref_range b used). pose proof (deref_range b (used + 1)).
      pose proof (deref_range b (used + 2)). lia.
    + assert (Hlen : 0 <= packet_length b used).
      { rewrite packet_length_u24le. unfold u24le.
        pose proof (deref_range b used). pose proof (deref_range b (used + 1)).
        pose proof (deref_range b (used + 2)). lia. }
      assert ((buf_len b - (used + (packet_length b used + 4))) / 4
              <= (buf_len b - used - 4) / 4) by (apply Z.div_le_mono; lia).
      replace (buf_len b - used - 4) with ((buf_len b - used) + (-1) * 4) in H1 by lia.
      rewrite Z.div_add in H1 by lia. lia.
Qed.

Lemma loop_S (fuel : nat) (b : Buffer) (used : Z) (t : Tracker) :
  loop (S fuel) b used t
  = if used =? buf_len b then (t, used)
    else if buf_len b - used <? MYSQL_HEADER_LEN then (t, used)
    else if buf_len b - used <? packet_length b used + MYSQL_HEADER_LEN then (t, used)
    else loop fuel b (used + (packet_length b used + MYSQL_HEADER_LEN))
           (step b (used + 4) (packet_length b used) t).
Proof. reflexivity. Qed.

(** C5.  A packet whose payload length is 2^24-1 sets the skip flag; the
    packet after it is not handed to [process_one_packet] (the tracker is
    left as it was, apart from the flag), and the flag is set again exactly
    when that packet is itself of maximal length.  Hence a row of 2^24-1
    bytes followed by one shorter continuation packet is consumed whole and
    counts as one row. *)
Theorem C5_large_packet_skip (b : Buffer) (t : Tracker) (it len len2 : Z) :
  m_skip_next (step b it len t) = (len =? GW_MYSQL_MAX_PACKET_LEN)
  /\ (m_skip_next t = true ->
      step b it len t = set_skip_next (len =? GW_MYSQL_MAX_PACKET_LEN) t)
  /\ (m_skip_next t = false ->
      step b it len t
      = one_packet b it (it + len) len
          (set_skip_next (len =? GW_MYSQL_MAX_PACKET_LEN) t))
  /\ (m_skip_next t = false ->
      state (m_reply t) = RSET_ROWS ->
      packet_length b 0 = GW_MYSQL_MAX_PACKET_LEN ->
      deref b MYSQL_HEADER_LEN <> MYSQL_REPLY_ERR ->
      packet_length b (MYSQL_HEADER_LEN + GW_MYSQL_MAX_PACKET_LEN) = len2 ->
      len2 < GW_MYSQL_MAX_PACKET_LEN ->
      buf_len b = MYSQL_HEADER_LEN + GW_MYSQL_MAX_PACKET_LEN + MYSQL_HEADER_LEN + len2 ->
      snd (packets b t) = buf_len b
      /\ rows_read (m_reply (fst (packets b t))) = rows_read (m_reply t) + 1
      /\ state (m_reply (fst (packets b t))) = RSET_ROWS
      /\ m_skip_next (fst (packets b t)) = false).
Proof.
  split.
  { unfold packet_step. destruct (m_skip_next t); cbn [negb]; [done|].
    by rewrite process_one_packet_skip_next. }
  split.
  { intros Hskip. unfold packet_step. by rewrite Hskip. }
  split.
  { intros Hskip. unfold packet_step. by rewrite Hskip. }
  intros Hskip Hstate Hlen1 Hrow Hlen2 Hshort Htotal.
  assert (Hlen2nn : 0 <= len2).
  { rewrite <- Hlen2, packet_length_u24le. unfold u24le.
    pose proof (deref_range b (MYSQL_HEADER_LEN + GW_MYSQL_MAX_PACKET_LEN)).
    pose proof (deref_range b (MYSQL_HEADER_LEN + GW_MYSQL_MAX_PACKET_LEN + 1)).
    pose proof (deref_range b (MYSQL_HEADER_LEN + GW_MYSQL_MAX_PACKET_LEN + 2)). lia. }
  unfold MYSQL_HEADER_LEN, GW_MYSQL_MAX_PACKET_LEN in *.
  change (2 ^ 24 - 1) with 16777215 in *.
  assert (Hfirst : step b 4 16777215 t = add_rows 1 (set_skip_next true t)).
  { unfold packet_step. rewrite Hskip. cbn [negb].
    unfold process_one_packet. cbn [set_skip_next m_reply]. rewrite Hstate.
    unfold GW_MYSQL_MAX_PACKET_LEN, MYSQL_EOF_PACKET_LEN, MYSQL_HEADER_LEN,
      MYSQL_REPLY_EOF, MYSQL_REPLY_ERR in *.
    replace (16777215 =? 9 - 4) with false by done. rewrite andb_false_r.
    destruct (Z.eqb_spec (deref b 4) 255); done. }
  assert (Hsecond : step b (4 + 16777215 + 4) len2 (add_rows 1 (set_skip_next true t))
                    = set_skip_next false (add_rows 1 (set_skip_next true t))).
  { unfold packet_step. cbn [add_rows with_reply set_skip_next m_skip_next negb].
    unfold GW_MYSQL_MAX_PACKET_LEN. change (2 ^ 24 - 1) with 16777215.
    destruct (Z.eqb_spec len2 16777215); [lia|done]. }
  assert (Hrun : packets b t
                 = (set_skip_next false (add_rows 1 (set_skip_next true t)), buf_len b)).
  { unfold process_packets, MYSQL_HEADER_LEN.
    assert (Hdiv : 2 <= buf_len b / 4) by (apply Z.div_le_lower_bound; lia).
    destruct (Z.to_nat (buf_len b / 4 + 1)) as [|[|[|fuel]]] eqn:Hfuel;
      [exfalso; lia | exfalso; lia | exfalso; lia |].
    clear Hfuel.
    rewrite loop_S. unfold MYSQL_HEADER_LEN.
    destruct (Z.eqb_spec 0 (buf_len b)); [lia|].
    destruct (Z.ltb_spec (buf_len b - 0) 4); [lia|].
    rewrite Hlen1.
    destruct (Z.ltb_spec (buf_len b - 0) (16777215 + 4)); [lia|].
    replace (0 + 4) with 4 by lia. rewrite Hfirst.
    replace (0 + (16777215 + 4)) with (4 + 16777215) by lia.
    rewrite loop_S. unfold MYSQL_HEADER_LEN.
    destruct (Z.eqb_spec (4 + 16777215) (buf_len b)); [lia|].
    destruct (Z.ltb_spec (buf_len b - (4 + 16777215)) 4); [lia|].
    rewrite Hlen2.
    destruct (Z.ltb_spec (buf_len b - (4 + 16777215)) (len2 + 4)); [lia|].
    rewrite Hsecond.
    rewrite loop_S.
    destruct (Z.eqb_spec (4 + 16777215 + (len2 + 4)) (buf_len b)) as [He|Hne]; [|lia].
    by rewrite He. }
  rewrite Hrun. cbn [fst snd].
  cbn [add_rows with_reply set_skip_next m_skip_next m_reply rows_read state].
  done.
Qed.

(** While the tracker is in PREPARE with [m] packets outstanding, each
    further packet takes one off, and the state becomes DONE with the
    last. *)
Lemma prepare_countdown (contents : nat -> Buffer * Iter * Z) (k : nat) :
  forall t m,
    state (m_reply t) = PREPARE -> m_ps_packets t = m ->
    0 < m < 2 ^ ps_width -> Z.of_nat k <= m ->
    let tk := n_packets k contents t in
    m_ps_packets tk = m - Z.of_nat k
    /\ state (m_reply tk) = (if Z.of_nat k =? m then DONE else PREPARE).
Proof.
  induction k as [|k IH]; intros t m Hst Hm Hrange Hk tk; subst tk.
  - cbn [process_n_packets]. split; [lia|].
    destruct (Z.eqb_spec (Z.of_nat 0) m); [lia|done].
  - cbn [process_n_packets].
    destruct (IH t m Hst Hm Hrange ltac:(lia)) as [IHm IHs].
    destruct (Z.eqb_spec (Z.of_nat k) m); [lia|].
    destruct (contents k) as [[bk itk] lenk].
    unfold process_one_packet. rewrite IHs.
    cbn [set_ps_packets m_ps_packets]. rewrite IHm.
    unfold ps_wrap. rewrite Z.mod_small by lia.
    destruct (Z.eqb_spec (m - Z.of_nat k - 1) 0);
      destruct (Z.eqb_spec (Z.of_nat (S k)) m); try lia;
      cbn; split; done || lia.
Qed.

(** C6.  The OK packet that answers COM_STMT_PREPARE, carrying the
    statement id and the numbers of columns and parameters, makes the
    tracker record the id and the parameter count and expect
    [n_cols + n_params] definition packets plus one EOF for each of the two
    groups that is not empty; the reply is DONE exactly when that many
    further packets have been processed, at once if there are none. *)
Theorem C6_prepare_response
    (b : Buffer) (it last : Iter) (len : Z) (t : Tracker) :
  17 < ps_width ->
  state (m_reply t) = START ->
  command (m_reply t) = MXS_COM_STMT_PREPARE ->
  deref b it = MYSQL_REPLY_OK ->
  let stmt_id := u32le b (it + 1) in
  let n_cols := u16le b (it + 5) in
  let n_params := u16le b (it + 7) in
  let expected :=
    n_cols + n_params + (if 0 <? n_cols then 1 else 0)
    + (if 0 <? n_params then 1 else 0) in
  let t1 := one_packet b it last len t in
  generated_id (m_reply t1) = stmt_id
  /\ param_count (m_reply t1) = n_params
  /\ m_ps_packets t1 = expected
  /\ state (m_reply t1) = (if expected =? 0 then DONE else PREPARE)
  /\ forall (k : nat) (contents : nat -> Buffer * Iter * Z),
       Z.of_nat k <= expected ->
       state (m_reply (n_packets k contents t1))
       = (if Z.of_nat k =? expected then DONE else PREPARE).
Proof.
  intros Hw Hstate Hcmd Hok stmt_id n_cols n_params expected t1.
  pose proof (deref_range b (it + 1)) as R1.
  pose proof (deref_range b (it + 1 + 1)) as R2.
  pose proof (deref_range b (it + 1 + 2)) as R3.
  pose proof (deref_range b (it + 1 + 3)) as R4.
  pose proof (deref_range b (it + 5)) as R5.
  pose proof (deref_range b (it + 5 + 1)) as R6.
  pose proof (deref_range b (it + 7)) as R7.
  pose proof (deref_range b (it + 7 + 1)) as R8.
  assert (Hpow : 2 ^ 18 <= 2 ^ ps_width) by (apply Z.pow_le_mono_r; lia).
  change (2 ^ 18) with 262144 in Hpow.
  assert (Ht1 : t1 = process_ps_response ps_width b it last (set_is_ok true t)).
  { subst t1. unfold process_one_packet. rewrite Hstate.
    unfold process_reply_start. rewrite Hcmd.
    unfold MXS_COM_STMT_PREPARE, MXS_COM_BINLOG_DUMP, MXS_COM_STATISTICS,
      MXS_COM_FIELD_LIST.
    replace (22 =? 18) with false by done. replace (22 =? 9) with false by done.
    replace (22 =? 4) with false by done.
    unfold process_result_start. rewrite Hok.
    unfold MYSQL_REPLY_OK. replace (0 =? 0) with true by done.
    cbn [set_is_ok with_reply m_reply command]. rewrite Hcmd.
    unfold MXS_COM_STMT_PREPARE. replace (22 =? 22) with true by done. done. }
  assert (Hid : u32 (Z.lor (Z.lor (Z.lor (deref b (it + 1))
                                     (Z.shiftl (deref b (it + 1 + 1)) 8))
                              (Z.shiftl (deref b (it + 1 + 2)) 16))
                       (Z.shiftl (deref b (it + 1 + 3)) 24)) = stmt_id).
  { subst stmt_id. unfold u32le.
    rewrite (lor_shiftl_add (deref b (it + 1))) by lia.
    rewrite (lor_shiftl_add _ _ 16) by lia.
    rewrite (lor_shiftl_add _ _ 24) by lia.
    unfold u32. rewrite Z.mod_small by lia. lia. }
  assert (Hcols : u16 (deref b (it + 1 + 4) + Z.shiftl (deref b (it + 1 + 4 + 1)) 8)
                  = n_cols).
  { subst n_cols. unfold u16le, u16.
    replace (it + 1 + 4) with (it + 5) by lia.
    rewrite Z.shiftl_mul_pow2 by lia. rewrite Z.mod_small by lia. lia. }
  assert (Hparams : u16 (deref b (it + 1 + 4 + 2)
                         + Z.shiftl (deref b (it + 1 + 4 + 2 + 1)) 8) = n_params).
  { subst n_params. unfold u16le, u16.
    replace (it + 1 + 4 + 2) with (it + 7) by lia.
    rewrite Z.shiftl_mul_pow2 by lia. rewrite Z.mod_small by lia. lia. }
  assert (Hc : 0 <= n_cols < 65536) by (subst n_cols; unfold u16le; lia).
  assert (Hp : 0 <= n_params < 65536) by (subst n_params; unfold u16le; lia).
  assert (Hfields : generated_id (m_reply t1) = stmt_id
                    /\ param_count (m_reply t1) = n_params
                    /\ m_ps_packets t1 = expected
                    /\ state (m_reply t1) = (if expected =? 0 then DONE else PREPARE)).
  { rewrite Ht1. unfold process_ps_response. rewrite Hid, Hcols, Hparams.
    subst expected. unfold ps_wrap.
    destruct (Z.eqb_spec n_cols 0) as [Hc0|Hc0];
      destruct (Z.eqb_spec n_params 0) as [Hp0|Hp0];
      cbn [set_ps_packets set_ps_ids set_reply_state with_reply m_reply m_ps_packets
             generated_id param_count state];
      repeat match goal with
             | |- context [?a mod 2 ^ ps_width] =>
                 rewrite (Z.mod_small a (2 ^ ps_width)) by lia
             end;
      zcases; try lia; repeat split; done || lia. }
  destruct Hfields as (Hg & Hpc & Hps & Hst).
  repeat (split; [done|]).
  intros k contents Hk.
  destruct (Z.eqb_spec expected 0) as [He|He].
  - assert (k = 0%nat) by lia. subst k. cbn [process_n_packets]. rewrite Hst.
    destruct (Z.eqb_spec (Z.of_nat 0) expected); [done|lia].
  - apply (prepare_countdown contents k t1 expected); try done.
    subst expected. zcases; lia.
Qed.

End Facts.

(** The spec's large-resultset scenario: a row of 2^24-1 bytes and a
    continuation of 100 bytes. *)
Lemma C5_large_packet_skip_witness :
  snd (process_packets 32 64 large_row_buffer (in_rows 0)) = 4 + (2 ^ 24 - 1) + 4 + 100
  /\ rows_read (m_reply (fst (process_packets 32 64 large_row_buffer (in_rows 0)))) = 1
  /\ state (m_reply (fst (process_packets 32 64 large_row_buffer (in_rows 0)))) = RSET_ROWS
  /\ m_skip_next (fst (process_packets 32 64 large_row_buffer (in_rows 0))) = false.
Proof.
  pose proof (C5_large_packet_skip 32 64 large_row_buffer (in_rows 0) 4 (2 ^ 24 - 1) 100)
    as (_ & _ & _ & H).
  apply H; try reflexivity.
  vm_compute. discriminate.
Defined.

(** The spec's prepare scenario: id 17, one column, one parameter. *)
Lemma C6_prepare_response_witness :
  let t1 := process_one_packet 32 64 ps_ok_packet 0 12 12 preparing in
  generated_id (m_reply t1) = 17
  /\ param_count (m_reply t1) = 1
  /\ m_ps_packets t1 = 4
  /\ state (m_reply t1) = PREPARE
  /\ state (m_reply (process_n_packets 32 64 3 (fun _ => (ps_ok_packet, 0, 12)) t1))
     = PREPARE
  /\ state (m_reply (process_n_packets 32 64 4 (fun _ => (ps_ok_packet, 0, 12)) t1))
     = DONE.
Proof.
  intros t1.
  pose proof (C6_prepare_response 32 64 ps_ok_packet 0 12 12 preparing) as H.
  destruct H as (Hid & Hpc & Hps & Hst & Hk); try reflexivity.
  split; [exact Hid|]. split; [exact Hpc|]. split; [exact Hps|].
  split; [exact Hst|]. split.
  - apply (Hk 3%nat). vm_compute. discriminate.
  - apply (Hk 4%nat). vm_compute. discriminate.
Defined.

End ReplyFacts.

Module BackendFacts.
Import Bytes Wire Dcb Server Reply Backend.

(** When a packet is tracked in the ordinary way, the tracked command is
    the packet's own. *)
Lemma prepare_for_write_tracks (buffer : GWBUF) (p : Proto) :
  gw_ignorable buffer = false ->
  Reply.m_changing_user (m_tracker p) = false ->
  load_active (m_tracker p) = false ->
  m_large_query (m_tracker p) = false ->
  command (m_reply (m_tracker (prepare_for_write buffer p)))
  = get_command (gw_data buffer).
Proof.
  intros Hign Hcu Hload Hlarge.
  unfold prepare_for_write. rewrite Hign. cbn [negb].
  assert (Ht : command (m_reply (track_query (gw_data buffer) (m_tracker p)))
               = get_command (gw_data buffer)).
  { unfold track_query. rewrite Hcu, Hload, Hlarge. cbn [negb].
    repeat case_match; reflexivity. }
  destruct (gw_collect_result buffer); cbn; exact Ht.
Qed.

(** On the ordinary path the code does what the comment in [write] says.
    In the ROUTING state with no reply being ignored, a COM_QUIT written to
    a server with persistent connections enabled is dropped (nothing is
    queued on the DCB and [write] returns 1) provided the command tracked
    after [prepare_for_write] is not COM_CHANGE_USER, which is the case
    whenever the packet is tracked in the ordinary way; a delayed buffer
    that is a COM_QUIT is dropped likewise, also by [send_delayed_packets];
    when persistent connections are not enabled the COM_QUIT is handed to
    the DCB's write queue on both paths. *)
Lemma com_quit_discarded
    (X : Externals) (srv : Server) (queue : GWBUF) (p : Proto) (d : DCB) :
  m_state p = ROUTING ->
  m_ignore_replies p = 0 ->
  MYSQL_IS_COM_QUIT (gw_data queue) = true ->
  command (m_reply (m_tracker (prepare_for_write queue p))) <> MXS_COM_CHANGE_USER ->
  (gw_ignorable queue = false ->
   Reply.m_changing_user (m_tracker p) = false ->
   load_active (m_tracker p) = false ->
   m_large_query (m_tracker p) = false ->
   command (m_reply (m_tracker (prepare_for_write queue p))) = MXS_COM_QUIT)
  /\ (persistent_conns_enabled srv = true ->
      write X srv queue p d = (1, prepare_for_write queue p, d)
      /\ backend_write_delayqueue X srv queue p d = (true, p, d)
      /\ (m_delayed_packets p = Some queue ->
          snd (send_delayed_packets X srv p d) = d))
  /\ (persistent_conns_enabled srv = false ->
      dcb_writable d = true ->
      snd (write X srv queue p d) = with_writeq (dcb_writeq d ++ [queue]) d
      /\ fst (fst (write X srv queue p d)) = 1
      /\ backend_write_delayqueue X srv queue p d
         = (true, p, with_writeq (dcb_writeq d ++ [queue]) d)).
Proof.
  intros Hst Hign Hquit Hcmd.
  assert (Hq : get_command (gw_data queue) = MXS_COM_QUIT).
  { unfold MYSQL_IS_COM_QUIT in Hquit. apply andb_true_iff in Hquit as [Hq _].
    by apply Z.eqb_eq in Hq. }
  assert (Hncu : MYSQL_IS_CHANGE_USER (gw_data queue) = false).
  { unfold MYSQL_IS_CHANGE_USER. rewrite Hq. reflexivity. }
  split.
  { intros H1 H2 H3 H4. rewrite prepare_for_write_tracks; done. }
  split.
  - intros Hpool. split; [|split].
    + unfold write. rewrite Hign, Hst. cbn [Z.ltb Z.compare].
      destruct (Z.eqb_spec (command (m_reply (m_tracker (prepare_for_write queue p))))
                  MXS_COM_CHANGE_USER); [done|].
      rewrite Hq, Hpool. reflexivity.
    + unfold backend_write_delayqueue. rewrite Hncu, Hquit, Hpool. reflexivity.
    + intros Hdel. unfold send_delayed_packets. rewrite Hdel.
      unfold backend_write_delayqueue. rewrite Hncu, Hquit, Hpool. reflexivity.
  - intros Hpool Hw. split; [|split].
    + unfold write. rewrite Hign, Hst. cbn [Z.ltb Z.compare].
      destruct (Z.eqb_spec (command (m_reply (m_tracker (prepare_for_write queue p))))
                  MXS_COM_CHANGE_USER); [done|].
      rewrite Hq, Hpool. cbn [andb]. rewrite andb_false_r.
      unfold writeq_append. rewrite Hw. reflexivity.
    + unfold write. rewrite Hign, Hst. cbn [Z.ltb Z.compare].
      destruct (Z.eqb_spec (command (m_reply (m_tracker (prepare_for_write queue p))))
                  MXS_COM_CHANGE_USER); [done|].
      rewrite Hq, Hpool. cbn [andb]. rewrite andb_false_r.
      unfold writeq_append. rewrite Hw. reflexivity.
    + unfold backend_write_delayqueue. rewrite Hncu, Hquit, Hpool. cbn [andb].
      unfold writeq_append. rewrite Hw. reflexivity.
Qed.

(** A client's COM_QUIT on a pooling server, written to an idle routing
    connection, is dropped. *)
Lemma com_quit_discarded_example :
  write test_externals (pooling_server 10) com_quit_packet
    (routing_proto no_init_sql ROUTING) (polling_dcb true)
  = (1, prepare_for_write com_quit_packet (routing_proto no_init_sql ROUTING),
     polling_dcb true).
Proof.
  assert (Hcmd : command (m_reply (m_tracker (prepare_for_write com_quit_packet
                                                (routing_proto no_init_sql ROUTING))))
                 <> MXS_COM_CHANGE_USER) by (vm_compute; discriminate).
  destruct (com_quit_discarded test_externals (pooling_server 10) com_quit_packet
              (routing_proto no_init_sql ROUTING) (polling_dcb true)
              eq_refl eq_refl eq_refl Hcmd) as (_ & Hpool & _).
  destruct (Hpool eq_refl) as (Hw & _). exact Hw.
Defined.

(** C10 at the failing input.  The claim: in the ROUTING state with no
    reply being ignored and persistent connections enabled, a COM_QUIT
    written by the session is dropped and nothing is sent.  Here the client
    has changed user and the reply has not arrived yet: the connection is
    routing, no reply is being ignored, the server pools connections, and
    the COM_QUIT written next is not dropped; a second COM_CHANGE_USER is
    queued on the DCB in its place, because [write] looks at the tracked
    command, which [track_query] leaves alone while the user is being
    changed, where [backend_write_delayqueue] looks at the packet. *)
Theorem C10_com_quit_during_change_user :
  let srv := pooling_server 10 in
  let p0 := routing_proto no_init_sql ROUTING in
  let d0 := polling_dcb true in
  let '(_, p1, d1) := write test_externals srv client_change_user p0 d0 in
  let '(rc, p2, d2) := write test_externals srv com_quit_packet p1 d1 in
  m_state p1 = ROUTING
  /\ m_ignore_replies p1 = 0
  /\ persistent_conns_enabled srv = true
  /\ MYSQL_IS_COM_QUIT (gw_data com_quit_packet) = true
  /\ dcb_writeq d2 = dcb_writeq d1 ++ [create_change_user_packet test_externals p1]
  /\ dcb_writeq d2 <> dcb_writeq d1.
Proof.
  vm_compute. repeat split. discriminate.
Qed.

(** The init queries go out in one write of the prepared buffer, and one OK
    packet per configured query is awaited. *)
Lemma init_queries_sent_in_one_write (reads : list ProtocolRead) (p : Proto) (d : DCB) :
  iq_state (m_init_query_status p) = SENDING ->
  buffer_contents (connection_init_sql (m_session p)) <> [] ->
  dcb_writable d = true ->
  exists p' d',
    send_connection_init_queries reads p d = Some (IN_PROGRESS, p', d', reads)
    /\ dcb_writeq d'
       = dcb_writeq d ++ [plain (buffer_contents (connection_init_sql (m_session p)))]
    /\ iq_state (m_init_query_status p') = RECEIVING
    /\ ok_packets_expected (m_init_query_status p')
       = zlength (queries (connection_init_sql (m_session p)))
    /\ ok_packets_received (m_init_query_status p') = 0.
Proof.
  intros Hs Hne Hw. unfold send_connection_init_queries. rewrite Hs.
  destruct (buffer_contents (connection_init_sql (m_session p))) as [|b bs] eqn:Hb;
    [done|].
  unfold writeq_append. rewrite Hw.
  eexists _, _. split; [reflexivity|]. cbn. by rewrite ?Hb.
Qed.

(** The loop reports success only with as many OK packets received as are
    expected, and every packet it counted was an OK packet. *)
Lemma receiving_loop_done (d : DCB) (reads : list ProtocolRead) :
  forall (rval : StateMachineRes) (p p' : Proto) (rest : list ProtocolRead),
    rval <> SM_DONE ->
    receiving_loop d reads rval p = Some (SM_DONE, p', rest) ->
    ok_packets_received (m_init_query_status p')
    = ok_packets_expected (m_init_query_status p').
Proof.
  induction reads as [|r reads IH]; intros rval p p' rest Hr H; cbn [receiving_loop] in H.
  - destruct (_ <? _); [done|].
    injection H as Hres <- <-. unfold receiving_result in Hres.
    destruct (Z.eqb_spec (ok_packets_received (m_init_query_status p))
                (ok_packets_expected (m_init_query_status p))); done.
  - destruct (_ <? _).
    + destruct r as [| |data].
      * by apply IH in H.
      * by apply IH in H.
      * destruct (String.eqb (wrong_packet_type data) EmptyString).
        -- by apply IH in H.
        -- injection H as Hres <- <-. unfold receiving_result in Hres.
           match type of Hres with
           | (if ?a =? ?b then _ else _) = _ =>
               destruct (Z.eqb_spec a b) as [He|]; [exact He|done]
           end.
    + injection H as Hres <- <-. unfold receiving_result in Hres.
      destruct (Z.eqb_spec (ok_packets_received (m_init_query_status p))
                  (ok_packets_expected (m_init_query_status p))); done.
Qed.

(** A packet that is not an OK packet, read first, fails the connection
    with a permanent error that names the query. *)
Lemma bad_first_packet_fails (data : list byte) (reads : list ProtocolRead)
    (p : Proto) (d : DCB) :
  iq_state (m_init_query_status p) = RECEIVING ->
  ok_packets_received (m_init_query_status p)
  < ok_packets_expected (m_init_query_status p) ->
  wrong_packet_type data <> EmptyString ->
  exists p',
    connection_init_step (Packet data :: reads) p d = Some (p', d, reads)
    /\ m_state p' = FAILED
    /\ upstream_calls p'
       = upstream_calls p
         ++ [handleError PERMANENT
               (error_text d
                  (init_query_errmsg
                     (nth (Z.to_nat (ok_packets_received (m_init_query_status p)))
                        (queries (connection_init_sql (m_session p))) EmptyString)
                     (wrong_packet_type data)))].
Proof.
  intros Hs Hlt Hwrong.
  unfold connection_init_step, send_connection_init_queries. rewrite Hs.
  cbn [receiving_loop].
  destruct (Z.ltb_spec (ok_packets_received (m_init_query_status p))
              (ok_packets_expected (m_init_query_status p))); [|lia].
  destruct (String.eqb_spec (wrong_packet_type data) EmptyString); [done|].
  unfold receiving_result. cbn.
  destruct (Z.eqb_spec (ok_packets_received (m_init_query_status p))
              (ok_packets_expected (m_init_query_status p))); [lia|].
  eexists. split; [reflexivity|]. done.
Qed.

(** C9 at the failing input.  The claim: in ConnectionInit any response
    packet other than an OK packet fails the connection with a permanent
    error naming the query.  One init query is configured and has been
    sent.  The first read of the next call finds no complete packet, which
    sets the result to IN_PROGRESS without leaving the loop (the comment
    there says: read again later); the second read of the same call gets
    the server's ERR packet.  The permanent error naming the query is
    reported upstream, but the call returns IN_PROGRESS and the connection
    stays in CONNECTION_INIT instead of FAILED.  With the ERR packet read
    first the state becomes FAILED. *)
Theorem C9_error_after_incomplete_read :
  let p0 := routing_proto one_init_query CONNECTION_INIT in
  let d0 := polling_dcb true in
  exists p1 d1 p2 p3,
    connection_init_step [] p0 d0 = Some (p1, d1, [])
    /\ dcb_writeq d1 = [plain (buffer_contents one_init_query)]
    /\ m_state p1 = CONNECTION_INIT
    /\ ok_packets_expected (m_init_query_status p1) = 1
    /\ send_connection_init_queries [NoPacket; Packet err_packet] p1 d1
       = Some (IN_PROGRESS, p2, d1, [])
    /\ connection_init_step [NoPacket; Packet err_packet] p1 d1 = Some (p2, d1, [])
    /\ upstream_calls p2
       = [handleError PERMANENT
            "Connection initialization query 'SET NAMES utf8' returned an error packet."]
    /\ m_state p2 = CONNECTION_INIT
    /\ connection_init_step [Packet err_packet] p1 d1 = Some (p3, d1, [])
    /\ upstream_calls p3 = upstream_calls p2
    /\ m_state p3 = FAILED.
Proof.
  intros p0 d0.
  destruct (connection_init_step [] p0 d0) as [[[p1 d1] r1]|] eqn:H1;
    [|vm_compute in H1; discriminate].
  destruct (connection_init_step [NoPacket; Packet err_packet] p1 d1)
    as [[[p2 d2] r2]|] eqn:H2.
  2:{ vm_compute in H1. injection H1 as <- <- <-. vm_compute in H2. discriminate. }
  destruct (connection_init_step [Packet err_packet] p1 d1) as [[[p3 d3] r3]|] eqn:H3.
  2:{ vm_compute in H1. injection H1 as <- <- <-. vm_compute in H3. discriminate. }
  exists p1, d1, p2, p3.
  vm_compute in H1. injection H1 as <- <- <-.
  vm_compute in H2. injection H2 as <- <- <-.
  vm_compute in H3. injection H3 as <- <- <-.
  vm_compute. repeat split.
Qed.

(** Without a pending socket error and outside a generated event the
    error packet carries the message as it was given. *)
Lemma error_text_plain (d : DCB) (errmsg : string) :
  dcb_sockerrno d = 0 -> dcb_is_fake_event d = false ->
  error_text d errmsg = c_str errmsg.
Proof.
  intros Herr Hfake. unfold error_text, socket_note. by rewrite Herr, Hfake.
Qed.

(** What is written about the socket replaces the start of the message:
    the stream is created from the message and written from its start. *)
Lemma error_text_overwritten :
  error_text Inputs.reset_dcb "Lost connection to backend server: network error"
  = " (104, Connection reset by peer)r: network error"%string
  /\ error_text Inputs.reset_dcb "Socket error" = " (104, Connection reset by peer)"%string
  /\ error_text Inputs.fake_event_dcb "Read from backend failed"
     = " (Generated event)failed"%string.
Proof. vm_compute. repeat split. Qed.

Lemma i32_incr (z : Z) : 0 <= z < 2 ^ 31 - 1 -> i32 (z + 1) = z + 1.
Proof. intros Hz. unfold i32. rewrite Z.mod_small; lia. Qed.

(** [write] leaves the counter alone unless it queues an ignorable packet
    in the ROUTING state with no reply outstanding. *)
Lemma write_ignore_replies
    (X : Externals) (srv : Server) (queue : GWBUF) (p : Proto) (d : DCB) :
  m_ignore_replies (snd (fst (write X srv queue p d))) = m_ignore_replies p
  \/ (m_ignore_replies p <= 0
      /\ gw_ignorable queue = true
      /\ m_state p = ROUTING
      /\ snd (write X srv queue p d) = snd (writeq_append queue d)
      /\ m_ignore_replies (snd (fst (write X srv queue p d)))
         = i32 (m_ignore_replies p + 1)).
Proof.
  unfold write, handle_persistent_connection, change_user,
    send_change_user_to_backend, prepare_for_write, writeq_append.
  destruct (Z.ltb_spec 0 (m_ignore_replies p)).
  - left. by repeat case_match.
  - destruct (m_state p) eqn:Hst; try (left; reflexivity).
    destruct (gw_ignorable queue) eqn:Hig.
    + repeat case_match; simplify_eq; cbn; (by left) || (right; done).
    + left. repeat case_match; simplify_eq; cbn; done.
Qed.

Section Reading.
Variable X : Externals.
Variable srv : Server.

Lemma track_bytes_ignore_replies (buf : list byte) (p : Proto) :
  m_ignore_replies (snd (track_bytes X buf p)) = m_ignore_replies p.
Proof. unfold track_bytes. by repeat case_match. Qed.

Lemma collect_packets_ignore_replies
    (inp : ReadInput) (buf : list byte) (p : Proto) (d : DCB) :
  m_ignore_replies (snd (fst (collect_packets X inp buf p d))) = m_ignore_replies p.
Proof.
  unfold collect_packets.
  repeat match goal with
         | |- context [track_bytes X ?b ?q] =>
             let H := fresh in
             pose proof (track_bytes_ignore_replies b q) as H;
             destruct (track_bytes X b q) as [[? ?] ?]; cbn [snd] in H
         | _ => case_match
         end; simplify_eq; cbn; congruence.
Qed.

Lemma handle_auth_change_response_ignore_replies (reply : list byte) (p : Proto) (d : DCB) :
  m_ignore_replies (snd (fst (handle_auth_change_response X reply p d)))
  = m_ignore_replies p.
Proof.
  unfold handle_auth_change_response, send_mysql_native_password_response, writeq_append.
  by repeat case_match.
Qed.

Lemma route_one_ignore_replies
    (inp : ReadInput) (rc_collected : bool) (buf : list byte) (rc : Z) (p : Proto) :
  m_ignore_replies (snd (route_one X inp rc_collected buf rc p)) = m_ignore_replies p.
Proof.
  unfold route_one.
  repeat match goal with
         | |- context [track_bytes X ?b ?q] =>
             let H := fresh in
             pose proof (track_bytes_ignore_replies b q) as H;
             destruct (track_bytes X b q) as [[? ?] ?]; cbn [snd] in H
         | _ => case_match
         end; simplify_eq; cbn;
    repeat match goal with
           | H : track_bytes X ?b ?q = _ |- _ =>
               let H' := fresh in
               pose proof (track_bytes_ignore_replies b q) as H';
               rewrite H in H'; cbn [snd] in H'; clear H
           end; congruence.
Qed.

Lemma route_loop_ignore_replies (fuel : nat) :
  forall (inp : ReadInput) (rc_collected : bool) (buf : list byte) (rc : Z) (p : Proto),
    m_ignore_replies (snd (route_loop X fuel inp rc_collected buf rc p))
    = m_ignore_replies p.
Proof.
  induction fuel as [|fuel IH]; intros inp c buf rc p; cbn [route_loop];
    pose proof (route_one_ignore_replies inp c buf rc p) as H1;
    destruct (route_one X inp c buf rc p) as [[rest rc'] p']; cbn [snd] in H1.
  - by destruct rest.
  - destruct rest as [rest|]; [|done]. rewrite IH. exact H1.
Qed.

(** Swallowing a reply takes one off the counter; answering an
    AuthSwitchRequest, or writing a stored ignorable packet, puts it on
    again. *)
Lemma swallow_reply_ignore_replies (buf : list byte) (p : Proto) (d : DCB) :
  0 < m_ignore_replies p < 2 ^ 31 ->
  let n' := m_ignore_replies (snd (fst (swallow_reply X srv buf p d))) in
  n' = m_ignore_replies p - 1 \/ n' = m_ignore_replies p.
Proof.
  intros Hn. unfold swallow_reply.
  destruct (modutil_get_next_MySQL_packet X buf) as [reply rest].
  destruct (last_packet X _ reply rest) as [r|]; [|left; reflexivity].
  destruct (get_command r =? MYSQL_REPLY_OK).
  - destruct (m_stored_query p) as [q|]; [|left; reflexivity].
    match goal with
    | |- context [write X srv q ?p1 d] =>
        destruct (write_ignore_replies X srv q p1 d) as [He|(Hle & _ & _ & _ & He)];
          cbn [m_ignore_replies set_m_ignore_replies set_m_stored_query] in *
    end.
    + left. cbv zeta. rewrite He. reflexivity.
    + right. cbv zeta. rewrite He. rewrite i32_incr by lia. lia.
  - destruct (auth_change_requested r); [|left; reflexivity].
    match goal with
    | |- context [handle_auth_change_response X r ?p1 d] =>
        pose proof (handle_auth_change_response_ignore_replies r p1 d) as H1;
          destruct (handle_auth_change_response X r p1 d) as [[ok p2] d2];
          cbn [fst snd m_ignore_replies set_m_ignore_replies set_m_stored_query] in H1
    end.
    destruct ok; cbv zeta; cbn [fst snd m_ignore_replies set_m_ignore_replies
                                  set_m_stored_query].
    + right. rewrite H1. rewrite i32_incr by lia. lia.
    + left. exact H1.
Qed.

Lemma normal_read_ignore_replies (inp : ReadInput) (p : Proto) (d : DCB) :
  0 <= m_ignore_replies p < 2 ^ 31 ->
  let n' := m_ignore_replies (snd (fst (normal_read X srv inp p d))) in
  n' = m_ignore_replies p \/ (0 < m_ignore_replies p /\ n' = m_ignore_replies p - 1).
Proof.
  intros Hn. unfold normal_read.
  destruct (read_return_code inp <? 0); [left; reflexivity|].
  destruct (read_data inp) as [[|b0 buf]|]; try (left; reflexivity).
  pose proof (collect_packets_ignore_replies inp (b0 :: buf) p (with_readq None d)) as Hc.
  destruct (collect_packets X inp (b0 :: buf) p (with_readq None d)) as [[c p1] d1].
  cbn [fst snd] in Hc.
  destruct c as [rc|buf1 collected]; [left; exact Hc|].
  set (stage := if Reply.m_changing_user (m_tracker p1) then _ else _).
  assert (Hstage : m_ignore_replies (snd (fst stage)) = m_ignore_replies p1).
  { subst stage. destruct (Reply.m_changing_user (m_tracker p1)); [|reflexivity].
    destruct (auth_change_requested buf1); [|reflexivity].
    pose proof (handle_auth_change_response_ignore_replies buf1 p1 d1) as H1.
    destruct (handle_auth_change_response X buf1 p1 d1) as [[ok p2] d2].
    cbn [fst snd] in H1. destruct ok; exact H1. }
  destruct stage as [[[answered buf2] p2] d2]. cbn [fst snd] in Hstage.
  destruct answered; [left; cbn; congruence|].
  destruct (Z.ltb_spec 0 (m_ignore_replies p2)) as [Hpos|Hzero].
  - destruct (swallow_reply_ignore_replies buf2 p2 d2 ltac:(lia)) as [H1|H1].
    + right. split; [lia|]. cbv zeta in H1. lia.
    + left. cbv zeta in H1. lia.
  - left.
    pose proof (route_loop_ignore_replies (length buf2) inp collected buf2
                  (read_return_code inp) p2) as H1.
    destruct (route_loop X (length buf2) inp collected buf2 (read_return_code inp) p2)
      as [rc p3]. cbn [fst snd] in *. congruence.
Qed.

End Reading.

(** Started with a counter in the range of the non-negative [int]s below
    INT_MAX, every entry point of the protocol leaves it non-negative and
    at most one higher; it leaves 0 for a positive value only when the
    event hands a packet whose reply is to be swallowed to the DCB (an
    ignorable packet such as the ping, given to the DCB in the ROUTING
    state, or the COM_CHANGE_USER of a successful reuse); and reading a
    reply takes at most one off it. *)
Lemma ignore_replies_counter_step
    (X : Externals) (ev : Event) (p : Proto) (d : DCB) :
  0 <= m_ignore_replies p < 2 ^ 31 - 1 ->
  let n := m_ignore_replies p in
  let n' := m_ignore_replies (fst (step X ev p d)) in
  0 <= n' <= n + 1
  /\ (n = 0 -> 0 < n' -> hands_synthetic X ev p d)
  /\ (is_read ev = true -> n - 1 <= n' <= n).
Proof.
  intros Hn n n'. subst n n'.
  destruct ev as [srv queue|srv|srv inp|sessions upstream]; cbn [step is_read].
  - (* write *)
    pose proof (write_ignore_replies X srv queue p d) as H.
    cbn [hands_synthetic step].
    destruct (write X srv queue p d) as [[rc p'] d']. cbn [fst snd] in *.
    destruct H as [He|(Hle & Hig & Hst & Hd & He)]; rewrite He.
    + split; [lia|]. split; [lia|done].
    + rewrite i32_incr by lia. split; [lia|]. split; [|done].
      intros _ _. done.
  - (* ping *)
    cbn [hands_synthetic step].
    unfold ping. destruct (state (m_reply (m_tracker p))); cbn [fst];
      try (split; [lia|]; split; [lia|done]).
    pose proof (write_ignore_replies X srv modutil_create_ignorable_ping p d) as H.
    destruct (write X srv modutil_create_ignorable_ping p d) as [[rc p'] d'].
    cbn [fst snd] in *.
    destruct H as [He|(Hle & Hig & Hst & Hd & He)]; rewrite He.
    + split; [lia|]. split; [lia|done].
    + rewrite i32_incr by lia. split; [lia|]. split; [|done].
      intros _ _. done.
  - (* read *)
    pose proof (normal_read_ignore_replies X srv inp p d ltac:(lia)) as H.
    destruct (normal_read X srv inp p d) as [[rc p'] d']. cbn [fst snd] in *.
    destruct H as [He|[Hpos He]]; rewrite He; (split; [lia|]); (split; [lia|]); lia.
  - (* reuse *)
    cbn [hands_synthetic step].
    unfold reuse_connection, writeq_append.
    destruct (negb (is_polling (dcb_state d)) || negb (is_routing (m_state p))
              || match m_delayed_packets p with None => false | Some _ => true end);
      cbn [fst snd]; [split; [lia|]; split; [lia|done]|].
    destruct (dcb_session d) as [sid|]; cbn [fst snd];
      [|split; [lia|]; split; [lia|done]].
    destruct (dcb_writable d); cbn [fst snd m_ignore_replies set_m_ignore_replies
                                     set_m_stored_query assign_session].
    + rewrite i32_incr by lia. split; [lia|]. split; [|done].
      intros _ _. exists sid. split; [done|]. reflexivity.
    + split; [lia|]. split; [lia|done].
Qed.

(** The ping on an idle routing connection: the counter goes from 0 to 1
    and the ping was queued. *)
Lemma ignore_replies_counter_step_example :
  let p := routing_proto no_init_sql ROUTING in
  let d := polling_dcb true in
  let ev := EvPing (pooling_server 10) in
  0 <= m_ignore_replies (fst (step test_externals ev p d)) <= 0 + 1
  /\ hands_synthetic test_externals ev p d
  /\ dcb_writeq (snd (step test_externals ev p d)) = [modutil_create_ignorable_ping].
Proof.
  intros p d ev.
  assert (Hrange : 0 <= m_ignore_replies p < 2 ^ 31 - 1) by (vm_compute; split; done).
  destruct (ignore_replies_counter_step test_externals ev p d Hrange) as (Hb & Hs & _).
  split; [exact Hb|]. split; [|reflexivity]. apply Hs; [reflexivity|]. vm_compute. reflexivity.
Defined.

(** C4 at the failing input.  The claim: the counter of replies to ignore
    leaves 0 only when a synthetic command whose reply must be swallowed is
    sent.  An idle routing connection (counter 0) whose DCB does not accept
    writes is pinged.  [write] counts the ignorable packet before it hands
    it to [writeq_append] and does not take the count back when the DCB
    refuses: the call answers 0, nothing is queued, and the counter is 1
    ([ping] drops the answer).  [reuse_connection], on the same DCB, counts
    only after the DCB has accepted the packet and leaves the counter at 0.
    The query written next finds the counter positive and is stored to
    wait for a reply that no command has asked for. *)
Theorem C4_counted_without_send :
  let srv := pooling_server 10 in
  let p := routing_proto no_init_sql ROUTING in
  let d := polling_dcb false in
  let '(rc, p1, d1) := write test_externals srv modutil_create_ignorable_ping p d in
  let '(p2, d2) := ping test_externals srv p d in
  let '(ok, p3, d3) :=
    reuse_connection test_externals (fun _ => test_session no_init_sql) 0 p d in
  let '(rc4, p4, d4) := write test_externals srv Inputs.select_1 p1 d1 in
  m_state p = ROUTING /\ m_ignore_replies p = 0 /\ dcb_writable d = false
  /\ gw_ignorable modutil_create_ignorable_ping = true
  /\ rc = 0 /\ dcb_writeq d1 = [] /\ d1 = d /\ m_ignore_replies p1 = 1
  /\ dcb_writeq d2 = [] /\ m_ignore_replies p2 = 1
  /\ ok = false /\ dcb_writeq d3 = [] /\ m_ignore_replies p3 = 0
  /\ rc4 = 1 /\ dcb_writeq d4 = [] /\ m_stored_query p4 = Some Inputs.select_1.
Proof.
  vm_compute. repeat split.
Qed.

End BackendFacts.

Module WorkerFacts.
Import Bytes Dcb Server Backend Worker.

(** Two workers whose connections have the same protocol state and belong
    to the same servers. *)
Local Abbreviation same_protocols w w' :=
  (forall d,
    conn_proto (conns w' d) = conn_proto (conns w d)
    /\ dcb_server (conn_dcb (conns w' d)) = dcb_server (conn_dcb (conns w d))).

Lemma pool_set_pool_eq (server : nat) (entries : list PersistentEntry) (w : RoutingWorker) :
  pool (set_pool server entries w) server = entries.
Proof. unfold pool, set_pool. cbn. apply fn_lookup_insert. Qed.

Lemma pool_set_pool_ne (server server' : nat) (entries : list PersistentEntry)
    (w : RoutingWorker) :
  server <> server' -> pool (set_pool server entries w) server' = pool w server'.
Proof. intros Hne. unfold pool, set_pool. cbn. by apply fn_lookup_insert_ne. Qed.

Lemma conns_update_conn_eq (d : nat) (f : Conn -> Conn) (w : RoutingWorker) :
  conns (update_conn d f w) d = f (conns w d).
Proof. unfold update_conn. cbn. apply fn_lookup_insert. Qed.

Lemma conns_update_conn_ne (d d' : nat) (f : Conn -> Conn) (w : RoutingWorker) :
  d <> d' -> conns (update_conn d f w) d' = conns w d'.
Proof. intros Hne. unfold update_conn. cbn. by apply fn_lookup_insert_ne. Qed.

(** What [close_pooled_dcb] does to each part of the worker. *)
Lemma close_pooled_dcb_spec (d : nat) (w : RoutingWorker) :
  let w' := close_pooled_dcb d w in
  m_dcbs w' = {[d]} ∪ m_dcbs w
  /\ m_evicting w' = m_evicting w
  /\ m_persistent_entries_by_server w' = m_persistent_entries_by_server w
  /\ servers w' = servers w
  /\ close_log w' = close_log w ++ [(d, true)]
  /\ m_zombies w' = m_zombies w ++ [d]
  /\ (forall d', d' <> d -> conns w' d' = conns w d')
  /\ same_protocols w w'
  /\ dcb_open (conn_dcb (conns w' d)) = false
  /\ (is_polling (dcb_state (conn_dcb (conns w d))) = true ->
      dcb_was_shutdown (conn_dcb (conns w' d)) = true
      /\ dcb_events_enabled (conn_dcb (conns w' d)) = false).
Proof.
  unfold close_pooled_dcb, close_while_evicting, shutdown_if_polling, destroy, add.
  cbn [conns set_m_dcbs].
  destruct (is_polling (dcb_state (conn_dcb (conns w d)))) eqn:Hpoll;
    cbn [m_dcbs m_evicting m_persistent_entries_by_server servers close_log m_zombies
           set_m_zombies set_close_log update_conn set_conns set_m_dcbs conns].
  all: rewrite bool_decide_eq_true_2 by set_solver.
  all: repeat split; try done.
  all: try (intros d' Hne; by rewrite ?fn_lookup_insert_ne by done).
  all: try (destruct (decide (d = d0)) as [->|Hne];
            [rewrite ?fn_lookup_insert; reflexivity
            |rewrite ?fn_lookup_insert_ne by done; reflexivity]).
  all: try (rewrite ?fn_lookup_insert; reflexivity).
  all: try (intros; rewrite ?fn_lookup_insert; done).
Qed.

Lemma fold_close_pooled_spec (evicted : list nat) : forall w : RoutingWorker,
  let w' := fold_left (fun w pDcb => close_pooled_dcb pDcb w) evicted w in
  m_dcbs w' = list_to_set evicted ∪ m_dcbs w
  /\ m_evicting w' = m_evicting w
  /\ m_persistent_entries_by_server w' = m_persistent_entries_by_server w
  /\ servers w' = servers w
  /\ close_log w' = close_log w ++ ((fun d => (d, true)) <$> evicted)
  /\ (forall d', d' ∉ evicted -> conns w' d' = conns w d')
  /\ same_protocols w w'.
Proof.
  induction evicted as [|d evicted IH]; intros w; cbn [fold_left].
  - cbn. rewrite app_nil_r. repeat split; try done. set_solver.
  - destruct (IH (close_pooled_dcb d w)) as (H1 & H2 & H3 & H4 & H5 & H6 & H7).
    destruct (close_pooled_dcb_spec d w) as (G1 & G2 & G3 & G4 & G5 & _ & G6 & G7 & _).
    cbv zeta in *.
    split; [rewrite H1, G1; set_solver|].
    split; [congruence|]. split; [congruence|]. split; [congruence|].
    split; [rewrite H5, G5, <- app_assoc; reflexivity|].
    split.
    + intros d' Hd'. rewrite H6 by set_solver. apply G6. set_solver.
    + intros d'. destruct (H7 d') as [A1 A2]. destruct (G7 d') as [B1 B2].
      split; congruence.
Qed.

(** The loop of [evict_dcbs] partitions the entries. *)
Lemma sweep_spec (env : Env) (w : RoutingWorker) (srv : Server) (all : bool)
    (entries : list PersistentEntry) :
  forall (count : Z) kept evicted count',
    sweep env w srv all entries count = (kept, evicted, count') ->
    (m_pDcb <$> entries) ≡ₚ (m_pDcb <$> kept) ++ evicted
    /\ count' = count + zlength kept
    /\ (forall e, e ∈ kept -> e ∈ entries).
Proof.
  induction entries as [|e entries IH]; intros count kept evicted count' H;
    cbn [sweep] in H.
  - injection H as <- <- <-. split; [done|]. split; [unfold zlength; cbn; lia|done].
  - destruct (_ || _ || _).
    + destruct (sweep env w srv all entries count) as [[k ev] c] eqn:Hs.
      injection H as <- <- <-.
      destruct (IH _ _ _ _ Hs) as (Hp & Hc & Hin).
      split; [|split; [done|]].
      * rewrite fmap_cons, Hp. by rewrite Permutation_middle.
      * intros e' He'. right. by apply Hin.
    + destruct (sweep env w srv all entries (count + 1)) as [[k ev] c] eqn:Hs.
      injection H as <- <- <-.
      destruct (IH _ _ _ _ Hs) as (Hp & Hc & Hin).
      split; [|split].
      * rewrite !fmap_cons, Hp. reflexivity.
      * unfold zlength in *. cbn [length]. lia.
      * intros e' He'. apply elem_of_cons in He' as [->|He']; [left|right; by apply Hin].
Qed.

(** What [evict_dcbs] does to each part of the worker. *)
Lemma evict_dcbs_spec (env : Env) (server : nat) (evict : Evict) (w : RoutingWorker) :
  exists evicted : list nat,
    let count := fst (evict_dcbs env server evict w) in
    let w' := snd (evict_dcbs env server evict w) in
    (m_pDcb <$> pool w server) ≡ₚ (m_pDcb <$> pool w' server) ++ evicted
    /\ count = zlength (pool w' server)
    /\ (forall e, e ∈ pool w' server -> e ∈ pool w server)
    /\ (forall server', server' <> server -> pool w' server' = pool w server')
    /\ m_dcbs w' = list_to_set evicted ∪ m_dcbs w
    /\ m_evicting w' = false
    /\ close_log w' = close_log w ++ ((fun d => (d, true)) <$> evicted)
    /\ (forall d, d ∉ evicted -> conns w' d = conns w d)
    /\ same_protocols w w'
    /\ (forall server',
          persistpoolmax (servers w' server') = persistpoolmax (servers w server')
          /\ status (servers w' server') = status (servers w server')).
Proof.
  unfold evict_dcbs.
  cbn [servers set_m_evicting pool m_persistent_entries_by_server].
  destruct (sweep env (set_m_evicting true w) (servers w server) _
              (m_persistent_entries_by_server w server) 0)
    as [[kept evicted] count] eqn:Hs.
  exists evicted. cbn [fst snd].
  apply sweep_spec in Hs as (Hperm & Hcount & Hin).
  match goal with
  | |- context [fold_left _ evicted ?w0] =>
      destruct (fold_close_pooled_spec evicted w0) as (F1 & F2 & F3 & F4 & F5 & F6 & F7);
        set (w1 := fold_left _ evicted w0) in *
  end.
  cbv zeta in *.
  cbn [m_dcbs m_evicting m_persistent_entries_by_server servers close_log conns
         set_m_evicting set_pool update_server set_servers
         set_m_persistent_entries_by_server pool] in *.
  rewrite F3, F4.
  split; [by rewrite fn_lookup_insert|].
  split; [rewrite fn_lookup_insert; lia|].
  split; [rewrite fn_lookup_insert; exact Hin|].
  split; [intros s' Hne; by rewrite fn_lookup_insert_ne|].
  split; [exact F1|]. split; [done|]. split; [exact F5|].
  split; [exact F6|]. split; [exact F7|].
  intros s'. destruct (decide (server = s')) as [->|Hne].
  - rewrite !fn_lookup_insert. done.
  - rewrite !fn_lookup_insert_ne by done. done.
Qed.

(** The sweep keeps the pool's invariant. *)
Lemma evict_dcbs_invariant (env : Env) (server : nat) (evict : Evict) (w : RoutingWorker) :
  pool_invariant w -> pool_invariant (snd (evict_dcbs env server evict w)).
Proof.
  intros [Hev Hdis Hsrv Hnd Hest].
  destruct (evict_dcbs_spec env server evict w)
    as (evicted & Hperm & _ & Hin & Hother & Hdcbs & Hnev & _ & Hconns & Hsame & _).
  cbv zeta in *. set (w' := snd (evict_dcbs env server evict w)) in *.
  assert (Hsplit : NoDup ((m_pDcb <$> pool w' server) ++ evicted))
    by (rewrite <- Hperm; apply Hnd).
  apply NoDup_app in Hsplit as (Hnd' & Hsep & _).
  assert (Hevs : forall d, d ∈ evicted ->
                 exists e, e ∈ pool w server /\ m_pDcb e = d).
  { intros d Hd.
    assert (Hd' : d ∈ m_pDcb <$> pool w server) by (rewrite Hperm; set_solver).
    apply list_elem_of_fmap in Hd' as (e & -> & He). eauto. }
  assert (Hold : forall s e, e ∈ pool w' s -> e ∈ pool w s).
  { intros s e He. destruct (decide (s = server)) as [->|Hne]; [by apply Hin|].
    by rewrite Hother in He. }
  assert (Hnotev : forall s e, e ∈ pool w' s -> m_pDcb e ∉ evicted).
  { intros s e He Hd. destruct (decide (s = server)) as [->|Hne].
    - apply (Hsep (m_pDcb e)); [|done]. by apply list_elem_of_fmap_2.
    - apply Hevs in Hd as (e' & He' & Heq).
      rewrite Hother in He by done.
      apply Hsrv in He. apply Hsrv in He'. congruence. }
  split.
  - done.
  - intros s e He. rewrite Hdcbs.
    pose proof (Hnotev s e He). pose proof (Hdis s e (Hold s e He)). set_solver.
  - intros s e He. destruct (Hsame (m_pDcb e)) as [_ ->]. apply Hsrv. by apply Hold.
  - intros s. destruct (decide (s = server)) as [->|Hne]; [done|].
    rewrite Hother by done. apply Hnd.
  - intros s e He. destruct (Hsame (m_pDcb e)) as [-> _]. apply (Hest s). by apply Hold.
Qed.

Lemma i32_le (z : Z) : 0 <= z -> i32 z <= z.
Proof.
  intros Hz. unfold i32.
  assert ((z + 2 ^ 31) mod 2 ^ 32 <= z + 2 ^ 31) by (apply Z.mod_le; lia). lia.
Qed.

(** The conditions under which [can_be_destroyed] parks a connection. *)
Lemma can_be_destroyed_false (env : Env) (d : nat) (w w' : RoutingWorker) :
  can_be_destroyed env d w = (false, w') ->
  let c := conns w d in
  let server := dcb_server (conn_dcb c) in
  let pServer := servers w server in
  let w1 := snd (evict_dcbs env server EXPIRED w) in
  m_evicting w = false
  /\ is_polling (dcb_state (conn_dcb c)) = true
  /\ established (conn_proto c) = true
  /\ (exists session,
        dcb_session (conn_dcb c) = Some session
        /\ session_valid_for_pool env session = true)
  /\ 0 < i32 (persistpoolmax pServer)
  /\ is_running env pServer = true
  /\ dcb_hanged_up (conn_dcb c) = false
  /\ zlength (pool w1 server) < i32 (persistpoolmax pServer)
  /\ n_persistent (servers w1 server) + 1 <= i32 (persistpoolmax pServer)
  /\ w' = remove d
            (set_pool server
               (pool w1 server ++ [{| m_created := now env; m_pDcb := d |}])
               (update_conn d (update_dcb (set_handler POOL_HANDLER))
                  (update_conn d (update_dcb clear)
                     (update_server server
                        (fun s => with_n_persistent (n_persistent s + 1) s) w1)))).
Proof.
  intros H c server pServer w1. unfold can_be_destroyed in H.
  destruct (m_evicting w); [done|].
  fold c server pServer in H.
  destruct (is_polling (dcb_state (conn_dcb c))); [|done].
  destruct (established (conn_proto c)); [|done].
  destruct (dcb_session (conn_dcb c)) as [session|]; [|done].
  destruct (session_valid_for_pool env session) eqn:Hvalid; [|done].
  destruct (Z.ltb_spec 0 (i32 (persistpoolmax pServer))); [|done].
  destruct (is_running env pServer); [|done].
  destruct (dcb_hanged_up (conn_dcb c)); [done|].
  cbn [andb negb] in H.
  pose proof (evict_dcbs_spec env server EXPIRED w) as (evicted & _ & Hcount & _).
  cbv zeta in Hcount. fold w1 in Hcount.
  destruct (evict_dcbs env server EXPIRED w) as [count w1'] eqn:He.
  cbn [fst snd] in *. subst w1.
  destruct (Z.ltb_spec count (i32 (persistpoolmax pServer))); [|done].
  destruct (Z.leb_spec (n_persistent (servers w1' server) + 1)
              (i32 (persistpoolmax pServer))); [|done].
  injection H as <-.
  repeat split; try done; try lia. eauto.
Qed.

(** When [can_be_destroyed] answers yes, nothing was added to the pool. *)
Lemma can_be_destroyed_true (env : Env) (d : nat) (w w' : RoutingWorker) :
  can_be_destroyed env d w = (true, w') ->
  w' = w \/ w' = snd (evict_dcbs env (dcb_server (conn_dcb (conns w d))) EXPIRED w).
Proof.
  unfold can_be_destroyed. intros H.
  destruct (m_evicting w); [left; congruence|].
  destruct (_ && _ && _ && _ && _ && _); [|left; congruence].
  destruct (evict_dcbs env _ EXPIRED w) as [count w1].
  right. cbn [snd]. repeat case_match; congruence.
Qed.

(** C2.  A connection offered to the pool is parked ([can_be_destroyed]
    answers no) only if the worker is not evicting, pool_max is positive,
    the server is running, the DCB is polling, the protocol is
    established, the session is valid for pooling, the connection has not
    been hung up, and the entries that the expiry sweep left for the server
    number strictly fewer than pool_max; it is then appended to the
    server's entries and taken out of the regular book-keeping.  When any
    of this fails the answer is yes and the pool holds nothing it did not
    hold before. *)
Theorem C2_pool_admission (env : Env) (d : nat) (w : RoutingWorker) :
  let c := conns w d in
  let server := dcb_server (conn_dcb c) in
  let pool_max := persistpoolmax (servers w server) in
  let swept := snd (evict_dcbs env server EXPIRED w) in
  let answer := fst (can_be_destroyed env d w) in
  let w' := snd (can_be_destroyed env d w) in
  0 <= pool_max ->
  (answer = false ->
   0 < pool_max
   /\ is_running env (servers w server) = true
   /\ is_polling (dcb_state (conn_dcb c)) = true
   /\ established (conn_proto c) = true
   /\ (exists session,
         dcb_session (conn_dcb c) = Some session
         /\ session_valid_for_pool env session = true)
   /\ dcb_hanged_up (conn_dcb c) = false
   /\ zlength (pool swept server) < pool_max
   /\ pool w' server = pool swept server ++ [{| m_created := now env; m_pDcb := d |}]
   /\ (d ∉ m_dcbs w')
   /\ dcb_handler (conn_dcb (conns w' d)) = POOL_HANDLER)
  /\ (answer = true ->
      forall server' entry, entry ∈ pool w' server' -> entry ∈ pool w server').
Proof.
  intros c server pool_max swept answer w' Hpm.
  subst answer w'.
  destruct (can_be_destroyed env d w) as [rv w'] eqn:Hcan. cbn [fst snd].
  split; intros ->.
  - apply can_be_destroyed_false in Hcan
      as (_ & Hpoll & Hest & Hses & Hmax & Hrun & Hhup & Hcount & _ & ->).
    fold c server pool_max swept in Hpoll, Hest, Hses, Hmax, Hrun, Hhup, Hcount |- *.
    pose proof (i32_le pool_max Hpm) as Hle.
    repeat split; try done; try lia.
    + unfold remove. cbn [pool m_persistent_entries_by_server set_m_dcbs].
      rewrite pool_set_pool_eq. reflexivity.
    + unfold remove. cbn [m_dcbs set_m_dcbs]. set_solver.
    + unfold remove. cbn [conns set_m_dcbs set_pool set_m_persistent_entries_by_server].
      rewrite conns_update_conn_eq. reflexivity.
  - intros server' entry He.
    apply can_be_destroyed_true in Hcan as [->| ->]; [done|].
    destruct (evict_dcbs_spec env server EXPIRED w)
      as (evicted & _ & _ & Hin & Hother & _).
    cbv zeta in *. fold c server in He.
    destruct (decide (server' = server)) as [->|Hne]; [by apply Hin|].
    by rewrite Hother in He.
Qed.

(** The connection of the test worker is parked when its session ends. *)
Lemma C2_pool_admission_witness :
  fst (can_be_destroyed test_env 7 test_worker) = false
  /\ zlength (pool (snd (evict_dcbs test_env 0 EXPIRED test_worker)) 0%nat) < 2
  /\ pool (snd (can_be_destroyed test_env 7 test_worker)) 0%nat
     = [{| m_created := 1000; m_pDcb := 7%nat |}]
  /\ 7%nat ∉ m_dcbs (snd (can_be_destroyed test_env 7 test_worker)).
Proof.
  assert (Hpm : 0 <= persistpoolmax
                       (servers test_worker
                          (dcb_server (conn_dcb (conns test_worker 7%nat)))))
    by (vm_compute; discriminate).
  destruct (C2_pool_admission test_env 7 test_worker Hpm) as [Hno _].
  assert (Hans : fst (can_be_destroyed test_env 7 test_worker) = false)
    by (vm_compute; reflexivity).
  destruct (Hno Hans) as (_ & _ & _ & _ & _ & _ & Hcount & Hpool & Hout & _).
  split; [exact Hans|]. split; [exact Hcount|]. split; [exact Hpool|exact Hout].
Defined.

(** *** The pool's invariant *)

Ltac unfold_worker :=
  unfold close_while_evicting, shutdown_if_polling, destroy, add, remove,
    update_server, update_conn, set_pool, pool in *;
  cbn [m_evicting m_dcbs m_persistent_entries_by_server m_zombies conns servers
         close_log set_m_evicting set_m_dcbs set_m_persistent_entries_by_server
         set_m_zombies set_conns set_servers set_close_log] in *.

(** The invariant survives any change that leaves the pooled connections
    alone. *)
Lemma pool_invariant_sub (w w' : RoutingWorker) :
  pool_invariant w ->
  m_evicting w' = false ->
  (forall s e, e ∈ pool w' s ->
     e ∈ pool w s
     /\ (m_pDcb e ∉ m_dcbs w')
     /\ conn_proto (conns w' (m_pDcb e)) = conn_proto (conns w (m_pDcb e))
     /\ dcb_server (conn_dcb (conns w' (m_pDcb e)))
        = dcb_server (conn_dcb (conns w (m_pDcb e)))) ->
  (forall s, NoDup (m_pDcb <$> pool w' s)) ->
  pool_invariant w'.
Proof.
  intros [Hev Hdis Hsrv Hnd Hest] Hev' Hsub Hnd'.
  split; [done| | |done|].
  - intros s e He. by destruct (Hsub s e He) as (_ & ? & _).
  - intros s e He. destruct (Hsub s e He) as (? & _ & _ & ->). by apply Hsrv.
  - intros s e He. destruct (Hsub s e He) as (? & _ & -> & _). by apply (Hest s).
Qed.

Lemma initial_invariant (w : RoutingWorker) : initial w -> pool_invariant w.
Proof.
  intros (Hev & _ & Hempty).
  split; [done|..]; intros s; rewrite ?Hempty; try (intros e He; by apply elem_of_nil in He).
  cbn. constructor.
Qed.

Lemma erase_first_spec (d : nat) (l : list PersistentEntry) :
  NoDup (m_pDcb <$> l) ->
  (forall e, e ∈ erase_first d l -> e ∈ l /\ m_pDcb e <> d)
  /\ NoDup (m_pDcb <$> erase_first d l).
Proof.
  induction l as [|a l IH]; intros Hnd.
  - split; [intros e He; by apply elem_of_nil in He|done].
  - rewrite fmap_cons in Hnd. apply NoDup_cons in Hnd as [Ha Hnd].
    destruct (IH Hnd) as [IHin IHnd]. cbn [erase_first].
    destruct (Nat.eqb_spec (m_pDcb a) d) as [Heq|Hne].
    + split; [|done]. intros e He. split; [by right|].
      intros Hd. apply Ha. rewrite Heq, <- Hd. by apply list_elem_of_fmap_2.
    + split.
      * intros e He. apply elem_of_cons in He as [->|He]; [split; [by left|done]|].
        destruct (IHin e He). split; [by right|done].
      * rewrite fmap_cons. apply NoDup_cons. split; [|done].
        intros Hin. apply list_elem_of_fmap in Hin as (e & Heq & He).
        apply Ha. rewrite Heq. apply list_elem_of_fmap_2. by apply IHin.
Qed.

(** [evict_dcb]: the connection leaves the pool, is put back into the
    regular book-keeping and is closed there. *)
Lemma evict_dcb_spec (server : nat) (entry : PersistentEntry) (w : RoutingWorker) :
  pool_invariant w ->
  entry ∈ pool w server ->
  let d := m_pDcb entry in
  let w' := evict_dcb d w in
  pool_invariant w'
  /\ close_log w' = close_log w ++ [(d, true)]
  /\ d ∈ m_dcbs w'
  /\ (forall s e, e ∈ pool w' s -> m_pDcb e <> d)
  /\ dcb_open (conn_dcb (conns w' d)) = false.
Proof.
  intros Hinv Hentry d w'.
  pose proof Hinv as [Hev Hdis Hsrv Hnd Hest].
  pose proof (Hsrv server entry Hentry) as Hserver. fold d in Hserver.
  destruct (erase_first_spec d (pool w server) (Hnd server)) as [Hin Hnd'].
  subst w'. unfold evict_dcb. cbn [conns set_m_evicting]. rewrite Hserver.
  match goal with
  | |- context [close_pooled_dcb d ?w0] =>
      destruct (close_pooled_dcb_spec d w0)
        as (C1 & C2 & C3 & C4 & C5 & C6 & C7 & C8 & C9 & _);
        set (w1 := close_pooled_dcb d w0) in *
  end.
  cbv zeta in *.
  assert (Hpool : forall s e, e ∈ pool (set_m_evicting false w1) s ->
                  e ∈ pool w s /\ m_pDcb e <> d).
  { intros s e. unfold pool. cbn [m_persistent_entries_by_server set_m_evicting].
    rewrite C3. unfold set_pool. cbn [m_persistent_entries_by_server
      set_m_persistent_entries_by_server set_m_evicting].
    destruct (decide (server = s)) as [<-|Hne].
    - rewrite fn_lookup_insert. apply Hin.
    - rewrite fn_lookup_insert_ne by done. intros He. split; [done|].
      intros Hd. apply Hne. rewrite <- (Hsrv s e He), Hd. by symmetry. }
  split; [|split; [|split; [|split]]].
  - apply (pool_invariant_sub w); [done|done| |].
    + intros s e He. destruct (Hpool s e He) as [Hold Hne].
      split; [done|]. cbn [m_dcbs conns set_m_evicting]. rewrite C1.
      split; [|split].
      * pose proof (Hdis s e Hold). cbn [m_dcbs set_pool set_m_evicting
          set_m_persistent_entries_by_server]. set_solver.
      * by destruct (C8 (m_pDcb e)) as [-> _].
      * by destruct (C8 (m_pDcb e)) as [_ ->].
    + intros s. unfold pool. cbn [m_persistent_entries_by_server set_m_evicting].
      rewrite C3. unfold set_pool. cbn [m_persistent_entries_by_server
        set_m_persistent_entries_by_server set_m_evicting].
      destruct (decide (server = s)) as [<-|Hne].
      * by rewrite fn_lookup_insert.
      * rewrite fn_lookup_insert_ne by done. apply Hnd.
  - cbn [close_log set_m_evicting]. by rewrite C5.
  - cbn [m_dcbs set_m_evicting]. rewrite C1. set_solver.
  - intros s e He. by destruct (Hpool s e He).
  - cbn [conns set_m_evicting]. exact C9.
Qed.

(** Parking a connection keeps the invariant. *)
Lemma can_be_destroyed_invariant (env : Env) (d : nat) (w : RoutingWorker) :
  pool_invariant w -> d ∈ m_dcbs w ->
  pool_invariant (snd (can_be_destroyed env d w)).
Proof.
  intros Hinv Hd.
  destruct (can_be_destroyed env d w) as [[|] w'] eqn:Hcan; cbn [snd].
  - apply can_be_destroyed_true in Hcan as [->| ->]; [done|].
    by apply evict_dcbs_invariant.
  - apply can_be_destroyed_false in Hcan
      as (_ & _ & Hest & _ & _ & _ & _ & _ & _ & ->).
    set (server := dcb_server (conn_dcb (conns w d))) in *.
    pose proof (evict_dcbs_invariant env server EXPIRED w Hinv)
      as [Hev1 Hdis1 Hsrv1 Hnd1 Hest1].
    destruct (evict_dcbs_spec env server EXPIRED w)
      as (evicted & _ & _ & _ & _ & Hdcbs & _ & _ & _ & Hsame & _).
    cbv zeta in *. set (w1 := snd (evict_dcbs env server EXPIRED w)) in *.
    assert (Hd1 : d ∈ m_dcbs w1) by (rewrite Hdcbs; set_solver).
    assert (Hnot : forall s e, e ∈ pool w1 s -> m_pDcb e <> d).
    { intros s e He Heq. apply (Hdis1 s e He). by rewrite Heq. }
    destruct (Hsame d) as [Hproto Hserver].
    assert (Hpool : forall s e,
              e ∈ pool (remove d
                (set_pool server
                   (pool w1 server ++ [{| m_created := now env; m_pDcb := d |}])
                   (update_conn d (update_dcb (set_handler POOL_HANDLER))
                      (update_conn d (update_dcb clear)
                         (update_server server
                            (fun s => with_n_persistent (n_persistent s + 1) s) w1))))) s ->
              e ∈ pool w1 s \/ (s = server /\ e = {| m_created := now env; m_pDcb := d |})).
    { intros s e. unfold_worker.
      destruct (decide (server = s)) as [<-|Hne].
      - rewrite fn_lookup_insert. intros He. apply elem_of_app in He as [He|He]; [by left|].
        apply list_elem_of_singleton in He. by right.
      - rewrite fn_lookup_insert_ne by done. by left. }
    split.
    + done.
    + intros s e He. apply Hpool in He as [He|[-> ->]].
      * pose proof (Hdis1 s e He). unfold_worker. set_solver.
      * unfold_worker. set_solver.
    + intros s e He. apply Hpool in He as [He|[-> ->]].
      * pose proof (Hnot s e He). pose proof (Hsrv1 s e He). unfold_worker.
        by rewrite !fn_lookup_insert_ne by done.
      * unfold_worker. cbn [m_pDcb]. rewrite !fn_lookup_insert. exact Hserver.
    + intros s. unfold_worker.
      destruct (decide (server = s)) as [<-|Hne].
      * rewrite fn_lookup_insert, fmap_app. apply NoDup_app.
        split; [apply Hnd1|]. split; [|apply NoDup_singleton].
        intros x Hx Hx'. cbn in Hx'. apply list_elem_of_singleton in Hx'. subst x.
        apply list_elem_of_fmap in Hx as (e & Heq & He).
        by apply (Hnot server e He).
      * rewrite fn_lookup_insert_ne by done. apply Hnd1.
    + intros s e He. apply Hpool in He as [He|[-> ->]].
      * pose proof (Hnot s e He). pose proof (Hest1 s e He). unfold_worker.
        by rewrite !fn_lookup_insert_ne by done.
      * unfold_worker. cbn [m_pDcb]. rewrite !fn_lookup_insert.
        cbn [conn_proto update_dcb]. by rewrite Hproto.
Qed.

Lemma close_while_evicting_invariant (d : nat) (w : RoutingWorker) :
  pool_invariant w -> pool_invariant (close_while_evicting d w).
Proof.
  intros Hinv. apply (pool_invariant_sub w); [done|by destruct Hinv| |].
  - intros s e He. pose proof (inv_disjoint w Hinv s e He) as Hdis.
    unfold_worker. repeat split; try done.
    all: destruct (decide (d = m_pDcb e)) as [->|Hne];
      [rewrite fn_lookup_insert|rewrite fn_lookup_insert_ne by done]; done.
  - intros s. apply (inv_nodup w Hinv).
Qed.

Lemma DCB_close_invariant (env : Env) (d : nat) (w : RoutingWorker) :
  pool_invariant w -> d ∈ m_dcbs w -> pool_invariant (DCB_close env d w).
Proof.
  intros Hinv Hd. unfold DCB_close.
  pose proof (can_be_destroyed_invariant env d w Hinv Hd) as Hinv'.
  destruct (can_be_destroyed env d w) as [[|] w']; cbn [snd] in Hinv'; [|done].
  by apply close_while_evicting_invariant.
Qed.

(** *** Taking a connection out of the pool *)

(** What it takes for [reuse_connection] to succeed, and what it has done
    when it succeeds. *)
Lemma reuse_connection_true (X : Externals) (sessions : nat -> Session) (upstream : nat)
    (p p' : Proto) (d d' : DCB) :
  reuse_connection X sessions upstream p d = (true, p', d') ->
  is_polling (dcb_state d) = true
  /\ m_state p = ROUTING
  /\ m_delayed_packets p = None
  /\ exists sid,
       dcb_session d = Some sid
       /\ m_session p' = sessions sid
       /\ m_upstream p' = upstream
       /\ m_scramble p' = m_scramble p
       /\ m_ignore_replies p' = 1
       /\ m_stored_query p' = None
       /\ dcb_writeq d' = dcb_writeq d ++ [create_change_user_packet X p'].
Proof.
  unfold reuse_connection.
  destruct (is_polling (dcb_state d)); [|cbn; congruence].
  destruct (m_state p) eqn:Hstate; cbn [is_routing negb orb]; try congruence.
  destruct (m_delayed_packets p); [congruence|].
  destruct (dcb_session d) as [sid|]; [|congruence].
  unfold writeq_append. destruct (dcb_writable d); [|congruence].
  intros [= <- <-]. repeat split; try done.
  exists sid. repeat split; done.
Qed.

Lemma established_ignore_replies (p : Proto) :
  established p = true -> m_ignore_replies p = 0.
Proof.
  unfold established. intros H.
  apply andb_prop in H as [H _]. apply andb_prop in H as [_ H]. lia.
Qed.

Section Take.
Variable X : Externals.
Variables (env : Env) (server session upstream : nat).

(** The call of [reuse_connection] that the pool makes for a connection. *)
Local Abbreviation reuse_of w d :=
  (reuse_connection X (sessions env) upstream (conn_proto (conns w d))
     (with_session (Some session)
        (set_handler PROTOCOL_HANDLER (conn_dcb (conns w d))))).

(** The state after the first entry has been popped, whatever was done to
    its connection. *)
Lemma pop_invariant (w w' : RoutingWorker) (e : PersistentEntry)
    (rest : list PersistentEntry) :
  pool_invariant w -> pool w server = e :: rest ->
  m_evicting w' = false -> m_dcbs w' = m_dcbs w ->
  pool w' server = rest -> (forall s, s <> server -> pool w' s = pool w s) ->
  (forall d, d <> m_pDcb e -> conns w' d = conns w d) ->
  pool_invariant w'
  /\ (forall s e', e' ∈ pool w' s -> m_pDcb e' <> m_pDcb e)
  /\ (forall s e', e' ∈ pool w' s -> e' ∈ pool w s).
Proof.
  intros Hinv Hpool Hev' Hdcbs Hrest Hother Hconns.
  pose proof Hinv as [Hev Hdis Hsrv Hnd Hest].
  pose proof (Hnd server) as Hnds. rewrite Hpool, fmap_cons in Hnds.
  apply NoDup_cons in Hnds as [Hhead Hnds].
  assert (Hold : forall s e', e' ∈ pool w' s -> e' ∈ pool w s).
  { intros s e' He'. destruct (decide (s = server)) as [->|Hne].
    - rewrite Hrest in He'. rewrite Hpool. by right.
    - by rewrite Hother in He'. }
  assert (Hne : forall s e', e' ∈ pool w' s -> m_pDcb e' <> m_pDcb e).
  { intros s e' He' Heq. destruct (decide (s = server)) as [->|Hns].
    - rewrite Hrest in He'. apply Hhead. rewrite <- Heq. by apply list_elem_of_fmap_2.
    - rewrite Hother in He' by done. apply Hns.
      rewrite <- (Hsrv s e' He'), Heq. apply Hsrv. rewrite Hpool. by left. }
  split; [|done].
  apply (pool_invariant_sub w); [done|done| |].
  - intros s e' He'. split; [by apply Hold|]. rewrite Hdcbs.
    split; [apply (Hdis s); by apply Hold|].
    rewrite Hconns by (by apply (Hne s)). done.
  - intros s. destruct (decide (s = server)) as [->|Hns].
    + by rewrite Hrest.
    + rewrite Hother by done. apply Hnd.
Qed.

Lemma take_loop_spec (entries : list PersistentEntry) : forall w : RoutingWorker,
  pool_invariant w -> pool w server = entries ->
  let r := take_loop X env server session upstream entries w in
  pool_invariant (snd r)
  /\ m_dcbs (snd r) = m_dcbs w
  /\ (forall s e, e ∈ pool (snd r) s -> e ∈ pool w s)
  /\ (forall d, fst r = Some d ->
        (exists e, e ∈ entries /\ m_pDcb e = d)
        /\ (forall s e, e ∈ pool (snd r) s -> m_pDcb e <> d)
        /\ reuse_of w d
           = (true, conn_proto (conns (snd r) d), conn_dcb (conns (snd r) d))).
Proof.
  induction entries as [|e rest IH]; intros w Hinv Hpool.
  - cbn. split; [done|]. split; [done|]. split; [done|]. intros d Hd. discriminate.
  - destruct (take_loop X env server session upstream (e :: rest) w) as [res w']
      eqn:Htake.
    cbv zeta. cbn [fst snd]. cbn [take_loop] in Htake.
    match type of Htake with
    | context [reuse_connection X _ _ (conn_proto (conns ?w1 _)) _] =>
        assert (Hc : conns w1 (m_pDcb e)
                     = update_dcb (with_session (Some session))
                         (update_dcb (set_handler PROTOCOL_HANDLER) (conns w (m_pDcb e))))
          by (unfold_worker; by rewrite !fn_lookup_insert)
    end.
    rewrite Hc in Htake. cbn [conn_proto conn_dcb update_dcb] in Htake. clear Hc.
    destruct (reuse_connection X (sessions env) upstream _ _) as [[ok p] d'] eqn:Hreuse.
    assert (Hev : m_evicting w = false) by (by destruct Hinv).
    match type of Htake with
    | (if ok then (_, ?wa) else take_loop _ _ _ _ _ _ ?wb) = _ =>
        set (w2 := wa) in *; set (w3 := wb) in *
    end.
    assert (F2 : m_evicting w2 = false /\ m_dcbs w2 = m_dcbs w
                 /\ pool w2 server = rest
                 /\ (forall s, s <> server -> pool w2 s = pool w s)
                 /\ (forall d, d <> m_pDcb e -> conns w2 d = conns w d)
                 /\ conns w2 (m_pDcb e) = {| conn_dcb := d'; conn_proto := p |}).
    { subst w2 w3. unfold_worker. 
      split; [done|]. split; [done|]. split; [by rewrite fn_lookup_insert|].
      split; [intros; by rewrite fn_lookup_insert_ne|].
      split; [intros; by rewrite !fn_lookup_insert_ne|by rewrite fn_lookup_insert]. }
    assert (F3 : m_evicting w3 = false /\ m_dcbs w3 = m_dcbs w
                 /\ pool w3 server = rest
                 /\ (forall s, s <> server -> pool w3 s = pool w s)
                 /\ (forall d, d <> m_pDcb e -> conns w3 d = conns w d)).
    { subst w2 w3. clear Htake. unfold_worker. case_match; unfold_worker.
      all: split; [done|]; split; [done|]; split; [by rewrite fn_lookup_insert|].
      all: split; [intros; by rewrite fn_lookup_insert_ne|].
      all: intros; by rewrite !fn_lookup_insert_ne. }
    clearbody w2 w3.
    destruct F2 as (A1 & A2 & A3 & A4 & A5 & A6).
    destruct F3 as (B1 & B2 & B3 & B4 & B5).
    destruct ok.
    + injection Htake as <- <-.
      destruct (pop_invariant w w2 e rest Hinv Hpool A1 A2 A3 A4 A5)
        as (Hinv' & Hne & Hold).
      split; [done|]. split; [done|]. split; [done|].
      intros d [= <-]. split; [exists e; split; [by left|done]|]. split; [done|].
      by rewrite A6.
    + destruct (pop_invariant w w3 e rest Hinv Hpool B1 B2 B3 B4 B5)
        as (Hinv' & Hne & Hold).
      destruct (IH w3 Hinv' B3) as (I1 & I2 & I3 & I4).
      cbv zeta in *. rewrite Htake in *. cbn [fst snd] in *.
      split; [done|]. split; [congruence|].
      split; [intros s e' He'; apply Hold; by apply I3|].
      intros d Hd. destruct (I4 d Hd) as ((e' & He' & Heq) & J2 & J3).
      split; [exists e'; split; [by right|done]|]. split; [done|].
      assert (d <> m_pDcb e).
      { intros ->. pose proof (inv_nodup w Hinv server) as Hnd.
        rewrite Hpool, fmap_cons in Hnd. apply NoDup_cons in Hnd as [Hhead _].
        apply Hhead. rewrite <- Heq. by apply list_elem_of_fmap_2. }
      by rewrite <- B5.
Qed.

Lemma get_backend_dcb_from_pool_spec (w : RoutingWorker) :
  pool_invariant w ->
  let r := get_backend_dcb_from_pool X env server session upstream w in
  pool_invariant (snd r)
  /\ (forall d, fst r = Some d ->
        (exists e, e ∈ pool w server /\ m_pDcb e = d)
        /\ d ∈ m_dcbs (snd r)
        /\ reuse_of w d
           = (true, conn_proto (conns (snd r) d), conn_dcb (conns (snd r) d))).
Proof.
  intros Hinv. unfold get_backend_dcb_from_pool.
  pose proof (evict_dcbs_invariant env server EXPIRED w Hinv) as Hinv1.
  destruct (evict_dcbs_spec env server EXPIRED w)
    as (evicted & Hperm & _ & Hin & _ & _ & _ & _ & Hconns & _).
  cbv zeta in *.
  destruct (evict_dcbs env server EXPIRED w) as [count w1]. cbn [snd] in *.
  destruct (take_loop_spec (pool w1 server) w1 Hinv1 eq_refl) as (T1 & T2 & T3 & T4).
  cbv zeta in *.
  destruct (take_loop X env server session upstream (pool w1 server) w1) as [[d|] w2];
    cbn [fst snd] in *; [|split; [done|discriminate]].
  destruct (T4 d eq_refl) as ((e & He & Heq) & Hne & Hreuse).
  split.
  - apply (pool_invariant_sub w2); [done|by destruct T1| |intros s; apply (inv_nodup w2 T1)].
    intros s e' He'. unfold_worker. split; [done|]. split; [|done].
    pose proof (inv_disjoint w2 T1 s e' He'). pose proof (Hne s e' He'). set_solver.
  - intros ? [= <-]. split; [exists e; split; [by apply Hin|done]|].
    split; [unfold_worker; set_solver|].
    unfold_worker. rewrite <- Hreuse. rewrite Hconns; [done|].
    assert (Hnd : NoDup ((m_pDcb <$> m_persistent_entries_by_server w1 server) ++ evicted))
      by (rewrite <- Hperm; apply (inv_nodup w Hinv server)).
    apply NoDup_app in Hnd as (_ & Hsep & _). apply Hsep.
    rewrite <- Heq. by apply list_elem_of_fmap_2.
Qed.

End Take.

Lemma step_invariant (X : Externals) (w w' : RoutingWorker) :
  pool_invariant w -> step X w w' -> pool_invariant w'.
Proof.
  intros Hinv Hstep. destruct Hstep.
  - apply (pool_invariant_sub w); [done|by destruct Hinv| |intros s; apply (inv_nodup w Hinv)].
    intros s e He. pose proof (inv_disjoint w Hinv s e He).
    assert (m_pDcb e <> pDcb) by eauto.
    unfold_worker. rewrite fn_lookup_insert_ne by done. repeat split; try done. set_solver.
  - apply (pool_invariant_sub w); [done|by destruct Hinv| |intros s; apply (inv_nodup w Hinv)].
    intros s e He. pose proof (inv_disjoint w Hinv s e He).
    unfold_worker. repeat split; try done. set_solver.
  - apply (pool_invariant_sub w); [done|by destruct Hinv| |intros s; apply (inv_nodup w Hinv)].
    intros s e He. pose proof (inv_disjoint w Hinv s e He) as Hd.
    assert (m_pDcb e <> pDcb) by (intros Heq; apply Hd; by rewrite Heq).
    unfold_worker. rewrite fn_lookup_insert_ne by done. repeat split; done.
  - by apply DCB_close_invariant.
  - by apply (get_backend_dcb_from_pool_spec X env server session upstream w).
  - by apply evict_dcbs_invariant.
  - by apply (evict_dcb_spec server entry w).
  - apply (pool_invariant_sub w); [done|by destruct Hinv| |intros s'; apply (inv_nodup w Hinv)].
    intros s0 e He. pose proof (inv_disjoint w Hinv s0 e He).
    unfold_worker. repeat split; done.
Qed.

Lemma reachable_invariant (X : Externals) (w : RoutingWorker) :
  reachable X w -> pool_invariant w.
Proof.
  induction 1 as [w Hinit|w w' _ IH Hstep].
  - by apply initial_invariant.
  - by apply (step_invariant X w).
Qed.

Lemma reachable_parked_worker (X : Externals) : reachable X parked_worker.
Proof.
  unfold parked_worker.
  apply (reachable_step X (add 7 (update_conn 7 (fun _ => routing_conn) empty_worker))).
  - apply (reachable_step X empty_worker).
    + apply reachable_initial.
      split; [reflexivity|]. split; [reflexivity|]. intros server. reflexivity.
    + apply step_add.
      * cbn. set_solver.
      * intros server entry He. by apply elem_of_nil in He.
  - apply step_close. unfold add. cbn. set_solver.
Qed.

Lemma change_user_packet_command (X : Externals) (p : Proto) :
  MYSQL_IS_CHANGE_USER (gw_data (create_change_user_packet X p)) = true.
Proof.
  unfold create_change_user_packet, MYSQL_IS_CHANGE_USER, get_command, byte_at, set_byte3.
  cbn [gw_data app nth]. reflexivity.
Qed.

Lemma u8_byte_of_Z (z : Z) : u8 (byte_of_Z z) = z mod 256.
Proof.
  unfold u8, byte_of_Z.
  pose proof (Z.mod_pos_bound z 256 ltac:(lia)) as Hz.
  destruct (Byte.of_N (Z.to_N (z mod 256))) as [b|] eqn:E.
  - apply Byte.to_of_N in E. rewrite E. lia.
  - apply Byte.of_N_None_iff in E. lia.
Qed.

Lemma lxor_u8_range (a b : byte) : 0 <= Z.lxor (u8 a) (u8 b) < 2 ^ 8.
Proof.
  apply BitFacts.range_of_high_bits; [lia|].
  intros i Hi. rewrite Z.lxor_spec.
  rewrite (BitFacts.high_bits_of_range (u8 a) 8 i), (BitFacts.high_bits_of_range (u8 b) 8 i);
    [reflexivity|apply ReplyFacts.u8_range|lia|apply ReplyFacts.u8_range|lia].
Qed.

(** [bin_bin_xor] byte by byte. *)
Lemma bin_bin_xor_spec (a : list byte) : forall b : list byte,
  length (bin_bin_xor a b) = Nat.min (length a) (length b)
  /\ forall i : nat, (i < length (bin_bin_xor a b))%nat ->
       u8 (nth i (bin_bin_xor a b) Byte.x00)
       = Z.lxor (u8 (nth i a Byte.x00)) (u8 (nth i b Byte.x00)).
Proof.
  induction a as [|x a IH]; intros [|y b]; cbn [bin_bin_xor length Nat.min];
    try (split; [reflexivity|intros i Hi; cbn in Hi; lia]).
  destruct (IH b) as [Hlen Hnth]. split; [by rewrite Hlen|].
  intros [|i] Hi; cbn [nth].
  - rewrite u8_byte_of_Z. apply Z.mod_small. apply (lxor_u8_range x y).
  - apply Hnth. cbn [length] in Hi. lia.
Qed.

(** The token of the change-user packet: empty without a password or when
    a hash has not the length of a SHA1 digest, and otherwise the digest of
    the scramble and the stored double hash, xored byte by byte with the
    hash the client sent. *)
Lemma make_auth_token_spec (X : Externals) (p : Proto) :
  let cd := protocol_data (m_session p) in
  let token := make_auth_token X p in
  (cd_password cd = [] -> token = [])
  /\ (zlength (cd_password cd) <> 2 * 20 -> token = [])
  /\ (zlength (cd_auth_token_phase2 cd) <> 20 -> token = [])
  /\ (zlength (cd_password cd) = 2 * 20 ->
      zlength (cd_auth_token_phase2 cd) = 20 ->
      let concat_hash := gw_sha1_2_str X (m_scramble p) (hex2bin X (cd_password cd)) in
      length token = Nat.min (length concat_hash) 20
      /\ forall i : nat, (i < length token)%nat ->
           u8 (nth i token Byte.x00)
           = Z.lxor (u8 (nth i concat_hash Byte.x00))
               (u8 (nth i (cd_auth_token_phase2 cd) Byte.x00))).
Proof.
  intros cd token. subst token. unfold make_auth_token. fold cd.
  unfold SHA_DIGEST_LENGTH.
  destruct (cd_password cd) as [|b0 pw] eqn:Hpw.
  - split; [done|]. split; [done|]. split; [done|].
    intros H. unfold zlength in H. cbn in H. lia.
  - destruct (Z.eqb_spec (zlength (b0 :: pw)) (2 * 20)) as [Hl|Hl];
      [|split; [done|]; split; [done|]; split; [done|]; intros H; done].
    destruct (Z.eqb_spec (zlength (cd_auth_token_phase2 cd)) 20) as [Hh|Hh];
      [|split; [done|]; split; [done|]; split; [done|]; intros _ H; done].
    split; [done|]. split; [done|]. split; [done|]. intros _ _.
    match goal with
    | |- context [bin_bin_xor ?a ?b] => destruct (bin_bin_xor_spec a b) as [Hlen Hnth]
    end.
    split; [|exact Hnth].
    rewrite Hlen. f_equal. unfold zlength in Hh. lia.
Qed.

(** C1.  In every state a worker can reach, [reuse_connection] on a
    connection that sits in the pool answers true only if the DCB is
    polling, the protocol is in the routing state, no reply is being
    ignored and no packet is delayed; it has then queued a COM_CHANGE_USER
    packet on the DCB and has counted one more reply to ignore.  The packet
    is built anew from the data of the session that takes the connection
    and from the scramble the connection holds: a header with the length of
    the payload and the sequence number 0, then the command byte 0x11, the
    user name, the token with its length, the database, the character set,
    the plugin and the connection attributes; the token is empty without a
    password (or with hashes that are not SHA1 digests) and is otherwise
    the digest of the connection's scramble and the stored double hash,
    xored byte by byte with the hash the client sent.  The connection that
    [get_backend_dcb_from_pool] hands out is a pooled one on which that
    call has answered true, and it is back in the regular book-keeping. *)
Theorem C1_reuse_of_pooled_connection (X : Externals) (env : Env) (upstream : nat)
    (w : RoutingWorker) :
  reachable X w ->
  (forall server session d p' d',
     d ∈ (m_pDcb <$> pool w server) ->
     let c := conns w d in
     let dcb := with_session (Some session) (set_handler PROTOCOL_HANDLER (conn_dcb c)) in
     reuse_connection X (sessions env) upstream (conn_proto c) dcb = (true, p', d') ->
     is_polling (dcb_state dcb) = true
     /\ m_state (conn_proto c) = ROUTING
     /\ m_ignore_replies (conn_proto c) = 0
     /\ m_delayed_packets (conn_proto c) = None
     /\ m_scramble p' = m_scramble (conn_proto c)
     /\ m_session p' = sessions env session
     /\ dcb_writeq d' = dcb_writeq dcb ++ [create_change_user_packet X p']
     /\ MYSQL_IS_CHANGE_USER (gw_data (create_change_user_packet X p')) = true
     /\ m_ignore_replies p' = m_ignore_replies (conn_proto c) + 1
     /\ (let cd := protocol_data (sessions env session) in
         let scramble := m_scramble (conn_proto c) in
         exists token : list byte,
           let payload :=
             [Byte.x11] ++ cd_user cd ++ [Byte.x00]
             ++ [byte_of_Z (Z.of_nat (length token))] ++ token
             ++ cd_db cd ++ [Byte.x00]
             ++ [byte_of_Z (cd_charset cd); byte_of_Z (Z.shiftr (cd_charset cd) 8)]
             ++ cd_plugin cd ++ [Byte.x00]
             ++ cd_connect_attrs cd in
           let bytes := Z.of_nat (length payload) in
           dcb_writeq d'
           = dcb_writeq dcb
             ++ [{| gw_data :=
                      [byte_of_Z bytes; byte_of_Z (Z.shiftr bytes 8);
                       byte_of_Z (Z.shiftr bytes 16); Byte.x00] ++ payload;
                    gw_ignorable := false; gw_collect_result := true;
                    gw_track_state := false |}]
           /\ (cd_password cd = [] -> token = [])
           /\ (Z.of_nat (length (cd_password cd)) <> 2 * 20 -> token = [])
           /\ (Z.of_nat (length (cd_auth_token_phase2 cd)) <> 20 -> token = [])
           /\ (Z.of_nat (length (cd_password cd)) = 2 * 20 ->
               Z.of_nat (length (cd_auth_token_phase2 cd)) = 20 ->
               let concat_hash := gw_sha1_2_str X scramble (hex2bin X (cd_password cd)) in
               length token = Nat.min (length concat_hash) 20
               /\ forall i : nat, (i < length token)%nat ->
                    u8 (nth i token Byte.x00)
                    = Z.lxor (u8 (nth i concat_hash Byte.x00))
                        (u8 (nth i (cd_auth_token_phase2 cd) Byte.x00)))))
  /\ (forall server session d,
        fst (get_backend_dcb_from_pool X env server session upstream w) = Some d ->
        let w' := snd (get_backend_dcb_from_pool X env server session upstream w) in
        let c := conns w d in
        d ∈ (m_pDcb <$> pool w server)
        /\ reuse_connection X (sessions env) upstream (conn_proto c)
             (with_session (Some session)
                (set_handler PROTOCOL_HANDLER (conn_dcb c)))
           = (true, conn_proto (conns w' d), conn_dcb (conns w' d))
        /\ d ∈ m_dcbs w').
Proof.
  intros Hreach. apply reachable_invariant in Hreach as Hinv. split.
  - intros server session d p' d' Hd c dcb Hreuse.
    apply list_elem_of_fmap in Hd as (entry & -> & Hentry).
    pose proof (inv_established w Hinv server entry Hentry) as Hest.
    apply established_ignore_replies in Hest. fold c in Hest.
    apply reuse_connection_true in Hreuse
      as (Hpoll & Hstate & Hdelayed & sid & Hsid & Hses & _ & Hscr & Hign & _ & Hwq).
    cbn [dcb dcb_session with_session] in Hsid. injection Hsid as <-.
    pose proof (change_user_packet_command X p') as Hcmd.
    do 9 (split; [first [done|rewrite Hign, Hest; reflexivity]|]).
    intros cd scramble.
    pose proof (make_auth_token_spec X p') as Htoken. cbv zeta in Htoken.
    rewrite Hses, Hscr in Htoken. fold cd scramble in Htoken.
    exists (make_auth_token X p'). cbv zeta.
    split; [|exact Htoken].
    rewrite Hwq. unfold create_change_user_packet. rewrite Hses. reflexivity.
  - intros server session d Hsome w' c.
    destruct (get_backend_dcb_from_pool_spec X env server session upstream w Hinv)
      as [_ Hspec].
    destruct (Hspec d Hsome) as ((entry & Hentry & Heq) & Hin & Hreuse).
    split; [|split; done].
    rewrite <- Heq. by apply list_elem_of_fmap_2.
Qed.

(** The connection parked in the test worker is taken out again, with the
    change-user packet for the user bob as the one packet to write. *)
Lemma C1_reuse_of_pooled_connection_witness :
  fst (get_backend_dcb_from_pool test_externals test_env 0 1 0 parked_worker) = Some 7%nat
  /\ 7%nat ∈ m_dcbs
               (snd (get_backend_dcb_from_pool test_externals test_env 0 1 0 parked_worker))
  /\ m_state (conn_proto (conns parked_worker 7%nat)) = ROUTING
  /\ m_ignore_replies
       (conn_proto
          (conns (snd (get_backend_dcb_from_pool test_externals test_env 0 1 0 parked_worker))
             7%nat)) = 1
  /\ (gw_data <$>
        dcb_writeq
          (conn_dcb
             (conns (snd (get_backend_dcb_from_pool test_externals test_env 0 1 0
                            parked_worker)) 7%nat)))
     = [[Byte.x0a; Byte.x00; Byte.x00; Byte.x00; Byte.x11; Byte.x62; Byte.x6f; Byte.x62;
         Byte.x00; Byte.x00; Byte.x00; Byte.x21; Byte.x00; Byte.x00]].
Proof.
  destruct (C1_reuse_of_pooled_connection test_externals test_env 0 parked_worker
              (reachable_parked_worker test_externals)) as [Hreuse Htake].
  assert (Hsome : fst (get_backend_dcb_from_pool test_externals test_env 0 1 0 parked_worker)
                  = Some 7%nat) by (vm_compute; reflexivity).
  destruct (Htake 0%nat 1%nat 7%nat Hsome) as (Hpooled & Hcall & Hin).
  destruct (Hreuse 0%nat 1%nat 7%nat _ _ Hpooled Hcall)
    as (_ & Hstate & Hzero & _ & _ & _ & _ & _ & Hign & token & Hqueue & Hempty & _).
  split; [exact Hsome|]. split; [exact Hin|]. split; [exact Hstate|].
  split; [rewrite Hign, Hzero; reflexivity|].
  cbv zeta in Hqueue. rewrite Hqueue, (Hempty eq_refl). vm_compute. reflexivity.
Defined.

(** [close_pooled_dcb] leaves the state of every DCB as it is and takes
    back neither a shutdown nor the disabling of events. *)
Lemma close_pooled_dcb_keeps (d0 d : nat) (w : RoutingWorker) :
  let w' := close_pooled_dcb d0 w in
  dcb_state (conn_dcb (conns w' d)) = dcb_state (conn_dcb (conns w d))
  /\ (dcb_was_shutdown (conn_dcb (conns w d)) = true ->
      dcb_was_shutdown (conn_dcb (conns w' d)) = true)
  /\ (dcb_events_enabled (conn_dcb (conns w d)) = false ->
      dcb_events_enabled (conn_dcb (conns w' d)) = false).
Proof.
  unfold close_pooled_dcb, close_while_evicting, shutdown_if_polling, destroy, add.
  cbn [conns set_m_dcbs].
  destruct (is_polling (dcb_state (conn_dcb (conns w d0))));
    cbn [set_m_zombies set_close_log update_conn set_conns set_m_dcbs conns];
    (destruct (decide (d0 = d)) as [->|Hne];
     [rewrite ?fn_lookup_insert|rewrite ?fn_lookup_insert_ne by done]);
    cbn; done.
Qed.

Lemma fold_close_pooled_keeps (evicted : list nat) : forall (w : RoutingWorker) (d : nat),
  let w' := fold_left (fun w pDcb => close_pooled_dcb pDcb w) evicted w in
  dcb_state (conn_dcb (conns w' d)) = dcb_state (conn_dcb (conns w d))
  /\ (dcb_was_shutdown (conn_dcb (conns w d)) = true ->
      dcb_was_shutdown (conn_dcb (conns w' d)) = true)
  /\ (dcb_events_enabled (conn_dcb (conns w d)) = false ->
      dcb_events_enabled (conn_dcb (conns w' d)) = false).
Proof.
  induction evicted as [|d0 evicted IH]; intros w d; cbn [fold_left]; [done|].
  destruct (IH (close_pooled_dcb d0 w) d) as (I1 & I2 & I3).
  destruct (close_pooled_dcb_keeps d0 d w) as (K1 & K2 & K3).
  cbv zeta in *. split; [congruence|]. split; auto.
Qed.

(** Every polling DCB that the loop of [evict_dcbs] closes has been shut
    down, with its events disabled. *)
Lemma fold_close_pooled_shutdown (evicted : list nat) : forall (w : RoutingWorker) (d : nat),
  d ∈ evicted ->
  is_polling (dcb_state (conn_dcb (conns w d))) = true ->
  let w' := fold_left (fun w pDcb => close_pooled_dcb pDcb w) evicted w in
  dcb_was_shutdown (conn_dcb (conns w' d)) = true
  /\ dcb_events_enabled (conn_dcb (conns w' d)) = false.
Proof.
  induction evicted as [|d0 evicted IH]; intros w d Hd Hpoll; cbn [fold_left].
  - by apply elem_of_nil in Hd.
  - destruct (decide (d = d0)) as [->|Hne].
    + destruct (close_pooled_dcb_spec d0 w) as (_ & _ & _ & _ & _ & _ & _ & _ & _ & Hdown).
      destruct (Hdown Hpoll) as [H1 H2].
      destruct (fold_close_pooled_keeps evicted (close_pooled_dcb d0 w) d0) as (_ & K2 & K3).
      cbv zeta in *. auto.
    + apply elem_of_cons in Hd as [Hd|Hd]; [done|].
      apply IH; [done|].
      destruct (close_pooled_dcb_keeps d0 d w) as (K1 & _). cbv zeta in K1. by rewrite K1.
Qed.

Lemma evict_dcbs_shutdown (env : Env) (server : nat) (evict : Evict) (w : RoutingWorker) :
  let w' := snd (evict_dcbs env server evict w) in
  exists evicted : list nat,
    close_log w' = close_log w ++ ((fun d => (d, true)) <$> evicted)
    /\ forall d, d ∈ evicted ->
         is_polling (dcb_state (conn_dcb (conns w d))) = true ->
         dcb_was_shutdown (conn_dcb (conns w' d)) = true
         /\ dcb_events_enabled (conn_dcb (conns w' d)) = false.
Proof.
  unfold evict_dcbs.
  cbn [servers set_m_evicting pool m_persistent_entries_by_server].
  destruct (sweep env (set_m_evicting true w) (servers w server) _
              (m_persistent_entries_by_server w server) 0)
    as [[kept evicted] count] eqn:Hs.
  exists evicted. cbn [fst snd].
  match goal with
  | |- context [fold_left _ evicted ?w0] =>
      destruct (fold_close_pooled_spec evicted w0) as (_ & _ & _ & _ & F5 & _);
        pose proof (fold_close_pooled_shutdown evicted w0) as Fdown;
        set (w1 := fold_left _ evicted w0) in *
  end.
  cbv zeta in *. cbn [close_log conns set_m_evicting] in *.
  split; [exact F5|]. intros d Hd Hpoll. by apply Fdown.
Qed.

Lemma evict_dcb_shutdown (server : nat) (entry : PersistentEntry) (w : RoutingWorker) :
  pool_invariant w ->
  entry ∈ pool w server ->
  let d := m_pDcb entry in
  let w' := evict_dcb d w in
  is_polling (dcb_state (conn_dcb (conns w d))) = true ->
  dcb_was_shutdown (conn_dcb (conns w' d)) = true
  /\ dcb_events_enabled (conn_dcb (conns w' d)) = false.
Proof.
  intros Hinv Hentry d w' Hpoll. subst w'. unfold evict_dcb.
  cbn [conns set_m_evicting].
  match goal with
  | |- context [close_pooled_dcb d ?w0] =>
      destruct (close_pooled_dcb_spec d w0) as (_ & _ & _ & _ & _ & _ & _ & _ & _ & Hdown)
  end.
  by apply Hdown.
Qed.

(** In every state a worker can reach, no pooled connection is in the
    regular book-keeping.  Parking a connection takes it out of the
    book-keeping; and both evictions, [evict_dcbs] and [evict_dcb], take the
    connections they close out of the pool and put them into the
    book-keeping first: each close they log is that of a DCB that was in
    the book-keeping when it was closed, and a DCB that was polling has
    been shut down, with its events disabled, when it is closed. *)
Lemma pool_disjoint_from_active (X : Externals) (w : RoutingWorker) :
  reachable X w ->
  (forall server entry, entry ∈ pool w server -> m_pDcb entry ∉ m_dcbs w)
  /\ (forall env d,
        fst (can_be_destroyed env d w) = false ->
        let w' := snd (can_be_destroyed env d w) in
        d ∈ (m_pDcb <$> pool w' (dcb_server (conn_dcb (conns w d))))
        /\ d ∉ m_dcbs w')
  /\ (forall env server evict,
        let w' := snd (evict_dcbs env server evict w) in
        exists evicted : list nat,
          (m_pDcb <$> pool w server) ≡ₚ (m_pDcb <$> pool w' server) ++ evicted
          /\ close_log w' = close_log w ++ ((fun d => (d, true)) <$> evicted)
          /\ (forall d, d ∈ evicted -> d ∈ m_dcbs w')
          /\ (forall d, d ∈ evicted ->
                is_polling (dcb_state (conn_dcb (conns w d))) = true ->
                dcb_was_shutdown (conn_dcb (conns w' d)) = true
                /\ dcb_events_enabled (conn_dcb (conns w' d)) = false)
          /\ (forall s e, e ∈ pool w' s -> m_pDcb e ∉ m_dcbs w'))
  /\ (forall server entry,
        entry ∈ pool w server ->
        let d := m_pDcb entry in
        let w' := evict_dcb d w in
        (forall s e, e ∈ pool w' s -> m_pDcb e <> d)
        /\ close_log w' = close_log w ++ [(d, true)]
        /\ d ∈ m_dcbs w'
        /\ dcb_open (conn_dcb (conns w' d)) = false
        /\ (is_polling (dcb_state (conn_dcb (conns w d))) = true ->
            dcb_was_shutdown (conn_dcb (conns w' d)) = true
            /\ dcb_events_enabled (conn_dcb (conns w' d)) = false)).
Proof.
  intros Hreach. apply reachable_invariant in Hreach as Hinv.
  split; [apply (inv_disjoint w Hinv)|]. split; [|split].
  - intros env d Hno w'. subst w'.
    destruct (can_be_destroyed env d w) as [rv w'] eqn:Hcan. cbn [fst snd] in *. subst rv.
    apply can_be_destroyed_false in Hcan as (_ & _ & _ & _ & _ & _ & _ & _ & _ & ->).
    split.
    + unfold remove. cbn [pool m_persistent_entries_by_server set_m_dcbs].
      rewrite pool_set_pool_eq, fmap_app. cbn. set_solver.
    + unfold remove. cbn [m_dcbs set_m_dcbs]. set_solver.
  - intros env server evict w'.
    destruct (evict_dcbs_spec env server evict w)
      as (evicted & Hperm & _ & _ & _ & Hdcbs & _ & Hlog & _).
    destruct (evict_dcbs_shutdown env server evict w) as (evicted' & Hlog' & Hdown).
    cbv zeta in *. fold w' in Hperm, Hdcbs, Hlog, Hlog', Hdown.
    assert (Heq : evicted' = evicted).
    { rewrite Hlog in Hlog'. apply app_inv_head in Hlog'.
      apply (f_equal (fmap fst)) in Hlog'. rewrite <- !list_fmap_compose in Hlog'.
      cbn in Hlog'. rewrite !list_fmap_id in Hlog'. done. }
    subst evicted'.
    exists evicted. split; [done|]. split; [done|]. split; [|split].
    + intros d Hd. rewrite Hdcbs. set_solver.
    + exact Hdown.
    + apply (inv_disjoint w'). by apply evict_dcbs_invariant.
  - intros server entry Hentry d w'.
    destruct (evict_dcb_spec server entry w Hinv Hentry) as (_ & Hlog & Hin & Hout & Hclosed).
    pose proof (evict_dcb_shutdown server entry w Hinv Hentry) as Hdown.
    done.
Qed.

(** The parked connection of the test worker is not in the book-keeping,
    and is when it is evicted. *)
Lemma pool_disjoint_from_active_example :
  (7%nat ∉ m_dcbs parked_worker)
  /\ close_log (evict_dcb 7 parked_worker) = close_log parked_worker ++ [(7%nat, true)]
  /\ 7%nat ∈ m_dcbs (evict_dcb 7 parked_worker).
Proof.
  destruct (pool_disjoint_from_active test_externals parked_worker
              (reachable_parked_worker test_externals)) as (Hdis & _ & _ & Hevict).
  assert (Hentry : {| m_created := 1000; m_pDcb := 7%nat |} ∈ pool parked_worker 0%nat).
  { assert (Hpool : pool parked_worker 0%nat = [{| m_created := 1000; m_pDcb := 7%nat |}])
      by (vm_compute; reflexivity).
    rewrite Hpool. by left. }
  destruct (Hevict 0%nat _ Hentry) as (_ & Hlog & Hin & _).
  split; [exact (Hdis 0%nat _ Hentry)|]. split; [exact Hlog|exact Hin].
Defined.

Lemma reachable_refusing_worker (X : Externals) : reachable X refusing_worker.
Proof.
  unfold refusing_worker.
  apply (reachable_step X (add 7 (update_conn 7 (fun _ => refusing_conn) empty_worker))).
  - apply (reachable_step X empty_worker).
    + apply reachable_initial.
      split; [reflexivity|]. split; [reflexivity|]. intros server. reflexivity.
    + apply step_add.
      * cbn. set_solver.
      * intros server entry He. by apply elem_of_nil in He.
  - apply step_close. unfold add. cbn. set_solver.
Qed.

(** C7 at the failing input.  The claim: every eviction path puts the DCB
    back into the regular book-keeping before it shuts it down and closes
    it.  A worker has opened DCB 7, the session that used it has ended and
    the connection is parked in the pool, out of the book-keeping; its DCB
    accepts no further writes.  When a session asks for a connection,
    [get_backend_dcb_from_pool] pops the entry, [reuse_connection] fails
    because the COM_CHANGE_USER cannot be queued, and the branch for the
    failed reuse sets [m_evicting], shuts the DCB down and closes it
    without the [m_dcbs.insert] that [close_pooled_dcb] makes first: the
    close is logged for a DCB that is not in the book-keeping, and the DCB
    is queued for destruction without ever being in it.  [evict_dcb] on the
    same worker closes the same DCB from inside the book-keeping. *)
Theorem C7_failed_reuse_closes_outside_bookkeeping :
  let w := refusing_worker in
  let r := get_backend_dcb_from_pool test_externals test_env 0 1 0 w in
  let w' := snd r in
  let w2 := evict_dcb 7 w in
  reachable test_externals w
  /\ pool w 0%nat = [{| m_created := 1000; m_pDcb := 7%nat |}]
  /\ (7%nat ∉ m_dcbs w)
  /\ fst (fst (reuse_connection test_externals (sessions test_env) 0
                 (conn_proto (conns w 7%nat))
                 (with_session (Some 1%nat)
                    (set_handler PROTOCOL_HANDLER (conn_dcb (conns w 7%nat)))))) = false
  /\ fst r = None
  /\ pool w' 0%nat = []
  /\ close_log w' = close_log w ++ [(7%nat, false)]
  /\ (7%nat ∉ m_dcbs w')
  /\ m_zombies w' = m_zombies w ++ [7%nat]
  /\ m_evicting w' = false
  /\ dcb_open (conn_dcb (conns w' 7%nat)) = false
  /\ dcb_was_shutdown (conn_dcb (conns w' 7%nat)) = true
  /\ dcb_events_enabled (conn_dcb (conns w' 7%nat)) = false
  /\ close_log w2 = close_log w ++ [(7%nat, true)]
  /\ 7%nat ∈ m_dcbs w2
  /\ dcb_was_shutdown (conn_dcb (conns w2 7%nat)) = true
  /\ dcb_events_enabled (conn_dcb (conns w2 7%nat)) = false.
Proof.
  intros w r w' w2.
  split; [apply reachable_refusing_worker|].
  split; [vm_compute; reflexivity|].
  split; [apply not_elem_of_empty|].
  split; [vm_compute; reflexivity|].
  split; [vm_compute; reflexivity|].
  split; [vm_compute; reflexivity|].
  split; [vm_compute; reflexivity|].
  split; [apply not_elem_of_empty|].
  split; [vm_compute; reflexivity|].
  split; [vm_compute; reflexivity|].
  split; [vm_compute; reflexivity|].
  split; [vm_compute; reflexivity|].
  split; [vm_compute; reflexivity|].
  split; [vm_compute; reflexivity|].
  split; [apply elem_of_union_l, elem_of_singleton; reflexivity|].
  split; vm_compute; reflexivity.
Qed.

End WorkerFacts.

Module ReplyExtras.
Import Bytes Wire Reply ReplyFacts Framing.

(** OR-ing a multiple of [2^k] with a value below [2^k] is adding. *)
Lemma lor_high_low (acc piece q k : Z) :
  0 <= k -> 0 <= piece < 2 ^ k -> acc = 2 ^ k * q -> Z.lor acc piece = acc + piece.
Proof.
  intros Hk Hp ->. rewrite Z.lor_comm.
  replace (2 ^ k * q) with (Z.shiftl q k) by (rewrite Z.shiftl_mul_pow2; lia).
  rewrite lor_shiftl_add by done. rewrite Z.shiftl_mul_pow2; lia.
Qed.

Lemma get_le_fold (b : Buffer) (it : Iter) (n : nat) : forall s : nat,
  exists q,
    0 <= q < 2 ^ (8 * Z.of_nat n)
    /\ fold_right
         (fun k acc => Z.lor acc (Z.shiftl (deref b (it + Z.of_nat k)) (8 * Z.of_nat k)))
         0 (seq s n)
       = 2 ^ (8 * Z.of_nat s) * q
    /\ match n with
       | O => q = 0
       | S n' =>
           exists q',
             fold_right
               (fun k acc =>
                  Z.lor acc (Z.shiftl (deref b (it + Z.of_nat k)) (8 * Z.of_nat k)))
               0 (seq (S s) n')
             = 2 ^ (8 * Z.of_nat (S s)) * q'
             /\ 0 <= q' < 2 ^ (8 * Z.of_nat n')
             /\ q = deref b (it + Z.of_nat s) + 2 ^ 8 * q'
       end.
Proof.
  induction n as [|n IH]; intros s.
  - exists 0. cbn [seq fold_right]. split; [lia|]. split; [lia|done].
  - destruct (IH (S s)) as (q' & Hq' & Hfold & _).
    exists (deref b (it + Z.of_nat s) + 2 ^ 8 * q').
    pose proof (deref_range b (it + Z.of_nat s)) as Hd.
    assert (Hpow : 2 ^ (8 * Z.of_nat (S n)) = 2 ^ 8 * 2 ^ (8 * Z.of_nat n)).
    { rewrite <- Z.pow_add_r by lia. f_equal. lia. }
    assert (Hpow' : 2 ^ (8 * Z.of_nat (S s)) = 2 ^ (8 * Z.of_nat s) * 2 ^ 8).
    { rewrite <- Z.pow_add_r by lia. f_equal. lia. }
    assert (0 < 2 ^ (8 * Z.of_nat s)) by (apply Z.pow_pos_nonneg; lia).
    split; [nia|]. split.
    + cbn [seq fold_right]. rewrite Hfold.
      rewrite Z.shiftl_mul_pow2 by lia.
      rewrite (lor_high_low _ _ q' (8 * Z.of_nat (S s))); [rewrite Hpow'; ring|lia| |done].
      rewrite Hpow'. nia.
    + exists q'. done.
Qed.

Lemma get_le_0 (b : Buffer) (it : Iter) : get_le b it 0 = 0.
Proof. reflexivity. Qed.

(** The little-endian reader as a sum. *)
Lemma get_le_sum (b : Buffer) (it : Iter) (n : nat) :
  get_le b it n
  = fold_right (fun k acc => acc + 2 ^ (8 * Z.of_nat k) * deref b (it + Z.of_nat k))
      0 (seq 0 n)
  /\ 0 <= get_le b it n < 2 ^ (8 * Z.of_nat n).
Proof.
  unfold get_le.
  enough (H : forall s,
            fold_right
              (fun k acc => Z.lor acc (Z.shiftl (deref b (it + Z.of_nat k)) (8 * Z.of_nat k)))
              0 (seq s n)
            = fold_right
                (fun k acc => acc + 2 ^ (8 * Z.of_nat k) * deref b (it + Z.of_nat k))
                0 (seq s n)).
  { split; [apply H|].
    destruct (get_le_fold b it n 0%nat) as (q & Hq & -> & _).
    change (8 * Z.of_nat 0) with 0. lia. }
  induction n as [|n IH]; intros s; [done|].
  cbn [seq fold_right]. rewrite <- IH.
  destruct (get_le_fold b it n (S s)) as (q & Hq & Hfold & _).
  rewrite Hfold, Z.shiftl_mul_pow2 by lia.
  pose proof (deref_range b (it + Z.of_nat s)) as Hd.
  assert (Hpow' : 2 ^ (8 * Z.of_nat (S s)) = 2 ^ (8 * Z.of_nat s) * 2 ^ 8).
  { rewrite <- Z.pow_add_r by lia. f_equal. lia. }
  assert (0 < 2 ^ (8 * Z.of_nat s)) by (apply Z.pow_pos_nonneg; lia).
  rewrite (lor_high_low _ _ q (8 * Z.of_nat (S s))); [ring|lia| |done].
  rewrite Hpow'. nia.
Qed.

(** X1.  A length-encoded integer is decoded as the protocol lays it out:
    a first byte other than 0xfc, 0xfd and 0xfe is the value itself; after
    0xfc, 0xfd and 0xfe come two, three and eight bytes, least significant
    first.  The value fits 64 bits, and [skip_encoded_int] moves the
    iterator exactly as far as [get_encoded_int] does.  A length-encoded
    string is the bytes that follow its length, and [skip_encoded_str]
    ends where [get_encoded_str] ends. *)
Theorem X1_length_encoded_values (b : Buffer) (it : Iter) :
  let c := deref b it in
  let v := fst (get_encoded_int b it) in
  let it' := snd (get_encoded_int b it) in
  it' = skip_encoded_int b it
  /\ it' = it + (if c =? 252 then 3 else if c =? 253 then 4 else if c =? 254 then 9 else 1)
  /\ v = (if c =? 252 then u16le b (it + 1)
          else if c =? 253 then u24le b (it + 1)
          else if c =? 254 then u32le b (it + 1) + 2 ^ 32 * u32le b (it + 5)
          else c)
  /\ 0 <= v < 2 ^ 64
  /\ snd (get_encoded_str b it) = skip_encoded_str b it
  /\ skip_encoded_str b it = it' + v
  /\ length (fst (get_encoded_str b it)) = Z.to_nat v
  /\ (forall i : nat,
        (i < Z.to_nat v)%nat ->
        nth i (fst (get_encoded_str b it)) Byte.x00 = buf_at b (it' + Z.of_nat i)).
Proof.
  intros c v it'. subst v it'.
  unfold get_encoded_str, skip_encoded_str, skip_encoded_int. fold c.
  assert (Hc : 0 <= c < 256) by apply deref_range.
  assert (Hval :
    get_encoded_int b it
    = (if c =? 252 then (u16le b (it + 1), it + 3)
       else if c =? 253 then (u24le b (it + 1), it + 4)
       else if c =? 254 then (u32le b (it + 1) + 2 ^ 32 * u32le b (it + 5), it + 9)
       else (c, it + 1))).
  { unfold get_encoded_int. fold c.
    destruct (Z.eqb_spec c 252); [|destruct (Z.eqb_spec c 253); [|destruct (Z.eqb_spec c 254)]].
    - f_equal; [|lia]. destruct (get_le_sum b (it + 1) 2) as [-> _].
      cbn [seq fold_right]. unfold u16le.
      change (Z.of_nat 0) with 0. change (Z.of_nat 1) with 1.
      replace (it + 1 + 0) with (it + 1) by lia. change (8 * 0) with 0. lia.
    - f_equal; [|lia]. destruct (get_le_sum b (it + 1) 3) as [-> _].
      cbn [seq fold_right]. unfold u24le.
      change (Z.of_nat 0) with 0. change (Z.of_nat 1) with 1. change (Z.of_nat 2) with 2.
      replace (it + 1 + 0) with (it + 1) by lia. change (8 * 0) with 0. lia.
    - f_equal; [|lia]. destruct (get_le_sum b (it + 1) 8) as [-> _].
      cbn [seq fold_right]. unfold u32le.
      change (Z.of_nat 0) with 0. change (Z.of_nat 1) with 1. change (Z.of_nat 2) with 2.
      change (Z.of_nat 3) with 3. change (Z.of_nat 4) with 4. change (Z.of_nat 5) with 5.
      change (Z.of_nat 6) with 6. change (Z.of_nat 7) with 7.
      replace (it + 1 + 0) with (it + 1) by lia.
      replace (it + 1 + 4) with (it + 5) by lia.
      replace (it + 1 + 5) with (it + 5 + 1) by lia.
      replace (it + 1 + 6) with (it + 5 + 2) by lia.
      replace (it + 1 + 7) with (it + 5 + 3) by lia.
      change (8 * 0) with 0. lia.
    - done. }
  rewrite Hval.
  assert (Hrange :
    0 <= (if c =? 252 then u16le b (it + 1)
          else if c =? 253 then u24le b (it + 1)
          else if c =? 254 then u32le b (it + 1) + 2 ^ 32 * u32le b (it + 5)
          else c) < 2 ^ 64).
  { unfold u16le, u24le, u32le.
    pose proof (deref_range b (it + 1)). pose proof (deref_range b (it + 1 + 1)).
    pose proof (deref_range b (it + 1 + 2)). pose proof (deref_range b (it + 1 + 3)).
    pose proof (deref_range b (it + 5)). pose proof (deref_range b (it + 5 + 1)).
    pose proof (deref_range b (it + 5 + 2)). pose proof (deref_range b (it + 5 + 3)).
    repeat case_match; lia. }
  destruct (c =? 252); [|destruct (c =? 253); [|destruct (c =? 254)]];
    cbn [fst snd]; (split; [done|]); (split; [done|]); (split; [done|]);
    (split; [done|]); (split; [done|]); (split; [done|]).
  all: unfold bytes_between; split;
    [rewrite length_map, length_seqZ; f_equal; lia|].
  all: intros i Hi;
    match goal with
    | |- nth i (map _ (seqZ ?s ?l)) _ = _ =>
        rewrite (nth_indep _ _ (buf_at b 0)) by (rewrite length_map, length_seqZ; lia);
        rewrite (map_nth (buf_at b) (seqZ s l) 0 i);
        f_equal; apply nth_lookup_Some with (d := 0);
        rewrite lookup_seqZ; split; lia
    end.
Qed.


Section ResultSets.
Variables ps_width coldef_width : Z.

Local Abbreviation one_packet := (process_one_packet ps_width coldef_width).
Local Abbreviation n_packets := (process_n_packets ps_width coldef_width).

Variable contents : nat -> Buffer * Iter * Z.
Variable t : Tracker.
Variables n k : nat.

Hypothesis Hstart : state (m_reply t) = START.
Hypothesis Hbinlog : command (m_reply t) <> MXS_COM_BINLOG_DUMP.
Hypothesis Hstatistics : command (m_reply t) <> MXS_COM_STATISTICS.
Hypothesis Hfield_list : command (m_reply t) <> MXS_COM_FIELD_LIST.
Hypothesis Hcount : let '(b, it, _) := contents 0%nat in deref b it = Z.of_nat n.
Hypothesis Hn : (0 < n < 251)%nat.
Hypothesis Hwidth : Z.of_nat n < 2 ^ coldef_width.
Hypothesis Hrows :
  forall i : nat, (i < k)%nat ->
    let '(b, it, len) := contents (n + 2 + i)%nat in
    deref b it <> MYSQL_REPLY_ERR
    /\ ~ (deref b it = MYSQL_REPLY_EOF /\ len = MYSQL_EOF_PACKET_LEN - MYSQL_HEADER_LEN).
Hypothesis Heof :
  let '(b, it, len) := contents (n + 2 + k)%nat in
  deref b it = MYSQL_REPLY_EOF /\ len = MYSQL_EOF_PACKET_LEN - MYSQL_HEADER_LEN.

(** The tracker while the column definitions are coming in, whether or
    not a cursor is being opened. *)
Lemma coldef_trace (j : nat) :
  (j <= n + 1)%nat ->
  let tj := n_packets j contents t in
  command (m_reply tj) = command (m_reply t)
  /\ m_opening_cursor tj = m_opening_cursor t
  /\ rows_read (m_reply tj) = rows_read (m_reply t)
  /\ (j = 0%nat -> state (m_reply tj) = START
                   /\ field_counts (m_reply tj) = field_counts (m_reply t))
  /\ ((1 <= j)%nat ->
      field_counts (m_reply tj) = field_counts (m_reply t) ++ [Z.of_nat n]
      /\ m_num_coldefs tj = Z.of_nat (n + 1 - j)
      /\ state (m_reply tj) = (if (j <=? n)%nat then RSET_COLDEF else RSET_COLDEF_EOF)).
Proof.
  induction j as [|j IH]; intros Hj tj; subst tj.
  - cbn [process_n_packets]. repeat split; try done; lia.
  - destruct (IH ltac:(lia)) as (Icmd & Icur & Irows & I0 & Icol). clear IH.
    cbn [process_n_packets].
    set (tj := n_packets j contents t) in *.
    destruct (contents j) as [[b it] len] eqn:Hcj.
    destruct (Nat.eq_dec j 0%nat) as [->|Hj0].
    { (* the column count *)
      destruct (I0 eq_refl) as [Ist Ifc0]. rewrite Hcj in Hcount.
      assert (Hone : one_packet b it (it + len) len tj
                     = set_reply_state RSET_COLDEF
                         (add_field_count (Z.of_nat n)
                            (set_num_coldefs (Z.of_nat n) tj))).
      { unfold process_one_packet. rewrite Ist.
        unfold process_reply_start. rewrite Icmd.
        destruct (Z.eqb_spec (command (m_reply t)) MXS_COM_BINLOG_DUMP); [done|].
        destruct (Z.eqb_spec (command (m_reply t)) MXS_COM_STATISTICS); [done|].
        destruct (Z.eqb_spec (command (m_reply t)) MXS_COM_FIELD_LIST); [done|].
        unfold process_result_start, get_encoded_int. rewrite Hcount.
        unfold MYSQL_REPLY_OK, MYSQL_REPLY_LOCAL_INFILE, MYSQL_REPLY_ERR, MYSQL_REPLY_EOF.
        destruct (Z.eqb_spec (Z.of_nat n) 0); [lia|].
        destruct (Z.eqb_spec (Z.of_nat n) 251); [lia|].
        destruct (Z.eqb_spec (Z.of_nat n) 255); [lia|].
        destruct (Z.eqb_spec (Z.of_nat n) 254); [lia|].
        destruct (Z.eqb_spec (Z.of_nat n) 252); [lia|].
        destruct (Z.eqb_spec (Z.of_nat n) 253); [lia|].
        unfold coldef_wrap. rewrite Z.mod_small by lia. reflexivity. }
      rewrite Hone.
      cbn [set_reply_state add_field_count set_num_coldefs with_reply m_reply
             command state rows_read field_counts m_opening_cursor m_num_coldefs].
      split; [done|]. split; [done|]. split; [done|]. split; [lia|].
      intros _. split; [by rewrite Ifc0|]. split; [f_equal; lia|].
      destruct (Nat.leb_spec 1%nat n); [done|lia]. }
    (* a column definition *)
    destruct (Icol ltac:(lia)) as (Ifc & Inum & Ist).
    destruct (Nat.leb_spec j n); [|lia].
    assert (Hone : one_packet b it (it + len) len tj
                   = if (j =? n)%nat
                     then set_reply_state RSET_COLDEF_EOF
                            (set_num_coldefs (Z.of_nat (n - j)) tj)
                     else set_num_coldefs (Z.of_nat (n - j)) tj).
    { unfold process_one_packet. rewrite Ist.
      cbn [set_num_coldefs m_num_coldefs]. rewrite Inum.
      unfold coldef_wrap.
      replace (Z.of_nat (n + 1 - j) - 1) with (Z.of_nat (n - j)) by lia.
      rewrite Z.mod_small by lia.
      destruct (Nat.eqb_spec j n); destruct (Z.eqb_spec (Z.of_nat (n - j)) 0);
        try lia; reflexivity. }
    rewrite Hone.
    destruct (Nat.eqb_spec j n) as [->|Hne];
      cbn [set_reply_state set_num_coldefs with_reply m_reply
             command state rows_read field_counts m_opening_cursor m_num_coldefs].
    + split; [done|]. split; [done|]. split; [done|]. split; [lia|].
      intros _. split; [done|]. split; [f_equal; lia|].
      destruct (Nat.leb_spec (S n) n); [lia|done].
    + split; [done|]. split; [done|]. split; [done|]. split; [lia|].
      intros _. split; [done|]. split; [f_equal; lia|]. rewrite Ist.
      destruct (Nat.leb_spec (S j) n); [done|lia].
Qed.

(** The tracker while the result set is coming in and no cursor is being
    opened. *)
Lemma resultset_trace (j : nat) :
  m_opening_cursor t = false ->
  (j <= n + k + 2)%nat ->
  let tj := n_packets j contents t in
  command (m_reply tj) = command (m_reply t)
  /\ m_opening_cursor tj = false
  /\ rows_read (m_reply tj) = rows_read (m_reply t) + Z.of_nat (j - (n + 2))
  /\ (j = 0%nat -> state (m_reply tj) = START
                   /\ field_counts (m_reply tj) = field_counts (m_reply t))
  /\ ((1 <= j)%nat -> field_counts (m_reply tj) = field_counts (m_reply t) ++ [Z.of_nat n])
  /\ ((1 <= j <= n + 1)%nat ->
      m_num_coldefs tj = Z.of_nat (n + 1 - j)
      /\ state (m_reply tj) = (if (j <=? n)%nat then RSET_COLDEF else RSET_COLDEF_EOF))
  /\ ((n + 2 <= j)%nat -> state (m_reply tj) = RSET_ROWS).
Proof.
  intros Hcursor.
  induction j as [|j IH]; intros Hj tj; subst tj.
  - cbn [process_n_packets]. replace (0 - (n + 2))%nat with 0%nat by lia.
    repeat split; try done; try lia.
  - destruct (IH ltac:(lia)) as (Icmd & Icur & Irows & I0 & Ifc & Icol & Irs). clear IH.
    cbn [process_n_packets].
    set (tj := n_packets j contents t) in *.
    destruct (contents j) as [[b it] len] eqn:Hcj.
    destruct (Nat.eq_dec j 0%nat) as [->|Hj0].
    { (* the column count *)
      destruct (I0 eq_refl) as [Ist Ifc0]. rewrite Hcj in Hcount.
      assert (Hone : one_packet b it (it + len) len tj
                     = set_reply_state RSET_COLDEF
                         (add_field_count (Z.of_nat n)
                            (set_num_coldefs (Z.of_nat n) tj))).
      { unfold process_one_packet. rewrite Ist.
        unfold process_reply_start. rewrite Icmd.
        destruct (Z.eqb_spec (command (m_reply t)) MXS_COM_BINLOG_DUMP); [done|].
        destruct (Z.eqb_spec (command (m_reply t)) MXS_COM_STATISTICS); [done|].
        destruct (Z.eqb_spec (command (m_reply t)) MXS_COM_FIELD_LIST); [done|].
        unfold process_result_start, get_encoded_int. rewrite Hcount.
        unfold MYSQL_REPLY_OK, MYSQL_REPLY_LOCAL_INFILE, MYSQL_REPLY_ERR, MYSQL_REPLY_EOF.
        destruct (Z.eqb_spec (Z.of_nat n) 0); [lia|].
        destruct (Z.eqb_spec (Z.of_nat n) 251); [lia|].
        destruct (Z.eqb_spec (Z.of_nat n) 255); [lia|].
        destruct (Z.eqb_spec (Z.of_nat n) 254); [lia|].
        destruct (Z.eqb_spec (Z.of_nat n) 252); [lia|].
        destruct (Z.eqb_spec (Z.of_nat n) 253); [lia|].
        unfold coldef_wrap. rewrite Z.mod_small by lia. reflexivity. }
      rewrite Hone.
      cbn [set_reply_state add_field_count set_num_coldefs with_reply m_reply
             command state rows_read field_counts m_opening_cursor m_num_coldefs].
      replace (1 - (n + 2))%nat with 0%nat in * by lia.
      replace (0 - (n + 2))%nat with 0%nat in * by lia.
      split; [done|]. split; [done|]. split; [done|]. split; [lia|].
      split; [intros _; by rewrite Ifc0|]. split; [|lia].
      intros _. split; [f_equal; lia|].
      destruct (Nat.leb_spec 1%nat n); [done|lia]. }
    destruct (le_lt_dec j n) as [Hjn|Hjn].
    { (* a column definition *)
      destruct (Icol ltac:(lia)) as [Inum Ist].
      destruct (Nat.leb_spec j n); [|lia].
      assert (Hone : one_packet b it (it + len) len tj
                     = if (j =? n)%nat
                       then set_reply_state RSET_COLDEF_EOF
                              (set_num_coldefs (Z.of_nat (n - j)) tj)
                       else set_num_coldefs (Z.of_nat (n - j)) tj).
      { unfold process_one_packet. rewrite Ist.
        cbn [set_num_coldefs m_num_coldefs]. rewrite Inum.
        unfold coldef_wrap.
        replace (Z.of_nat (n + 1 - j) - 1) with (Z.of_nat (n - j)) by lia.
        rewrite Z.mod_small by lia.
        destruct (Nat.eqb_spec j n); destruct (Z.eqb_spec (Z.of_nat (n - j)) 0);
          try lia; reflexivity. }
      rewrite Hone.
      replace (S j - (n + 2))%nat with 0%nat by lia.
      replace (j - (n + 2))%nat with 0%nat in Irows by lia.
      destruct (Nat.eqb_spec j n) as [->|Hne];
        cbn [set_reply_state set_num_coldefs with_reply m_reply
               command state rows_read field_counts m_opening_cursor m_num_coldefs].
      - split; [done|]. split; [done|]. split; [done|]. split; [lia|].
        split; [intros _; apply Ifc; lia|]. split; [|lia].
        intros _. split; [f_equal; lia|]. destruct (Nat.leb_spec (S n) n); [lia|done].
      - split; [done|]. split; [done|]. split; [done|]. split; [lia|].
        split; [intros _; apply Ifc; lia|]. split; [|lia].
        intros _. split; [f_equal; lia|]. rewrite Ist.
        destruct (Nat.leb_spec (S j) n); [done|lia]. }
    destruct (Nat.eq_dec j (n + 1)%nat) as [->|Hjn1].
    { (* the EOF after the column definitions *)
      destruct (Icol ltac:(lia)) as [Inum Ist].
      destruct (Nat.leb_spec (n + 1)%nat n); [lia|].
      assert (Hone : one_packet b it (it + len) len tj = set_reply_state RSET_ROWS tj).
      { unfold process_one_packet. rewrite Ist.
        cbn [set_reply_state with_reply m_opening_cursor]. by rewrite Icur. }
      rewrite Hone.
      cbn [set_reply_state with_reply m_reply
             command state rows_read field_counts m_opening_cursor m_num_coldefs].
      replace (S (n + 1) - (n + 2))%nat with 0%nat by lia.
      replace (n + 1 - (n + 2))%nat with 0%nat in Irows by lia.
      split; [done|]. split; [done|]. split; [done|]. split; [lia|].
      split; [intros _; apply Ifc; lia|]. split; [lia|done]. }
    (* a row *)
    pose proof (Irs ltac:(lia)) as Ist.
    pose proof (Hrows (j - (n + 2))%nat ltac:(lia)) as Hrow.
    replace (n + 2 + (j - (n + 2)))%nat with j in Hrow by lia.
    rewrite Hcj in Hrow. destruct Hrow as [Herr Hneof].
    assert (Hone : one_packet b it (it + len) len tj = add_rows 1 tj).
    { unfold process_one_packet. rewrite Ist.
      destruct (Z.eqb_spec (deref b it) MYSQL_REPLY_EOF);
        destruct (Z.eqb_spec len (MYSQL_EOF_PACKET_LEN - MYSQL_HEADER_LEN));
        cbn [andb]; try (exfalso; by apply Hneof);
        destruct (Z.eqb_spec (deref b it) MYSQL_REPLY_ERR); done. }
    rewrite Hone.
    cbn [add_rows with_reply m_reply
           command state rows_read field_counts m_opening_cursor m_num_coldefs].
    split; [done|]. split; [done|]. split; [lia|]. split; [lia|].
    split; [intros _; apply Ifc; lia|]. split; [lia|done].
Qed.

(** X2.  A text result set that answers a command other than
    COM_BINLOG_DUMP, COM_STATISTICS and COM_FIELD_LIST: the column count
    [n] (below 251), [n] column definitions, an EOF, [k] rows (packets that
    are neither ERR nor EOF packets) and a final EOF.  The tracker goes
    from START through RSET_COLDEF (while the definitions arrive) to
    RSET_COLDEF_EOF.  When the tracker's opening-cursor flag is clear, the
    EOF after the definitions takes it to RSET_ROWS and the reply is
    complete only with the final EOF (which starts the next result instead
    when it announces more results); by then [k] rows have been counted and
    the field count [n] recorded.  When the flag is set (by a
    COM_STMT_EXECUTE that opens a cursor; nothing but this EOF clears it),
    the reply is complete with the EOF after the definitions already, with
    no row counted, and the flag is cleared. *)
Theorem X2_text_resultset (j : nat) :
  let tj := n_packets j contents t in
  (j = 0%nat -> state (m_reply tj) = START)
  /\ ((1 <= j <= n)%nat -> state (m_reply tj) = RSET_COLDEF)
  /\ (j = (n + 1)%nat -> state (m_reply tj) = RSET_COLDEF_EOF)
  /\ (m_opening_cursor t = false ->
      ((n + 2 <= j <= n + k + 2)%nat ->
       state (m_reply tj) = RSET_ROWS
       /\ rows_read (m_reply tj) = rows_read (m_reply t) + Z.of_nat (j - (n + 2)))
      /\ (j = (n + k + 3)%nat ->
          state (m_reply tj)
          = (let '(b, it, _) := contents (n + 2 + k)%nat in
             if is_last_eof b it then DONE else START)
          /\ rows_read (m_reply tj) = rows_read (m_reply t) + Z.of_nat k
          /\ field_counts (m_reply tj) = field_counts (m_reply t) ++ [Z.of_nat n]
          /\ command (m_reply tj) = command (m_reply t)))
  /\ (m_opening_cursor t = true ->
      j = (n + 2)%nat ->
      state (m_reply tj) = DONE
      /\ m_opening_cursor tj = false
      /\ rows_read (m_reply tj) = rows_read (m_reply t)
      /\ field_counts (m_reply tj) = field_counts (m_reply t) ++ [Z.of_nat n]
      /\ command (m_reply tj) = command (m_reply t)).
Proof.
  intros tj. subst tj.
  split; [intros ->; by destruct (coldef_trace 0%nat ltac:(lia)) as (_ & _ & _ & [? _] & _)|].
  split.
  { intros Hj. destruct (coldef_trace j ltac:(lia)) as (_ & _ & _ & _ & Hc).
    destruct (Hc ltac:(lia)) as (_ & _ & ->). destruct (Nat.leb_spec j n); [done|lia]. }
  split.
  { intros ->.
    destruct (coldef_trace (n + 1)%nat ltac:(lia)) as (_ & _ & _ & _ & Hc).
    destruct (Hc ltac:(lia)) as (_ & _ & ->).
    destruct (Nat.leb_spec (n + 1)%nat n); [lia|done]. }
  split.
  { intros Hcursor. split.
    { intros Hj.
      destruct (resultset_trace j Hcursor ltac:(lia)) as (_ & _ & Hr & _ & _ & _ & Hs).
      split; [apply Hs; lia|done]. }
    intros ->.
    destruct (resultset_trace (n + k + 2)%nat Hcursor ltac:(lia))
      as (Icmd & _ & Irows & _ & Ifc & _ & Irs).
    replace (n + k + 3)%nat with (S (n + k + 2)) by lia.
    cbn [process_n_packets].
    set (tj := n_packets (n + k + 2)%nat contents t) in *.
    replace (n + 2 + k)%nat with (n + k + 2)%nat in * by lia.
    destruct (contents (n + k + 2)%nat) as [[b it] len].
    destruct Heof as [Hc Hl].
    unfold process_one_packet. rewrite (Irs ltac:(lia)), Hc, Hl.
    cbn [Z.eqb andb Z.sub Z.add Z.opp Z.pos_sub Pos.eqb MYSQL_REPLY_EOF MYSQL_EOF_PACKET_LEN
           MYSQL_HEADER_LEN].
    replace (254 =? MYSQL_REPLY_EOF) with true by done.
    replace (MYSQL_EOF_PACKET_LEN - MYSQL_HEADER_LEN =? MYSQL_EOF_PACKET_LEN - MYSQL_HEADER_LEN)
      with true by done.
    cbn [andb set_num_warnings set_reply_state with_reply m_reply state rows_read
           field_counts command].
    split; [done|]. split; [rewrite Irows; f_equal; f_equal; lia|].
    split; [apply Ifc; lia|done]. }
  intros Hcursor ->.
  destruct (coldef_trace (n + 1)%nat ltac:(lia)) as (Icmd & Icur & Irows & _ & Hc).
  destruct (Hc ltac:(lia)) as (Ifc & _ & Ist).
  destruct (Nat.leb_spec (n + 1)%nat n); [lia|].
  replace (n + 2)%nat with (S (n + 1)) by lia.
  cbn [process_n_packets].
  set (tj := n_packets (n + 1)%nat contents t) in *.
  destruct (contents (n + 1)%nat) as [[b it] len].
  unfold process_one_packet. rewrite Ist.
  cbn [set_reply_state with_reply m_opening_cursor]. rewrite Icur, Hcursor.
  cbn [set_reply_state set_opening_cursor with_reply m_reply state rows_read
         field_counts command m_opening_cursor].
  done.
Qed.

End ResultSets.


(** The result set with one column and two rows is complete with its sixth
    packet and has counted two rows; with the opening-cursor flag set it is
    complete with its third packet. *)
Lemma X2_text_resultset_witness :
  state (m_reply (process_n_packets 32 64 6 small_resultset querying)) = DONE
  /\ rows_read (m_reply (process_n_packets 32 64 6 small_resultset querying)) = 2
  /\ state (m_reply (process_n_packets 32 64 5 small_resultset querying)) = RSET_ROWS
  /\ state (m_reply (process_n_packets 32 64 3 small_resultset
                       (set_opening_cursor true querying))) = DONE.
Proof.
  assert (Hrows : forall i : nat, (i < 2)%nat ->
            let '(b, it, len) := small_resultset (1 + 2 + i)%nat in
            deref b it <> MYSQL_REPLY_ERR
            /\ ~ (deref b it = MYSQL_REPLY_EOF
                  /\ len = MYSQL_EOF_PACKET_LEN - MYSQL_HEADER_LEN)).
  { intros i Hi. destruct i as [|[|i]]; [| |lia];
      vm_compute; (split; [discriminate|intros [? _]; discriminate]). }
  assert (Hwidth : Z.of_nat 1 < 2 ^ 64) by (vm_compute; reflexivity).
  assert (Hn : (0 < 1 < 251)%nat) by lia.
  pose proof (X2_text_resultset 32 64 small_resultset querying 1 2 eq_refl
                ltac:(vm_compute; discriminate) ltac:(vm_compute; discriminate)
                ltac:(vm_compute; discriminate) eq_refl Hn Hwidth Hrows
                (conj eq_refl eq_refl)) as Hwalk.
  destruct (Hwalk 6%nat) as (_ & _ & _ & [_ Hend] & _); [reflexivity|].
  destruct (Hwalk 5%nat) as (_ & _ & _ & [Hmid _] & _); [reflexivity|].
  destruct (Hend eq_refl) as (Hstate & Hcount & _).
  destruct (Hmid ltac:(lia)) as (Hstate5 & _).
  pose proof (X2_text_resultset 32 64 small_resultset (set_opening_cursor true querying)
                1 2 eq_refl
                ltac:(vm_compute; discriminate) ltac:(vm_compute; discriminate)
                ltac:(vm_compute; discriminate) eq_refl Hn Hwidth Hrows
                (conj eq_refl eq_refl) 3%nat) as (_ & _ & _ & _ & Hcursor).
  destruct (Hcursor eq_refl eq_refl) as (Hstate3 & _).
  split; [exact Hstate|]. split; [exact Hcount|]. split; [exact Hstate5|exact Hstate3].
Defined.

Lemma u16_lor_le (b : Buffer) (it : Iter) :
  Z.lor (deref b it) (Z.shiftl (deref b (it + 1)) 8) = u16le b it.
Proof.
  pose proof (deref_range b it). unfold u16le. by rewrite lor_shiftl_add by lia.
Qed.

Section Packets.
Variables ps_width coldef_width : Z.

Local Abbreviation one_packet := (process_one_packet ps_width coldef_width).
Local Abbreviation step := (packet_step ps_width coldef_width).
Local Abbreviation loop := (process_packets_loop ps_width coldef_width).
Local Abbreviation packets := (process_packets ps_width coldef_width).

(** X3.  A packet that starts with 0xff is taken for an ERR packet where
    the reply to a command other than COM_BINLOG_DUMP, COM_STATISTICS and
    COM_FIELD_LIST starts, among the rows of a result set and after the
    reply is complete: the error code (two bytes, least significant
    first), the five bytes of the SQL state after the marker and the
    message up to the end of the packet are recorded, and the reply is
    complete.  Where the reply to one of the three commands starts, the
    packet is not looked at and no error is recorded: the reply to
    COM_BINLOG_DUMP stays as it is, that to COM_STATISTICS is complete and
    that to COM_FIELD_LIST goes on to its rows.  While column definitions,
    the EOF after them or the packets of a prepare response are awaited,
    the packet is counted like any other and no error is recorded. *)
Theorem X3_error_packet (b : Buffer) (it last : Iter) (len : Z) (t : Tracker) :
  deref b it = MYSQL_REPLY_ERR ->
  let t' := one_packet b it last len t in
  ((state (m_reply t) = START
    /\ command (m_reply t) <> MXS_COM_BINLOG_DUMP
    /\ command (m_reply t) <> MXS_COM_STATISTICS
    /\ command (m_reply t) <> MXS_COM_FIELD_LIST)
   \/ state (m_reply t) = RSET_ROWS
   \/ state (m_reply t) = DONE ->
   state (m_reply t') = DONE
   /\ error (m_reply t')
      = Some {| err_code := u16le b (it + 1);
                err_sql_state := bytes_between b (it + 4) (it + 9);
                err_message := bytes_between b (it + 9) last |}
   /\ rows_read (m_reply t') = rows_read (m_reply t))
  /\ (state (m_reply t) = START ->
      (command (m_reply t) = MXS_COM_BINLOG_DUMP -> t' = t)
      /\ (command (m_reply t) = MXS_COM_STATISTICS ->
          state (m_reply t') = DONE /\ error (m_reply t') = error (m_reply t))
      /\ (command (m_reply t) = MXS_COM_FIELD_LIST ->
          state (m_reply t') = RSET_ROWS /\ error (m_reply t') = error (m_reply t)))
  /\ (state (m_reply t) = RSET_COLDEF
      \/ state (m_reply t) = RSET_COLDEF_EOF
      \/ state (m_reply t) = PREPARE ->
      error (m_reply t') = error (m_reply t)).
Proof.
  intros Herr t'. subst t'.
  assert (Hupd : forall t0,
            update_error b (it + 1) last t0
            = set_error {| err_code := u16le b (it + 1);
                           err_sql_state := bytes_between b (it + 4) (it + 9);
                           err_message := bytes_between b (it + 9) last |} t0).
  { intros t0. unfold update_error. rewrite u16_lor_le.
    replace (it + 1 + 3) with (it + 4) by lia.
    replace (it + 4 + 5) with (it + 9) by lia. reflexivity. }
  split.
  - intros [(Hst & H1 & H2 & H3)|[Hst|Hst]]; unfold process_one_packet; rewrite Hst.
    + unfold process_reply_start.
      destruct (Z.eqb_spec (command (m_reply t)) MXS_COM_BINLOG_DUMP); [done|].
      destruct (Z.eqb_spec (command (m_reply t)) MXS_COM_STATISTICS); [done|].
      destruct (Z.eqb_spec (command (m_reply t)) MXS_COM_FIELD_LIST); [done|].
      unfold process_result_start. rewrite Herr, Hupd. cbn. done.
    + rewrite Herr, Hupd. cbn. done.
    + rewrite Herr, Hupd. cbn. done.
  - split.
    + intros Hst. unfold process_one_packet, process_reply_start. rewrite Hst.
      split; [|split]; intros Hcmd; rewrite Hcmd; cbn; done.
    + intros [Hst|[Hst|Hst]]; unfold process_one_packet; rewrite Hst;
        repeat case_match; reflexivity.
Qed.

(** [process_one_packet] only reads the size of the reply. *)
Lemma session_track_loop_size (fuel : nat) : forall b it last t,
  size (m_reply (session_track_loop fuel b it last t)) = size (m_reply t).
Proof.
  induction fuel as [|fuel IH]; intros b it last t; cbn [session_track_loop]; [done|].
  destruct (it =? last); [done|].
  destruct (get_encoded_int b (it + 1)) as [total it1].
  repeat match goal with
         | |- context [if ?c then _ else _] => destruct c
         | |- context [let '(_, _) := ?e in _] => destruct e
         end; rewrite IH; done.
Qed.

Lemma process_one_packet_size (b : Buffer) (it last : Iter) (len : Z) (t : Tracker) :
  size (m_reply (one_packet b it last len t)) = size (m_reply t).
Proof.
  unfold process_one_packet, process_reply_start, process_result_start,
    process_ps_response, process_ok_packet.
  destruct (state (m_reply t));
    repeat match goal with
           | |- context [if ?c then _ else _] => destruct c
           | |- context [let '(_, _) := ?e in _] => destruct e
           end;
    cbn; rewrite ?session_track_loop_size; done.
Qed.

Lemma packet_step_size (b : Buffer) (it : Iter) (len : Z) (t : Tracker) :
  size (m_reply (step b it len t)) = size (m_reply t).
Proof.
  unfold packet_step. destruct (m_skip_next t); cbn [negb]; [done|].
  by rewrite process_one_packet_size.
Qed.

Lemma packet_length_range (b : Buffer) (it : Iter) : 0 <= packet_length b it < 2 ^ 24.
Proof.
  rewrite packet_length_u24le. unfold u24le.
  pose proof (deref_range b it). pose proof (deref_range b (it + 1)).
  pose proof (deref_range b (it + 2)). lia.
Qed.

Lemma loop_boundary (fuel : nat) : forall b used t,
  packet_boundary b used -> 0 <= used <= buf_len b ->
  (buf_len b - used) / 4 < Z.of_nat fuel ->
  let r := loop fuel b used t in
  packet_boundary b (snd r)
  /\ used <= snd r <= buf_len b
  /\ (snd r = buf_len b
      \/ buf_len b - snd r < MYSQL_HEADER_LEN
      \/ buf_len b - snd r < packet_length b (snd r) + MYSQL_HEADER_LEN)
  /\ size (m_reply (fst r)) = size (m_reply t).
Proof.
  induction fuel as [|fuel IH]; intros b used t Hb Hused Hfuel.
  - exfalso. assert (0 <= (buf_len b - used) / 4) by (apply Z.div_pos; lia). lia.
  - cbn zeta. rewrite loop_S.
    destruct (Z.eqb_spec used (buf_len b)); [cbn; repeat split; try done; lia|].
    destruct (Z.ltb_spec (buf_len b - used) MYSQL_HEADER_LEN);
      [cbn; repeat split; try done; try lia; auto|].
    destruct (Z.ltb_spec (buf_len b - used) (packet_length b used + MYSQL_HEADER_LEN));
      [cbn; repeat split; try done; try lia; auto|].
    pose proof (packet_length_range b used) as Hlen.
    unfold MYSQL_HEADER_LEN in *.
    destruct (IH b (used + (packet_length b used + 4))
                (step b (used + 4) (packet_length b used) t))
      as (I1 & I2 & I3 & I4).
    + apply boundary_next; [done|]. unfold MYSQL_HEADER_LEN. lia.
    + lia.
    + assert ((buf_len b - (used + (packet_length b used + 4))) / 4
              <= (buf_len b - used - 4) / 4) by (apply Z.div_le_mono; lia).
      replace (buf_len b - used - 4) with ((buf_len b - used) + (-1) * 4) in H1 by lia.
      rewrite Z.div_add in H1 by lia. lia.
    + split; [done|]. split; [lia|]. split; [done|].
      by rewrite I4, packet_step_size.
Qed.

(** X4.  [process_packets] consumes complete packets only: the number of
    bytes it reports is an offset at which a packet starts, reached from
    the start of the buffer over packets that are wholly in the buffer, and
    what is left is less than a header or less than the packet the header
    announces.  [track_response] adds exactly that number to the size of
    the reply. *)
Theorem X4_complete_packets_only (b : Buffer) (t : Tracker) :
  0 <= buf_len b ->
  let used := snd (packets b t) in
  packet_boundary b used
  /\ 0 <= used <= buf_len b
  /\ (used = buf_len b
      \/ buf_len b - used < MYSQL_HEADER_LEN
      \/ buf_len b - used < packet_length b used + MYSQL_HEADER_LEN)
  /\ snd (track_response ps_width coldef_width b t) = used
  /\ size (m_reply (fst (track_response ps_width coldef_width b t)))
     = size (m_reply t) + used.
Proof.
  intros Hlen used. subst used. unfold track_response, process_packets.
  destruct (loop_boundary (Z.to_nat (buf_len b / MYSQL_HEADER_LEN + 1)) b 0 t)
    as (H1 & H2 & H3 & H4).
  - constructor.
  - lia.
  - unfold MYSQL_HEADER_LEN. rewrite Z.sub_0_r.
    assert (0 <= buf_len b / 4) by (apply Z.div_pos; lia). lia.
  - cbv zeta in *.
    destruct (loop _ b 0 t) as [t' used]. cbn [fst snd] in *.
    split; [done|]. split; [lia|]. split; [done|].
    destruct (Z.ltb_spec 0 used); cbn [fst snd].
    + split; [done|]. cbn. lia.
    + split; [done|]. lia.
Qed.

(** X5.  The reply to COM_BINLOG_DUMP never ends: whatever the server
    sends, the tracked reply stays as it is, in the START state. *)
Theorem X5_binlog_dump_never_completes (b : Buffer) (t : Tracker) :
  command (m_reply t) = MXS_COM_BINLOG_DUMP ->
  state (m_reply t) = START ->
  m_reply (fst (packets b t)) = m_reply t
  /\ is_complete (m_reply (fst (packets b t))) = false.
Proof.
  intros Hcmd Hst.
  assert (Hloop : forall fuel used t0,
            m_reply t0 = m_reply t -> m_reply (fst (loop fuel b used t0)) = m_reply t).
  { induction fuel as [|fuel IH]; intros used t0 Ht0; [done|].
    rewrite loop_S. repeat case_match; try done.
    apply IH. unfold packet_step.
    destruct (m_skip_next t0); cbn [negb]; [done|].
    unfold process_one_packet, process_reply_start.
    cbn [set_skip_next m_reply]. rewrite Ht0, Hst, Hcmd. done. }
  assert (Heq : m_reply (fst (packets b t)) = m_reply t) by (by apply Hloop).
  split; [done|]. rewrite Heq. unfold is_complete. by rewrite Hst.
Qed.

End Packets.

(** The bytes of the small result set with the start of a further packet:
    the six complete packets are consumed and the three bytes are left. *)
Lemma X4_complete_packets_only_witness :
  snd (process_packets 32 64 (buffer_of_list small_resultset_bytes) querying) = 43
  /\ packet_boundary (buffer_of_list small_resultset_bytes) 43
  /\ size (m_reply (fst (track_response 32 64 (buffer_of_list small_resultset_bytes)
                           querying))) = 43.
Proof.
  destruct (X4_complete_packets_only 32 64 (buffer_of_list small_resultset_bytes) querying
              ltac:(vm_compute; discriminate)) as (Hb & _ & _ & _ & Hsize).
  assert (Hused : snd (process_packets 32 64 (buffer_of_list small_resultset_bytes) querying)
                  = 43) by (vm_compute; reflexivity).
  rewrite Hused in Hb, Hsize.
  split; [exact Hused|]. split; [exact Hb|exact Hsize].
Defined.

(** A binlog dump in progress: the result set's bytes leave the reply as
    it was. *)
Lemma X5_binlog_dump_never_completes_witness :
  state (m_reply (fst (process_packets 32 64 (buffer_of_list small_resultset_bytes)
                         dumping))) = START.
Proof.
  destruct (X5_binlog_dump_never_completes 32 64 (buffer_of_list small_resultset_bytes)
              dumping eq_refl eq_refl) as [Hreply _].
  rewrite Hreply. reflexivity.
Defined.

(** The ERR packet with code 1064 answers a query. *)
Lemma X3_error_packet_witness :
  error (m_reply (process_one_packet 32 64 (buffer_of_list err_payload) 0 11 11 querying))
  = Some {| err_code := 1064;
            err_sql_state := [Byte.x34; Byte.x32; Byte.x30; Byte.x30; Byte.x30];
            err_message := [Byte.x6e; Byte.x6f] |}
  /\ state (m_reply (process_one_packet 32 64 (buffer_of_list err_payload) 0 11 11 querying))
     = DONE.
Proof.
  destruct (X3_error_packet 32 64 (buffer_of_list err_payload) 0 11 11 querying eq_refl)
    as (Hrec & _ & _).
  destruct Hrec as (Hstate & Herror & _).
  { left. repeat split; vm_compute; discriminate. }
  split; [|exact Hstate]. rewrite Herror. vm_compute. reflexivity.
Defined.

End ReplyExtras.

Module BackendExtras.
Import Bytes Wire Dcb Server Reply Backend BackendFacts Framing Inputs.

(** While a query that spans several packets is being written,
    [track_query] only follows the length of the packets. *)
Lemma track_query_continuation (data : list byte) (t : Tracker) :
  Reply.m_changing_user t = false -> load_active t = false -> m_large_query t = true ->
  track_query data t
  = set_large_query (get_payload_len data =? MYSQL_PACKET_LENGTH_MAX) t.
Proof.
  intros Hcu Hload Hlarge. unfold track_query. by rewrite Hcu, Hload, Hlarge.
Qed.

Lemma track_query_first (data : list byte) (t : Tracker) :
  Reply.m_changing_user t = false -> load_active t = false ->
  let t' := track_query data t in
  Reply.m_changing_user t' = false /\ load_active t' = false
  /\ m_large_query t' = (get_payload_len data =? MYSQL_PACKET_LENGTH_MAX).
Proof.
  intros Hcu Hload. unfold track_query. rewrite Hcu, Hload.
  repeat case_match; cbn; done.
Qed.

(** X6.  A query longer than one packet: the first packet, whose payload
    has the maximal length, gives the tracked command; the packets that
    continue it are not taken for commands, whatever their first byte, and
    the packet that is shorter than the maximum ends the query. *)
Theorem X6_large_query_tracking
    (first : list byte) (conts : list (list byte)) (last : list byte) (t : Tracker) :
  Reply.m_changing_user t = false ->
  load_active t = false ->
  m_large_query t = false ->
  get_payload_len first = MYSQL_PACKET_LENGTH_MAX ->
  Forall (fun d => get_payload_len d = MYSQL_PACKET_LENGTH_MAX) conts ->
  get_payload_len last <> MYSQL_PACKET_LENGTH_MAX ->
  let track := fold_left (fun t d => track_query d t) in
  command (m_reply (track_query first t)) = get_command first
  /\ m_large_query (track (first :: conts) t) = true
  /\ m_reply (track (first :: conts) t) = m_reply (track_query first t)
  /\ m_reply (track (first :: conts ++ [last]) t) = m_reply (track_query first t)
  /\ m_large_query (track (first :: conts ++ [last]) t) = false.
Proof.
  intros Hcu Hload Hlarge Hfirst Hconts Hlast track. subst track.
  cbn [fold_left].
  destruct (track_query_first first t Hcu Hload) as (Hcu1 & Hload1 & Hlarge1).
  rewrite Hfirst, Z.eqb_refl in Hlarge1.
  assert (Hcmd : command (m_reply (track_query first t)) = get_command first).
  { unfold track_query. rewrite Hcu, Hload, Hlarge. cbn [negb].
    repeat case_match; reflexivity. }
  set (t1 := track_query first t) in *. clearbody t1.
  assert (Hrun : forall l t0,
            Forall (fun d => get_payload_len d = MYSQL_PACKET_LENGTH_MAX) l ->
            Reply.m_changing_user t0 = false -> load_active t0 = false ->
            m_large_query t0 = true ->
            let t' := fold_left (fun t d => track_query d t) l t0 in
            Reply.m_changing_user t' = false /\ load_active t' = false
            /\ m_large_query t' = true /\ m_reply t' = m_reply t0).
  { induction l as [|d l IH]; intros t0 Hall H1 H2 H3; [done|].
    apply Forall_cons in Hall as [Hd Hall]. cbn [fold_left].
    rewrite track_query_continuation by done. rewrite Hd, Z.eqb_refl.
    destruct (IH (set_large_query true t0) Hall) as (? & ? & ? & ?); done. }
  destruct (Hrun conts t1 Hconts Hcu1 Hload1 Hlarge1) as (R1 & R2 & R3 & R4).
  split; [done|]. split; [done|]. split; [done|].
  rewrite fold_left_app. cbn [fold_left].
  rewrite track_query_continuation by done.
  destruct (Z.eqb_spec (get_payload_len last) MYSQL_PACKET_LENGTH_MAX); [done|].
  split; [exact R4|done].
Qed.

(** X7.  LOAD DATA LOCAL INFILE: the server's 0xfb packet completes the
    reply and marks the load as active; the packets with the file's
    contents that the client then writes leave the tracked reply alone; the
    empty packet that ends the file clears the mark and makes the tracker
    expect the server's final reply, for the same command. *)
Theorem X7_load_data_local_infile (ps_width coldef_width : Z)
    (b : Buffer) (it last : Iter) (len : Z) (t : Tracker)
    (chunks : list (list byte)) (terminator : list byte) :
  state (m_reply t) = START ->
  command (m_reply t) <> MXS_COM_BINLOG_DUMP ->
  command (m_reply t) <> MXS_COM_STATISTICS ->
  command (m_reply t) <> MXS_COM_FIELD_LIST ->
  Reply.m_changing_user t = false ->
  deref b it = MYSQL_REPLY_LOCAL_INFILE ->
  Forall (fun d => get_payload_len d <> 0) chunks ->
  get_payload_len terminator = 0 ->
  let t1 := process_one_packet ps_width coldef_width b it last len t in
  let t2 := fold_left (fun t d => track_query d t) chunks t1 in
  let t3 := track_query terminator t2 in
  state (m_reply t1) = DONE /\ load_active t1 = true
  /\ m_reply t2 = m_reply t1 /\ load_active t2 = true
  /\ state (m_reply t3) = START /\ load_active t3 = false
  /\ command (m_reply t3) = command (m_reply t)
  /\ m_large_query t3 = false.
Proof.
  intros Hst H1 H2 H3 Hcu Hfb Hchunks Hterm t1 t2 t3.
  assert (Ht1 : t1 = set_reply_state DONE (set_load_active true t)).
  { subst t1. unfold process_one_packet. rewrite Hst.
    unfold process_reply_start.
    destruct (Z.eqb_spec (command (m_reply t)) MXS_COM_BINLOG_DUMP); [done|].
    destruct (Z.eqb_spec (command (m_reply t)) MXS_COM_STATISTICS); [done|].
    destruct (Z.eqb_spec (command (m_reply t)) MXS_COM_FIELD_LIST); [done|].
    unfold process_result_start. rewrite Hfb. reflexivity. }
  assert (Hrun : forall l t0,
            Forall (fun d => get_payload_len d <> 0) l ->
            Reply.m_changing_user t0 = false -> load_active t0 = true ->
            let t' := fold_left (fun t d => track_query d t) l t0 in
            Reply.m_changing_user t' = false /\ load_active t' = true
            /\ m_reply t' = m_reply t0).
  { induction l as [|d l IH]; intros t0 Hall Hc Hl; [done|].
    apply Forall_cons in Hall as [Hd Hall]. cbn [fold_left].
    assert (Hstep : track_query d t0
                    = set_large_query (get_payload_len d =? MYSQL_PACKET_LENGTH_MAX) t0).
    { unfold track_query. rewrite Hc, Hl.
      destruct (Z.eqb_spec (get_payload_len d) 0); done. }
    rewrite Hstep.
    destruct (IH (set_large_query (get_payload_len d =? MYSQL_PACKET_LENGTH_MAX) t0) Hall)
      as (? & ? & ?); done. }
  destruct (Hrun chunks t1 Hchunks) as (R1 & R2 & R3); [by rewrite Ht1..|].
  fold t2 in R1, R2, R3.
  split; [by rewrite Ht1|]. split; [by rewrite Ht1|]. split; [done|]. split; [done|].
  subst t3. unfold track_query. rewrite R1, R2, Hterm. cbn [Z.eqb].
  cbn [set_large_query set_reply_state set_load_active with_reply m_reply state
         load_active command m_large_query].
  rewrite R3, Ht1. cbn. done.
Qed.

Section Writes.
Variable X : Externals.
Variable srv : Server.

(** Writing a list of packets, one [write] each. *)
Local Abbreviation write_all queues p d :=
  (fold_left (fun pd q => let '(_, p, d) := write X srv q (fst pd) (snd pd) in (p, d))
     queues (p, d)).


End Writes.


(** *** Replies that are swallowed *)

Lemma write_upstream_calls
    (X : Externals) (srv : Server) (queue : GWBUF) (p : Proto) (d : DCB) :
  upstream_calls (snd (fst (write X srv queue p d))) = upstream_calls p.
Proof.
  unfold write, handle_persistent_connection, change_user,
    send_change_user_to_backend, prepare_for_write, writeq_append.
  repeat case_match; simplify_eq; cbn; done.
Qed.

Section Swallowing.
Variable X : Externals.
Variable srv : Server.

Lemma collect_packets_upstream_calls
    (inp : ReadInput) (buf : list byte) (p : Proto) (d : DCB) :
  0 < m_ignore_replies p ->
  upstream_calls (snd (fst (collect_packets X inp buf p d))) = upstream_calls p.
Proof.
  intros Hpos. unfold collect_packets.
  destruct (Z.eqb_spec (m_ignore_replies p) 0); [lia|].
  rewrite !andb_false_r.
  repeat case_match; simplify_eq; cbn; done.
Qed.

Lemma handle_auth_change_response_upstream_calls (reply : list byte) (p : Proto) (d : DCB) :
  upstream_calls (snd (fst (handle_auth_change_response X reply p d))) = upstream_calls p.
Proof.
  unfold handle_auth_change_response, send_mysql_native_password_response, writeq_append.
  by repeat case_match.
Qed.

Lemma swallow_reply_upstream_calls (buf : list byte) (p : Proto) (d : DCB) :
  upstream_calls (snd (fst (swallow_reply X srv buf p d))) = upstream_calls p.
Proof.
  unfold swallow_reply.
  destruct (modutil_get_next_MySQL_packet X buf) as [reply rest].
  destruct (last_packet X _ reply rest) as [r|]; [|reflexivity].
  destruct (get_command r =? MYSQL_REPLY_OK).
  - destruct (m_stored_query p) as [q|]; [|reflexivity].
    by rewrite write_upstream_calls.
  - destruct (auth_change_requested r); [|reflexivity].
    match goal with
    | |- context [handle_auth_change_response X r ?p1 d] =>
        pose proof (handle_auth_change_response_upstream_calls r p1 d) as H1;
          destruct (handle_auth_change_response X r p1 d) as [[ok p2] d2];
          cbn [fst snd] in H1
    end.
    destruct ok; cbn; exact H1.
Qed.

(** X9.  While the reply to a synthetic command is awaited (the counter of
    replies to ignore is positive), nothing that is read is handed to the
    upstream component: whatever the backend sends and whatever the
    session's routing capabilities are, [normal_read] makes no call on its
    upstream unless the read itself has failed. *)
Theorem X9_ignored_reply_not_routed (inp : ReadInput) (p : Proto) (d : DCB) :
  0 < m_ignore_replies p ->
  0 <= read_return_code inp ->
  upstream_calls (snd (fst (normal_read X srv inp p d))) = upstream_calls p.
Proof.
  intros Hpos Hrc. unfold normal_read.
  destruct (Z.ltb_spec (read_return_code inp) 0); [lia|].
  destruct (read_data inp) as [[|b0 buf]|]; try reflexivity.
  pose proof (collect_packets_upstream_calls inp (b0 :: buf) p (with_readq None d) Hpos) as Hc.
  pose proof (collect_packets_ignore_replies X inp (b0 :: buf) p (with_readq None d)) as Hi.
  destruct (collect_packets X inp (b0 :: buf) p (with_readq None d)) as [[c p1] d1].
  cbn [fst snd] in Hc, Hi.
  destruct c as [rc|buf1 collected]; [exact Hc|].
  set (stage := if Reply.m_changing_user (m_tracker p1) then _ else _).
  assert (Hstage : upstream_calls (snd (fst stage)) = upstream_calls p1
                   /\ m_ignore_replies (snd (fst stage)) = m_ignore_replies p1).
  { subst stage. destruct (Reply.m_changing_user (m_tracker p1)); [|done].
    destruct (auth_change_requested buf1); [|done].
    pose proof (handle_auth_change_response_upstream_calls buf1 p1 d1) as H1.
    pose proof (handle_auth_change_response_ignore_replies X buf1 p1 d1) as H2.
    destruct (handle_auth_change_response X buf1 p1 d1) as [[ok p2] d2].
    cbn [fst snd] in H1, H2. destruct ok; done. }
  destruct stage as [[[answered buf2] p2] d2]. cbn [fst snd] in Hstage.
  destruct Hstage as [Hu Hn].
  destruct answered; [cbn; congruence|].
  destruct (Z.ltb_spec 0 (m_ignore_replies p2)) as [_|Hzero]; [|lia].
  rewrite swallow_reply_upstream_calls. congruence.
Qed.

(** X10.  A routing connection has one reply to ignore (the
    COM_CHANGE_USER of a reuse is unanswered), nothing stored, no change of
    user, large query or LOAD DATA LOCAL INFILE in progress, no result
    being collected ([m_collect_result] is false) and a session that does
    not require RCAP_TYPE_RESULTSET_OUTPUT.  A packet that is not
    ignorable and is neither a COM_QUIT nor a COM_CHANGE_USER, written
    now, is stored and not sent, and [write] answers 1.  When [normal_read]
    then reads, without error and with the buffer made contiguous, exactly
    one complete packet, an OK packet, and the DCB accepts writes, it
    answers 1: the stored query has been appended to the write queue of
    the DCB, the counter of replies to ignore is back at 0, nothing is
    stored any more and the query's command is the tracked command. *)
Theorem X10_stored_query_sent_after_ok
    (inp : ReadInput) (reply : list byte) (q : GWBUF) (p : Proto) (d : DCB) :
  m_state p = ROUTING ->
  m_ignore_replies p = 1 ->
  m_stored_query p = None ->
  Reply.m_changing_user (m_tracker p) = false ->
  load_active (m_tracker p) = false ->
  m_large_query (m_tracker p) = false ->
  m_collect_result p = false ->
  rcap_type_required (service_capabilities (m_session p)) (RCAP_TYPE_RESULTSET_OUTPUT X)
  = false ->
  gw_ignorable q = false ->
  get_command (gw_data q) <> MXS_COM_QUIT ->
  get_command (gw_data q) <> MXS_COM_CHANGE_USER ->
  dcb_writable d = true ->
  0 <= read_return_code inp ->
  read_data inp = Some reply ->
  reply <> [] ->
  contiguous_ok inp = true ->
  modutil_get_complete_packets X reply = (Some reply, None) ->
  modutil_get_next_MySQL_packet X reply = (Some reply, None) ->
  get_command reply = MYSQL_REPLY_OK ->
  let w := write X srv q p d in
  let r := normal_read X srv inp (snd (fst w)) (snd w) in
  fst (fst w) = 1
  /\ dcb_writeq (snd w) = dcb_writeq d
  /\ m_stored_query (snd (fst w)) = Some q
  /\ fst (fst r) = 1
  /\ dcb_writeq (snd r) = dcb_writeq d ++ [q]
  /\ m_ignore_replies (snd (fst r)) = 0
  /\ m_stored_query (snd (fst r)) = None
  /\ command (m_reply (m_tracker (snd (fst r)))) = get_command (gw_data q).
Proof.
  intros Hst Hign Hsq Hcu Hload Hlarge Hcoll Hrs Hig Hnq Hncu Hw Hrc Hdata Hne Hcont
    Hcomplete Hnext Hok w r.
  assert (Hquit : MYSQL_IS_COM_QUIT (gw_data q) = false).
  { unfold MYSQL_IS_COM_QUIT. destruct (Z.eqb_spec (get_command (gw_data q)) MXS_COM_QUIT); done. }
  assert (Hwrite : w = (1, set_m_stored_query (Some q) p, d)).
  { subst w. unfold write. rewrite Hign. cbn [Z.ltb Z.compare].
    unfold handle_persistent_connection. rewrite Hquit, Hsq. reflexivity. }
  subst r. rewrite Hwrite. cbn [fst snd].
  split; [done|]. split; [done|]. split; [done|].
  set (p1 := set_m_stored_query (Some q) p).
  assert (Hcollect : collect_packets X inp reply p1 (with_readq None d)
                     = (Complete reply false, p1, with_readq None d)).
  { assert (H1 : m_ignore_replies p1 = 1) by exact Hign.
    assert (H2 : m_collect_result p1 = false) by exact Hcoll.
    assert (H3 : m_session p1 = m_session p) by reflexivity.
    unfold collect_packets. rewrite H1, H2, H3, Hrs.
    cbn [Z.eqb negb]. rewrite !andb_false_r, !orb_true_r.
    rewrite Hcomplete, Hcont. rewrite ?H1, ?H2.
    cbn [Z.eqb negb orb]. rewrite ?orb_true_r. reflexivity. }
  assert (Htrack : command (m_reply (m_tracker
                     (prepare_for_write q
                        (set_m_ignore_replies 0 (set_m_stored_query None p1)))))
                   = get_command (gw_data q)).
  { apply prepare_for_write_tracks; done. }
  assert (Hread : normal_read X srv inp p1 d
                  = (1,
                     prepare_for_write q
                       (set_m_ignore_replies 0 (set_m_stored_query None p1)),
                     with_writeq (dcb_writeq d ++ [q]) (with_readq None d))).
  { unfold normal_read.
    destruct (Z.ltb_spec (read_return_code inp) 0); [lia|].
    rewrite Hdata. destruct reply as [|b0 reply']; [done|].
    rewrite Hcollect.
    assert (H1 : m_ignore_replies p1 = 1) by exact Hign.
    assert (H2 : m_stored_query p1 = Some q) by reflexivity.
    assert (H3 : Reply.m_changing_user (m_tracker p1) = false) by exact Hcu.
    rewrite H3, H1. cbn [Z.ltb Z.compare].
    unfold swallow_reply. rewrite Hnext, H2.
    cbn [m_ignore_replies set_m_stored_query]. rewrite H1.
    cbn [length last_packet]. rewrite Hok.
    replace (MYSQL_REPLY_OK =? MYSQL_REPLY_OK) with true by done.
    replace (1 - 1) with 0 by done.
    unfold write.
    cbn [m_ignore_replies set_m_ignore_replies set_m_stored_query m_state Z.ltb Z.compare].
    assert (H4 : m_state p1 = ROUTING) by exact Hst.
    rewrite H4, Htrack.
    destruct (Z.eqb_spec (get_command (gw_data q)) MXS_COM_CHANGE_USER); [done|].
    destruct (Z.eqb_spec (get_command (gw_data q)) MXS_COM_QUIT); [done|].
    cbn [andb]. rewrite Hig. unfold writeq_append.
    cbn [dcb_writable with_readq]. rewrite Hw. reflexivity. }
  rewrite Hread. cbn [fst snd].
  split; [done|]. split; [done|].
  split; [unfold prepare_for_write; repeat case_match; reflexivity|].
  split; [unfold prepare_for_write; repeat case_match; reflexivity|].
  exact Htrack.
Qed.

End Swallowing.

(** X11.  When the DCB is linked to a session, [reuse_connection] succeeds
    exactly when the DCB is polling, the protocol is routing, no packets
    are delayed and the DCB accepts the COM_CHANGE_USER; when it fails the
    protocol is left with the session and the upstream it had, in the
    state it was in, and nothing has been queued on the DCB. *)
Theorem X11_reuse_connection_outcome
    (X : Externals) (sessions : nat -> Session) (upstream : nat) (p : Proto) (d : DCB)
    (sid : nat) :
  dcb_session d = Some sid ->
  let r := reuse_connection X sessions upstream p d in
  (fst (fst r) = true
   <-> is_polling (dcb_state d) = true /\ m_state p = ROUTING
       /\ m_delayed_packets p = None /\ dcb_writable d = true)
  /\ (fst (fst r) = false ->
      m_session (snd (fst r)) = m_session p
      /\ m_upstream (snd (fst r)) = m_upstream p
      /\ m_state (snd (fst r)) = m_state p
      /\ m_scramble (snd (fst r)) = m_scramble p
      /\ snd r = d).
Proof.
  intros Hsid r. subst r. unfold reuse_connection, writeq_append. rewrite Hsid.
  destruct (is_polling (dcb_state d)); cbn [negb orb];
    [|split; [split; [done|intros (? & _); done]|done]].
  destruct (m_state p) eqn:Hst; cbn [is_routing negb orb];
    try (split; [split; [done|intros (_ & ? & _); done]|by rewrite ?Hst]).
  destruct (m_delayed_packets p) eqn:Hdel;
    [split; [split; [done|intros (_ & _ & ? & _); done]|by rewrite ?Hst]|].
  destruct (dcb_writable d) eqn:Hw; cbn [fst snd].
  - split; [split; done|done].
  - split; [split; [done|intros (_ & _ & _ & ?); done]|].
    intros _. cbn. by rewrite Hst.
Qed.


(** A query of two maximal packets and a short one is tracked as the
    COM_QUERY its first packet carries. *)
Lemma X6_large_query_tracking_witness :
  command (m_reply (fold_left (fun t d => track_query d t)
                      [long_query_first; long_query_cont; long_query_last] idle_tracker))
  = MXS_COM_QUERY
  /\ m_large_query (fold_left (fun t d => track_query d t)
                      [long_query_first; long_query_cont; long_query_last] idle_tracker)
     = false.
Proof.
  assert (Hconts : Forall (fun d => get_payload_len d = MYSQL_PACKET_LENGTH_MAX)
                     [long_query_cont]) by (repeat constructor).
  assert (Hlast : get_payload_len long_query_last <> MYSQL_PACKET_LENGTH_MAX)
    by (vm_compute; discriminate).
  destruct (X6_large_query_tracking long_query_first [long_query_cont] long_query_last
              idle_tracker eq_refl eq_refl eq_refl eq_refl Hconts Hlast)
    as (Hcmd & _ & _ & Hreply & Hflag).
  split; [|exact Hflag].
  change ([long_query_first; long_query_cont; long_query_last])
    with (long_query_first :: [long_query_cont] ++ [long_query_last]).
  rewrite Hreply. exact Hcmd.
Defined.

(** A local file of one packet. *)
Lemma X7_load_data_local_infile_witness :
  state (m_reply
           (track_query infile_end
              (fold_left (fun t d => track_query d t) [infile_chunk]
                 (process_one_packet 32 64 (buffer_of_list infile_request) 0 2 2 querying))))
  = START
  /\ load_active (process_one_packet 32 64 (buffer_of_list infile_request) 0 2 2 querying)
     = true.
Proof.
  assert (Hchunks : Forall (fun d => get_payload_len d <> 0) [infile_chunk]).
  { constructor; [vm_compute; discriminate|constructor]. }
  destruct (X7_load_data_local_infile 32 64 (buffer_of_list infile_request) 0 2 2 querying
              [infile_chunk] infile_end eq_refl
              ltac:(vm_compute; discriminate) ltac:(vm_compute; discriminate)
              ltac:(vm_compute; discriminate) eq_refl eq_refl Hchunks eq_refl)
    as (_ & Hactive & _ & _ & Hstart & _).
  split; [exact Hstart|exact Hactive].
Defined.


(** The OK that answers the COM_CHANGE_USER of a reused connection is not
    handed upstream. *)
Lemma X9_ignored_reply_not_routed_witness :
  upstream_calls
    (snd (fst (normal_read test_externals (pooling_server 10) ok_read reused_proto
                 (polling_dcb true))))
  = [].
Proof.
  exact (X9_ignored_reply_not_routed test_externals (pooling_server 10) ok_read
           reused_proto (polling_dcb true)
           ltac:(vm_compute; reflexivity) ltac:(vm_compute; discriminate)).
Defined.

(** SELECT 1 written to a connection that has just been reused goes out
    when the OK arrives. *)
Lemma X10_stored_query_sent_after_ok_witness :
  let w := write test_externals (pooling_server 10) select_1 reused_proto (polling_dcb true) in
  let r := normal_read test_externals (pooling_server 10) ok_read (snd (fst w)) (snd w) in
  dcb_writeq (snd w) = [] /\ dcb_writeq (snd r) = [select_1]
  /\ m_ignore_replies (snd (fst r)) = 0.
Proof.
  intros w r.
  destruct (X10_stored_query_sent_after_ok test_externals (pooling_server 10) ok_read
              ok_packet select_1 reused_proto (polling_dcb true)
              eq_refl eq_refl eq_refl eq_refl eq_refl eq_refl eq_refl eq_refl eq_refl
              ltac:(vm_compute; discriminate) ltac:(vm_compute; discriminate)
              eq_refl ltac:(vm_compute; discriminate) eq_refl ltac:(discriminate)
              eq_refl eq_refl eq_refl eq_refl)
    as (_ & Hw & _ & _ & Hr & Hign & _).
  split; [exact Hw|]. split; [exact Hr|exact Hign].
Defined.

(** A routing connection on a polling, writable DCB is reused; one whose
    DCB does not accept the packet is not. *)
Lemma X11_reuse_connection_outcome_witness :
  fst (fst (reuse_connection test_externals (fun _ => test_session no_init_sql) 0
              (routing_proto no_init_sql ROUTING) (polling_dcb true))) = true
  /\ snd (reuse_connection test_externals (fun _ => test_session no_init_sql) 0
            (routing_proto no_init_sql ROUTING) (polling_dcb false))
     = polling_dcb false.
Proof.
  destruct (X11_reuse_connection_outcome test_externals (fun _ => test_session no_init_sql) 0
              (routing_proto no_init_sql ROUTING) (polling_dcb true) 1%nat eq_refl)
    as [[_ Hyes] _].
  destruct (X11_reuse_connection_outcome test_externals (fun _ => test_session no_init_sql) 0
              (routing_proto no_init_sql ROUTING) (polling_dcb false) 1%nat eq_refl)
    as [_ Hno].
  split.
  - apply Hyes. repeat split.
  - apply Hno. reflexivity.
Defined.

End BackendExtras.

Module CapabilitiesExtras.
Import Bytes Capabilities Sessions.

(** Writing into the part of a buffer that is still zero: the bytes land
    after the gap, and what follows them is still zero. *)
Lemma take_zeros (g n : nat) :
  (g <= n)%nat -> take g (repeat Byte.x00 n) = repeat Byte.x00 g.
Proof.
  revert n. induction g as [|g IH]; intros [|n] Hg; cbn; try done; try lia.
  f_equal. apply IH. lia.
Qed.

Lemma drop_zeros (g n : nat) :
  drop g (repeat Byte.x00 n) = repeat Byte.x00 (n - g).
Proof.
  revert n. induction g as [|g IH]; intros [|n]; cbn; auto.
Qed.

Lemma poke_zeros (pre bs : list byte) (off : Z) (n g : nat) :
  Z.to_nat off = (length pre + g)%nat ->
  (g + length bs <= n)%nat ->
  poke off bs (pre ++ repeat Byte.x00 n)
  = (pre ++ repeat Byte.x00 g ++ bs) ++ repeat Byte.x00 (n - g - length bs).
Proof.
  intros Ho Hfit.
  unfold poke. rewrite Ho, length_app, repeat_length.
  rewrite take_app_add.
  replace (length pre + n - (length pre + g))%nat with (n - g)%nat by lia.
  rewrite (take_ge bs) by lia.
  rewrite <- Nat.add_assoc, drop_app_add.
  rewrite take_zeros, drop_zeros by lia.
  replace (n - (g + length bs))%nat with (n - g - length bs)%nat by lia.
  by rewrite <- !app_assoc.
Qed.

Lemma zeros_S (n m : nat) :
  n = S m -> repeat Byte.x00 n = Byte.x00 :: repeat Byte.x00 m.
Proof. by intros ->. Qed.

Ltac poke_side := rewrite ?length_app, ?repeat_length; cbn [length]; lia.

(** One write into the zero tail, after a gap of at most two bytes. *)
Ltac poke_step :=
  first [ rewrite (poke_zeros _ _ _ _ 0) by poke_side
        | rewrite (poke_zeros _ _ _ _ 1) by poke_side
        | rewrite (poke_zeros _ _ _ _ 2) by poke_side ].

Section Layout.
Variables (CLIENT SSL SESSION_TRACK MULTI_STATEMENTS CONNECT_WITH_DB
           PLUGIN_AUTH CONNECT_ATTRS RCAP_SESSION_TRACKING : Z).
Variable response_length :
  bool -> bool -> list byte -> option (list byte) -> list byte -> list byte -> Z.
Variable load_hashed_password : list byte -> list byte -> list byte.
Variable DEFAULT_PLUGIN : list byte.

Local Abbreviation capabilities_of :=
  (create_capabilities CLIENT SSL SESSION_TRACK MULTI_STATEMENTS CONNECT_WITH_DB
     PLUGIN_AUTH RCAP_SESSION_TRACKING).
Local Abbreviation response_of :=
  (gw_generate_auth_response CLIENT SSL SESSION_TRACK MULTI_STATEMENTS
     CONNECT_WITH_DB PLUGIN_AUTH CONNECT_ATTRS RCAP_SESSION_TRACKING
     response_length load_hashed_password DEFAULT_PLUGIN).

(** The password as [gw_generate_auth_response] passes it on. *)
Local Abbreviation curr_passwd cd :=
  (match auth_token_phase2 cd with
   | [] => None
   | _ => Some (auth_token_phase2 cd)
   end).

(** The 36 bytes every response starts with. *)
Local Abbreviation fixed_part bytes seq mask cd :=
  (set_byte3 (bytes - 4) ++ [seq] ++ set_byte4 mask ++ set_byte4 16777216
   ++ [byte_of_Z (m_charset cd)] ++ repeat Byte.x00 19
   ++ set_byte4 (extra_capabilitites cd)).

Lemma fixed_fields (bytes : Z) (seq : byte) (mask : Z) (cd : MYSQL_session) :
  36 <= bytes ->
  poke 32 (set_byte4 (extra_capabilitites cd))
    (poke 12 [byte_of_Z (m_charset cd)]
       (poke 8 (set_byte4 16777216)
          (poke 4 (set_byte4 mask)
             (poke 3 [seq]
                (poke 0 (set_byte3 (bytes - 4)) (repeat Byte.x00 (Z.to_nat bytes)))))))
  = fixed_part bytes seq mask cd ++ repeat Byte.x00 (Z.to_nat bytes - 36).
Proof.
  intros Hbytes.
  change (repeat Byte.x00 (Z.to_nat bytes)) with ([] ++ repeat Byte.x00 (Z.to_nat bytes)).
  rewrite (poke_zeros [] _ 0 _ 0) by (cbn [length set_byte3]; lia).
  rewrite (poke_zeros _ _ 3 _ 0) by (cbn [set_byte3 app repeat length]; lia).
  rewrite (poke_zeros _ _ 4 _ 0) by (cbn [set_byte3 set_byte4 app repeat length]; lia).
  rewrite (poke_zeros _ _ 8 _ 0) by (cbn [set_byte3 set_byte4 app repeat length]; lia).
  rewrite (poke_zeros _ _ 12 _ 0) by (cbn [set_byte3 set_byte4 app repeat length]; lia).
  rewrite (poke_zeros _ _ 32 _ 19) by (cbn [set_byte3 set_byte4 app repeat length]; lia).
  cbn [set_byte3 set_byte4 app repeat length].
  do 36 f_equal. f_equal. lia.
Qed.

(** X12.  The SSLRequest (the response generated for TLS before the TLS
    session is established) consists of the packet header with sequence
    number 1, the capability mask, the maximal packet size 2^24, the
    character set, 19 zero bytes and the extra capabilities, followed by
    zero bytes only: neither the user name nor the password hash, the
    scramble, the database or the connect attributes are in it. *)
Theorem X12_ssl_request_layout
    (cd : MYSQL_session) (scramble : list byte) (server_capabilities service_caps : Z) :
  let mask := capabilities_of (client_capabilities cd) true (db_specified cd) service_caps in
  let bytes :=
    response_length true false (user cd) (curr_passwd cd) (db cd) DEFAULT_PLUGIN
    + (if attrs_negotiated CONNECT_ATTRS mask server_capabilities
       then zlength (connect_attrs cd) else 0) in
  36 <= bytes ->
  response_of cd scramble server_capabilities true false service_caps
  = fixed_part bytes Byte.x01 mask cd ++ repeat Byte.x00 (Z.to_nat bytes - 36).
Proof.
  intros mask bytes Hbytes. unfold gw_generate_auth_response. fold mask.
  cbn [negb orb].
  set (bytes' := if attrs_negotiated CONNECT_ATTRS mask server_capabilities then _ else _).
  assert (Heq : bytes' = bytes).
  { subst bytes' bytes.
    destruct (attrs_negotiated CONNECT_ATTRS mask server_capabilities); lia. }
  rewrite Heq. by apply fixed_fields.
Qed.

(** X13.  The handshake response that carries the credentials (sent
    without TLS, or once TLS is established): after the 36 fixed bytes come
    the user name and a NUL, the hashed password as [load_hashed_password]
    lays it out (a single NUL when there is no password), the database and
    a NUL when one was chosen, the name of the authentication plugin and a
    NUL, and the connect attributes when both capability masks contain
    CONNECT_ATTRS; the rest of the allocated packet is zero. *)
Theorem X13_handshake_response_layout
    (cd : MYSQL_session) (scramble : list byte) (server_capabilities service_caps : Z)
    (with_ssl ssl_established : bool) :
  let mask :=
    capabilities_of (client_capabilities cd) with_ssl (db_specified cd) service_caps in
  let bytes :=
    response_length with_ssl ssl_established (user cd) (curr_passwd cd) (db cd)
      DEFAULT_PLUGIN
    + (if attrs_negotiated CONNECT_ATTRS mask server_capabilities
       then zlength (connect_attrs cd) else 0) in
  let password :=
    match auth_token_phase2 cd with
    | [] => [Byte.x00]
    | _ => load_hashed_password scramble (auth_token_phase2 cd)
    end in
  let database := if db_specified cd then db cd ++ [Byte.x00] else [] in
  let attrs :=
    if attrs_negotiated CONNECT_ATTRS mask server_capabilities
    then connect_attrs cd else [] in
  let variable_part :=
    user cd ++ [Byte.x00] ++ password ++ database ++ DEFAULT_PLUGIN ++ [Byte.x00] ++ attrs in
  negb with_ssl || ssl_established = true ->
  36 + zlength variable_part <= bytes ->
  response_of cd scramble server_capabilities with_ssl ssl_established service_caps
  = fixed_part bytes (if ssl_established then Byte.x02 else Byte.x01) mask cd
    ++ variable_part
    ++ repeat Byte.x00 (Z.to_nat bytes - 36 - length variable_part).
Proof.
  intros mask bytes password database attrs variable_part Hcred Hbytes.
  unfold gw_generate_auth_response. fold mask.
  set (bytes' := if attrs_negotiated CONNECT_ATTRS mask server_capabilities then _ else _).
  assert (Heq : bytes' = bytes).
  { subst bytes' bytes.
    destruct (attrs_negotiated CONNECT_ATTRS mask server_capabilities); lia. }
  rewrite Heq, Hcred. clear Heq bytes' Hcred. clearbody bytes.
  assert (H36 : 36 <= bytes) by (unfold zlength in Hbytes; lia).
  rewrite fixed_fields by done.
  set (fixed := fixed_part bytes (if ssl_established then Byte.x02 else Byte.x01) mask cd).
  assert (Hfixed : length fixed = 36%nat) by reflexivity.
  clearbody fixed. clear H36.
  subst variable_part password database attrs.
  unfold zlength in *.
  destruct (auth_token_phase2 cd) as [|t0 tk] eqn:Htoken;
    destruct (db_specified cd) eqn:Hdb;
    destruct (attrs_negotiated CONNECT_ATTRS mask server_capabilities) eqn:Hneg;
    destruct (connect_attrs cd) as [|a0 attrs] eqn:Hattrs;
    cbn [andb negb] in *;
    rewrite ?length_app in Hbytes; cbn [length] in Hbytes;
    repeat poke_step;
    rewrite ?length_app; cbn [length];
    rewrite <- ?app_assoc; cbn [app repeat];
    repeat (f_equal; try lia);
    try (apply zeros_S; lia).
Qed.

End Layout.

(** The SSLRequest of bob: 40 bytes (the connect attributes are counted),
    none of them from the user name. *)
Lemma X12_ssl_request_layout_witness :
  length (response_mysql bob true false) = 40%nat
  /\ drop 36 (response_mysql bob true false) = repeat Byte.x00 4.
Proof.
  pose proof (X12_ssl_request_layout CLIENT_MASK_MYSQL (2 ^ 11) (2 ^ 23) (2 ^ 16) 8
                (2 ^ 19) (2 ^ 20) 64 response_length_mysql (fun _ pw => pw)
                native_password bob [] (2 ^ 20) 64) as H.
  cbv zeta in H. fold (response_mysql bob true false) in H.
  rewrite H by (vm_compute; discriminate).
  split; reflexivity.
Defined.

(** The response of bob once TLS is established: sequence number 2, then
    bob, two NULs (the second one for the empty password), db, the plugin
    name and the connect attributes. *)
Lemma X13_handshake_response_layout_witness :
  drop 36 (response_mysql bob true true)
  = user bob ++ [Byte.x00; Byte.x00] ++ db bob ++ [Byte.x00] ++ native_password
    ++ [Byte.x00] ++ connect_attrs bob
  /\ response_mysql bob true true !! 3%nat = Some Byte.x02.
Proof.
  pose proof (X13_handshake_response_layout CLIENT_MASK_MYSQL (2 ^ 11) (2 ^ 23) (2 ^ 16)
                8 (2 ^ 19) (2 ^ 20) 64 response_length_mysql (fun _ pw => pw)
                native_password bob [] (2 ^ 20) 64 true true) as H.
  cbv zeta in H. fold (response_mysql bob true true) in H.
  rewrite H; [split; reflexivity|reflexivity|vm_compute; discriminate].
Defined.

End CapabilitiesExtras.

Module WorkerExtras.
Import Bytes Dcb Server Backend Worker WorkerFacts Pools.

(** A connection that was closed and queued for destruction. *)
Local Abbreviation closed w d :=
  (dcb_open (conn_dcb (conns w d)) = false /\ d ∈ m_zombies w).

Lemma close_pooled_dcb_closed (d d' : nat) (w : RoutingWorker) :
  d' = d \/ closed w d' -> closed (close_pooled_dcb d w) d'.
Proof.
  destruct (close_pooled_dcb_spec d w) as (_ & _ & _ & _ & _ & Hz & Hc & _ & Ho & _).
  cbv zeta in *. rewrite Hz.
  intros [->|[Hopen Hzomb]].
  - split; [done|]. apply elem_of_app. right. by left.
  - split; [|apply elem_of_app; by left].
    destruct (decide (d' = d)) as [->|Hne]; [done|]. by rewrite Hc.
Qed.

Lemma fold_close_pooled_closed (evicted : list nat) : forall (w : RoutingWorker) (d : nat),
  d ∈ evicted \/ closed w d ->
  closed (fold_left (fun w pDcb => close_pooled_dcb pDcb w) evicted w) d.
Proof.
  induction evicted as [|d0 evicted IH]; intros w d H; cbn [fold_left].
  - destruct H as [H|H]; [by apply elem_of_nil in H|done].
  - apply IH. destruct H as [H|H].
    + apply elem_of_cons in H as [->|H]; [right|by left].
      apply close_pooled_dcb_closed. by left.
    + right. apply close_pooled_dcb_closed. by right.
Qed.

(** The sweep reads the worker's connections and the server's two pool
    settings only. *)
Lemma sweep_ext (env : Env) (w w2 : RoutingWorker) (srv srv2 : Server) (all : bool)
    (entries : list PersistentEntry) :
  (forall e, e ∈ entries ->
     dcb_hanged_up (conn_dcb (conns w2 (m_pDcb e)))
     = dcb_hanged_up (conn_dcb (conns w (m_pDcb e)))) ->
  persistmaxtime srv2 = persistmaxtime srv ->
  persistpoolmax srv2 = persistpoolmax srv ->
  forall count, sweep env w2 srv2 all entries count = sweep env w srv all entries count.
Proof.
  intros Hconns Htime Hmax.
  induction entries as [|e entries IH]; intros count; cbn [sweep]; [done|].
  rewrite Hconns, Htime, Hmax by (by left).
  rewrite !IH by (intros e' He'; apply Hconns; by right). done.
Qed.

Lemma sweep_all (env : Env) (w : RoutingWorker) (srv : Server)
    (entries : list PersistentEntry) (count : Z) :
  sweep env w srv true entries count = ([], m_pDcb <$> entries, count).
Proof.
  induction entries as [|e entries IH]; cbn [sweep]; [done|].
  cbn [orb]. rewrite orb_true_r. cbn [orb]. by rewrite IH.
Qed.

(** What stays after the sweep: a sublist of fresh entries that the sweep
    would keep again. *)
Lemma sweep_kept (env : Env) (w : RoutingWorker) (srv : Server) (all : bool)
    (entries : list PersistentEntry) :
  forall (count : Z) kept evicted count',
    sweep env w srv all entries count = (kept, evicted, count') ->
    kept `sublist_of` entries
    /\ (forall e, e ∈ kept ->
          dcb_hanged_up (conn_dcb (conns w (m_pDcb e))) = false
          /\ all = false
          /\ now env - m_created e <= persistmaxtime srv)
    /\ count' <= Z.max count (persistpoolmax srv + 1)
    /\ sweep env w srv all kept count = (kept, [], count').
Proof.
  induction entries as [|e entries IH]; intros count kept evicted count' H;
    cbn [sweep] in H.
  - injection H as <- <- <-. split; [done|]. split; [|split; [lia|done]].
    intros e He. by apply elem_of_nil in He.
  - destruct (_ || _ || _) eqn:Hevict.
    + destruct (sweep env w srv all entries count) as [[k ev] c] eqn:Hs.
      injection H as <- <- <-.
      destruct (IH _ _ _ _ Hs) as (Hsub & Hfresh & Hc & Hagain).
      split; [by apply sublist_cons|]. done.
    + destruct (sweep env w srv all entries (count + 1)) as [[k ev] c] eqn:Hs.
      injection H as <- <- <-.
      destruct (IH _ _ _ _ Hs) as (Hsub & Hfresh & Hc & Hagain).
      apply orb_false_iff in Hevict as [Hevict Hmany].
      apply orb_false_iff in Hevict as [Hhung Hexp].
      apply orb_false_iff in Hexp as [Hall Hexp].
      apply Z.ltb_ge in Hmany, Hexp.
      split; [by apply sublist_skip|]. split; [|split; [lia|]].
      * intros e' He'. apply elem_of_cons in He' as [->|He']; [done|by apply Hfresh].
      * subst all. cbn [sweep]. rewrite Hhung. cbn [orb].
        destruct (persistmaxtime srv <? now env - m_created e) eqn:E1;
          [apply Z.ltb_lt in E1; lia|].
        destruct (persistpoolmax srv <? count) eqn:E2; [apply Z.ltb_lt in E2; lia|].
        cbn [orb]. by rewrite Hagain.
Qed.

(** [evict_dcbs] in terms of what its loop returns. *)
Lemma evict_dcbs_sweep (env : Env) (server : nat) (evict : Evict) (w : RoutingWorker)
    (kept : list PersistentEntry) (evicted : list nat) (count : Z) :
  let srv := servers w server in
  let all := (Z.land (status srv) (SERVER_RUNNING env) =? 0) || is_all evict in
  sweep env w srv all (pool w server) 0 = (kept, evicted, count) ->
  let w' := snd (evict_dcbs env server evict w) in
  fst (evict_dcbs env server evict w) = count
  /\ pool w' server = kept
  /\ (forall server', server' <> server ->
        pool w' server' = pool w server' /\ servers w' server' = servers w server')
  /\ servers w' server
     = with_persistmax (Z.max (persistmax srv) count)
         (with_n_persistent (n_persistent srv - zlength evicted) srv)
  /\ m_dcbs w' = list_to_set evicted ∪ m_dcbs w
  /\ (forall d, d ∉ evicted -> conns w' d = conns w d)
  /\ (forall d, d ∈ evicted \/ closed w d -> closed w' d)
  /\ (evicted = [] -> m_zombies w' = m_zombies w /\ close_log w' = close_log w).
Proof.
  intros srv all Hs. unfold evict_dcbs.
  cbn [servers set_m_evicting]. fold srv. fold all.
  rewrite (sweep_ext env w (set_m_evicting true w) srv srv) by done.
  change (pool (set_m_evicting true w) server) with (pool w server).
  rewrite Hs.
  match goal with
  | |- context [fold_left _ evicted ?w0] =>
      destruct (fold_close_pooled_spec evicted w0) as (F1 & F2 & F3 & F4 & F5 & F6 & F7);
        pose proof (fold_close_pooled_closed evicted w0) as F8;
        set (w1 := fold_left _ evicted w0) in F1, F2, F3, F4, F5, F6, F7, F8 |- *
  end.
  cbv zeta in *.
  cbn [fst snd m_dcbs m_evicting m_persistent_entries_by_server servers close_log conns
         m_zombies set_m_evicting set_pool update_server set_servers
         set_m_persistent_entries_by_server pool] in *.
  rewrite F3, F4.
  split; [done|]. split; [by rewrite fn_lookup_insert|].
  split; [intros s' Hne; by rewrite !fn_lookup_insert_ne|].
  split; [by rewrite !fn_lookup_insert|].
  split; [exact F1|]. split; [exact F6|]. split; [exact F8|].
  intros ->. subst w1. cbn [fold_left]. done.
Qed.

(** The sweep that evicts everything. *)
Lemma evict_everything (env : Env) (server : nat) (evict : Evict) (w : RoutingWorker) :
  Z.land (status (servers w server)) (SERVER_RUNNING env) = 0 \/ evict = ALL ->
  let w' := snd (evict_dcbs env server evict w) in
  fst (evict_dcbs env server evict w) = 0
  /\ pool w' server = []
  /\ (forall server', server' <> server -> pool w' server' = pool w server')
  /\ servers w' server
     = with_persistmax (Z.max (persistmax (servers w server)) 0)
         (with_n_persistent
            (n_persistent (servers w server) - zlength (m_pDcb <$> pool w server))
            (servers w server))
  /\ m_dcbs w' = list_to_set (m_pDcb <$> pool w server) ∪ m_dcbs w
  /\ (forall d, d ∈ m_pDcb <$> pool w server \/ closed w d -> closed w' d).
Proof.
  intros Hall w'.
  assert (Hs : sweep env w (servers w server)
                 ((Z.land (status (servers w server)) (SERVER_RUNNING env) =? 0)
                  || is_all evict) (pool w server) 0
               = ([], m_pDcb <$> pool w server, 0)).
  { replace (_ || _) with true; [apply sweep_all|].
    destruct Hall as [->| ->]; [done|]. cbn. by rewrite orb_true_r. }
  destruct (evict_dcbs_sweep env server evict w _ _ _ Hs)
    as (Hc & Hpool & Hother & Hsrv & Hdcbs & _ & Hclosed & _).
  fold w' in Hpool, Hother, Hsrv, Hdcbs, Hclosed.
  split; [done|]. split; [done|].
  split; [intros s Hne; by apply Hother|]. done.
Qed.

(** X14.  When the server is not running, or all connections are to be
    evicted, [evict_dcbs] leaves nothing in the server's pool and returns
    0: every connection that was pooled for the server is back in the
    regular book-keeping, closed and queued for destruction, and the
    server's count of pooled connections has gone down by their number. *)
Theorem X14_evict_all
    (env : Env) (server : nat) (evict : Evict) (w : RoutingWorker) :
  Z.land (status (servers w server)) (SERVER_RUNNING env) = 0 \/ evict = ALL ->
  let count := fst (evict_dcbs env server evict w) in
  let w' := snd (evict_dcbs env server evict w) in
  count = 0
  /\ pool w' server = []
  /\ (forall e, e ∈ pool w server ->
        m_pDcb e ∈ m_dcbs w'
        /\ dcb_open (conn_dcb (conns w' (m_pDcb e))) = false
        /\ m_pDcb e ∈ m_zombies w')
  /\ n_persistent (servers w' server)
     = n_persistent (servers w server) - zlength (pool w server).
Proof.
  intros Hall count w'.
  destruct (evict_everything env server evict w Hall)
    as (Hc & Hpool & _ & Hsrv & Hdcbs & Hclosed).
  fold w' in Hpool, Hsrv, Hdcbs, Hclosed. fold count in Hc.
  split; [done|]. split; [done|]. split.
  - intros e He.
    assert (Hin : m_pDcb e ∈ m_pDcb <$> pool w server) by (by apply list_elem_of_fmap_2).
    destruct (Hclosed (m_pDcb e)) as [Hopen Hz]; [by left|].
    split; [rewrite Hdcbs; set_solver|done].
  - rewrite Hsrv. cbn. unfold zlength. by rewrite length_fmap.
Qed.

(** X15.  After [evict_dcbs], whatever the mode, the pool of the server
    holds a sublist of what it held, in the same order; no connection in it
    has hung up or was parked more than [persistmaxtime] seconds ago, and
    the server is running if any is left.  The count returned is the number
    of connections left, which is at most [persistpoolmax + 1]; the
    statistic [persistmax] is raised to it. *)
Theorem X15_evict_keeps_fresh
    (env : Env) (server : nat) (evict : Evict) (w : RoutingWorker) :
  NoDup (m_pDcb <$> pool w server) ->
  let count := fst (evict_dcbs env server evict w) in
  let w' := snd (evict_dcbs env server evict w) in
  let srv := servers w' server in
  pool w' server `sublist_of` pool w server
  /\ (forall e, e ∈ pool w' server ->
        dcb_hanged_up (conn_dcb (conns w' (m_pDcb e))) = false
        /\ dcb_open (conn_dcb (conns w' (m_pDcb e)))
           = dcb_open (conn_dcb (conns w (m_pDcb e)))
        /\ now env - m_created e <= persistmaxtime srv
        /\ Z.land (status srv) (SERVER_RUNNING env) <> 0)
  /\ count = zlength (pool w' server)
  /\ count <= Z.max 0 (persistpoolmax srv + 1)
  /\ persistmax srv = Z.max (persistmax (servers w server)) count.
Proof.
  intros Hnd count w' srv.
  destruct (sweep env w (servers w server)
              ((Z.land (status (servers w server)) (SERVER_RUNNING env) =? 0)
               || is_all evict) (pool w server) 0) as [[kept evicted] c] eqn:Hs.
  destruct (evict_dcbs_sweep env server evict w _ _ _ Hs)
    as (Hc & Hpool & _ & Hsrv & _ & Hconns & _).
  fold w' in Hpool, Hsrv, Hconns. fold count in Hc. fold srv in Hsrv.
  destruct (sweep_spec _ _ _ _ _ _ _ _ _ Hs) as (Hperm & Hlen & _).
  destruct (sweep_kept _ _ _ _ _ _ _ _ _ Hs) as (Hsub & Hfresh & Hbound & _).
  rewrite Hperm in Hnd. apply NoDup_app in Hnd as (_ & Hsep & _).
  rewrite Hpool, Hc, Hsrv. cbn [persistmaxtime persistpoolmax persistmax status
    with_persistmax with_n_persistent].
  split; [done|]. split; [|split; [lia|split; [lia|done]]].
  intros e He. destruct (Hfresh e He) as (Hhung & Hall & Hexp).
  rewrite Hconns by (apply Hsep; by apply list_elem_of_fmap_2).
  apply orb_false_iff in Hall as [Hrun _]. apply Z.eqb_neq in Hrun.
  done.
Qed.

(** X16.  Sweeping the pool of a server a second time, at the same time
    and in the same mode, changes nothing: the same count is returned, no
    connection is closed and every pool stays as the first sweep left
    it. *)
Theorem X16_evict_twice
    (env : Env) (server : nat) (evict : Evict) (w : RoutingWorker) :
  NoDup (m_pDcb <$> pool w server) ->
  let w1 := snd (evict_dcbs env server evict w) in
  let w2 := snd (evict_dcbs env server evict w1) in
  fst (evict_dcbs env server evict w1) = fst (evict_dcbs env server evict w)
  /\ (forall server', pool w2 server' = pool w1 server')
  /\ m_dcbs w2 = m_dcbs w1
  /\ m_zombies w2 = m_zombies w1
  /\ close_log w2 = close_log w1
  /\ (forall d, conns w2 d = conns w1 d)
  /\ (forall server', servers w2 server' = servers w1 server').
Proof.
  intros Hnd w1 w2.
  destruct (sweep env w (servers w server)
              ((Z.land (status (servers w server)) (SERVER_RUNNING env) =? 0)
               || is_all evict) (pool w server) 0) as [[kept evicted] c] eqn:Hs.
  destruct (evict_dcbs_sweep env server evict w _ _ _ Hs)
    as (Hc & Hpool & _ & Hsrv & _ & Hconns & _).
  fold w1 in Hpool, Hsrv, Hconns.
  destruct (sweep_spec _ _ _ _ _ _ _ _ _ Hs) as (Hperm & _ & _).
  destruct (sweep_kept _ _ _ _ _ _ _ _ _ Hs) as (_ & _ & _ & Hagain).
  rewrite Hperm in Hnd. apply NoDup_app in Hnd as (_ & Hsep & _).
  assert (Hs1 : sweep env w1 (servers w1 server)
                  ((Z.land (status (servers w1 server)) (SERVER_RUNNING env) =? 0)
                   || is_all evict) (pool w1 server) 0 = (kept, [], c)).
  { rewrite Hpool, <- Hagain, Hsrv. cbn [status with_persistmax with_n_persistent].
    apply sweep_ext; [|done|done].
    intros e He. rewrite Hconns; [done|]. apply Hsep. by apply list_elem_of_fmap_2. }
  destruct (evict_dcbs_sweep env server evict w1 _ _ _ Hs1)
    as (Hc2 & Hpool2 & Hother & Hsrv2 & Hdcbs & Hconns2 & _ & Hquiet).
  fold w2 in Hpool2, Hother, Hsrv2, Hdcbs, Hconns2, Hquiet.
  destruct Hquiet as [Hz Hlog]; [done|].
  split; [congruence|]. split.
  { intros s. destruct (decide (s = server)) as [->|Hne]; [congruence|].
    by apply Hother. }
  split; [rewrite Hdcbs; set_solver|]. split; [done|]. split; [done|].
  split; [intros d; apply Hconns2; apply not_elem_of_nil|].
  intros s. destruct (decide (s = server)) as [->|Hne]; [|by apply Hother].
  rewrite Hsrv2, Hsrv. unfold with_persistmax, with_n_persistent, zlength. cbn.
  f_equal; lia.
Qed.

Lemma evict_dcbs_each_spec (env : Env) (evict : Evict) (keys : list nat) :
  forall w : RoutingWorker,
    let w' := evict_dcbs_each env keys evict w in
    (forall d, closed w d -> closed w' d)
    /\ (forall server, pool w' server `sublist_of` pool w server)
    /\ (forall d, d ∈ m_dcbs w -> d ∈ m_dcbs w').
Proof.
  induction keys as [|k keys IH]; intros w; cbn [evict_dcbs_each fold_left].
  - done.
  - destruct (sweep env w (servers w k)
                ((Z.land (status (servers w k)) (SERVER_RUNNING env) =? 0)
                 || is_all evict) (pool w k) 0) as [[kept evicted] c] eqn:Hs.
    destruct (evict_dcbs_sweep env k evict w _ _ _ Hs)
      as (_ & Hpool & Hother & _ & Hdcbs & _ & Hclosed & _).
    destruct (sweep_kept _ _ _ _ _ _ _ _ _ Hs) as (Hsub & _).
    destruct (IH (snd (evict_dcbs env k evict w))) as (IH1 & IH2 & IH3).
    cbv zeta in *. fold (evict_dcbs_each env keys evict (snd (evict_dcbs env k evict w))).
    split; [|split].
    + intros d Hd. apply IH1, Hclosed. by right.
    + intros s. etrans; [apply IH2|].
      destruct (decide (s = k)) as [->|Hne]; [by rewrite Hpool|].
      by destruct (Hother s Hne) as [-> _].
    + intros d Hd. apply IH3. rewrite Hdcbs. set_solver.
Qed.

(** X17.  When a worker stops, [post_run] leaves no connection in any
    pool: each connection that was pooled is closed, queued for destruction
    and back in the regular book-keeping, and the connections that were in
    the regular book-keeping stay there. *)
Theorem X17_post_run_empties_pools
    (env : Env) (keys : list nat) (w : RoutingWorker) :
  (forall server, pool w server <> [] -> server ∈ keys) ->
  let w' := post_run env keys w in
  (forall server, pool w' server = [])
  /\ (forall server e, e ∈ pool w server ->
        m_pDcb e ∈ m_dcbs w'
        /\ dcb_open (conn_dcb (conns w' (m_pDcb e))) = false
        /\ m_pDcb e ∈ m_zombies w')
  /\ m_dcbs w ⊆ m_dcbs w'.
Proof.
  unfold post_run. revert w.
  induction keys as [|k keys IH]; intros w Hkeys; cbn [evict_dcbs_each fold_left].
  - assert (Hempty : forall server, pool w server = []).
    { intros s. destruct (pool w s) eqn:Hp; [done|].
      exfalso. eapply elem_of_nil, (Hkeys s). by rewrite Hp. }
    split; [done|]. split; [|done].
    intros s e He. rewrite Hempty in He. by apply elem_of_nil in He.
  - fold (evict_dcbs_each env keys ALL (snd (evict_dcbs env k ALL w))).
    destruct (evict_everything env k ALL w) as (_ & Hpool & Hother & _ & Hdcbs & Hall);
      [by right|].
    set (w1 := snd (evict_dcbs env k ALL w)) in *.
    destruct (evict_dcbs_each_spec env ALL keys w1) as (E1 & E2 & E3).
    destruct (IH w1) as (IH1 & IH2 & IH3).
    { intros s Hs. destruct (decide (s = k)) as [->|Hne]; [by rewrite Hpool in Hs|].
      rewrite Hother in Hs by done.
      apply Hkeys in Hs. apply elem_of_cons in Hs as [->|Hs]; done. }
    cbv zeta in *.
    split; [done|]. split.
    + intros s e He. destruct (decide (s = k)) as [->|Hne].
      * assert (Hin : m_pDcb e ∈ m_pDcb <$> pool w k) by (by apply list_elem_of_fmap_2).
        split; [apply E3; rewrite Hdcbs; set_solver|].
        apply E1, Hall. by left.
      * apply IH2 with s. by rewrite Hother.
    + intros d Hd. apply E3. rewrite Hdcbs. set_solver.
Qed.

(** Evicting all of [three_pooled]: nothing is left, DCB 2 is closed. *)
Lemma X14_evict_all_witness :
  fst (evict_dcbs test_env 0 ALL three_pooled) = 0
  /\ pool (snd (evict_dcbs test_env 0 ALL three_pooled)) 0 = []
  /\ dcb_open (conn_dcb (conns (snd (evict_dcbs test_env 0 ALL three_pooled)) 2)) = false.
Proof.
  destruct (X14_evict_all test_env 0 ALL three_pooled) as (H1 & H2 & H3 & _);
    [by right|].
  split; [exact H1|]. split; [exact H2|].
  apply (H3 {| m_created := 990; m_pDcb := 2 |}).
  right. left.
Defined.

(** The sweep of [three_pooled] at time 1000: DCB 1 has expired, DCB 3 has
    hung up, DCB 2 stays. *)
Lemma X15_evict_keeps_fresh_witness :
  pool (snd (evict_dcbs test_env 0 EXPIRED three_pooled)) 0
  = [ {| m_created := 990; m_pDcb := 2 |} ]
  /\ fst (evict_dcbs test_env 0 EXPIRED three_pooled) = 1
  /\ dcb_hanged_up
       (conn_dcb (conns (snd (evict_dcbs test_env 0 EXPIRED three_pooled)) 2)) = false.
Proof.
  destruct (X15_evict_keeps_fresh test_env 0 EXPIRED three_pooled) as (_ & H & _).
  { apply (bool_decide_unpack _). vm_compute. exact I. }
  split; [reflexivity|]. split; [reflexivity|].
  apply (H {| m_created := 990; m_pDcb := 2 |}). left.
Defined.

Lemma X16_evict_twice_witness :
  fst (evict_dcbs test_env 0 EXPIRED (snd (evict_dcbs test_env 0 EXPIRED three_pooled))) = 1
  /\ close_log (snd (evict_dcbs test_env 0 EXPIRED
                       (snd (evict_dcbs test_env 0 EXPIRED three_pooled))))
     = [(1%nat, true); (3%nat, true)].
Proof.
  destruct (X16_evict_twice test_env 0 EXPIRED three_pooled) as (H1 & _ & _ & _ & H2 & _).
  { apply (bool_decide_unpack _). vm_compute. exact I. }
  rewrite H1, H2. split; reflexivity.
Defined.

Lemma X17_post_run_empties_pools_witness :
  (forall server, pool (post_run test_env [0%nat] three_pooled) server = [])
  /\ m_zombies (post_run test_env [0%nat] three_pooled) = [1%nat; 2%nat; 3%nat].
Proof.
  destruct (X17_post_run_empties_pools test_env [0%nat] three_pooled) as (H & _).
  { intros [|server] Hs; [by left|]. by destruct Hs. }
  split; [exact H|reflexivity].
Defined.

End WorkerExtras.

Module BalanceExtras.
Import Bytes Balance.

Lemma compare_load_extremes (seen : list Z) (load : Z) (e : Extremes) :
  extremes_of seen e -> extremes_of (seen ++ [load]) (compare_load (length seen) load e).
Proof.
  intros [Hb Hmin Hmax Hfrom Hto].
  assert (Hlast : (seen ++ [load]) !! length seen = Some load).
  { rewrite lookup_app_r by lia. by rewrite Nat.sub_diag. }
  assert (Hold : forall j l, (j < length seen)%nat ->
                   (seen ++ [load]) !! j = Some l -> l ∈ seen).
  { intros j l Hj Hl. rewrite lookup_app_l in Hl by done.
    by apply list_elem_of_lookup_2 in Hl. }
  unfold compare_load.
  destruct (load <? min_load e) eqn:E1; cbn [min_load max_load pTo pFrom];
    destruct (max_load e <? load) eqn:E2; cbn [min_load max_load pTo pFrom];
    try apply Z.ltb_lt in E1; try apply Z.ltb_lt in E2;
    try apply Z.ltb_ge in E1; try apply Z.ltb_ge in E2.
  all: split; cbn [min_load max_load pTo pFrom]; try lia.
  all: try (intros l Hl; apply elem_of_app in Hl as [Hl|Hl];
            [specialize (Hb l Hl); lia|apply list_elem_of_singleton in Hl; lia]).
  all: try (split; [done|]; intros j l Hj Hl; specialize (Hb l (Hold j l Hj Hl)); lia).
  all: try (destruct (pFrom e) as [from|]; [|done]; destruct Hfrom as [Hf1 Hf2];
            split; [by apply lookup_app_l_Some|];
            intros j l Hj Hl; apply (Hf2 j l Hj);
            apply lookup_lt_Some in Hf1;
            by rewrite lookup_app_l in Hl by lia).
  all: try (destruct (pTo e) as [to|]; [|done]; destruct Hto as [Ht1 Ht2];
            split; [by apply lookup_app_l_Some|];
            intros j l Hj Hl; apply (Ht2 j l Hj);
            apply lookup_lt_Some in Ht1;
            by rewrite lookup_app_l in Hl by lia).
Qed.

Lemma compare_loads_extremes (loads : list Z) : forall (seen : list Z) (e : Extremes),
  extremes_of seen e ->
  extremes_of (seen ++ loads) (compare_loads (length seen) loads e).
Proof.
  induction loads as [|load loads IH]; intros seen e He; cbn [compare_loads].
  - by rewrite app_nil_r.
  - replace (seen ++ load :: loads) with ((seen ++ [load]) ++ loads)
      by (by rewrite <- app_assoc).
    replace (S (length seen)) with (length (seen ++ [load]))
      by (rewrite length_app; cbn; lia).
    apply IH. by apply compare_load_extremes.
Qed.

Lemma i32_load_difference (a b : Z) : -200 <= a - b <= 200 -> i32 (a - b) = a - b.
Proof.
  intros H. unfold i32.
  rewrite Z.mod_small; [lia|].
  change (2 ^ 31) with 2147483648. change (2 ^ 32) with 4294967296. lia.
Qed.

(** X18.  [balance_workers (threshold)] for loads that are percentages and
    a threshold that is not negative: it never uses a null worker; it
    decides to balance exactly when two of the loads read differ by more
    than the threshold; and the task it then posts moves sessions from the
    first worker with the greatest load to the first worker with the least
    load, which are different workers. *)
Theorem X18_balance_workers
    (threshold : Z) (use_average : bool) (workers : list (Z * Z)) :
  let loads := map (fun w : Z * Z => if use_average then fst w else snd w) workers in
  0 <= threshold ->
  (forall l, l ∈ loads -> 0 <= l <= 100) ->
  exists (balancing : bool) (task : option (nat * option nat)),
    balance_workers threshold use_average workers = Some (balancing, task)
    /\ (balancing = true <->
        exists a b, a ∈ loads /\ b ∈ loads /\ threshold < a - b)
    /\ (balancing = false -> task = None)
    /\ (balancing = true ->
        exists (from to : nat) (most least : Z),
          task = Some (from, Some to)
          /\ from <> to
          /\ loads !! from = Some most
          /\ loads !! to = Some least
          /\ threshold < most - least
          /\ (forall l, l ∈ loads -> least <= l <= most)
          /\ (forall j l, (j < from)%nat -> loads !! j = Some l -> l < most)
          /\ (forall j l, (j < to)%nat -> loads !! j = Some l -> least < l)).
Proof.
  intros loads Hthreshold Hloads. unfold balance_workers. fold loads.
  set (e0 := {| min_load := 100; max_load := 0; pTo := None; pFrom := None |}).
  assert (H0 : extremes_of [] e0).
  { split; cbn; try lia; try done. intros l Hl. by apply elem_of_nil in Hl. }
  apply (compare_loads_extremes loads) in H0. cbn [app length] in H0.
  set (e := compare_loads 0 loads e0) in *.
  destruct H0 as [Hb Hmin Hmax Hfrom Hto].
  assert (Hmin0 : 0 <= min_load e).
  { destruct (pTo e) as [to|]; [|lia]. destruct Hto as [Ht _].
    apply list_elem_of_lookup_2, Hloads in Ht. lia. }
  assert (Hmax100 : max_load e <= 100).
  { destruct (pFrom e) as [from|]; [|lia]. destruct Hfrom as [Hf _].
    apply list_elem_of_lookup_2, Hloads in Hf. lia. }
  rewrite i32_load_difference by lia.
  destruct (threshold <? max_load e - min_load e) eqn:Hdiff.
  - apply Z.ltb_lt in Hdiff.
    destruct (pFrom e) as [from|]; [|lia]. destruct Hfrom as [Hf1 Hf2].
    destruct (pTo e) as [to|]; [|lia]. destruct Hto as [Ht1 Ht2].
    exists true, (Some (from, Some to)). split; [done|]. split; [|split; [done|]].
    + split; [|done]. intros _. exists (max_load e), (min_load e).
      split; [by apply list_elem_of_lookup_2 in Hf1|].
      split; [by apply list_elem_of_lookup_2 in Ht1|lia].
    + intros _. exists from, to, (max_load e), (min_load e).
      split; [done|]. split; [|done].
      intros ->. rewrite Hf1 in Ht1. injection Ht1 as Heq. lia.
  - apply Z.ltb_ge in Hdiff.
    exists false, None. split; [done|]. split; [|done].
    split; [done|]. intros (a & b & Ha & Hb' & Hab).
    pose proof (Hb a Ha). pose proof (Hb b Hb'). lia.
Qed.

(** The workers at 10, 80 and 35 per cent with a threshold of 20: work
    moves from worker 1 to worker 0. *)
Lemma X18_balance_workers_witness :
  balance_workers 20 true [(10, 0); (80, 0); (35, 0)] = Some (true, Some (1%nat, Some 0%nat)).
Proof.
  destruct (X18_balance_workers 20 true [(10, 0); (80, 0); (35, 0)])
    as (balancing & task & Heq & _).
  - lia.
  - intros l Hl. cbn in Hl.
    repeat (apply elem_of_cons in Hl as [->|Hl]; [lia|]). by apply elem_of_nil in Hl.
  - reflexivity.
Defined.

(** *** [rebalance] *)

Local Abbreviation movable sessions :=
  (filter (fun kv : nat * SessionInfo => is_movable kv.2 = true) sessions).

Lemma most_active_spec (sessions : list (nat * SessionInfo)) :
  forall (max_io : Z) (pMax : option nat),
    match most_active sessions max_io pMax with
    | Some id =>
        (pMax = Some id /\ forall kv, kv ∈ movable sessions -> io_activity kv.2 <= max_io)
        \/ exists s,
             (id, s) ∈ movable sessions /\ max_io < io_activity s
             /\ forall kv, kv ∈ movable sessions -> io_activity kv.2 <= io_activity s
    | None =>
        pMax = None /\ forall kv, kv ∈ movable sessions -> io_activity kv.2 <= max_io
    end.
Proof.
  induction sessions as [|[id s] sessions IH]; intros max_io pMax; cbn [most_active].
  - destruct pMax; [left|]; (split; [done|]); intros kv Hkv;
      rewrite filter_nil in Hkv; by apply elem_of_nil in Hkv.
  - destruct (is_movable s) eqn:Hmov.
    + rewrite filter_cons_True by done.
      destruct (max_io <? io_activity s) eqn:Hgt.
      * apply Z.ltb_lt in Hgt. specialize (IH (io_activity s) (Some id)).
        destruct (most_active sessions (io_activity s) (Some id)) as [id'|].
        -- right. destruct IH as [[Heq Hle]|(s' & Hin & Hlt & Hle)].
           ++ injection Heq as <-. exists s. split; [by left|]. split; [done|].
              intros kv Hkv. apply elem_of_cons in Hkv as [->|Hkv]; [done|by apply Hle].
           ++ exists s'. split; [by right|]. split; [lia|].
              intros kv Hkv. apply elem_of_cons in Hkv as [->|Hkv]; [cbn; lia|by apply Hle].
        -- by destruct IH.
      * apply Z.ltb_ge in Hgt. specialize (IH max_io pMax).
        destruct (most_active sessions max_io pMax) as [id'|].
        -- destruct IH as [[Heq Hle]|(s' & Hin & Hlt & Hle)].
           ++ left. split; [done|].
              intros kv Hkv. apply elem_of_cons in Hkv as [->|Hkv]; [done|by apply Hle].
           ++ right. exists s'. split; [by right|]. split; [done|].
              intros kv Hkv. apply elem_of_cons in Hkv as [->|Hkv]; [cbn; lia|by apply Hle].
        -- destruct IH as [Heq Hle]. split; [done|].
           intros kv Hkv. apply elem_of_cons in Hkv as [->|Hkv]; [done|by apply Hle].
    + rewrite filter_cons_False by (cbn; congruence). apply IH.
Qed.

Lemma collect_movable_spec (n : Z) (sessions : list (nat * SessionInfo)) :
  forall collected : list nat,
    zlength collected < n ->
    exists k : nat,
      collect_movable n sessions collected = collected ++ take k (movable sessions).*1
      /\ Z.of_nat k = Z.min (n - zlength collected) (zlength (movable sessions)).
Proof.
  unfold zlength.
  induction sessions as [|[id s] sessions IH]; intros collected Hlt; cbn [collect_movable].
  - exists 0%nat. rewrite filter_nil. cbn. rewrite app_nil_r. split; [done|lia].
  - destruct (is_movable s) eqn:Hmov.
    + rewrite filter_cons_True by done. cbn [fmap list_fmap length fst].
      destruct (_ =? n) eqn:Hfull.
      * apply Z.eqb_eq in Hfull. unfold zlength in Hfull. rewrite length_app in Hfull. cbn [length] in Hfull.
        exists 1%nat. cbn [take]. split; [done|lia].
      * apply Z.eqb_neq in Hfull. unfold zlength in Hfull. rewrite length_app in Hfull. cbn [length] in Hfull.
        destruct (IH (collected ++ [id])) as (k & Heq & Hk).
        { rewrite length_app. cbn [length]. lia. }
        rewrite length_app in Hk. cbn [length] in Hk.
        exists (S k). cbn [take]. rewrite Heq, <- app_assoc. split; [done|lia].
    + rewrite filter_cons_False by (cbn; congruence). by apply IH.
Qed.

(** X19.  [rebalance ()] calls [move_to] on movable sessions only, on each
    at most once, and on at most as many sessions as were requested.  When
    one move is requested the session moved is a movable session whose I/O
    activity is positive and the greatest among the movable ones, and
    nothing is moved when no movable session has positive I/O activity;
    when more are requested the first movable sessions in the order of the
    session map are moved, as many as requested if there are that many;
    when less than one is requested nothing is moved. *)
Theorem X19_rebalance_moves
    (n_requested_moves : Z) (sessions : list (nat * SessionInfo)) :
  NoDup sessions.*1 ->
  let moved := rebalance n_requested_moves sessions in
  NoDup moved
  /\ (forall id, id ∈ moved -> exists s, (id, s) ∈ sessions /\ is_movable s = true)
  /\ zlength moved <= Z.max 0 n_requested_moves
  /\ zlength moved <= zlength (movable sessions)
  /\ (n_requested_moves = 1 ->
      (forall id, id ∈ moved ->
         exists s, (id, s) ∈ sessions /\ is_movable s = true /\ 0 < io_activity s
           /\ forall kv, kv ∈ movable sessions -> io_activity kv.2 <= io_activity s)
      /\ (moved = [] <-> forall kv, kv ∈ movable sessions -> io_activity kv.2 <= 0))
  /\ (1 < n_requested_moves ->
      exists k : nat,
        moved = take k (movable sessions).*1
        /\ Z.of_nat k = Z.min n_requested_moves (zlength (movable sessions)))
  /\ (n_requested_moves < 1 -> moved = []).
Proof.
  intros Hnd moved. subst moved. unfold rebalance.
  assert (Hsub : forall id k, id ∈ take k (movable sessions).*1 ->
                   exists s, (id, s) ∈ sessions /\ is_movable s = true).
  { intros id k Hid. apply elem_of_take in Hid as (i & Hid & _).
    apply list_elem_of_lookup_2 in Hid.
    apply list_elem_of_fmap in Hid as ([id' s] & -> & Hin).
    apply list_elem_of_filter in Hin as [Hm Hin]. by exists s. }
  assert (Hnd' : forall k, NoDup (take k (movable sessions).*1)).
  { intros k. eapply sublist_NoDup; [exact Hnd|].
    etrans; [apply sublist_take|]. apply fmap_sublist, sublist_filter. }
  destruct (n_requested_moves =? 1) eqn:H1.
  - apply Z.eqb_eq in H1. subst n_requested_moves.
    pose proof (most_active_spec sessions 0 None) as Hspec.
    destruct (most_active sessions 0 None) as [id|].
    + destruct Hspec as [[Heq _]|(s & Hin & Hpos & Hmax)]; [done|].
      pose proof Hin as Hin'. apply list_elem_of_filter in Hin' as [Hm Hin'].
      assert (Hlen : 1 <= zlength (movable sessions)).
      { unfold zlength. destruct (movable sessions); [by apply elem_of_nil in Hin|cbn; lia]. }
      split; [apply NoDup_singleton|].
      split; [intros id' Hid; apply list_elem_of_singleton in Hid as ->; by exists s|].
      split; [unfold zlength; cbn; lia|]. split; [unfold zlength in *; cbn; lia|].
      split; [|split; [lia|lia]].
      intros _. split.
      * intros id' Hid. apply list_elem_of_singleton in Hid as ->. by exists s.
      * split; [done|]. intros Hall. specialize (Hall _ Hin). cbn in Hall. lia.
    + destruct Hspec as [_ Hle].
      split; [apply NoDup_nil_2|].
      split; [intros id Hid; by apply elem_of_nil in Hid|].
      split; [unfold zlength; cbn; lia|]. split; [unfold zlength; cbn; lia|].
      split; [|split; [lia|done]].
      intros _. split; [intros id Hid; by apply elem_of_nil in Hid|done].
  - apply Z.eqb_neq in H1.
    destruct (1 <? n_requested_moves) eqn:H2.
    + apply Z.ltb_lt in H2.
      destruct (collect_movable_spec n_requested_moves sessions []) as (k & Heq & Hk);
        [unfold zlength; cbn; lia|].
      cbn [app] in Heq. unfold zlength in Hk. cbn [length] in Hk.
      assert (Hlen : zlength (take k (movable sessions).*1) = Z.of_nat k).
      { unfold zlength in *. rewrite length_take, length_fmap. lia. }
      rewrite Heq.
      split; [apply Hnd'|]. split; [intros id Hid; by apply Hsub in Hid|].
      split; [lia|]. split; [unfold zlength in *; lia|].
      split; [lia|]. split; [|lia].
      intros _. exists k. split; [done|]. unfold zlength. lia.
    + apply Z.ltb_ge in H2.
      split; [apply NoDup_nil_2|].
      split; [intros id Hid; by apply elem_of_nil in Hid|].
      split; [unfold zlength; cbn; lia|]. split; [unfold zlength; cbn; lia|].
      split; [lia|]. split; [lia|done].
Qed.

(** Three sessions, the second one not movable: one requested move takes
    the busier of the other two, two requested moves take both. *)
Lemma X19_rebalance_moves_witness :
  let sessions :=
    [ (4%nat, {| is_movable := true; io_activity := 3 |});
      (5%nat, {| is_movable := false; io_activity := 9 |});
      (6%nat, {| is_movable := true; io_activity := 7 |}) ] in
  rebalance 1 sessions = [6%nat] /\ NoDup (rebalance 2 sessions).
Proof.
  intros sessions.
  destruct (X19_rebalance_moves 2 sessions) as (H & _).
  { apply (bool_decide_unpack _). vm_compute. exact I. }
  split; [reflexivity|exact H].
Defined.

End BalanceExtras.

Module HandshakeExtras.
Import Bytes Wire Dcb Server Reply Capabilities Backend Handshake.

Lemma gw_strend_nul (version rest : list byte) :
  Forall (fun b => u8 b <> 0) version ->
  gw_strend (version ++ Byte.x00 :: rest) = length version.
Proof.
  induction 1 as [|b version Hb _ IH]; cbn [gw_strend app length]; [done|].
  destruct (u8 b =? 0) eqn:E; [apply Z.eqb_eq in E; done|]. by rewrite IH.
Qed.

Lemma drop_string (version rest : list byte) :
  drop (length version + 1) (version ++ Byte.x00 :: rest) = rest.
Proof. rewrite drop_app_add. done. Qed.

Lemma get_byte2_sum (b0 b1 : byte) (rest : list byte) :
  gw_mysql_get_byte2 (b0 :: b1 :: rest) = u8 b0 + 2 ^ 8 * u8 b1.
Proof.
  unfold gw_mysql_get_byte2, byte_at. cbn [nth].
  apply ReplyFacts.lor_shiftl_add; [lia|apply ReplyFacts.u8_range].
Qed.

Lemma get_byte4_sum (b0 b1 b2 b3 : byte) (rest : list byte) :
  gw_mysql_get_byte4 (b0 :: b1 :: b2 :: b3 :: rest)
  = u8 b0 + 2 ^ 8 * u8 b1 + 2 ^ 16 * u8 b2 + 2 ^ 24 * u8 b3.
Proof.
  unfold gw_mysql_get_byte4, byte_at. cbn [nth].
  pose proof (ReplyFacts.u8_range b0). pose proof (ReplyFacts.u8_range b1).
  pose proof (ReplyFacts.u8_range b2). pose proof (ReplyFacts.u8_range b3).
  replace (Z.shiftl (u8 b3) 24) with (Z.shiftl (Z.shiftl (u8 b3) 8) 16)
    by (rewrite Z.shiftl_shiftl by lia; done).
  rewrite <- Z.shiftl_lor, (ReplyFacts.lor_shiftl_add (u8 b2)) by lia.
  replace (Z.shiftl (u8 b2 + 2 ^ 8 * u8 b3) 16)
    with (Z.shiftl (Z.shiftl (u8 b2 + 2 ^ 8 * u8 b3) 8) 8)
    by (rewrite Z.shiftl_shiftl by lia; done).
  rewrite <- Z.shiftl_lor, (ReplyFacts.lor_shiftl_add (u8 b1)) by lia.
  rewrite ReplyFacts.lor_shiftl_add by lia. lia.
Qed.

(** X20.  [gw_decode_mysql_server_handshake] on a version 10 handshake:
    it returns 0, the thread id is the little-endian value of the four
    bytes after the NUL of the version string, the server's capabilities
    are the two bytes after the filler (low half) and the two bytes after
    the character set and the status (high half), and the scramble is the
    8 bytes before the filler followed by the bytes after the 10 reserved
    ones, as many as the length byte announces (one less than its value,
    20 in all at most, and 20 when it is 0), padded with zeros to 20
    bytes.  Nothing else of the connection changes.  A payload that does
    not start with the protocol version 10 gives -1 and changes
    nothing. *)
Theorem X20_server_handshake_decoding
    (version s1 reserved s2 rest : list byte)
    (t0 t1 t2 t3 filler c0 c1 language st0 st1 c2 c3 len : byte) (c : Connection) :
  let payload :=
    Byte.x0a :: version ++ Byte.x00 :: t0 :: t1 :: t2 :: t3 :: s1
      ++ filler :: c0 :: c1 :: language :: st0 :: st1 :: c2 :: c3 :: len :: reserved
      ++ s2 ++ rest in
  let scramble_len := if 0 <? u8 len then Z.min (u8 len - 1) 20 else 20 in
  Forall (fun b => u8 b <> 0) version ->
  length s1 = 8%nat ->
  length reserved = 10%nat ->
  8 <= scramble_len ->
  length s2 = Z.to_nat (scramble_len - 8) ->
  gw_decode_mysql_server_handshake payload c
  = (0,
     set_proto
       (set_m_scramble (s1 ++ s2 ++ repeat Byte.x00 (Z.to_nat (20 - scramble_len)))
          (proto c))
       (set_server_capabilities
          (u8 c0 + 2 ^ 8 * u8 c1 + 2 ^ 16 * u8 c2 + 2 ^ 24 * u8 c3)
          (set_m_thread_id (u8 t0 + 2 ^ 8 * u8 t1 + 2 ^ 16 * u8 t2 + 2 ^ 24 * u8 t3) c)))
  /\ forall other : list byte,
       byte_at other 0 <> 10 -> gw_decode_mysql_server_handshake other c = (-1, c).
Proof.
  intros payload scramble_len Hversion Hs1 Hreserved Hlen Hs2. split.
  - subst payload. unfold gw_decode_mysql_server_handshake.
    change (byte_at (Byte.x0a :: _) 0 =? GW_MYSQL_PROTOCOL_VERSION) with true.
    cbn [negb skipn]. rewrite ?drop_0.
    rewrite gw_strend_nul, drop_string by done.
    rewrite get_byte4_sum. cbn [skipn]. rewrite ?drop_0.
    change (Z.to_nat GW_SCRAMBLE_LENGTH_323) with 8%nat.
    rewrite take_app_length', drop_app_length' by done. cbn [skipn]. rewrite ?drop_0.
    rewrite !get_byte2_sum.
    change (byte_at (len :: ?l) 0) with (u8 len).
    change GW_MYSQL_SCRAMBLE_SIZE with 20. change GW_SCRAMBLE_LENGTH_323 with 8.
    fold scramble_len.
    change (drop 11 (len :: ?l)) with (drop 10 l).
    rewrite drop_app_length' by done.
    rewrite take_app_length' by done.
    change (repeat Byte.x00 (Z.to_nat 20)) with ([] ++ repeat Byte.x00 20).
    rewrite (CapabilitiesExtras.poke_zeros [] s1 0 20 0) by (cbn [length]; lia).
    cbn [repeat app].
    assert (Hmax : scramble_len <= 20) by (subst scramble_len; destruct (0 <? u8 len); lia).
    clearbody scramble_len.
    rewrite (CapabilitiesExtras.poke_zeros s1 s2 8 _ 0) by lia.
    cbn [repeat app].
    pose proof (ReplyFacts.u8_range c0). pose proof (ReplyFacts.u8_range c1).
    pose proof (ReplyFacts.u8_range c2). pose proof (ReplyFacts.u8_range c3).
    rewrite (ReplyFacts.lor_shiftl_add (u8 c0 + 2 ^ 8 * u8 c1)) by lia.
    rewrite CapabilitiesFacts.u32_small by lia.
    rewrite <- app_assoc. cbn [proto set_server_capabilities set_m_thread_id].
    replace (20 - 0 - length s1 - 0 - length s2)%nat
      with (Z.to_nat (20 - scramble_len)) by lia.
    replace (u8 c0 + 2 ^ 8 * u8 c1 + 2 ^ 16 * (u8 c2 + 2 ^ 8 * u8 c3))
      with (u8 c0 + 2 ^ 8 * u8 c1 + 2 ^ 16 * u8 c2 + 2 ^ 24 * u8 c3) by lia.
    reflexivity.
  - intros other Hother. unfold gw_decode_mysql_server_handshake.
    destruct (byte_at other 0 =? GW_MYSQL_PROTOCOL_VERSION) eqn:E; [|done].
    apply Z.eqb_eq in E. done.
Qed.

(** Decoding the server's handshake touches the thread id, the server's
    capabilities and the scramble only. *)
Lemma read_backend_handshake_frame (buffer : list byte) (c : Connection) :
  let c1 := snd (read_backend_handshake buffer c) in
  client_data c1 = client_data c
  /\ m_hs_state c1 = m_hs_state c
  /\ maintenance_posted c1 = maintenance_posted c
  /\ upstream_calls (proto c1) = upstream_calls (proto c)
  /\ m_state (proto c1) = m_state (proto c).
Proof.
  unfold read_backend_handshake, gw_decode_mysql_server_handshake.
  destruct (negb _); cbn; done.
Qed.

Section Outcome.
Variable P : Protocol.

Ltac run_round :=
  cbn [handshake]; unfold handshake_round at 1;
  cbn [m_hs_state set_m_hs_state handle_error set_proto proto].

Ltac close_run :=
  eexists _, _, _, _, _; split; [reflexivity|];
  cbn [m_hs_state set_m_hs_state handle_error set_proto proto do_handle_error
         upstream_calls set_upstream_calls dcb_writeq with_writeq];
  try match goal with
      | H : upstream_calls (proto _) = upstream_calls (proto _) |- _ => rewrite H
      end;
  split; [first [symmetry; apply app_nil_r|rewrite <- ?app_assoc; reflexivity]|];
  split; [first [symmetry; apply app_nil_r|rewrite <- ?app_assoc; reflexivity]|].

(** X21.  [handshake] ends within six rounds of its loop, in a state it
    can be entered in again: COMPLETE when it returns DONE, FAIL when it
    returns ERROR, EXPECT_HS or SSL_NEG when it returns IN_PROGRESS.  It
    appends to the DCB's write queue nothing but the SSLRequest and the
    handshake response, in this order, and when the server has an SSL
    context it appends the response, which carries the credentials, only
    if the DCB reports the TLS session as established.  It reports at most
    one error upstream, a transient one, and only when it returns ERROR;
    once COMPLETE or FAIL it changes nothing. *)
Theorem X21_handshake_outcome
    (rounds : nat) (sock : Socket) (read : ProtocolRead) (c : Connection) (d : DCB) :
  (6 <= rounds)%nat ->
  resting (m_hs_state c) ->
  exists rval c' d' sent errs,
    handshake P rounds sock read c d = Some (rval, c', d')
    /\ dcb_writeq d' = dcb_writeq d ++ sent
    /\ upstream_calls (proto c') = upstream_calls (proto c) ++ errs
    /\ (rval = SM_DONE /\ m_hs_state c' = COMPLETE
        \/ rval = SM_ERROR /\ m_hs_state c' = FAIL
        \/ rval = IN_PROGRESS /\ (m_hs_state c' = EXPECT_HS \/ m_hs_state c' = SSL_NEG))
    /\ (let ssl_req :=
          generate_auth_response P c' true false (dcb_service_capabilities sock) in
        let hs_resp :=
          generate_auth_response P c' (ssl_context sock) (ssl_context sock)
            (dcb_service_capabilities sock) in
        sent = [] \/ sent = [ssl_req]
        \/ (sent = [hs_resp] \/ sent = [ssl_req; hs_resp])
           /\ (ssl_context sock = true -> ssl_state sock = ESTABLISHED))
    /\ (errs = [] \/ rval = SM_ERROR /\ exists msg, errs = [handleError TRANSIENT msg])
    /\ (m_hs_state c = COMPLETE \/ m_hs_state c = FAIL -> c' = c /\ d' = d).
Proof.
  intros Hrounds Hrest.
  do 6 (destruct rounds as [|rounds]; [lia|]). clear Hrounds.
  destruct Hrest as [Hst|[Hst|[Hst|Hst]]].
  - (* EXPECT_HS *)
    run_round. rewrite Hst.
    destruct read as [| |buffer].
    + run_round. close_run.
      split; [right; left; done|]. split; [by left|].
      split; [right; split; [done|]; by eexists|]. intros [H|H]; congruence.
    + close_run. rewrite Hst.
      split; [right; right; split; [done|by left]|]. split; [by left|].
      split; [by left|]. intros [H|H]; congruence.
    + destruct (get_command buffer =? MYSQL_REPLY_ERR).
      { run_round. close_run.
        split; [right; left; done|]. split; [by left|].
        split; [right; split; [done|]; by eexists|]. intros [H|H]; congruence. }
      pose proof (read_backend_handshake_frame buffer c) as (F1 & F2 & F3 & F4 & F5).
      destruct (read_backend_handshake buffer c) as [ok c1]. cbn [snd] in *.
      destruct ok; cycle 1.
      { run_round. close_run. rewrite ?F4.
        split; [right; left; done|]. split; [by left|].
        split; [right; split; [done|]; by eexists|]. intros [H|H]; congruence. }
      destruct (ssl_context sock) eqn:Hctx.
      * (* START_SSL *)
        run_round. unfold writeq_append.
        destruct (dcb_writable d) eqn:Hw; cbn [andb];
          [destruct (0 <=? ssl_handshake sock)|].
        -- (* SSL_NEG *)
           run_round. destruct (ssl_state sock) eqn:Hssl.
           ++ run_round. close_run. rewrite ?F4.
              split; [right; left; done|]. split; [right; by left|].
              split; [right; split; [done|]; by eexists|]. intros [H|H]; congruence.
           ++ close_run. rewrite ?F4.
              split; [right; right; split; [done|by right]|]. split; [right; by left|].
              split; [by left|]. intros [H|H]; congruence.
           ++ run_round. rewrite Hctx. unfold writeq_append.
              cbn [dcb_writable with_writeq]. rewrite Hw.
              run_round. close_run. rewrite ?F4.
              split; [left; done|]. split; [right; right; split; [by right|done]|].
              split; [by left|]. intros [H|H]; congruence.
           ++ run_round. close_run. rewrite ?F4.
              split; [right; left; done|]. split; [right; by left|].
              split; [right; split; [done|]; by eexists|]. intros [H|H]; congruence.
        -- run_round. close_run. rewrite ?F4.
           split; [right; left; done|]. split; [right; by left|].
           split; [right; split; [done|]; by eexists|]. intros [H|H]; congruence.
        -- run_round. close_run. rewrite ?F4.
           split; [right; left; done|]. split; [by left|].
           split; [right; split; [done|]; by eexists|]. intros [H|H]; congruence.
      * (* SEND_HS_RESP *)
        run_round. rewrite Hctx. unfold writeq_append.
        destruct (dcb_writable d) eqn:Hw; run_round; close_run; rewrite ?F4.
        -- split; [left; done|].
           split; [right; right; split; [by left|done]|].
           split; [by left|]. intros [H|H]; congruence.
        -- split; [right; left; done|]. split; [by left|].
           split; [by left|]. intros [H|H]; congruence.
  - (* SSL_NEG *)
    run_round. rewrite Hst. destruct (ssl_state sock) eqn:Hssl.
    + run_round. close_run.
      split; [right; left; done|]. split; [by left|].
      split; [right; split; [done|]; by eexists|]. intros [H|H]; congruence.
    + close_run. rewrite Hst.
      split; [right; right; split; [done|by right]|]. split; [by left|].
      split; [by left|]. intros [H|H]; congruence.
    + run_round. unfold writeq_append.
      destruct (dcb_writable d) eqn:Hw; run_round; close_run.
      * split; [left; done|]. split; [right; right; split; [by left|done]|].
        split; [by left|]. intros [H|H]; congruence.
      * split; [right; left; done|]. split; [by left|].
        split; [by left|]. intros [H|H]; congruence.
    + run_round. close_run.
      split; [right; left; done|]. split; [by left|].
      split; [right; split; [done|]; by eexists|]. intros [H|H]; congruence.
  - run_round. rewrite Hst. close_run. rewrite Hst.
    split; [left; done|]. split; [by left|]. split; [by left|]. done.
  - run_round. rewrite Hst. close_run. rewrite Hst.
    split; [right; left; done|]. split; [by left|]. split; [by left|]. done.
Qed.

Lemma byte_at_drop (n i : nat) (l : list byte) :
  byte_at (drop n l) i = byte_at l (n + i).
Proof.
  unfold byte_at. f_equal. revert l. induction n as [|n IH]; intros l; [done|].
  destruct l as [|b l]; cbn [drop nth Nat.add]; [by destruct i|apply IH].
Qed.

Lemma read_backend_handshake_version (buffer : list byte) (c : Connection) :
  fst (read_backend_handshake buffer c) = (byte_at buffer 4 =? GW_MYSQL_PROTOCOL_VERSION).
Proof.
  unfold read_backend_handshake, gw_decode_mysql_server_handshake.
  rewrite byte_at_drop. cbn [Nat.add].
  by destruct (byte_at buffer 4 =? GW_MYSQL_PROTOCOL_VERSION).
Qed.

Lemma handshake_without_tls
    (rounds : nat) (sock : Socket) (buffer : list byte) (c : Connection) (d : DCB) :
  (6 <= rounds)%nat ->
  m_hs_state c = EXPECT_HS ->
  dcb_writable d = true ->
  byte_at buffer 4 = GW_MYSQL_PROTOCOL_VERSION ->
  ssl_context sock = false ->
  let decoded := snd (read_backend_handshake buffer c) in
  handshake P rounds sock (Packet buffer) c d
  = Some (SM_DONE, set_m_hs_state COMPLETE decoded,
          with_writeq
            (dcb_writeq d
             ++ [generate_auth_response P decoded false false
                   (dcb_service_capabilities sock)]) d).
Proof.
  intros Hrounds Hst Hw Hversion Hplain decoded.
  do 6 (destruct rounds as [|rounds]; [lia|]). clear Hrounds.
  assert (Hcmd : (get_command buffer =? MYSQL_REPLY_ERR) = false).
  { unfold get_command. by rewrite Hversion. }
  pose proof (read_backend_handshake_version buffer c) as Hok.
  rewrite Hversion in Hok. change (_ =? _) with true in Hok.
  subst decoded.
  destruct (read_backend_handshake buffer c) as [ok c1] eqn:Hdec.
  cbn [fst snd] in *. subst ok.
  cbn [handshake]. unfold handshake_round at 1.
  rewrite Hst, Hcmd, Hdec, Hplain.
  unfold handshake_round at 1.
  cbn [m_hs_state set_m_hs_state]. rewrite Hplain. unfold writeq_append. rewrite Hw.
  unfold handshake_round at 1. cbn [m_hs_state set_m_hs_state].
  reflexivity.
Qed.

(** X22.  A server handshake of protocol version 10 read on a writable
    DCB.  Without an SSL context one call of [handshake] returns DONE and
    has appended the handshake response alone.  With an SSL context, the
    call that reads the handshake appends the SSLRequest and returns
    IN_PROGRESS while the TLS handshake is still required; the call after
    the TLS session is established appends the handshake response and
    returns DONE.  In both cases the connection is then COMPLETE, holds
    what was decoded from the server's handshake, and no error was
    reported. *)
Theorem X22_handshake_completes
    (rounds : nat) (plain_sock tls_sock1 tls_sock2 : Socket) (buffer : list byte)
    (read2 : ProtocolRead) (c : Connection) (d : DCB) :
  (6 <= rounds)%nat ->
  m_hs_state c = EXPECT_HS ->
  dcb_writable d = true ->
  byte_at buffer 4 = GW_MYSQL_PROTOCOL_VERSION ->
  ssl_context plain_sock = false ->
  ssl_context tls_sock1 = true /\ 0 <= ssl_handshake tls_sock1
  /\ ssl_state tls_sock1 = HANDSHAKE_REQUIRED ->
  ssl_context tls_sock2 = true /\ ssl_state tls_sock2 = ESTABLISHED ->
  let decoded := snd (read_backend_handshake buffer c) in
  let done := set_m_hs_state COMPLETE decoded in
  (exists d',
     handshake P rounds plain_sock (Packet buffer) c d = Some (SM_DONE, done, d')
     /\ dcb_writeq d'
        = dcb_writeq d
          ++ [generate_auth_response P decoded false false
                (dcb_service_capabilities plain_sock)])
  /\ (exists d1 d2,
        handshake P rounds tls_sock1 (Packet buffer) c d
        = Some (IN_PROGRESS, set_m_hs_state SSL_NEG decoded, d1)
        /\ dcb_writeq d1
           = dcb_writeq d
             ++ [generate_auth_response P decoded true false
                   (dcb_service_capabilities tls_sock1)]
        /\ handshake P rounds tls_sock2 read2 (set_m_hs_state SSL_NEG decoded) d1
           = Some (SM_DONE, done, d2)
        /\ dcb_writeq d2
           = dcb_writeq d1
             ++ [generate_auth_response P decoded true true
                   (dcb_service_capabilities tls_sock2)])
  /\ upstream_calls (proto done) = upstream_calls (proto c).
Proof.
  intros Hrounds Hst Hw Hversion Hplain (Htls1 & Hhs & Hreq) (Htls2 & Hest) decoded done.
  do 6 (destruct rounds as [|rounds]; [lia|]). clear Hrounds.
  assert (Hcmd : (get_command buffer =? MYSQL_REPLY_ERR) = false).
  { unfold get_command. by rewrite Hversion. }
  pose proof (read_backend_handshake_version buffer c) as Hok.
  rewrite Hversion in Hok. change (_ =? _) with true in Hok.
  pose proof (read_backend_handshake_frame buffer c) as (_ & _ & _ & Hcalls & _).
  subst done decoded.
  destruct (read_backend_handshake buffer c) as [ok c1] eqn:Hdec.
  cbn [fst snd] in *. subst ok.
  split; [|split; [|done]].
  - pose proof (handshake_without_tls (S (S (S (S (S (S rounds)))))) plain_sock buffer
                  c d) as Hplain'.
    rewrite Hdec in Hplain'. cbn [snd] in Hplain'.
    eexists. split; [apply Hplain'; (done || lia)|]. reflexivity.
  - apply Z.leb_le in Hhs.
    eexists _, _. split; [|split; [|split]].
    + cbn [handshake]. unfold handshake_round at 1.
      rewrite Hst, Hcmd, Hdec, Htls1.
      unfold handshake_round at 1.
      cbn [m_hs_state set_m_hs_state]. unfold writeq_append. rewrite Hw, Hhs.
      cbn [andb]. unfold handshake_round at 1.
      cbn [m_hs_state set_m_hs_state]. rewrite Hreq. reflexivity.
    + reflexivity.
    + cbn [handshake]. unfold handshake_round at 1.
      cbn [m_hs_state set_m_hs_state]. rewrite Hest.
      unfold handshake_round at 1.
      cbn [m_hs_state set_m_hs_state]. rewrite Htls2. unfold writeq_append.
      cbn [dcb_writable with_writeq]. rewrite Hw.
      unfold handshake_round at 1. cbn [m_hs_state set_m_hs_state].
      reflexivity.
    + reflexivity.
Qed.

End Outcome.


Lemma prepare_for_write_frame (buffer : GWBUF) (p : Proto) :
  let p' := prepare_for_write buffer p in
  m_state p' = m_state p
  /\ m_delayed_packets p' = m_delayed_packets p
  /\ m_ignore_replies p' = m_ignore_replies p
  /\ m_stored_query p' = m_stored_query p
  /\ m_scramble p' = m_scramble p
  /\ upstream_calls p' = upstream_calls p.
Proof. unfold prepare_for_write. by repeat case_match. Qed.

Section Establishing.
Variable X : Externals.
Variable P : Protocol.
Variable srv : Server.
Variable sock : Socket.
Variable inp : ReadInput.


End Establishing.

(** *** The state of the connection across the calls *)

Section StateFrame.
Variable X : Externals.
Variable srv : Server.

Lemma track_bytes_state (buf : list byte) (p : Proto) :
  m_state (snd (track_bytes X buf p)) = m_state p.
Proof. unfold track_bytes. by repeat case_match. Qed.

Ltac with_track_bytes :=
  repeat match goal with
         | |- context [track_bytes X ?b ?q] =>
             let H := fresh in
             pose proof (track_bytes_state b q) as H;
             destruct (track_bytes X b q) as [[? ?] ?]; cbn [snd] in H
         | _ => case_match
         end; simplify_eq; cbn;
  repeat match goal with
         | H : track_bytes X ?b ?q = _ |- _ =>
             let H' := fresh in
             pose proof (track_bytes_state b q) as H';
             rewrite H in H'; cbn [snd] in H'; clear H
         end; congruence.

Lemma collect_packets_state (inp : ReadInput) (buf : list byte) (p : Proto) (d : DCB) :
  m_state (snd (fst (collect_packets X inp buf p d))) = m_state p.
Proof. unfold collect_packets. with_track_bytes. Qed.

Lemma handle_auth_change_response_state (reply : list byte) (p : Proto) (d : DCB) :
  m_state (snd (fst (handle_auth_change_response X reply p d))) = m_state p.
Proof.
  unfold handle_auth_change_response, send_mysql_native_password_response, writeq_append.
  by repeat case_match.
Qed.

Lemma route_one_state
    (inp : ReadInput) (rc_collected : bool) (buf : list byte) (rc : Z) (p : Proto) :
  m_state (snd (route_one X inp rc_collected buf rc p)) = m_state p.
Proof. unfold route_one. with_track_bytes. Qed.

Lemma route_loop_state (fuel : nat) :
  forall (inp : ReadInput) (rc_collected : bool) (buf : list byte) (rc : Z) (p : Proto),
    m_state (snd (route_loop X fuel inp rc_collected buf rc p)) = m_state p.
Proof.
  induction fuel as [|fuel IH]; intros inp c buf rc p; cbn [route_loop];
    pose proof (route_one_state inp c buf rc p) as H1;
    destruct (route_one X inp c buf rc p) as [[rest rc'] p']; cbn [snd] in H1.
  - by destruct rest.
  - destruct rest as [rest|]; [|done]. rewrite IH. exact H1.
Qed.

Lemma write_state (q : GWBUF) (p : Proto) (d : DCB) :
  m_state (snd (fst (write X srv q p d))) = m_state p.
Proof.
  unfold write, handle_persistent_connection, change_user, send_change_user_to_backend,
    writeq_append.
  pose proof (prepare_for_write_frame q p) as (Hprep & _). cbv zeta in Hprep.
  set (p1 := prepare_for_write q p) in *. clearbody p1.
  repeat case_match; simplify_eq; cbn; congruence.
Qed.

Lemma swallow_reply_state (buf : list byte) (p : Proto) (d : DCB) :
  m_state (snd (fst (swallow_reply X srv buf p d))) = m_state p.
Proof.
  unfold swallow_reply.
  destruct (modutil_get_next_MySQL_packet X buf) as [reply rest].
  destruct (last_packet X _ reply rest) as [r|]; [|reflexivity].
  destruct (get_command r =? MYSQL_REPLY_OK).
  - destruct (m_stored_query p) as [q|]; [|reflexivity].
    by rewrite write_state.
  - destruct (auth_change_requested r); [|reflexivity].
    match goal with
    | |- context [handle_auth_change_response X r ?p1 d] =>
        pose proof (handle_auth_change_response_state r p1 d) as H1;
          destruct (handle_auth_change_response X r p1 d) as [[ok p2] d2];
          cbn [fst snd] in H1
    end.
    destruct ok; cbn; exact H1.
Qed.

Lemma normal_read_state (inp : ReadInput) (p : Proto) (d : DCB) :
  m_state (snd (fst (normal_read X srv inp p d))) = m_state p.
Proof.
  unfold normal_read.
  destruct (read_return_code inp <? 0); [reflexivity|].
  destruct (read_data inp) as [[|b0 buf]|]; try reflexivity.
  pose proof (collect_packets_state inp (b0 :: buf) p (with_readq None d)) as Hc.
  destruct (collect_packets X inp (b0 :: buf) p (with_readq None d)) as [[c p1] d1].
  cbn [fst snd] in Hc.
  destruct c as [rc|buf1 collected]; [exact Hc|].
  set (stage := if Reply.m_changing_user (m_tracker p1) then _ else _).
  assert (Hstage : m_state (snd (fst stage)) = m_state p1).
  { subst stage. destruct (Reply.m_changing_user (m_tracker p1)); [|reflexivity].
    destruct (auth_change_requested buf1); [|reflexivity].
    pose proof (handle_auth_change_response_state buf1 p1 d1) as H1.
    destruct (handle_auth_change_response X buf1 p1 d1) as [[ok p2] d2].
    cbn [fst snd] in H1. destruct ok; exact H1. }
  destruct stage as [[[answered buf2] p2] d2]. cbn [fst snd] in Hstage.
  destruct answered; [cbn; congruence|].
  destruct (0 <? m_ignore_replies p2).
  - rewrite swallow_reply_state. congruence.
  - pose proof (route_loop_state (length buf2) inp collected buf2 (read_return_code inp) p2)
      as Hr.
    destruct (route_loop X (length buf2) inp collected buf2 (read_return_code inp) p2)
      as [rc p3].
    cbn [fst snd] in *. congruence.
Qed.

Lemma receiving_loop_state (d : DCB) (reads : list ProtocolRead) :
  forall (rval : StateMachineRes) (p : Proto),
    match receiving_loop d reads rval p with
    | Some (_, p', rest) => m_state p' = m_state p /\ exists used, reads = used ++ rest
    | None => True
    end.
Proof.
  induction reads as [|r reads IH]; intros rval p; cbn [receiving_loop].
  - destruct (_ <? _); [done|]. split; [done|]. by exists [].
  - destruct (_ <? _); [|split; [done|]; by exists []].
    destruct r as [| |data].
    + specialize (IH rval (do_handle_error d "Socket error" TRANSIENT p)).
      destruct (receiving_loop d reads rval _) as [[[r' p'] rest]|]; [|done].
      destruct IH as [H1 [used H2]]. split; [done|]. exists (ReadFailed :: used).
      by rewrite H2.
    + specialize (IH IN_PROGRESS p).
      destruct (receiving_loop d reads IN_PROGRESS p) as [[[r' p'] rest]|]; [|done].
      destruct IH as [H1 [used H2]]. split; [done|]. exists (NoPacket :: used).
      by rewrite H2.
    + destruct (String.eqb _ _).
      * match goal with
        | |- context [receiving_loop d reads rval ?p1] =>
            specialize (IH rval p1);
              destruct (receiving_loop d reads rval p1) as [[[r' p'] rest]|]; [|done]
        end.
        destruct IH as [H1 [used H2]]. split; [done|]. exists (Packet data :: used).
        by rewrite H2.
      * split; [done|]. by exists [Packet data].
Qed.

End StateFrame.

Section Progress.
Variable X : Externals.
Variable P : Protocol.
Variable srv : Server.
Variable sock : Socket.
Variable inp : ReadInput.

Lemma handshake_round_spec (read : ProtocolRead) (c : Connection) (d : DCB) :
  match handshake_round P sock read c d with
  | (Some _, c', _) => m_state (proto c') = m_state (proto c)
  | (None, c', _) =>
      m_state (proto c') = m_state (proto c)
      /\ (hs_rank (m_hs_state c) < hs_rank (m_hs_state c'))%nat
  end.
Proof.
  unfold handshake_round, writeq_append.
  pose proof (fun buffer => read_backend_handshake_frame buffer c) as Hframe.
  destruct (m_hs_state c) eqn:Hst; repeat case_match; simplify_eq;
    cbn [m_hs_state set_m_hs_state handle_error set_proto proto do_handle_error m_state
           set_upstream_calls hs_rank];
    try done; try (split; [done|lia]).
  all: match goal with
       | H : read_backend_handshake ?b _ = _ |- _ =>
           destruct (Hframe b) as (_ & _ & _ & _ & F); rewrite H in F; cbn [snd] in F
       end.
  all: split; [done|lia].
Qed.

Lemma handshake_ends (rounds : nat) (read : ProtocolRead) :
  forall (c : Connection) (d : DCB),
    (5 <= rounds + hs_rank (m_hs_state c))%nat ->
    exists rval c' d',
      handshake P rounds sock read c d = Some (rval, c', d')
      /\ m_state (proto c') = m_state (proto c).
Proof.
  induction rounds as [|rounds IH]; intros c d Hrounds.
  - destruct (m_hs_state c); cbn in Hrounds; lia.
  - cbn [handshake]. pose proof (handshake_round_spec read c d) as Hspec.
    destruct (handshake_round P sock read c d) as [[[rval|] c1] d1].
    + by eexists _, _, _.
    + destruct Hspec as [Hstate Hrank].
      destruct (IH c1 d1) as (rval & c' & d' & Heq & Hstate'); [lia|].
      eexists _, _, _. split; [exact Heq|]. congruence.
Qed.

Lemma authenticate_state (read : ProtocolRead) (c : Connection) (d : DCB) :
  m_state (proto (snd (fst (authenticate P read c d)))) = m_state (proto c).
Proof.
  unfold authenticate, handle_error_response, writeq_append.
  by repeat case_match.
Qed.

(** One round of [ready_for_reading] either ends the loop, in the state
    it found, or takes the connection to a later state. *)
Lemma ready_round_spec (reads : list ProtocolRead) (c : Connection) (d : DCB) :
  match ready_round X P srv sock inp reads c d with
  | Ends (true, c', d', rest) =>
      (rank (m_state (proto c)) < rank (m_state (proto c')))%nat
      /\ exists used, reads = used ++ rest
  | Ends (false, c', d', rest) =>
      m_state (proto c') = m_state (proto c)
      /\ m_state (proto c) <> SEND_DELAYQ
      /\ (exists used, reads = used ++ rest)
      /\ (m_state (proto c) = FAILED -> c' = c /\ d' = d /\ rest = reads)
  | Starved => (rank (m_state (proto c)) <= 2)%nat
  | Unfinished => False
  end.
Proof.
  unfold ready_round.
  destruct (m_state (proto c)) eqn:Hstate.
  - (* HANDSHAKING *)
    assert (Hrun : forall read rest,
              (exists used, reads = used ++ rest) ->
              match
                match handshake P 6 sock read c d with
                | None => Unfinished
                | Some (IN_PROGRESS, c, d) => Ends (false, c, d, rest)
                | Some (SM_DONE, c, d) => Ends (true, with_m_state AUTHENTICATING c, d, rest)
                | Some (SM_ERROR, c, d) => Ends (true, with_m_state FAILED c, d, rest)
                end
              with
              | Ends (true, c', d', rest') =>
                  (rank HANDSHAKING < rank (m_state (proto c')))%nat
                  /\ exists used, reads = used ++ rest'
              | Ends (false, c', d', rest') =>
                  m_state (proto c') = HANDSHAKING
                  /\ HANDSHAKING <> SEND_DELAYQ
                  /\ (exists used, reads = used ++ rest')
                  /\ (HANDSHAKING = FAILED -> c' = c /\ d' = d /\ rest' = reads)
              | Starved => (rank HANDSHAKING <= 2)%nat
              | Unfinished => False
              end).
    { intros read rest Hused.
      destruct (handshake_ends 6 read c d) as (rval & c' & d' & Heq & Hst); [lia|].
      rewrite Heq. destruct rval; cbn; [|split; [lia|done]..].
      split; [congruence|]. done. }
    destruct (m_hs_state c); try (apply Hrun; by exists []).
    destruct reads as [|read rest]; [cbn; lia|].
    apply Hrun. by exists [read].
  - (* AUTHENTICATING *)
    destruct reads as [|read rest]; [cbn; lia|].
    pose proof (authenticate_state read c d) as Hauth.
    destruct (authenticate P read c d) as [[rval c'] d']. cbn [fst snd] in Hauth.
    destruct rval; cbn.
    + split; [congruence|]. split; [done|]. split; [by exists [read]|done].
    + split; [lia|by exists [read]].
    + split; [lia|by exists [read]].
  - (* CONNECTION_INIT *)
    unfold send_connection_init_queries, writeq_append.
    destruct (iq_state (m_init_query_status (proto c))).
    + destruct (buffer_contents _); [cbn; split; [lia|by exists []]|].
      destruct (dcb_writable d); cbn; (split; [done|]); (split; [done|]);
        (split; [by exists []|done]).
    + pose proof (receiving_loop_state d reads SM_ERROR (proto c)) as Hloop.
      destruct (receiving_loop d reads SM_ERROR (proto c)) as [[[rval p'] rest]|];
        [|cbn; lia].
      destruct Hloop as [Hst Hused].
      destruct rval; cbn; [|split; [lia|done]..].
      split; [congruence|]. done.
  - (* SEND_DELAYQ *)
    destruct (send_delayed_packets X srv (proto c) d) as [p' d']. cbn.
    split; [lia|by exists []].
  - (* ROUTING *)
    pose proof (normal_read_state X srv inp (proto c) d) as Hread.
    destruct (normal_read X srv inp (proto c) d) as [[rc p'] d']. cbn [fst snd] in Hread.
    cbn. split; [congruence|]. split; [done|]. split; [by exists []|done].
  - (* FAILED *)
    split; [done|]. split; [done|]. split; [by exists []|done].
Qed.

(** X24.  [ready_for_reading] ends within six rounds of its loop and
    moves the connection forward only, in the order HANDSHAKING,
    AUTHENTICATING, CONNECTION_INIT, SEND_DELAYQ, ROUTING, FAILED: the
    state it leaves the connection in is not before the state it found,
    and never SEND_DELAYQ.  A FAILED connection is left as it is: nothing
    is read, written or changed.  The packets it does not use are the last
    of those that had arrived; it can only be short of packets when called
    in one of the first three states. *)
Theorem X24_ready_for_reading_progress
    (rounds : nat) (reads : list ProtocolRead) (c : Connection) (d : DCB) :
  (6 <= rounds)%nat ->
  match ready_for_reading X P srv sock inp rounds reads c d with
  | Ends (c', d', rest) =>
      (rank (m_state (proto c)) <= rank (m_state (proto c')))%nat
      /\ m_state (proto c') <> SEND_DELAYQ
      /\ (exists used, reads = used ++ rest)
      /\ (m_state (proto c) = FAILED -> c' = c /\ d' = d /\ rest = reads)
  | Starved => (rank (m_state (proto c)) <= 2)%nat
  | Unfinished => False
  end.
Proof.
  intros Hrounds.
  assert (Hgen : (6 <= rounds + rank (m_state (proto c)))%nat) by lia.
  clear Hrounds. revert reads c d Hgen.
  induction rounds as [|rounds IH]; intros reads c d Hgen.
  - destruct (m_state (proto c)); cbn in Hgen; lia.
  - cbn [ready_for_reading]. pose proof (ready_round_spec reads c d) as Hspec.
    destruct (ready_round X P srv sock inp reads c d)
      as [[[[[|] c1] d1] rest1]| |]; [| |done..].
    + destruct Hspec as [Hrank [used Hused]].
      specialize (IH rest1 c1 d1).
      destruct (ready_for_reading X P srv sock inp rounds rest1 c1 d1)
        as [[[c' d'] rest]| |].
      * destruct IH as (I1 & I2 & [used' I3] & I4); [lia|].
        split; [lia|]. split; [done|].
        split; [exists (used ++ used'); by rewrite Hused, I3, app_assoc|].
        intros Hfailed. rewrite Hfailed in Hrank. cbn in Hrank.
        destruct (m_state (proto c1)); cbn in Hrank; lia.
      * apply Nat.lt_le_incl. eapply Nat.lt_le_trans; [exact Hrank|]. apply IH. lia.
      * apply IH. lia.
    + destruct Hspec as (Hst & Hne & Hused & Hfailed).
      split; [rewrite Hst; lia|]. split; [congruence|]. done.
Qed.

End Progress.

(** The handshake of the server 5.5 as [fresh_connection] decodes it. *)
Lemma X20_server_handshake_decoding_witness :
  let c := snd (read_backend_handshake server_handshake fresh_connection) in
  m_thread_id c = 258
  /\ server_capabilities c = 2181036031
  /\ m_scramble (proto c)
     = [Byte.x01; Byte.x02; Byte.x03; Byte.x04; Byte.x05; Byte.x06; Byte.x07; Byte.x08;
        Byte.x09; Byte.x0a; Byte.x0b; Byte.x0c; Byte.x0d; Byte.x0e; Byte.x0f; Byte.x10;
        Byte.x11; Byte.x12; Byte.x13; Byte.x14].
Proof.
  destruct (X20_server_handshake_decoding
              [Byte.x35; Byte.x2e; Byte.x35]
              [Byte.x01; Byte.x02; Byte.x03; Byte.x04; Byte.x05; Byte.x06; Byte.x07;
               Byte.x08]
              (repeat Byte.x00 10)
              [Byte.x09; Byte.x0a; Byte.x0b; Byte.x0c; Byte.x0d; Byte.x0e; Byte.x0f;
               Byte.x10; Byte.x11; Byte.x12; Byte.x13; Byte.x14]
              [Byte.x00]
              Byte.x02 Byte.x01 Byte.x00 Byte.x00 Byte.x00 Byte.xff Byte.xf7 Byte.x21
              Byte.x02 Byte.x00 Byte.xff Byte.x81 Byte.x15 fresh_connection)
    as [H _].
  - repeat constructor; vm_compute; discriminate.
  - reflexivity.
  - reflexivity.
  - vm_compute. discriminate.
  - reflexivity.
  - unfold read_backend_handshake.
    change (drop 4 server_handshake) with
      (Byte.x0a :: [Byte.x35; Byte.x2e; Byte.x35] ++ Byte.x00 :: Byte.x02 :: Byte.x01
         :: Byte.x00 :: Byte.x00
         :: [Byte.x01; Byte.x02; Byte.x03; Byte.x04; Byte.x05; Byte.x06; Byte.x07;
             Byte.x08]
         ++ Byte.x00 :: Byte.xff :: Byte.xf7 :: Byte.x21 :: Byte.x02 :: Byte.x00
         :: Byte.xff :: Byte.x81 :: Byte.x15 :: repeat Byte.x00 10
         ++ [Byte.x09; Byte.x0a; Byte.x0b; Byte.x0c; Byte.x0d; Byte.x0e; Byte.x0f;
             Byte.x10; Byte.x11; Byte.x12; Byte.x13; Byte.x14] ++ [Byte.x00]).
    rewrite H. split; [reflexivity|]. split; reflexivity.
Defined.

(** A server with an SSL context: the first call leaves [fresh_connection]
    waiting for the TLS handshake, with the SSLRequest written. *)
Lemma X21_handshake_outcome_witness :
  exists c' d',
    handshake mysql_protocol 6 (tls_socket HANDSHAKE_REQUIRED) (Packet server_handshake)
      fresh_connection (polling_dcb true) = Some (IN_PROGRESS, c', d')
    /\ m_hs_state c' = SSL_NEG /\ length (dcb_writeq d') = 1%nat.
Proof.
  destruct (X21_handshake_outcome mysql_protocol 6 (tls_socket HANDSHAKE_REQUIRED)
              (Packet server_handshake) fresh_connection (polling_dcb true))
    as (rval & c' & d' & sent & errs & Heq & _).
  - lia.
  - by left.
  - eexists _, _. split; [reflexivity|]. split; reflexivity.
Defined.

Lemma X22_handshake_completes_witness :
  exists c' d',
    handshake mysql_protocol 6 (tls_socket ESTABLISHED) NoPacket
      (set_m_hs_state SSL_NEG
         (snd (read_backend_handshake server_handshake fresh_connection)))
      (snd (writeq_append
              (generate_auth_response mysql_protocol
                 (snd (read_backend_handshake server_handshake fresh_connection))
                 true false 0)
              (polling_dcb true)))
    = Some (SM_DONE, c', d')
    /\ m_hs_state c' = COMPLETE /\ length (dcb_writeq d') = 2%nat.
Proof.
  destruct (X22_handshake_completes mysql_protocol 6
              {| server_name := "server1"; ssl_context := false; ssl_handshake := 0;
                 ssl_state := HANDSHAKE_UNKNOWN; dcb_service_capabilities := 0 |}
              (tls_socket HANDSHAKE_REQUIRED) (tls_socket ESTABLISHED)
              server_handshake NoPacket fresh_connection (polling_dcb true))
    as (_ & (d1 & d2 & H1 & H2 & H3 & H4) & _).
  - lia.
  - reflexivity.
  - reflexivity.
  - reflexivity.
  - reflexivity.
  - split; [reflexivity|]. split; [cbn; lia|reflexivity].
  - split; reflexivity.
  - eexists _, _. split; [reflexivity|]. split; reflexivity.
Defined.


(** A connection that has failed is left alone, whatever has arrived. *)
Lemma X24_ready_for_reading_progress_witness :
  ready_for_reading test_externals mysql_protocol (pooling_server 2) plain_socket
    nothing_to_read 6 [Packet ok_packet] (with_m_state FAILED fresh_connection)
    (polling_dcb true)
  = Ends (with_m_state FAILED fresh_connection, polling_dcb true, [Packet ok_packet]).
Proof.
  pose proof (X24_ready_for_reading_progress test_externals mysql_protocol
                (pooling_server 2) plain_socket nothing_to_read 6 [Packet ok_packet]
                (with_m_state FAILED fresh_connection) (polling_dcb true)) as H.
  destruct (ready_for_reading _ _ _ _ _ _ _ _ _) as [[[c' d'] rest]| |].
  - destruct H as (_ & _ & _ & H); [lia|].
    destruct H as (-> & -> & ->); reflexivity.
  - exfalso. assert (H6 : (6 <= 6)%nat) by lia. apply H in H6. cbn in H6. lia.
  - exfalso. apply H. lia.
Defined.

End HandshakeExtras.

Module ServerInfoExtras.
Import Bytes ServerInfo.

Lemma c_string_no_nul (l : list byte) : Forall (fun b => u8 b <> 0) (c_string l).
Proof.
  induction l as [|b l IH]; cbn [c_string]; [constructor|].
  destruct (Z.eqb_spec (u8 b) 0); [constructor|]. by constructor.
Qed.

Lemma c_string_length (l : list byte) : (length (c_string l) <= length l)%nat.
Proof.
  induction l as [|b l IH]; cbn [c_string]; [done|].
  destruct (u8 b =? 0); cbn [length]; lia.
Qed.

Lemma c_string_zeros (s : list byte) (n : nat) :
  Forall (fun b => u8 b <> 0) s -> c_string (s ++ repeat Byte.x00 n) = s.
Proof.
  induction 1 as [|b s Hb _ IH]; cbn [app c_string].
  - by destruct n.
  - destruct (Z.eqb_spec (u8 b) 0); [done|]. by rewrite IH.
Qed.

Lemma c_string_all (s : list byte) :
  Forall (fun b => u8 b <> 0) s -> c_string s = s.
Proof.
  intros H. rewrite <- (app_nil_r s) at 1. apply (c_string_zeros s 0 H).
Qed.

Lemma take_no_nul (n : nat) (s : list byte) :
  Forall (fun b => u8 b <> 0) s -> Forall (fun b => u8 b <> 0) (take n s).
Proof. apply Forall_take. Qed.

(** The array after [careful_strcpy], byte by byte. *)
Lemma careful_strcpy_bytes (dest source : list byte) (max_len : Z) :
  0 <= max_len ->
  zero_padded max_len dest ->
  let stored := take (Z.to_nat max_len) (c_string source) in
  careful_strcpy dest max_len source
  = stored ++ repeat Byte.x00 (Z.to_nat (max_len + 1) - length stored).
Proof.
  intros Hmax (Hlen & Hold & Hdest) stored.
  unfold strlen, zlength in *.
  set (s := c_string dest) in *.
  set (K := Z.to_nat (max_len + 1 - Z.of_nat (length s))) in *.
  pose proof (c_string_length source) as Hsrc.
  unfold careful_strcpy, strlen, zlength. fold s. clearbody s.
  set (new_len := if max_len <? Z.of_nat (length source) then _ else _).
  assert (Hnew : 0 <= new_len <= max_len /\ new_len <= Z.of_nat (length source)).
  { subst new_len. destruct (Z.ltb_spec max_len (Z.of_nat (length source))); lia. }
  assert (Hstored : stored = take (Z.to_nat new_len) (c_string source)).
  { subst stored new_len.
    destruct (Z.ltb_spec max_len (Z.of_nat (length source))); [done|].
    rewrite !take_ge by lia. done. }
  assert (Htail : drop (Z.to_nat new_len)
                    (if new_len <? Z.of_nat (length s)
                     then memset_zero new_len (Z.of_nat (length s) - new_len) dest
                     else dest)
                  = repeat Byte.x00 (Z.to_nat (max_len + 1 - new_len))
                  /\ length (if new_len <? Z.of_nat (length s)
                            then memset_zero new_len (Z.of_nat (length s) - new_len) dest
                            else dest)
                     = Z.to_nat (max_len + 1)).
  { destruct (Z.ltb_spec new_len (Z.of_nat (length s))) as [Hlt|Hge].
    - unfold memset_zero. split; [|rewrite CapabilitiesFacts.poke_length; lia].
      unfold poke. rewrite repeat_length.
      rewrite drop_app_length' by (rewrite length_take; lia).
      rewrite take_ge by (rewrite repeat_length; lia).
      replace (Z.to_nat new_len + Z.to_nat (Z.of_nat (length s) - new_len))%nat
        with (length s) by lia.
      rewrite Hdest, drop_app_length.
      rewrite <- repeat_app. f_equal. lia.
    - split; [|lia]. rewrite Hdest.
      replace (Z.to_nat new_len) with (length s + (Z.to_nat new_len - length s))%nat by lia.
      rewrite drop_app_add, CapabilitiesExtras.drop_zeros. f_equal. lia. }
  destruct Htail as [Htail Hlen1].
  set (d1 := if new_len <? Z.of_nat (length s) then _ else _) in *. clearbody d1.
  unfold strncpy. rewrite <- Hstored.
  assert (Hls : (length stored <= Z.to_nat new_len)%nat).
  { rewrite Hstored, length_take. lia. }
  unfold poke. change (Z.to_nat 0) with 0%nat. cbn [take app Nat.add].
  rewrite ?Nat.sub_0_r, ?length_app, ?repeat_length, take_0. cbn [app].
  rewrite take_ge by (rewrite ?length_app, ?repeat_length; lia).
  replace (length stored + (Z.to_nat new_len - length stored))%nat
    with (Z.to_nat new_len) by lia.
  rewrite Htail, <- app_assoc, <- repeat_app. do 2 f_equal. lia.
Qed.

Lemma careful_strcpy_stored (dest source : list byte) (max_len : Z) :
  0 <= max_len ->
  zero_padded max_len dest ->
  let dest' := careful_strcpy dest max_len source in
  c_string dest' = take (Z.to_nat max_len) (c_string source)
  /\ zero_padded max_len dest'.
Proof.
  intros Hmax Hpad dest'.
  pose proof (careful_strcpy_bytes dest source max_len Hmax Hpad) as Hbytes.
  cbv zeta in Hbytes. fold dest' in Hbytes.
  set (stored := take (Z.to_nat max_len) (c_string source)) in *.
  assert (Hnn : Forall (fun b => u8 b <> 0) stored)
    by apply take_no_nul, c_string_no_nul.
  assert (Hls : (length stored <= Z.to_nat max_len)%nat).
  { subst stored. rewrite length_take. lia. }
  assert (Hc : c_string dest' = stored) by (rewrite Hbytes; by apply c_string_zeros).
  split; [done|].
  unfold zero_padded, strlen, zlength. rewrite Hc.
  split; [rewrite Hbytes, length_app, repeat_length; lia|].
  split; [lia|].
  rewrite Hbytes at 1. do 2 f_equal. lia.
Qed.

(** X26.  [careful_strcpy] on an array of [max_len + 1] bytes that holds a
    C string followed by zeros only: afterwards the array holds the source
    string, cut at its first NUL and after [max_len] bytes, again followed
    by zeros only; its length is unchanged and its last byte is still NUL.
    So the string read back is the one stored, and the array is fit for
    the next call. *)
Theorem X26_careful_strcpy (dest source : list byte) (max_len : Z) :
  0 <= max_len ->
  zero_padded max_len dest ->
  let dest' := careful_strcpy dest max_len source in
  c_string dest' = take (Z.to_nat max_len) (c_string source)
  /\ zero_padded max_len dest'
  /\ (zlength source <= max_len -> Forall (fun b => u8 b <> 0) source ->
      c_string dest' = source).
Proof.
  intros Hmax Hpad dest'.
  destruct (careful_strcpy_stored dest source max_len Hmax Hpad) as [Hc Hpad'].
  fold dest' in Hc, Hpad'.
  split; [done|]. split; [done|].
  intros Hfit Hsrc. rewrite Hc.
  rewrite c_string_all by done. unfold zlength in Hfit. apply take_ge. lia.
Qed.

Lemma new_array_zero_padded (max_len : Z) :
  0 <= max_len -> zero_padded max_len (repeat Byte.x00 (Z.to_nat (max_len + 1))).
Proof.
  intros Hmax. unfold zero_padded, strlen, zlength.
  assert (Hc : c_string (repeat Byte.x00 (Z.to_nat (max_len + 1))) = []).
  { destruct (Z.to_nat (max_len + 1)) eqn:E; [lia|]. done. }
  rewrite Hc, repeat_length. cbn [length app]. split; [lia|]. split; [lia|].
  f_equal. lia.
Qed.

(** X27.  [Server::VersionInfo::set] for a version number below
    4294970000: the numeric version is split into major = version / 10000,
    minor = (version mod 10000) / 100 and patch = version mod 100, so that
    major * 10000 + minor * 100 + patch is the version again; the version
    string read back is the string given, cut at its first NUL and after
    MAX_VERSION_LEN bytes, and the array stays a C string followed by
    zeros.  The type is CLUSTRIX when the string contains clustrix in any
    case of letters, also when it contains mariadb as well. *)
Theorem X27_version_info_set (version : Z) (version_str : list byte) (v : VersionInfo) :
  0 <= version < 4294970000 ->
  zero_padded MAX_VERSION_LEN (m_version_str v) ->
  let v' := set version version_str v in
  total v' = version
  /\ major v' = version / 10000
  /\ minor v' = version mod 10000 / 100
  /\ patch v' = version mod 100
  /\ major v' * 10000 + minor v' * 100 + patch v' = version
  /\ version_string v' = take (Z.to_nat MAX_VERSION_LEN) (c_string version_str)
  /\ zero_padded MAX_VERSION_LEN (m_version_str v')
  /\ (strcasestr (c_string version_str) clustrix_name = true -> m_type v' = CLUSTRIX).
Proof.
  intros Hversion Hpad v'.
  destruct (careful_strcpy_stored (m_version_str v) version_str MAX_VERSION_LEN)
    as (Hc & Hpad'); [done|done|].
  subst v'. unfold set, version_string. cbn [total major minor patch m_type m_version_str].
  assert (Hmajor : u32 (version / 10000) = version / 10000).
  { apply CapabilitiesFacts.u32_small. split; [apply Z.div_pos; lia|].
    apply Z.div_lt_upper_bound; lia. }
  rewrite Hmajor.
  assert (Hprod : u32 (version / 10000 * 10000) = version / 10000 * 10000).
  { apply CapabilitiesFacts.u32_small.
    pose proof (Z.div_mod version 10000 ltac:(lia)).
    pose proof (Z.mod_pos_bound version 10000 ltac:(lia)).
    assert (0 <= version / 10000) by (apply Z.div_pos; lia).
    assert (version / 10000 <= 429496)
      by (apply Z.lt_succ_r, Z.div_lt_upper_bound; lia).
    change (2 ^ 32) with 4294967296. lia. }
  rewrite Hprod.
  assert (Hrest : version - version / 10000 * 10000 = version mod 10000)
    by (rewrite Z.mod_eq by lia; lia).
  rewrite Hrest.
  pose proof (Z.mod_pos_bound version 10000 ltac:(lia)) as Hm.
  assert (Hu64 : u64 (version mod 10000) = version mod 10000).
  { unfold u64. apply Z.mod_small. change (2 ^ 64) with 18446744073709551616. lia. }
  rewrite Hu64.
  assert (Hminor_range : 0 <= version mod 10000 / 100 < 100).
  { split; [apply Z.div_pos; lia|apply Z.div_lt_upper_bound; lia]. }
  assert (Hminor : u32 (version mod 10000 / 100) = version mod 10000 / 100).
  { apply CapabilitiesFacts.u32_small. change (2 ^ 32) with 4294967296. lia. }
  rewrite Hminor.
  assert (Hprod2 : u32 (version mod 10000 / 100 * 100) = version mod 10000 / 100 * 100).
  { apply CapabilitiesFacts.u32_small. change (2 ^ 32) with 4294967296. lia. }
  rewrite Hprod2.
  assert (Hpatch : version mod 10000 - version mod 10000 / 100 * 100 = version mod 100).
  { assert (H : version mod 100 = version mod 10000 mod 100).
    { rewrite (Z.div_mod version 10000) at 1 by lia.
      replace (10000 * (version / 10000) + version mod 10000)
        with (version mod 10000 + 100 * (version / 10000) * 100) by lia.
      apply Z.mod_add. lia. }
    rewrite H, (Z.mod_eq (version mod 10000) 100) by lia. lia. }
  rewrite Hpatch.
  pose proof (Z.mod_pos_bound version 100 ltac:(lia)) as Hp.
  assert (Hu64' : u64 (version mod 100) = version mod 100).
  { unfold u64. apply Z.mod_small. change (2 ^ 64) with 18446744073709551616. lia. }
  rewrite Hu64'.
  assert (Hu32' : u32 (version mod 100) = version mod 100).
  { apply CapabilitiesFacts.u32_small. change (2 ^ 32) with 4294967296. lia. }
  rewrite Hu32'.
  split; [done|]. split; [done|]. split; [done|]. split; [done|].
  split; [lia|]. split; [done|]. split; [done|].
  by intros ->.
Qed.

Lemma call_setter_zero_padded (op : Setter) (s : Settings) :
  settings_zero_padded s -> settings_zero_padded (snd (call_setter op s)).
Proof.
  intros (Ha & Hu & Hp).
  destruct op as [a|u|p]; cbn [call_setter];
    unfold set_address, set_monitor_user, set_monitor_password;
    case_match; cbn [snd]; try done.
  - split; [|done]. by apply careful_strcpy_stored.
  - split; [done|]. split; [|done]. by apply careful_strcpy_stored.
  - split; [done|]. split; [done|]. by apply careful_strcpy_stored.
Qed.

Lemma call_setters_zero_padded (ops : list Setter) : forall s : Settings,
  settings_zero_padded s -> settings_zero_padded (call_setters ops s).
Proof.
  induction ops as [|op ops IH]; intros s Hs; [done|].
  cbn [call_setters fold_left]. apply IH. by apply call_setter_zero_padded.
Qed.

(** X28.  The address, the monitor user and the monitor password of a
    server, after any sequence of calls of their setters on a new server:
    a value longer than the array allows is refused, the setter returns
    false and the settings stay as they are; any other value is accepted,
    and what is then read back is the value up to its first NUL, the two
    other settings being unchanged.  The arrays always hold a C string
    followed by zeros only. *)
Theorem X28_server_settings (ops : list Setter) (value : list byte) :
  let s := call_setters ops new_settings in
  settings_zero_padded s
  /\ (MAX_ADDRESS_LEN < zlength value -> set_address value s = (false, s))
  /\ (MAX_MONUSER_LEN < zlength value -> set_monitor_user value s = (false, s))
  /\ (MAX_MONPW_LEN < zlength value -> set_monitor_password value s = (false, s))
  /\ (zlength value <= MAX_ADDRESS_LEN ->
      let r := set_address value s in
      fst r = true /\ server_address (snd r) = c_string value
      /\ monitor_user (snd r) = monitor_user s
      /\ monitor_password (snd r) = monitor_password s)
  /\ (zlength value <= MAX_MONUSER_LEN ->
      let r := set_monitor_user value s in
      fst r = true /\ monitor_user (snd r) = c_string value
      /\ server_address (snd r) = server_address s
      /\ monitor_password (snd r) = monitor_password s)
  /\ (zlength value <= MAX_MONPW_LEN ->
      let r := set_monitor_password value s in
      fst r = true /\ monitor_password (snd r) = c_string value
      /\ server_address (snd r) = server_address s
      /\ monitor_user (snd r) = monitor_user s).
Proof.
  intros s.
  assert (Hs : settings_zero_padded s).
  { apply call_setters_zero_padded.
    split; [|split]; by apply new_array_zero_padded. }
  destruct Hs as (Ha & Hu & Hp).
  pose proof (c_string_length value) as Hvalue.
  assert (Hread : forall max_len dest,
            0 <= max_len -> zlength value <= max_len -> zero_padded max_len dest ->
            c_string (careful_strcpy dest max_len value) = c_string value).
  { intros max_len dest Hmax Hfit Hpad.
    destruct (careful_strcpy_stored dest value max_len Hmax Hpad) as [-> _].
    unfold zlength in Hfit. apply take_ge. lia. }
  split; [done|].
  unfold set_address, set_monitor_user, set_monitor_password, server_address,
    monitor_user, monitor_password.
  split; [intros Hlong; case_match; [lia|done]|].
  split; [intros Hlong; case_match; [lia|done]|].
  split; [intros Hlong; case_match; [lia|done]|].
  split; [|split].
  all: intros Hfit; case_match; try lia; cbn [fst snd address monuser monpw].
  all: repeat (split; try done).
  all: by apply Hread.
Qed.

Lemma set_gtid_list_other (domains : list (Z * Z)) : forall (gtids : gmap Z Z) (domain : Z),
  (forall p, p ∈ domains -> p.1 <> domain) ->
  set_gtid_list domains gtids !! domain = gtids !! domain.
Proof.
  induction domains as [|p domains IH]; intros gtids domain Hother; [done|].
  cbn [set_gtid_list fold_left]. fold (set_gtid_list domains (<[p.1:=p.2]> gtids)).
  rewrite IH by (intros q Hq; apply Hother; by right).
  apply lookup_insert_ne. apply Hother. by left.
Qed.

(** X30.  The GTID positions of a server.  After the task of
    [set_gtid_list] has run, [gtid_pos] of a domain is the sequence number
    of the last pair given for this domain, and what it was before for a
    domain that is not among the pairs; a domain that was never set, and
    every domain after [clear_gtid_list], has position 0. *)
Theorem X30_gtid_positions (domains : list (Z * Z)) (gtids : gmap Z Z) (domain : Z) :
  (forall before after pos,
     domains = before ++ (domain, pos) :: after ->
     (forall p, p ∈ after -> p.1 <> domain) ->
     gtid_pos domain (set_gtid_list domains gtids) = pos)
  /\ ((forall p, p ∈ domains -> p.1 <> domain) ->
      gtid_pos domain (set_gtid_list domains gtids) = gtid_pos domain gtids)
  /\ gtid_pos domain (set_gtid_list domains ∅)
     = gtid_pos domain (set_gtid_list domains (clear_gtid_list gtids))
  /\ gtid_pos domain (clear_gtid_list (set_gtid_list domains gtids)) = 0.
Proof.
  unfold gtid_pos. split; [|split; [|done]].
  - intros before after pos -> Hafter.
    unfold set_gtid_list. rewrite fold_left_app. cbn [fold_left fst snd].
    match goal with
    | |- context [fold_left _ after ?g] =>
        change (fold_left _ after g) with (set_gtid_list after g)
    end.
    rewrite set_gtid_list_other by done.
    by rewrite lookup_insert_eq.
  - intros Hother. by rewrite set_gtid_list_other.
Qed.

(** bob as the monitor user after an address was set. *)
Lemma X28_server_settings_witness :
  monitor_user
    (snd (set_monitor_user [Byte.x62; Byte.x6f; Byte.x62]
            (call_setters [SetAddress [Byte.x64; Byte.x62]; SetMonitorUser [Byte.x61]]
               new_settings)))
  = [Byte.x62; Byte.x6f; Byte.x62].
Proof.
  destruct (X28_server_settings [SetAddress [Byte.x64; Byte.x62]; SetMonitorUser [Byte.x61]]
              [Byte.x62; Byte.x6f; Byte.x62]) as (_ & _ & _ & _ & _ & H & _).
  destruct H as (_ & H & _); [unfold zlength, MAX_MONUSER_LEN; cbn; lia|].
  exact H.
Defined.

(** A version string that replaces a longer one. *)
Lemma X26_careful_strcpy_witness :
  c_string
    (careful_strcpy
       ([Byte.x61; Byte.x62; Byte.x63; Byte.x64] ++ repeat Byte.x00 5) 8
       [Byte.x78; Byte.x79])
  = [Byte.x78; Byte.x79].
Proof.
  destruct (X26_careful_strcpy
              ([Byte.x61; Byte.x62; Byte.x63; Byte.x64] ++ repeat Byte.x00 5)
              [Byte.x78; Byte.x79] 8) as (H & _).
  - lia.
  - unfold zero_padded, strlen, zlength. cbn. split; [lia|]. split; [lia|reflexivity].
  - exact H.
Defined.

(** The version 10.4.11 of a MariaDB server. *)
Lemma X27_version_info_set_witness :
  let v := set 100411 version_10_4_11 new_version_info in
  (major v, minor v, patch v) = (10, 4, 11)
  /\ version_string v = version_10_4_11.
Proof.
  destruct (X27_version_info_set 100411 version_10_4_11 new_version_info)
    as (_ & H1 & H2 & H3 & _ & H4 & _).
  - lia.
  - apply new_array_zero_padded. unfold MAX_VERSION_LEN. lia.
  - cbv zeta. rewrite H1, H2, H3, H4. split; reflexivity.
Defined.

End ServerInfoExtras.

Module ClustrixMonitorExtras.
Import ClustrixNode ClustrixMonitor.

Section Facts.
Variables SERVER_MASTER SERVER_RUNNING : Z.

Local Abbreviation MR := (MASTER_RUNNING SERVER_MASTER SERVER_RUNNING).
Local Abbreviation set_running' := (set_running SERVER_MASTER SERVER_RUNNING).
Local Abbreviation node_inv := (node_invariant SERVER_MASTER SERVER_RUNNING).

Lemma set_running_invariant (id t : Z) (l : list persister_call) (running : bool)
    (approach : approach_t) (n : node) :
  0 < t -> node_inv id t l n -> node_inv id t l (set_running' running approach n).
Proof.
  intros Ht [Hid Hth Hrange (k & Hlog & Hrun) Hstatus].
  unfold is_running in *. unfold set_running.
  destruct running.
  - destruct (Z.eqb_spec (m_nRunning n) 0) as [H0|H0];
      cbn [m_id m_health_check_threshold m_nRunning server_status persister_log].
    + split; unfold is_running;
        cbn [m_id m_health_check_threshold m_nRunning server_status persister_log];
        try done; try lia.
      * exists (S k). rewrite Hlog, Hid, <- app_assoc. split.
        -- cbn [persister_cycle]. rewrite <- !app_assoc. do 3 f_equal.
           rewrite H0 in Hrun. cbn in Hrun.
           rewrite Nat.even_succ, <- Nat.negb_even, <- Hrun. done.
        -- rewrite Hth. rewrite H0 in Hrun. cbn in Hrun.
           rewrite Nat.even_succ, <- Nat.negb_even, <- Hrun.
           cbn. by apply Z.ltb_lt.
      * rewrite Hth. destruct (Z.ltb_spec 0 t); [|lia].
        apply ClustrixNodeFacts.set_bits.
    + split; unfold is_running;
        cbn [m_id m_health_check_threshold m_nRunning server_status persister_log];
        try done; try lia.
      * exists k. split; [done|]. rewrite Hth, <- Hrun.
        destruct (Z.ltb_spec 0 t), (Z.ltb_spec 0 (m_nRunning n)); lia || done.
      * rewrite Hth. destruct (Z.ltb_spec 0 t); [|lia].
        destruct (Z.ltb_spec 0 (m_nRunning n)); [done|lia].
  - destruct (0 <? m_nRunning n) eqn:Epos;
      [|split; unfold is_running; rewrite ?Epos; try done; exists k; by rewrite ?Epos].
    assert (Hpos : 0 < m_nRunning n) by (by apply Z.ltb_lt).
    set (c := match approach with APPROACH_OVERRIDE => 0 | APPROACH_DEFAULT => _ end).
    assert (Hc : 0 <= c < m_nRunning n) by (subst c; destruct approach; lia).
    destruct (Z.eqb_spec c 0) as [H0|H0];
      split; unfold is_running;
      cbn [m_id m_health_check_threshold m_nRunning server_status persister_log];
      try done; try lia.
    + exists (S k). rewrite Hlog, Hid, <- app_assoc. split.
      * cbn [persister_cycle]. rewrite <- !app_assoc. do 3 f_equal.
        rewrite Nat.even_succ, <- Nat.negb_even, <- Hrun. done.
      * rewrite Nat.even_succ, <- Nat.negb_even, <- Hrun, H0. done.
    + rewrite H0. cbn. apply ClustrixNodeFacts.cleared_bits.
    + exists k. split; [done|]. rewrite <- Hrun. by apply Z.ltb_lt; lia.
    + destruct (Z.ltb_spec 0 c); [done|lia].
Qed.

(** X25.  A node created with a positive health-check threshold, after
    any sequence of calls of [set_running], with either approach: the
    countdown stays between 0 and the threshold; the calls the node has
    made on its persister alternate between [persist] and [unpersist],
    beginning with the [persist] of the constructor, and the last one is
    [persist] exactly when the node is running; the server has both bits
    MASTER and RUNNING set when the node is running and both cleared when
    it is not. *)
Theorem X25_node_persisted_while_running
    (id t status0 : Z) (log0 : list persister_call) (calls : list (bool * approach_t)) :
  0 < t ->
  let n :=
    set_running_each SERVER_MASTER SERVER_RUNNING calls
      (create SERVER_MASTER SERVER_RUNNING id t status0 log0) in
  0 <= m_nRunning n <= t
  /\ (exists k : nat,
        persister_log n = log0 ++ persister_cycle id (S k)
        /\ is_running n = Nat.even k
        /\ last (persister_log n)
           = Some (if is_running n then persist id else unpersist id))
  /\ (if is_running n then Z.land (server_status n) MR = MR
      else Z.land (server_status n) MR = 0).
Proof.
  intros Ht n.
  assert (Hinv : node_inv id t log0 n).
  { subst n. unfold set_running_each.
    assert (H0 : node_inv id t log0
                   (create SERVER_MASTER SERVER_RUNNING id t status0 log0)).
    { split; cbn; try done; try lia.
      - exists 0%nat. split; [done|]. unfold is_running. cbn. by apply Z.ltb_lt.
      - unfold is_running. cbn. destruct (Z.ltb_spec 0 t); [|lia].
        apply ClustrixNodeFacts.set_bits. }
    revert H0. generalize (create SERVER_MASTER SERVER_RUNNING id t status0 log0).
    induction calls as [|[running approach] calls IH]; intros n0 H0; [done|].
    cbn [fold_left]. apply IH. by apply set_running_invariant. }
  destruct Hinv as [Hid Hth Hrange (k & Hlog & Hrun) Hstatus].
  split; [done|]. split; [|done].
  exists k. split; [done|]. split; [done|].
  rewrite Hlog. cbn [persister_cycle]. rewrite app_assoc, last_snoc, Hrun. done.
Qed.

Local Abbreviation ping_fail :=
  (set_running SERVER_MASTER SERVER_RUNNING false APPROACH_DEFAULT).
Local Abbreviation pings_fail := (failed_pings SERVER_MASTER SERVER_RUNNING).
Local Abbreviation check := (check_http_ready SERVER_MASTER SERVER_RUNNING).
Local Abbreviation checks := (health_checks SERVER_MASTER SERVER_RUNNING).

(** A health check that fails for a node. *)
Local Abbreviation all_fail nodes results :=
  (length results = length nodes /\ Forall (fun code : Z => code <> 200) results).

Lemma ping_fail_countdown (n : node) :
  m_nRunning (ping_fail n)
  = (if 0 <? m_nRunning n then m_nRunning n - 1 else m_nRunning n)
  /\ is_running (ping_fail n) = (1 <? m_nRunning n).
Proof.
  unfold set_running, is_running.
  destruct (Z.ltb_spec 0 (m_nRunning n)); [|split; [done|]].
  - destruct (Z.eqb_spec (m_nRunning n - 1) 0); cbn [m_nRunning]; split; try done.
    + destruct (Z.ltb_spec 0 (m_nRunning n - 1)), (Z.ltb_spec 1 (m_nRunning n)); lia || done.
    + destruct (Z.ltb_spec 0 (m_nRunning n - 1)), (Z.ltb_spec 1 (m_nRunning n)); lia || done.
  - destruct (Z.ltb_spec 0 (m_nRunning n)), (Z.ltb_spec 1 (m_nRunning n)); lia || done.
Qed.

(** One health check that fails for every node. *)
Lemma check_all_fail (results : list Z) : forall (nodes : list node) (triggers : nat),
  all_fail nodes results ->
  let r := check results nodes triggers in
  r.1 = map ping_fail nodes
  /\ (triggers <= r.2)%nat
  /\ ((forall n, n ∈ nodes -> 1 < m_nRunning n) -> r.2 = triggers)
  /\ (forall n, n ∈ nodes -> m_nRunning n <= 1 -> (triggers < r.2)%nat).
Proof.
  induction results as [|code results IH]; intros [|node nodes] triggers [Hlen Hfail];
    try done.
  - cbn. split; [done|]. split; [done|]. split; [done|].
    intros n Hn. by apply elem_of_nil in Hn.
  - cbn [check_http_ready]. apply Forall_cons in Hfail as [Hcode Hfail].
    destruct (Z.eqb_spec code 200) as [|_]; [done|]. cbn [negb andb].
    destruct (ping_fail_countdown node) as [_ Hrun]. rewrite Hrun.
    match goal with
    | |- context [check results nodes ?tr] =>
        specialize (IH nodes tr);
          destruct (check results nodes tr) as [nodes' triggers'] eqn:Hcheck
    end.
    destruct IH as (I1 & I2 & I3 & I4); [split; [cbn in Hlen; lia|done]|].
    cbn [fst snd] in *. cbn [map]. split; [by rewrite I1|].
    destruct (Z.ltb_spec 1 (m_nRunning node)) as [Hup|Hdown]; cbn [negb] in *.
    + split; [done|]. split.
      * intros Hall. apply I3. intros n Hn. apply Hall. by right.
      * intros n Hn Hle. apply elem_of_cons in Hn as [->|Hn]; [lia|]. by apply I4 with n.
    + split; [lia|]. split.
      * intros Hall. assert (1 < m_nRunning node) by (apply Hall; by left). lia.
      * intros n Hn Hle. lia.
Qed.

Lemma pings_fail_countdown (k : nat) : forall n : node,
  m_nRunning (pings_fail k n)
  = (if 0 <? m_nRunning n then Z.max 0 (m_nRunning n - Z.of_nat k) else m_nRunning n).
Proof. intros n. by destruct (ClustrixNodeFacts.pings_fail_spec SERVER_MASTER SERVER_RUNNING k n). Qed.

(** X29.  Health checks that fail for every node, one after the other:
    each takes one off the countdown of every node that is running.  No
    cluster check is triggered as long as fewer checks have failed than
    the lowest countdown among the nodes; a check after which a node is
    down triggers one.  So a node whose health check fails is taken for
    down, and the cluster checked, only at the failure that brings its
    countdown (which starts at [health_check_threshold]) to 0. *)
Theorem X29_cluster_check_after_threshold
    (rounds : list (list Z)) (nodes : list node) (triggers : nat) :
  Forall (fun results => all_fail nodes results) rounds ->
  let k := length rounds in
  let r := checks rounds nodes triggers in
  r.1 = map (pings_fail k) nodes
  /\ (triggers <= r.2)%nat
  /\ ((forall n, n ∈ nodes -> Z.of_nat k < m_nRunning n) -> r.2 = triggers)
  /\ (forall n, n ∈ nodes -> m_nRunning n <= Z.of_nat k -> (1 <= k)%nat ->
        (triggers < r.2)%nat).
Proof.
  unfold health_checks. revert nodes triggers.
  induction rounds as [|results rounds IH]; intros nodes triggers Hrounds.
  - cbn. split; [by rewrite map_id|]. split; [done|]. split; [done|]. lia.
  - apply Forall_cons in Hrounds as [Hfirst Hrounds].
    cbn [fold_left fst snd length].
    destruct (check_all_fail results nodes triggers Hfirst) as (C1 & C2 & C3 & C4).
    destruct (check results nodes triggers) as [nodes1 triggers1]. cbn [fst snd] in *.
    subst nodes1.
    destruct (IH (map ping_fail nodes) triggers1) as (I1 & I2 & I3 & I4).
    { eapply Forall_impl; [exact Hrounds|]. intros r [Hl Hf]. split; [|done].
      by rewrite length_map. }
    cbv zeta in *. split; [|split; [lia|split]].
    + rewrite I1, map_map. done.
    + intros Hall. rewrite I3, C3; [done| |].
      * intros n Hn. specialize (Hall n Hn). lia.
      * intros n Hn. apply list_elem_of_fmap in Hn as (n0 & -> & Hn0).
        destruct (ping_fail_countdown n0) as [-> _].
        specialize (Hall n0 Hn0). destruct (Z.ltb_spec 0 (m_nRunning n0)); lia.
    + intros n Hn Hle _.
      destruct (Z.le_gt_cases (m_nRunning n) 1) as [Hdown|Hup].
      * specialize (C4 n Hn Hdown). lia.
      * enough (triggers1 < (fold_left
                  (fun st results0 => check results0 st.1 st.2) rounds
                  (map ping_fail nodes, triggers1)).2)%nat by lia.
        apply (I4 (ping_fail n)).
        -- by apply list_elem_of_fmap_2.
        -- destruct (ping_fail_countdown n) as [-> _].
           destruct (Z.ltb_spec 0 (m_nRunning n)); lia.
        -- destruct rounds; cbn [length] in *; lia.
Qed.

End Facts.

(** A node with threshold 2: two failures and a success. *)
Lemma X25_node_persisted_while_running_witness :
  let n :=
    set_running_each 8 1
      [(false, APPROACH_DEFAULT); (false, APPROACH_DEFAULT); (true, APPROACH_DEFAULT)]
      (create 8 1 7 2 0 []) in
  persister_log n = [persist 7; unpersist 7; persist 7] /\ is_running n = true.
Proof.
  destruct (X25_node_persisted_while_running 8 1 7 2 0 []
              [(false, APPROACH_DEFAULT); (false, APPROACH_DEFAULT); (true, APPROACH_DEFAULT)])
    as (_ & (k & Hlog & Hrun & _) & _); [lia|].
  split; reflexivity.
Defined.

(** Two nodes with threshold 2: the first failing check triggers nothing,
    the second triggers a cluster check for each. *)
Lemma X29_cluster_check_after_threshold_witness :
  let nodes := [create 8 1 1 2 0 []; create 8 1 2 2 0 []] in
  (health_checks 8 1 [[500; 500]] nodes 0).2 = 0%nat
  /\ (0 < (health_checks 8 1 [[500; 500]; [500; 500]]%Z nodes 0).2)%nat.
Proof.
  intros nodes.
  destruct (X29_cluster_check_after_threshold 8 1 [[500; 500]; [500; 500]] nodes 0)
    as (_ & _ & _ & H).
  - repeat constructor; done.
  - split; [reflexivity|]. apply (H (create 8 1 1 2 0 [])); [by left|cbn; lia|cbn; lia].
Defined.

End ClustrixMonitorExtras.
